(** * Tabular Playground Series notebooks: cross-validation harnesses and
      feature engineering

    The repository is a collection of Jupyter notebooks.  This file embeds
    the functions the notebooks define (the scoring harnesses built around
    a stratified k-fold split, and the feature-engineering functions that
    add derived columns to a DataFrame) and states their properties.

    Conventions of the embedding:
    - a Python exception is the [None] of the option monad;
    - numpy arrays are lists, a fancy-index assignment [a[idx] = v] is
      written out element by element;
    - a float64 value is the rational it denotes ([Q]); the sums and
      quotients the code computes on such values are rounded, so they are
      the operations of the class [FloatArith], of which nothing is assumed;
      casts between float widths are computed (module [ForestCover]);
    - printing, timing, [gc.collect] and [time.sleep] have no counterpart;
    - what a whole notebook does when run (module [Notebook]) and the
      control structure of the feature functions (module [Skeleton]) are
      kept as data, transcribed cell by cell and statement by statement. *)

From Stdlib Require Import ZArith QArith Qminmax Qabs Qround List Bool Lia String Ascii.
From Stdlib Require Import Sorting.Permutation Sorting.Sorted.
From Corelib Require Import SpecFloat.
From stdpp Require Import base option list gmap strings sets.

Local Open Scope nat_scope.

(** ** Rounded arithmetic

    [x + y] and [x / y] on float values, and [np.sum] of a
    one-dimensional float array.  The results are rounded (to binary64,
    or to binary32 where a library hands out float32 probabilities), so
    the operations are not those of [Q]: sums are not associative, a
    quotient times its divisor need not give the dividend back, and the
    sum of an array depends on the order in which numpy adds its
    entries.  The statements below hold whatever the operations are. *)

Class FloatArith := {
  float_add : Q -> Q -> Q;
  float_div : Q -> Q -> Q;
  float_sum : list Q -> Q
}.

(** Arithmetic without rounding, for the examples. *)
Definition exact_arithmetic : FloatArith :=
  {| float_add := Qplus;
     float_div := Qdiv;
     float_sum := fun a => fold_left Qplus a 0%Q |}.

(** ** numpy-style array helpers *)

Module Np.

(** [np.zeros(n)] *)
Definition zeros (n : nat) : list Q := replicate n 0%Q.

(** [df.iloc[idx]]: positional selection; an index past the end raises
    IndexError. *)
Definition iloc {A} (df : list A) (idx : list nat) : option (list A) :=
  mapM (fun i => df !! i) idx.

(** [arr[idx] = vals] for an index array [idx]: the entries are stored one
    by one, in order; an index past the end raises IndexError and a
    length mismatch raises ValueError. *)
Fixpoint put {A} (arr : list A) (idx : list nat) (vals : list A)
  : option (list A) :=
  match idx, vals with
  | [], [] => Some arr
  | i :: idx', v :: vals' =>
      if decide (i < length arr) then put (<[i:=v]> arr) idx' vals' else None
  | _, _ => None
  end.

(** [np.flatnonzero(mask)]: the positions at which the mask is set. *)
Definition flatnonzero (mask : list bool) : list nat :=
  filter (fun i => mask !! i = Some true) (seq 0 (length mask)).

(** [a + b] on vectors of the same shape (ValueError otherwise). *)
Definition vadd `{arith : !FloatArith} (a b : list Q) : option (list Q) :=
  if decide (length a = length b) then Some (zip_with float_add a b)
  else None.

(** [a / k] for a scalar [k]. *)
Definition vdiv `{arith : !FloatArith} (a : list Q) (k : nat) : list Q :=
  map (fun x => float_div x (inject_Z (Z.of_nat k))) a.

(** The same on two-dimensional arrays (lists of rows). *)
Fixpoint madd `{arith : !FloatArith} (a b : list (list Q))
  : option (list (list Q)) :=
  match a, b with
  | [], [] => Some []
  | r :: a', s :: b' =>
      rs ← vadd r s; t ← madd a' b'; Some (rs :: t)
  | _, _ => None
  end.

Definition mdiv `{arith : !FloatArith} (a : list (list Q)) (k : nat)
  : list (list Q) :=
  map (fun r => vdiv r k) a.

(** [np.argmax(row)]: position of the first maximal entry. *)
Fixpoint argmax_from (best : Q) (besti i : nat) (row : list Q) : nat :=
  match row with
  | [] => besti
  | x :: row' =>
      if Qlt_le_dec best x then argmax_from x i (S i) row'
      else argmax_from best besti (S i) row'
  end.

Definition argmax (row : list Q) : nat :=
  match row with
  | [] => 0
  | x :: row' => argmax_from x 0 1 row'
  end.

(** [arr.sum()] and [arr.mean()] *)
Definition sum `{arith : !FloatArith} (a : list Q) : Q := float_sum a.
Definition mean `{arith : !FloatArith} (a : list Q) : Q :=
  float_div (sum a) (inject_Z (Z.of_nat (length a))).

(** [enumerate(xs)] *)
Definition enumerate {A} (xs : list A) : list (nat * A) :=
  zip (seq 0 (length xs)) xs.

End Np.

(** ** The k-fold splitter

    The notebooks obtain their folds from the library call
    [StratifiedKFold(n_splits, shuffle = True, random_state).split(X, y)].
    The library labels every row with a fold number (its [test_folds]
    array, which depends on the class labels and on the seeded shuffle) and
    then yields, for [i = 0 .. n_splits - 1], the rows labelled otherwise as
    training indices and the rows labelled [i] as validation indices.  The
    label array is taken as given; the masks and index arrays are computed
    as the library does.  The stacking notebook stores the same labels in a
    [kfold] column and selects with [train.kfold == fold]. *)

Module KFold.

Definition test_mask (test_folds : list nat) (i : nat) : list bool :=
  map (Nat.eqb i) test_folds.

Definition split (n_splits : nat) (test_folds : list nat)
  : list (list nat * list nat) :=
  map (fun i =>
         let m := test_mask test_folds i in
         (Np.flatnonzero (map negb m), Np.flatnonzero m))
      (seq 0 n_splits).

(** Validation index arrays, fold by fold. *)
Definition valid_sets (n_splits : nat) (test_folds : list nat)
  : list (list nat) :=
  map snd (split n_splits test_folds).

End KFold.

(** ** Loops that may raise *)

(** [for x in xs: st = body(st, x)], stopping at the first exception. *)
Fixpoint for_each {S A} (body : S -> A -> option S) (xs : list A) (st : S)
  : option S :=
  match xs with
  | [] => Some st
  | x :: xs' => st' ← body st x; for_each body xs' st'
  end.

(** [arr[i] = v] for a scalar index. *)
Definition set_item {A} (arr : list A) (i : nat) (v : A) : option (list A) :=
  if decide (i < length arr) then Some (<[i:=v]> arr) else None.

(** [proba[:, 1]]: the second column of a probability matrix given by its
    rows (IndexError when a row is too short). *)
Definition column1 (proba : list (list Q)) : option (list Q) :=
  mapM (fun row => row !! 1) proba.

(** The out-of-fold array together with a record of every element store
    made into it, as pairs (fold, row).  The record is bookkeeping of the
    model; the code has no such variable. *)
Record oof_array := OofArray {
  oof_values : list Q;
  oof_writes : list (nat * nat)
}.

Definition oof_zeros (n : nat) : oof_array := OofArray (Np.zeros n) [].

(** [oof_preds[valid_idx] = valid_preds] during fold [fold]. *)
Definition oof_put (a : oof_array) (fold : nat) (valid_idx : list nat)
    (valid_preds : list Q) : option oof_array :=
  vs ← Np.put (oof_values a) valid_idx valid_preds;
  Some (OofArray vs (oof_writes a ++ map (pair fold) valid_idx)).

(** ** Reference values for the statements about the fold loops

    [valid_idx_of] and [train_idx_of] name the index arrays of one fold;
    [vsum] and [msum] are the value of an accumulator [acc += contrib(f)]
    after the first [k] folds; [oof_after] describes the out-of-fold array
    after the first [k] folds when fold [f] stores the values [vals f]. *)

Definition valid_idx_of (test_folds : list nat) (f : nat) : list nat :=
  Np.flatnonzero (KFold.test_mask test_folds f).

Definition train_idx_of (test_folds : list nat) (f : nat) : list nat :=
  Np.flatnonzero (map negb (KFold.test_mask test_folds f)).

Fixpoint vsum `{arith : !FloatArith} (contrib : nat -> list Q) (k : nat)
    (init : list Q) : list Q :=
  match k with
  | 0 => init
  | S k' => zip_with float_add (vsum contrib k' init) (contrib k')
  end.

Fixpoint msum `{arith : !FloatArith} (contrib : nat -> list (list Q)) (k : nat)
    (init : list (list Q)) : list (list Q) :=
  match k with
  | 0 => init
  | S k' =>
      zip_with (zip_with float_add) (msum contrib k' init) (contrib k')
  end.

Definition oof_after (test_folds : list nat) (vals : nat -> list Q)
    (k : nat) (a : oof_array) : Prop :=
  length (oof_values a) = length test_folds ∧
  oof_writes a =
    flat_map (fun f => map (pair f) (valid_idx_of test_folds f)) (seq 0 k) ∧
  ∀ i f, test_folds !! i = Some f → f < k →
    ∃ j, valid_idx_of test_folds f !! j = Some i ∧
         oof_values a !! i = vals f !! j.

(** The rows of a frame at given positions, empty when a position is out
    of range. *)
Definition rows {A} (df : list A) (idx : list nat) : list A :=
  default [] (Np.iloc df idx).

(** ** DataFrames and the object store

    A DataFrame is its row count (the index) and its columns in order; a
    column assignment replaces a column in place or appends a new one.
    Frames live in a store and are passed by reference, so that
    [data.copy()] and in-place updates can be told apart.  A computation
    either returns, raises a Python exception, or leaves the part of
    pandas that is modelled. *)

Inductive exn :=
  | KeyError (key : string)
  | IndexError.

Inductive outcome (A : Type) : Type :=
  | Ok (a : A)
  | Raise (e : exn)
  | Unmodelled.
Arguments Ok {A} a.
Arguments Raise {A} e.
Arguments Unmodelled {A}.

Module Frame.
Section Frame.
Context {S : Type}.

Record t := Make {
  nrows : nat;
  cols : list (string * S)
}.

(** [df.columns] *)
Definition columns (df : t) : list string := map fst (cols df).

Fixpoint assoc (c : string) (l : list (string * S)) : option S :=
  match l with
  | [] => None
  | (k, s) :: l' => if String.eqb c k then Some s else assoc c l'
  end.

(** [df[c]] *)
Definition get (df : t) (c : string) : option S := assoc c (cols df).

Fixpoint assoc_set (c : string) (s : S) (l : list (string * S))
  : list (string * S) :=
  match l with
  | [] => [(c, s)]
  | (k, s') :: l' =>
      if String.eqb c k then (k, s) :: l' else (k, s') :: assoc_set c s l'
  end.

(** [df[c] = s] *)
Definition set (df : t) (c : string) (s : S) : t :=
  Make (nrows df) (assoc_set c s (cols df)).

(** [df[names]]: the listed columns, in the listed order. *)
Fixpoint select (df : t) (names : list string)
  : outcome (list S) :=
  match names with
  | [] => Ok []
  | c :: names' =>
      match get df c with
      | None => Raise (KeyError c)
      | Some s =>
          match select df names' with
          | Ok l => Ok (s :: l)
          | Raise e => Raise e
          | Unmodelled => Unmodelled
          end
      end
  end.
End Frame.
Arguments t : clear implicits.
End Frame.

Module Store.
Section Store.
Context {S : Type}.

Local Abbreviation heap := (list (Frame.t S)).
Local Abbreviation ref := nat.

(** Computations over the store. *)
Definition M (A : Type) : Type := heap -> outcome (A * heap).

Definition ret {A} (a : A) : M A := fun h => Ok (a, h).

Definition bind {A B} (m : M A) (k : A -> M B) : M B :=
  fun h =>
    match m h with
    | Ok (a, h') => k a h'
    | Raise e => Raise e
    | Unmodelled => Unmodelled
    end.

Definition lift {A} (o : outcome A) : M A :=
  fun h =>
    match o with
    | Ok a => Ok (a, h)
    | Raise e => Raise e
    | Unmodelled => Unmodelled
    end.

(** Reading the frame behind a reference; references are only made by
    [copy], a dangling one is outside the model. *)
Definition read (r : ref) : M (Frame.t S) :=
  fun h => match h !! r with
           | Some df => Ok (df, h)
           | None => Unmodelled
           end.

(** [data.copy()]: a new object with the same columns. *)
Definition copy (r : ref) : M ref :=
  fun h => match h !! r with
           | Some df => Ok (length h, h ++ [df])
           | None => Unmodelled
           end.

(** [df[c]] *)
Definition getitem (r : ref) (c : string) : M S :=
  bind (read r) (fun df =>
    lift (match Frame.get df c with
          | Some s => Ok s
          | None => Raise (KeyError c)
          end)).

(** [df[c] = s]: updates the object in place. *)
Definition setitem (r : ref) (c : string) (s : S) : M unit :=
  fun h => match h !! r with
           | Some df => Ok (tt, <[r := Frame.set df c s]> h)
           | None => Unmodelled
           end.

(** [df[names]] *)
Definition getitems (r : ref) (names : list string) : M (list S) :=
  bind (read r) (fun df => lift (Frame.select df names)).

(** [df.columns] *)
Definition columns (r : ref) : M (list string) :=
  bind (read r) (fun df => ret (Frame.columns df)).

(** [len(df)] *)
Definition nrows (r : ref) : M nat :=
  bind (read r) (fun df => ret (Frame.nrows df)).
End Store.
Abbreviation heap S := (list (Frame.t S)).
Abbreviation ref := nat.
Arguments M : clear implicits.
End Store.

Notation "'let!' x ':=' m 'in' k" := (Store.bind m (fun x => k))
  (at level 10, x name, m at level 100, k at level 200).
Notation "'run!' m 'in' k" := (Store.bind m (fun _ => k))
  (at level 10, m at level 100, k at level 200).

(** ** Columns of integers and floats

    The forest-cover notebooks hand their raw feature frame, whose columns
    are integers, to the feature functions; these create float64 and
    float32 columns.  Integer columns are int64 (wrap-around written out),
    float columns hold IEEE-754 values ([spec_float], binary64 or binary32
    arithmetic with rounding to nearest even).  Operations on dtype
    combinations that do not occur on that path are [Unmodelled]. *)

Module Pd.

Definition float := spec_float.

Inductive Series :=
  | Int64 (v : list Z)
  | Float64 (v : list float)
  | Float32 (v : list float).

Definition wrap64 (z : Z) : Z :=
  ((z + 2 ^ 63) mod 2 ^ 64 - 2 ^ 63)%Z.

(** binary64 arithmetic *)
Definition of_Z (z : Z) : float := binary_normalize 53 1024 z 0 false.
Definition fadd : float -> float -> float := SFadd 53 1024.
Definition fsub : float -> float -> float := SFsub 53 1024.
Definition fmul : float -> float -> float := SFmul 53 1024.
Definition fdiv : float -> float -> float := SFdiv 53 1024.
Definition fsqrt : float -> float := SFsqrt 53 1024.
Definition fabs : float -> float := SFabs.

(** Rounding a value to binary32, and reading a binary32 value as
    binary64 (exact). *)
Definition round_to (prec emax : Z) (x : float) : float :=
  match x with
  | S754_finite s m e => binary_normalize prec emax (cond_Zopp s (Zpos m)) e s
  | _ => x
  end.
Definition to_f32 : float -> float := round_to 24 128.
Definition to_f64 : float -> float := round_to 53 1024.
Definition Z_to_f32 (z : Z) : float := binary_normalize 24 128 z 0 false.

(** The literals [1e-10], [0.2] and [np.pi] as binary64 values. *)
Definition eps : float := S754_finite false 7737125245533627 (-86).
Definition c0_2 : float := S754_finite false 7205759403792794 (-55).
Definition pi : float := S754_finite false 7074237752028440 (-51).

(** [np.sign] *)
Definition fsign (x : float) : float :=
  match x with
  | S754_nan => S754_nan
  | S754_zero _ => S754_zero false
  | S754_infinity s | S754_finite s _ _ =>
      if s then SFopp (of_Z 1) else of_Z 1
  end.

(** [Series.min()], which skips NaN and is NaN for no values. *)
Definition fmin2 (a b : float) : float :=
  match a, b with
  | S754_nan, _ => b
  | _, S754_nan => a
  | _, _ => if SFltb b a then b else a
  end.
Definition fmin (l : list float) : float := fold_left fmin2 l S754_nan.

Definition zmin (l : list Z) : option Z :=
  match l with
  | [] => None
  | z :: l' => Some (fold_left Z.min l' z)
  end.
Definition zmax (l : list Z) : option Z :=
  match l with
  | [] => None
  | z :: l' => Some (fold_left Z.max l' z)
  end.

(** *** Casts *)

Definition astype_float64 (s : Series) : Series :=
  match s with
  | Int64 v => Float64 (map of_Z v)
  | Float64 v => Float64 v
  | Float32 v => Float64 (map to_f64 v)
  end.

Definition astype_float32 (s : Series) : Series :=
  match s with
  | Int64 v => Float32 (map Z_to_f32 v)
  | Float64 v => Float32 (map to_f32 v)
  | Float32 v => Float32 v
  end.

(** *** Element-wise arithmetic of two columns of one frame *)

Definition binop (zop : Z -> Z -> Z) (fop : float -> float -> float)
    (a b : Series) : outcome Series :=
  match a, b with
  | Int64 x, Int64 y => Ok (Int64 (zip_with (fun p q => wrap64 (zop p q)) x y))
  | Float64 x, Float64 y => Ok (Float64 (zip_with fop x y))
  | Int64 x, Float64 y => Ok (Float64 (zip_with fop (map of_Z x) y))
  | Float64 x, Int64 y => Ok (Float64 (zip_with fop x (map of_Z y)))
  | _, _ => Unmodelled
  end.

Definition add := binop Z.add fadd.
Definition sub := binop Z.sub fsub.
Definition mul := binop Z.mul fmul.

(** *** A column and a Python scalar *)

(** [s + k], [s - k], [s % k], [s > k] for an integer [k] *)
Definition add_int (s : Series) (k : Z) : outcome Series :=
  match s with
  | Int64 v => Ok (Int64 (map (fun z => wrap64 (z + k)) v))
  | Float64 v => Ok (Float64 (map (fun x => fadd x (of_Z k)) v))
  | Float32 _ => Unmodelled
  end.

Definition sub_int (s : Series) (k : Z) : outcome Series :=
  match s with
  | Int64 v => Ok (Int64 (map (fun z => wrap64 (z - k)) v))
  | Float64 v => Ok (Float64 (map (fun x => fsub x (of_Z k)) v))
  | Float32 _ => Unmodelled
  end.

Definition mod_int (s : Series) (k : Z) : outcome Series :=
  match s with
  | Int64 v => Ok (Int64 (map (fun z => (z mod k)%Z) v))
  | _ => Unmodelled
  end.

Definition gt_int (s : Series) (k : Z) : outcome (list bool) :=
  match s with
  | Int64 v => Ok (map (fun z => (k <? z)%Z) v)
  | _ => Unmodelled
  end.

(** [s * c], [s + c] for a float [c], and [s / k] (true division) *)
Definition mul_float (s : Series) (c : float) : outcome Series :=
  match s with
  | Int64 v => Ok (Float64 (map (fun z => fmul (of_Z z) c) v))
  | Float64 v => Ok (Float64 (map (fun x => fmul x c) v))
  | Float32 _ => Unmodelled
  end.

Definition add_float (s : Series) (c : float) : outcome Series :=
  match s with
  | Int64 v => Ok (Float64 (map (fun z => fadd (of_Z z) c) v))
  | Float64 v => Ok (Float64 (map (fun x => fadd x c) v))
  | Float32 _ => Unmodelled
  end.

Definition div_int (s : Series) (k : Z) : outcome Series :=
  match s with
  | Int64 v => Ok (Float64 (map (fun z => fdiv (of_Z z) (of_Z k)) v))
  | Float64 v => Ok (Float64 (map (fun x => fdiv x (of_Z k)) v))
  | Float32 _ => Unmodelled
  end.

(** [s - s.min()] *)
Definition sub_min (s : Series) : outcome Series :=
  match s with
  | Int64 v =>
      match zmin v with
      | Some m => Ok (Int64 (map (fun z => wrap64 (z - m)) v))
      | None => Ok (Float64 [])
      end
  | Float64 v => Ok (Float64 (map (fun x => fsub x (fmin v)) v))
  | Float32 _ => Unmodelled
  end.

(** *** Element-wise functions *)

(** [s.where(cond, other)] *)
Definition where_ (s : Series) (cond : list bool) (other : Series)
  : outcome Series :=
  match s, other with
  | Int64 x, Int64 y =>
      Ok (Int64 (zip_with (fun (c : bool) (p : Z * Z) =>
                             if c then p.1 else p.2) cond (zip x y)))
  | _, _ => Unmodelled
  end.

(** [s.clip(lower, upper)] *)
Definition clip (s : Series) (lower upper : Z) : outcome Series :=
  match s with
  | Int64 v => Ok (Int64 (map (fun z => Z.min (Z.max z lower) upper) v))
  | _ => Unmodelled
  end.

(** [abs(s)], [np.abs(s)] *)
Definition abs (s : Series) : outcome Series :=
  match s with
  | Int64 v => Ok (Int64 (map (fun z => wrap64 (Z.abs z)) v))
  | Float64 v => Ok (Float64 (map fabs v))
  | Float32 _ => Unmodelled
  end.

(** [s ** 2]: numpy squares. *)
Definition square (s : Series) : outcome Series :=
  match s with
  | Int64 v => Ok (Int64 (map (fun z => wrap64 (z * z)) v))
  | Float64 v => Ok (Float64 (map (fun x => fmul x x) v))
  | Float32 _ => Unmodelled
  end.

(** [s.apply(np.sqrt)] and [s ** 0.5], for which numpy takes the square
    root. *)
Definition sqrt (s : Series) : outcome Series :=
  match s with
  | Int64 v => Ok (Float64 (map (fun z => fsqrt (of_Z z)) v))
  | Float64 v => Ok (Float64 (map fsqrt v))
  | Float32 _ => Unmodelled
  end.

(** [s.apply(np.sign)] *)
Definition sign (s : Series) : outcome Series :=
  match s with
  | Int64 v => Ok (Int64 (map Z.sgn v))
  | Float64 v => Ok (Float64 (map fsign v))
  | Float32 _ => Unmodelled
  end.

(** [s.apply(f)] for a float function [f] of the library *)
Definition apply_float (f : float -> float) (s : Series) : outcome Series :=
  match s with
  | Float64 v => Ok (Float64 (map f v))
  | _ => Unmodelled
  end.

(** *** Row-wise reductions of selected integer columns *)

Fixpoint int_columns (l : list Series) : outcome (list (list Z)) :=
  match l with
  | [] => Ok []
  | Int64 v :: l' =>
      match int_columns l' with
      | Ok vs => Ok (v :: vs)
      | Raise e => Raise e
      | Unmodelled => Unmodelled
      end
  | _ :: _ => Unmodelled
  end.

(** Row [r] of a list of columns. *)
Definition row (cols : list (list Z)) (r : nat) : list Z :=
  omap (fun c => c !! r) cols.

(** [df[cols].sum(axis=1)] and [df[cols].apply(sum, axis=1)] *)
Definition sum_axis1 (n : nat) (l : list Series) : outcome Series :=
  match int_columns l with
  | Ok cols =>
      Ok (Int64 (map (fun r => fold_left (fun a z => wrap64 (a + z))
                                         (row cols r) 0%Z)
                     (seq 0 n)))
  | Raise e => Raise e
  | Unmodelled => Unmodelled
  end.

(** [df[cols].max(axis=1) - df[cols].min(axis=1)] needs a column. *)
Definition max_axis1 (n : nat) (l : list Series) : outcome Series :=
  match int_columns l with
  | Ok (c :: cols) =>
      Ok (Int64 (map (fun r => default 0%Z (zmax (row (c :: cols) r)))
                     (seq 0 n)))
  | Ok [] => Unmodelled
  | Raise e => Raise e
  | Unmodelled => Unmodelled
  end.

Definition min_axis1 (n : nat) (l : list Series) : outcome Series :=
  match int_columns l with
  | Ok (c :: cols) =>
      Ok (Int64 (map (fun r => default 0%Z (zmin (row (c :: cols) r)))
                     (seq 0 n)))
  | Ok [] => Unmodelled
  | Raise e => Raise e
  | Unmodelled => Unmodelled
  end.

End Pd.

(** ** What a function that works on a copy may do

    [local_to r W m Q]: run in a store whose last object is the frame
    behind [r], the computation [m] leaves all other objects alone, keeps
    the row count, changes at most the columns named in [W], and returns a
    value satisfying [Q].  [builds_copy W f]: whenever [f data] returns, it
    returns a reference to a new object, the objects that existed before
    the call (the argument among them) are what they were, and the new
    frame agrees with the argument on every column not named in [W]. *)

Definition local_to {S A} (r : Store.ref) (W : list string)
    (m : Store.M S A) (Q : A -> Prop) : Prop :=
  ∀ h df a h2,
    length h = r → m (h ++ [df]) = Ok (a, h2) →
    Q a ∧ ∃ df2, h2 = h ++ [df2]
                 ∧ Frame.nrows df2 = Frame.nrows df
                 ∧ ∀ c, c ∉ W → Frame.get df2 c = Frame.get df c.

Definition builds_copy {S} (W : list string)
    (f : Store.ref -> Store.M S Store.ref) : Prop :=
  ∀ data h r h',
    f data h = Ok (r, h') →
    ∃ df0 df', h !! data = Some df0
               ∧ r = length h
               ∧ h' = h ++ [df']
               ∧ Frame.nrows df' = Frame.nrows df0
               ∧ ∀ c, c ∉ W → Frame.get df' c = Frame.get df0 c.

(** ** Notebook "Handling Mislabeled Data" (TPS 11/21) *)

Module NoisyLabels.

Definition NUM_FOLDS : nat := 6.

Section Harness.
Context {X Y Estimator Model : Type} `{arith : !FloatArith}.
(** Globals of the notebook: [train[features]], [train['target']],
    [test[features]], and the fold labels the splitter computes for
    [skf.split(train, train['target'])]. *)
Variable train_X : list X.
Variable train_y : list Y.
Variable test_X : list X.
Variable test_folds : list nat.
(** scikit-learn and cleanlab. *)
Variable clone : Estimator -> Estimator.
Variable LearningWithNoisyLabels : Estimator -> Estimator.
Variable fit : Estimator -> list X -> list Y -> Model.
Variable predict_proba : Model -> X -> list Q.
Variable roc_auc_score : list Y -> list Q -> Q.

Record state := State {
  oof_preds : oof_array;
  test_preds : list Q;
  scores : list Q
}.

Definition init : state :=
  State (oof_zeros (length train_X)) (Np.zeros (length test_X))
        (Np.zeros NUM_FOLDS).

(** The body shared by both harnesses, given how the model is made. *)
Definition fold_body (make : Estimator -> Estimator)
    (sklearn_model : Estimator)
    (st : state) (it : nat * (list nat * list nat)) : option state :=
  let '(fold, (train_idx, valid_idx)) := it in
  X_train ← Np.iloc train_X train_idx;
  y_train ← Np.iloc train_y train_idx;
  X_valid ← Np.iloc train_X valid_idx;
  y_valid ← Np.iloc train_y valid_idx;
  let X_test := test_X in
  let model := fit (make sklearn_model) X_train y_train in
  valid_preds ← column1 (map (predict_proba model) X_valid);
  test_col ← column1 (map (predict_proba model) X_test);
  test_preds' ← Np.vadd (test_preds st) (Np.vdiv test_col NUM_FOLDS);
  oof_preds' ← oof_put (oof_preds st) fold valid_idx valid_preds;
  let fold_auc := roc_auc_score y_valid valid_preds in
  scores' ← set_item (scores st) fold fold_auc;
  Some (State oof_preds' test_preds' scores').

Definition folds : list (nat * (list nat * list nat)) :=
  Np.enumerate (KFold.split NUM_FOLDS test_folds).

(** Reference values: the model fitted in fold [f], and its
    predictions for the validation rows and for the test rows. *)
Definition fold_model (make : Estimator -> Estimator)
    (sklearn_model : Estimator) (f : nat) : Model :=
  fit (make sklearn_model)
      (rows train_X (train_idx_of test_folds f))
      (rows train_y (train_idx_of test_folds f)).

Definition fold_valid_preds (make : Estimator -> Estimator)
    (sklearn_model : Estimator) (f : nat) : list Q :=
  default [] (column1 (map (predict_proba (fold_model make sklearn_model f))
                           (rows train_X (valid_idx_of test_folds f)))).

Definition fold_test_col (make : Estimator -> Estimator)
    (sklearn_model : Estimator) (f : nat) : list Q :=
  default [] (column1 (map (predict_proba (fold_model make sklearn_model f))
                           test_X)).

(** The prediction for training row [i], and for test row [t], of the
    model fitted on the rows [tr]. *)
Definition oof_value (make : Estimator -> Estimator)
    (sklearn_model : Estimator) (tr : list nat) (i : nat) : option Q :=
  X_train ← Np.iloc train_X tr;
  y_train ← Np.iloc train_y tr;
  x ← train_X !! i;
  predict_proba (fit (make sklearn_model) X_train y_train) x !! 1.

Definition test_value (make : Estimator -> Estimator)
    (sklearn_model : Estimator) (fold : list nat * list nat) (t : nat)
  : option Q :=
  X_train ← Np.iloc train_X fold.1;
  y_train ← Np.iloc train_y fold.1;
  x ← test_X !! t;
  predict_proba (fit (make sklearn_model) X_train y_train) x !! 1.

(** What holds of the state when [k] folds are done. *)
Definition loop_invariant (make : Estimator -> Estimator)
    (sklearn_model : Estimator) (k : nat) (st : state) : Prop :=
  oof_after test_folds (fold_valid_preds make sklearn_model) k
            (oof_preds st)
  ∧ test_preds st
    = vsum (fun f => Np.vdiv (fold_test_col make sklearn_model f)
                             NUM_FOLDS)
           k (Np.zeros (length test_X))
  ∧ length (scores st) = NUM_FOLDS.

(** [train_model]: [model = clone(sklearn_model)]; returns
    [scores, test_preds, oof_preds]. *)
Definition train_model_loop (sklearn_model : Estimator) : option state :=
  for_each (fold_body clone sklearn_model) folds init.

Definition train_model (sklearn_model : Estimator)
  : option (list Q * list Q * list Q) :=
  st ← train_model_loop sklearn_model;
  Some (scores st, test_preds st, oof_values (oof_preds st)).

(** [train_noisy_model]:
    [model = LearningWithNoisyLabels(clf = clone(sklearn_model))]. *)
Definition train_noisy_model_loop (sklearn_model : Estimator)
  : option state :=
  for_each (fold_body (fun e => LearningWithNoisyLabels (clone e))
                      sklearn_model) folds init.

Definition train_noisy_model (sklearn_model : Estimator)
  : option (list Q * list Q * list Q) :=
  st ← train_noisy_model_loop sklearn_model;
  Some (scores st, test_preds st, oof_values (oof_preds st)).

End Harness.

End NoisyLabels.

(** ** Notebook "Tweaking Class Probabilities" (TPS 02/22): the harness *)

Module ClassProbabilities.

Definition NUM_FOLDS : nat := 10.

Section Harness.
Context {X Y W Estimator Model : Type} `{EqDecision Y}.
Context `{arith : !FloatArith}.
(** Globals: [train[features + ['gcd']]], [train['target']],
    [train['sample_weight']], [test[features + ['gcd']]], and the fold
    labels the splitter computes for [SKF.split(train, target_bins)]. *)
Variable train_X : list X.
Variable train_y : list Y.
Variable sample_weight : list W.
Variable test_X : list X.
Variable test_folds : list nat.
Variable clone : Estimator -> Estimator.
(** [model.fit(X, y, sample_weight = w)] *)
Variable fit : Estimator -> list X -> list Y -> list W -> Model.
Variable predict_proba : Model -> X -> list Q.

Record state := State {
  oof_preds : oof_array;
  test_proba : list (list Q);
  test_preds : list (list nat)
}.

(** [len(train['target'].unique())] *)
Definition n_classes : nat := length (remove_dups train_y).

Definition init : state :=
  State (oof_zeros (length train_X))
        (replicate (length test_X) (Np.zeros n_classes))
        [].

Definition nat_to_Q (n : nat) : Q := inject_Z (Z.of_nat n).

Definition fold_body (sklearn_model : Estimator)
    (st : state) (it : nat * (list nat * list nat)) : option state :=
  let '(fold, (train_idx, valid_idx)) := it in
  X_train ← Np.iloc train_X train_idx;
  y_train ← Np.iloc train_y train_idx;
  X_valid ← Np.iloc train_X valid_idx;
  y_valid ← Np.iloc train_y valid_idx;
  train_weights ← Np.iloc sample_weight train_idx;
  valid_weights ← Np.iloc sample_weight valid_idx;
  let X_test := test_X in
  let model := fit (clone sklearn_model) X_train y_train train_weights in
  let valid_preds :=
    map (fun x => nat_to_Q (Np.argmax (predict_proba model x))) X_valid in
  let test_prob := map (predict_proba model) X_test in
  test_proba' ← Np.madd (test_proba st) (Np.mdiv test_prob NUM_FOLDS);
  let test_preds' := test_preds st ++ [map Np.argmax test_prob] in
  oof_preds' ← oof_put (oof_preds st) fold valid_idx valid_preds;
  Some (State oof_preds' test_proba' test_preds').

Definition folds : list (nat * (list nat * list nat)) :=
  Np.enumerate (KFold.split NUM_FOLDS test_folds).

Definition score_model_loop (sklearn_model : Estimator) : option state :=
  for_each (fold_body sklearn_model) folds init.

(** Reference values: the model fitted in fold [f], its validation
    predictions and its test probabilities. *)
Definition fold_model (sklearn_model : Estimator) (f : nat) : Model :=
  fit (clone sklearn_model)
      (rows train_X (train_idx_of test_folds f))
      (rows train_y (train_idx_of test_folds f))
      (rows sample_weight (train_idx_of test_folds f)).

Definition fold_valid_preds (sklearn_model : Estimator) (f : nat)
  : list Q :=
  map (fun x => nat_to_Q
                  (Np.argmax (predict_proba (fold_model sklearn_model f) x)))
      (rows train_X (valid_idx_of test_folds f)).

Definition fold_test_prob (sklearn_model : Estimator) (f : nat)
  : list (list Q) :=
  map (predict_proba (fold_model sklearn_model f)) test_X.

(** The predicted class for training row [i], and the probability of
    class [c] for test row [t], of the model fitted on the rows [tr]. *)
Definition oof_value (sklearn_model : Estimator) (tr : list nat)
    (i : nat) : option Q :=
  X_train ← Np.iloc train_X tr;
  y_train ← Np.iloc train_y tr;
  train_weights ← Np.iloc sample_weight tr;
  x ← train_X !! i;
  Some (nat_to_Q (Np.argmax
          (predict_proba
             (fit (clone sklearn_model) X_train y_train train_weights)
             x))).

Definition test_value (sklearn_model : Estimator) (c : nat)
    (fold : list nat * list nat) (t : nat) : option Q :=
  X_train ← Np.iloc train_X fold.1;
  y_train ← Np.iloc train_y fold.1;
  train_weights ← Np.iloc sample_weight fold.1;
  x ← test_X !! t;
  predict_proba (fit (clone sklearn_model) X_train y_train train_weights)
                x !! c.

(** What holds of the state when [k] folds are done. *)
Definition loop_invariant (sklearn_model : Estimator) (k : nat)
    (st : state) : Prop :=
  oof_after test_folds (fold_valid_preds sklearn_model) k (oof_preds st)
  ∧ test_proba st
    = msum (fun f => Np.mdiv (fold_test_prob sklearn_model f) NUM_FOLDS)
           k (replicate (length test_X) (Np.zeros n_classes))
  ∧ test_preds st
    = map (fun f => map Np.argmax (fold_test_prob sklearn_model f))
          (seq 0 k).

(** Returns [oof_preds, test_proba]. *)
Definition score_model (sklearn_model : Estimator)
  : option (list Q * list (list Q)) :=
  st ← score_model_loop sklearn_model;
  Some (oof_values (oof_preds st), test_proba st).

End Harness.

(** *** Helper of the notebook: the row-wise greatest common divisor

    [gcd_of_all(df_i)] starts from the first feature column and folds
    [np.gcd] over the remaining ones.  [features] is a global of the
    notebook; the columns hold the integer histogram counts. *)
Section GcdOfAll.
Variable features : list string.

(** [np.gcd] of two integer columns of one frame: element by element. *)
Definition np_gcd (a b : list Z) : list Z := zip_with Z.gcd a b.

(** [for col in cols: gcd = np.gcd(gcd, df_i[col])] *)
Fixpoint gcd_loop (df_i : Frame.t (list Z)) (cols : list string)
    (gcd : list Z) : outcome (list Z) :=
  match cols with
  | [] => Ok gcd
  | col :: cols' =>
      match Frame.get df_i col with
      | None => Raise (KeyError col)
      | Some s => gcd_loop df_i cols' (np_gcd gcd s)
      end
  end.

Definition gcd_of_all (df_i : Frame.t (list Z)) : outcome (list Z) :=
  match features with
  | [] => Raise IndexError                        (* features[0] *)
  | first :: rest =>                              (* features[1:] *)
      match Frame.get df_i first with
      | None => Raise (KeyError first)
      | Some gcd => gcd_loop df_i rest gcd
      end
  end.
End GcdOfAll.

(** The entry of column [c] in row [r], and row [r] across the listed
    columns. *)
Definition entry (df : Frame.t (list Z)) (r : nat) (c : string)
  : option Z :=
  s ← Frame.get df c; s !! r.

Definition gcd_row (cols : list string) (df : Frame.t (list Z)) (r : nat)
  : option (list Z) :=
  mapM (entry df r) cols.

(** A frame of two rows of counts over three features. *)
Definition gcd_example : Frame.t (list Z) :=
  Frame.Make 2 [("A0T0G1C9", [12; 0]%Z); ("A0T0G2C8", [18; 0]%Z);
                ("A0T0G3C7", [30; 5]%Z)].

End ClassProbabilities.

(** ** Notebook "Feature Engineering" (LightGBM): the harness *)

Module LgbmFeatures.

Definition NUM_FOLDS : nat := 3.
Definition NUM_TREES : Z := 10000.
Definition EARLY_STOP : Z := 150.

Section Harness.
Context {X Y Model : Type} `{arith : !FloatArith}.
(** Globals: [train[features]], [train['target']], [holdout[features]],
    [holdout['target']], and the fold labels of
    [skf.split(train, train['target'])]. *)
Variable train_X : list X.
Variable train_y : list Y.
Variable holdout_X : list X.
Variable holdout_y : list Y.
Variable test_folds : list nat.
(** [LGBMClassifier(n_estimators, random_state, learning_rate = 0.03)]
    followed by [fit(X, y, eval_set = [(X_valid, y_valid)],
    eval_metric = 'auc', early_stopping_rounds, verbose = False)]. *)
Variable lgbm_fit :
  Z -> Z -> list X -> list Y -> list X * list Y -> Model.
Variable predict_proba : Model -> X -> list Q.
Variable roc_auc_score : list Y -> list Q -> Q.

(** A preprocessing callable is tried with four arguments and, when
    that raises, with three. *)
Record preprocessor := Preprocessor {
  call4 : list X -> list X -> list X -> list Y
          -> option (list X * list X * list X);
  call3 : list X -> list X -> list X
          -> option (list X * list X * list X)
}.

Definition try_preprocessing (p : preprocessor)
    (X_train X_valid X_test : list X) (y_train : list Y)
  : option (list X * list X * list X) :=
  match call4 p X_train X_valid X_test y_train with
  | Some r => Some r
  | None => call3 p X_train X_valid X_test
  end.

Record state := State {
  holdout_preds : list Q;
  model : option Model
}.

Definition init : state := State (Np.zeros (length holdout_X)) None.

Definition fold_body (preprocessing : option preprocessor)
    (st : state) (it : nat * (list nat * list nat)) : option state :=
  let '(fold, (train_idx, valid_idx)) := it in
  X_train ← Np.iloc train_X train_idx;
  y_train ← Np.iloc train_y train_idx;
  X_valid ← Np.iloc train_X valid_idx;
  y_valid ← Np.iloc train_y valid_idx;
  '(X_train, X_valid, X_test) ←
    match preprocessing with
    | Some p => try_preprocessing p X_train X_valid holdout_X y_train
    | None => Some (X_train, X_valid, holdout_X)
    end;
  let model := lgbm_fit NUM_TREES EARLY_STOP X_train y_train
                        (X_valid, y_valid) in
  test_col ← column1 (map (predict_proba model) X_test);
  holdout_preds' ←
    Np.vadd (holdout_preds st) (Np.vdiv test_col NUM_FOLDS);
  valid_preds ← column1 (map (predict_proba model) X_valid);
  let fold_auc := roc_auc_score y_valid valid_preds in
  Some (State holdout_preds' (Some model)).

Definition folds : list (nat * (list nat * list nat)) :=
  Np.enumerate (KFold.split NUM_FOLDS test_folds).

Definition score_lightgbm_loop (preprocessing : option preprocessor)
  : option state :=
  for_each (fold_body preprocessing) folds init.

(** Reference values: the frames of fold [f] after preprocessing, the
    model fitted on them and its holdout predictions. *)
Definition fold_frames (preprocessing : option preprocessor) (f : nat)
  : list X * list X * list X :=
  let X_train := rows train_X (train_idx_of test_folds f) in
  let y_train := rows train_y (train_idx_of test_folds f) in
  let X_valid := rows train_X (valid_idx_of test_folds f) in
  match preprocessing with
  | Some p =>
      default (X_train, X_valid, holdout_X)
              (try_preprocessing p X_train X_valid holdout_X y_train)
  | None => (X_train, X_valid, holdout_X)
  end.

Definition fold_model (preprocessing : option preprocessor) (f : nat)
  : Model :=
  let '(X_train, X_valid, _) := fold_frames preprocessing f in
  lgbm_fit NUM_TREES EARLY_STOP X_train
           (rows train_y (train_idx_of test_folds f))
           (X_valid, rows train_y (valid_idx_of test_folds f)).

Definition fold_test_col (preprocessing : option preprocessor) (f : nat)
  : list Q :=
  let '(_, _, X_test) := fold_frames preprocessing f in
  default [] (column1 (map (predict_proba (fold_model preprocessing f))
                           X_test)).

(** The holdout prediction for row [t] of the model of one fold. *)
Definition test_value (preprocessing : option preprocessor)
    (fold : list nat * list nat) (t : nat) : option Q :=
  X_train ← Np.iloc train_X fold.1;
  y_train ← Np.iloc train_y fold.1;
  X_valid ← Np.iloc train_X fold.2;
  y_valid ← Np.iloc train_y fold.2;
  '(X_train, X_valid, X_test) ←
    match preprocessing with
    | Some p => try_preprocessing p X_train X_valid holdout_X y_train
    | None => Some (X_train, X_valid, holdout_X)
    end;
  x ← X_test !! t;
  predict_proba (lgbm_fit NUM_TREES EARLY_STOP X_train y_train
                          (X_valid, y_valid)) x !! 1.

(** A preprocessing callable that always returns in one of its two
    call forms and keeps the number of rows of every frame. *)
Definition keeps_rows (preprocessing : option preprocessor) : Prop :=
  match preprocessing with
  | None => True
  | Some p =>
      ∀ a b c y, ∃ a' b' c',
        try_preprocessing p a b c y = Some (a', b', c')
        ∧ length b' = length b ∧ length c' = length c
  end.

(** What holds of the state when [k] folds are done. *)
Definition loop_invariant (preprocessing : option preprocessor)
    (k : nat) (st : state) : Prop :=
  holdout_preds st
  = vsum (fun f => Np.vdiv (fold_test_col preprocessing f) NUM_FOLDS)
         k (Np.zeros (length holdout_X))
  ∧ model st = match k with
               | 0 => None
               | S k' => Some (fold_model preprocessing k')
               end.

(** Returns the holdout AUC and the model of the last fold (the elapsed
    time is left out). *)
Definition score_lightgbm (preprocessing : option preprocessor)
  : option (Q * Model) :=
  st ← score_lightgbm_loop preprocessing;
  m ← model st;
  Some (roc_auc_score holdout_y (holdout_preds st), m).

End Harness.

(** *** Row statistics

    A cell is the rational its value denotes, or missing (NaN); a column
    carries its dtype.  The reductions skip missing values as pandas
    does by default.  The sum of integer columns is an int64 and wraps;
    the minimum and the maximum only compare; the median averages two
    values with the rounded operations of [FloatArith]; the mean, like the
    standard deviation and the skewness, is left to pandas. *)

Inductive dtype :=
  | int8 | int16 | int32 | int64
  | uint8 | uint16 | uint32 | uint64
  | float16 | float32 | float64
  | bool_.

(** [dtype.name] *)
Definition dtype_name (d : dtype) : string :=
  match d with
  | int8 => "int8" | int16 => "int16" | int32 => "int32" | int64 => "int64"
  | uint8 => "uint8" | uint16 => "uint16" | uint32 => "uint32"
  | uint64 => "uint64"
  | float16 => "float16" | float32 => "float32" | float64 => "float64"
  | bool_ => "bool"
  end.


(** [dtype.name.startswith("int")], the test the code makes. *)
Definition name_starts_with_int (d : dtype) : bool :=
  String.prefix "int" (dtype_name d).

Definition cell := option Q.

Record Series := MkSeries {
  dtype_of : dtype;
  values : list cell
}.

(** The values of a row that are not missing. *)
Definition present (l : list cell) : list Q := omap id l.

(** Row [r] of a list of columns. *)
Definition row_of (cols : list Series) (r : nat) : list cell :=
  omap (fun s => values s !! r) cols.

(** The integer a cell of an integer column holds. *)
Definition int_of (q : Q) : Z := Qfloor q.

Definition zsum (l : list Z) : Z := fold_left Z.add l 0%Z.

(** [sum(axis=1)] of integer columns: an int64 sum, which wraps. *)
Definition row_sum (l : list cell) : cell :=
  Some (inject_Z (Pd.wrap64 (zsum (map int_of (present l))))).

Definition row_min (l : list cell) : cell :=
  match present l with
  | [] => None
  | x :: xs => Some (fold_left Qmin xs x)
  end.

Definition row_max (l : list cell) : cell :=
  match present l with
  | [] => None
  | x :: xs => Some (fold_left Qmax xs x)
  end.

Fixpoint insert_sorted (x : Q) (l : list Q) : list Q :=
  match l with
  | [] => [x]
  | y :: l' => if Qle_bool x y then x :: l else y :: insert_sorted x l'
  end.

Definition sort (l : list Q) : list Q := fold_right insert_sorted [] l.

(** The middle value of a sorted list, or the mean [(a + b) / 2] of the
    two middle values. *)
Definition middle `{arith : !FloatArith} (sorted : list Q) : cell :=
  let n := length sorted in
  if Nat.even n then
    a ← sorted !! (n / 2 - 1); b ← sorted !! (n / 2);
    Some (float_div (float_add a b) 2)
  else sorted !! (n / 2).

Definition row_median `{arith : !FloatArith} (l : list cell) : cell :=
  match present l with
  | [] => None
  | xs => middle (sort xs)
  end.

(** [np.sum] of an array row: NaN when a value is missing. *)
Definition array_sum `{arith : !FloatArith} (l : list cell) : cell :=
  Np.sum <$> mapM id l.

(** [frame.f(axis=1)] for a row reduction [f]. *)
Definition axis1 (f : list cell -> cell) (n : nat) (cols : list Series)
  : list cell :=
  map (fun r => f (row_of cols r)) (seq 0 n).

(** The sum of integer columns is an integer column; of no columns at
    all, a float column. *)
Definition sum_dtype (cols : list Series) : dtype :=
  match cols with
  | [] => float64
  | _ => int64
  end.

Definition stat_names : list string :=
  ["binary_count"; "binary_std"; "min"; "std"; "max"; "median"; "mean";
   "skew"; "median_abs_dev"; "zscore"]%string.

Section CreateRowStats.
Context `{arith : !FloatArith}.
(** pandas' [mean], [std] and [skew] of a row, scipy's
    [median_abs_deviation] of a row and [zscore] of a column. *)
Variable row_mean : list cell -> cell.
Variable row_std : list cell -> cell.
Variable row_skew : list cell -> cell.
Variable row_mad : list cell -> cell.
Variable zscore : list cell -> list cell.

Definition StatsM := Store.M Series.

(** The loop over [data.columns] that sorts the names into
    [cont_cols] and [cat_cols]. *)
Fixpoint partition_columns (data : Store.ref) (columns : list string)
    (cont_cols cat_cols : list string)
  : StatsM (list string * list string) :=
  match columns with
  | [] => Store.ret (cont_cols, cat_cols)
  | col :: columns' =>
      let! s := Store.getitem data col in
      if name_starts_with_int (dtype_of s)
      then partition_columns data columns' cont_cols (cat_cols ++ [col])
      else partition_columns data columns' (cont_cols ++ [col]) cat_cols
  end.

Definition create_row_stats (data : Store.ref) : StatsM Store.ref :=
  let! columns := Store.columns data in
  let! cols := partition_columns data columns [] [] in
  let cont_cols := cols.1 in
  let cat_cols := cols.2 in
  let! new_data := Store.copy data in
  let! n := Store.nrows data in
  let! cat := Store.getitems data cat_cols in
  run! Store.setitem new_data "binary_count"
         (MkSeries (sum_dtype cat) (axis1 row_sum n cat)) in
  let! cat := Store.getitems data cat_cols in
  run! Store.setitem new_data "binary_std"
         (MkSeries float64 (axis1 row_std n cat)) in
  let! cont := Store.getitems data cont_cols in
  run! Store.setitem new_data "min"
         (MkSeries float64 (axis1 row_min n cont)) in
  let! cont := Store.getitems data cont_cols in
  run! Store.setitem new_data "std"
         (MkSeries float64 (axis1 row_std n cont)) in
  let! cont := Store.getitems data cont_cols in
  run! Store.setitem new_data "max"
         (MkSeries float64 (axis1 row_max n cont)) in
  let! cont := Store.getitems data cont_cols in
  run! Store.setitem new_data "median"
         (MkSeries float64 (axis1 row_median n cont)) in
  let! cont := Store.getitems data cont_cols in
  run! Store.setitem new_data "mean"
         (MkSeries float64 (axis1 row_mean n cont)) in
  let! cont := Store.getitems data cont_cols in
  run! Store.setitem new_data "skew"
         (MkSeries float64 (axis1 row_skew n cont)) in
  let! cont := Store.getitems data cont_cols in
  run! Store.setitem new_data "median_abs_dev"
         (MkSeries float64 (axis1 row_mad n cont)) in
  let! cont := Store.getitems data cont_cols in
  let z := map (fun s => MkSeries float64
                           (map (fmap Qabs) (zscore (values s)))) cont in
  run! Store.setitem new_data "zscore"
         (MkSeries float64 (axis1 array_sum n z)) in
  Store.ret new_data.

(** [row_stats], the preprocessing function handed to the harness, on
    three frames. *)
Definition row_stats (X_train X_valid X_test : Store.ref)
  : StatsM (Store.ref * Store.ref * Store.ref) :=
  let! X_train := create_row_stats X_train in
  let! X_valid := create_row_stats X_valid in
  let! X_test := create_row_stats X_test in
  Store.ret (X_train, X_valid, X_test).
End CreateRowStats.




(** The cell holds the int64 that is congruent, modulo [2 ^ 64], to the
    sum of the integers. *)
Definition is_sum (vals : list Q) (c : option cell) : Prop :=
  ∃ z, c = Some (Some (inject_Z z))
       ∧ (- 2 ^ 63 <= z < 2 ^ 63)%Z
       ∧ ((z - zsum (map int_of vals)) mod 2 ^ 64 = 0)%Z.






(** A frame with two binary columns and three float columns. *)
Definition example_frame : Frame.t Series :=
  Frame.Make 2
    [("f0", MkSeries float64 [Some (1 # 2); Some 4]%Q);
     ("f1", MkSeries int64 [Some 1; Some 0]%Q);
     ("f2", MkSeries float64 [Some (3 # 4); Some (-1)]%Q);
     ("f3", MkSeries int64 [Some 1; Some 1]%Q);
     ("f4", MkSeries float64 [Some (1 # 4); Some 2]%Q)]%string.

(** Stand-ins for the library statistics in the examples. *)
Definition exact_mean (l : list cell) : cell :=
  match present l with
  | [] => None
  | xs => Some (fold_left Qplus xs 0 / inject_Z (Z.of_nat (length xs)))%Q
  end.
Definition no_stat (l : list cell) : cell := None.
Definition no_zscore (l : list cell) : list cell := map (fun _ => None) l.

End LgbmFeatures.

(** ** Notebook "TPS 12 - Feature Engineering": the harness

    Three copies of this notebook exist (CatBoost, LightGBM and XGBoost
    pipelines); [score_features] and the feature functions are the same in
    all three. *)

Module ForestCover.

Definition NUM_FOLDS : nat := 6.

Section Harness.
Context {X Y Estimator Model : Type} `{arith : !FloatArith}.
(** Globals: [train[features]], [train['Cover_Type']], [test[features]],
    [test['Cover_Type']], and the fold labels of
    [skf.split(train[features], train['Cover_Type'])]. *)
Variable train_X : list X.
Variable train_y : list Y.
Variable test_X : list X.
Variable test_y : list Y.
Variable test_folds : list nat.
(** Column names of a frame. *)
Variable columns : list X -> list string.
Variable clone : Estimator -> Estimator.
Variable fit : Estimator -> list X -> list Y -> Model.
Variable predict : Model -> X -> Q.
Variable predict_proba : Model -> X -> list Q.
(** [permutation_importance(model, X, y, random_state).importances_mean] *)
Variable permutation_importance : Model -> list X -> list Y -> list Q.
Variable accuracy_score : list Y -> list Q -> Q.
(** [Series.sort_values()] *)
Variable sort_values : list (string * Q) -> list (string * Q).

Record state := State {
  test_preds : list (list Q);
  oof_preds : oof_array;
  fi_scores : list Q;
  scores : list Q
}.

Definition init (X_temp X_test : list X) : state :=
  State (replicate (length X_test) (Np.zeros 6))
        (oof_zeros (length X_temp))
        (Np.zeros (length (columns X_temp)))
        (Np.zeros NUM_FOLDS).

Definition fold_body (sklearn_model : Estimator)
    (X_temp X_test : list X) (y_temp : list Y)
    (st : state) (it : nat * (list nat * list nat)) : option state :=
  let '(fold, (train_idx, valid_idx)) := it in
  X_train ← Np.iloc X_temp train_idx;
  X_valid ← Np.iloc X_temp valid_idx;
  y_train ← Np.iloc y_temp train_idx;
  y_valid ← Np.iloc y_temp valid_idx;
  let model := fit (clone sklearn_model) X_train y_train in
  let result := permutation_importance model X_valid y_valid in
  fi_scores' ← Np.vadd (fi_scores st) (Np.vdiv result NUM_FOLDS);
  let valid_preds := map (predict model) X_valid in
  oof_preds' ← oof_put (oof_preds st) fold valid_idx valid_preds;
  test_preds' ←
    Np.madd (test_preds st) (map (predict_proba model) X_test);
  scores' ←
    set_item (scores st) fold (accuracy_score y_valid valid_preds);
  Some (State test_preds' oof_preds' fi_scores' scores').

Definition folds : list (nat * (list nat * list nat)) :=
  Np.enumerate (KFold.split NUM_FOLDS test_folds).

(** [if processing: X_temp = processing(X_temp); X_test = ...] *)
Definition apply_processing
    (processing : option (list X -> option (list X))) (frame : list X)
  : option (list X) :=
  match processing with
  | Some f => f frame
  | None => Some frame
  end.

(** The state when the fold loop is left, with the processed frames. *)
Definition score_features_loop (sklearn_model : Estimator)
    (processing : option (list X -> option (list X)))
  : option (list X * list X * state) :=
  X_temp ← apply_processing processing train_X;
  X_test ← apply_processing processing test_X;
  st ← for_each (fold_body sklearn_model X_temp X_test train_y)
                folds (init X_temp X_test);
  Some (X_temp, X_test, st).

(** Reference values, for the processed frames [X_temp] and [X_test]:
    the model fitted in fold [f], its validation predictions, its test
    probabilities and its share of the permutation importances. *)
Definition fold_model (sklearn_model : Estimator) (X_temp : list X)
    (f : nat) : Model :=
  fit (clone sklearn_model)
      (rows X_temp (train_idx_of test_folds f))
      (rows train_y (train_idx_of test_folds f)).

Definition fold_valid_preds (sklearn_model : Estimator)
    (X_temp : list X) (f : nat) : list Q :=
  map (predict (fold_model sklearn_model X_temp f))
      (rows X_temp (valid_idx_of test_folds f)).

Definition fold_test_prob (sklearn_model : Estimator)
    (X_temp X_test : list X) (f : nat) : list (list Q) :=
  map (predict_proba (fold_model sklearn_model X_temp f)) X_test.

Definition fold_importance (sklearn_model : Estimator)
    (X_temp : list X) (f : nat) : list Q :=
  Np.vdiv (permutation_importance
             (fold_model sklearn_model X_temp f)
             (rows X_temp (valid_idx_of test_folds f))
             (rows train_y (valid_idx_of test_folds f)))
          NUM_FOLDS.

(** The predicted class for training row [i], and the probability of
    class [c] for test row [t], of the model fitted on the rows [tr]. *)
Definition oof_value (sklearn_model : Estimator) (X_temp : list X)
    (tr : list nat) (i : nat) : option Q :=
  X_train ← Np.iloc X_temp tr;
  y_train ← Np.iloc train_y tr;
  x ← X_temp !! i;
  Some (predict (fit (clone sklearn_model) X_train y_train) x).

Definition test_value (sklearn_model : Estimator)
    (X_temp X_test : list X) (c : nat)
    (fold : list nat * list nat) (t : nat) : option Q :=
  X_train ← Np.iloc X_temp fold.1;
  y_train ← Np.iloc train_y fold.1;
  x ← X_test !! t;
  predict_proba (fit (clone sklearn_model) X_train y_train) x !! c.

(** What holds of the state when [k] folds are done. *)
Definition loop_invariant (sklearn_model : Estimator)
    (X_temp X_test : list X) (k : nat) (st : state) : Prop :=
  oof_after test_folds (fold_valid_preds sklearn_model X_temp) k
            (oof_preds st)
  ∧ test_preds st
    = msum (fold_test_prob sklearn_model X_temp X_test) k
           (replicate (length X_test) (Np.zeros 6))
  ∧ fi_scores st
    = vsum (fold_importance sklearn_model X_temp) k
           (Np.zeros (length (columns X_temp)))
  ∧ length (scores st) = NUM_FOLDS.

(** [pd.Series(data, index).loc[keys]] *)
Definition series_get (s : list (string * Q)) (k : string) : option Q :=
  snd <$> List.find (fun kv => String.eqb k (fst kv)) s.

Definition series_loc (index : list string) (data : list Q)
    (keys : list string) : option (list (string * Q)) :=
  if decide (length index = length data) then
    mapM (fun k => v ← series_get (zip index data) k; Some (k, v)) keys
  else None.

Definition nat_to_Q (n : nat) : Q := inject_Z (Z.of_nat n).

(** Returns [scores.mean(), oof_preds, test_score, fi_scores]. *)
Definition score_features (sklearn_model : Estimator)
    (processing : option (list X -> option (list X)))
  : option (Q * list Q * Q * list (string * Q)) :=
  '(X_temp, X_test, st) ← score_features_loop sklearn_model processing;
  let features := columns X_temp in
  let nonsoil :=
    filter (fun x => ¬ String.prefix "Soil_Type" x = true)
           (columns X_test) in
  let test_preds := map Np.argmax (test_preds st) in
  let test_score := accuracy_score test_y (map nat_to_Q test_preds) in
  fi ← series_loc features (fi_scores st) nonsoil;
  Some (Np.mean (scores st), oof_values (oof_preds st), test_score,
        sort_values fi).

End Harness.

(** *** The feature functions

    Each takes a reference to a frame and returns a reference to the
    frame it built. *)

Definition FrameM := Store.M Pd.Series.

Definition lift {A} (o : outcome A) : FrameM A := Store.lift o.

Section AspectFeatures.
(** [np.sin] on binary64 values. *)
Variable np_sin : Pd.float -> Pd.float.

Definition aspect_features (data : Store.ref) : FrameM Store.ref :=
  let! df := Store.copy data in
  let! aspect := Store.getitem df "Aspect" in
  let! aspect_360 := lift (Pd.mod_int aspect 360) in
  run! Store.setitem df "Aspect_360" aspect_360 in
  let! aspect := Store.getitem df "Aspect" in
  let! radians_num := lift (Pd.mul_float aspect Pd.pi) in
  let! radians := lift (Pd.div_int radians_num 180) in
  let! sine := lift (Pd.apply_float np_sin radians) in
  run! Store.setitem df "Aspect_Sine" sine in
  let! aspect := Store.getitem df "Aspect" in
  let! minus := lift (Pd.sub_int aspect 180) in
  let! aspect := Store.getitem df "Aspect" in
  let! plus := lift (Pd.add_int aspect 180) in
  let! cond := lift (Pd.gt_int plus 360) in
  let! aspect := Store.getitem df "Aspect" in
  let! other := lift (Pd.add_int aspect 180) in
  let! alt := lift (Pd.where_ minus cond other) in
  run! Store.setitem df "Aspect_Alt" alt in
  Store.ret df.
End AspectFeatures.

Definition shade_features : list string :=
  ["Hillshade_9am"; "Hillshade_Noon"; "Hillshade_3pm"]%string.

Definition hillshade_features (data : Store.ref) : FrameM Store.ref :=
  let! df := Store.copy data in
  (* Clip Range *)
  let! s := Store.getitem df "Hillshade_9am" in
  let! c := lift (Pd.clip s 0 255) in
  run! Store.setitem df "Hillshade_9am_Clipped" c in
  let! s := Store.getitem df "Hillshade_9am" in
  let! c := lift (Pd.clip s 0 255) in
  run! Store.setitem df "Hillshade_Noon_Clipped" c in
  let! s := Store.getitem df "Hillshade_9am" in
  let! c := lift (Pd.clip s 0 255) in
  run! Store.setitem df "Hillshade_3pm_Clipped" c in
  (* Hillshade *)
  let! n := Store.nrows df in
  let! shades := Store.getitems df shade_features in
  let! total := lift (Pd.sum_axis1 n shades) in
  run! Store.setitem df "Hillshade_Sum" total in
  let! shades := Store.getitems df shade_features in
  let! hi := lift (Pd.max_axis1 n shades) in
  let! shades := Store.getitems df shade_features in
  let! lo := lift (Pd.min_axis1 n shades) in
  let! range := lift (Pd.sub hi lo) in
  run! Store.setitem df "Hillshade_Range" range in
  Store.ret df.

(** [series - series.min() + eps] with [eps = 1e-10] *)
Definition start_at_eps (series : Pd.Series) : outcome Pd.Series :=
  match Pd.sub_min series with
  | Ok d => Pd.add_float d Pd.eps
  | Raise e => Raise e
  | Unmodelled => Unmodelled
  end.

(** The columns [water_features] computes, up to its last block. *)
Definition water_columns (df : Store.ref) : FrameM unit :=
  (* use float64 for squaring *)
  let! h := Store.getitem df "Horizontal_Distance_To_Hydrology" in
  run! Store.setitem df "Horizontal_Distance_To_Hydrology"
                     (Pd.astype_float64 h) in
  let! v := Store.getitem df "Vertical_Distance_To_Hydrology" in
  run! Store.setitem df "Vertical_Distance_To_Hydrology"
                     (Pd.astype_float64 v) in
  let! h := Store.getitem df "Horizontal_Distance_To_Hydrology" in
  let! pos_h_hydrology := lift (start_at_eps h) in
  let! v := Store.getitem df "Vertical_Distance_To_Hydrology" in
  let! pos_v_hydrology := lift (start_at_eps v) in
  (* Manhatten Distances *)
  let! h := Store.getitem df "Horizontal_Distance_To_Hydrology" in
  let! abs_h := lift (Pd.abs h) in
  let! v := Store.getitem df "Vertical_Distance_To_Hydrology" in
  let! abs_v := lift (Pd.abs v) in
  let! taxicab := lift (Pd.add abs_h abs_v) in
  run! Store.setitem df "Hydro_Taxicab" taxicab in
  let! h2 := lift (Pd.square pos_h_hydrology) in
  let! v2 := lift (Pd.square pos_v_hydrology) in
  let! s := lift (Pd.add h2 v2) in
  let! root := lift (Pd.sqrt s) in
  run! Store.setitem df "Hydro_Taxicab_Pos" (Pd.astype_float32 root) in
  (* Euclidean Distance *)
  let! h := Store.getitem df "Horizontal_Distance_To_Hydrology" in
  let! h2 := lift (Pd.square h) in
  let! v := Store.getitem df "Vertical_Distance_To_Hydrology" in
  let! abs_v := lift (Pd.abs v) in
  let! v2 := lift (Pd.square abs_v) in
  let! s := lift (Pd.add h2 v2) in
  let! euclid := lift (Pd.sqrt s) in
  run! Store.setitem df "Hydro_Euclid" euclid in
  let! h2 := lift (Pd.square pos_h_hydrology) in
  let! v2 := lift (Pd.square pos_v_hydrology) in
  let! s := lift (Pd.add h2 v2) in
  let! root := lift (Pd.sqrt s) in
  run! Store.setitem df "Hydro_Euclid_Pos" root in
  (* Misc Features *)
  let! v := Store.getitem df "Vertical_Distance_To_Hydrology" in
  let! direction := lift (Pd.sign v) in
  run! Store.setitem df "Water_Direction" direction in
  let! e := Store.getitem df "Elevation" in
  let! v := Store.getitem df "Vertical_Distance_To_Hydrology" in
  let! water_elevation := lift (Pd.sub e v) in
  Store.setitem df "Water Elevation" water_elevation.

(** Its last block: "Store each as float32". *)
Definition water_store_float32 (df : Store.ref) : FrameM unit :=
  let! s := Store.getitem df "Horizontal_Distance_To_Hydrology" in
  run! Store.setitem df "Horizontal_Distance_To_Hydrology"
                     (Pd.astype_float32 s) in
  let! s := Store.getitem df "Vertical_Distance_To_Hydrology" in
  run! Store.setitem df "Vertical_Distance_To_Hydrology"
                     (Pd.astype_float32 s) in
  let! s := Store.getitem df "Hydro_Taxicab" in
  run! Store.setitem df "Hydro_Taxicab" (Pd.astype_float32 s) in
  let! s := Store.getitem df "Hydro_Taxicab_Pos" in
  run! Store.setitem df "Hydro_Taxicab_Pos" (Pd.astype_float32 s) in
  let! s := Store.getitem df "Hydro_Euclid" in
  run! Store.setitem df "Hydro_Euclid" (Pd.astype_float32 s) in
  let! s := Store.getitem df "Hydro_Euclid_Pos" in
  run! Store.setitem df "Hydro_Euclid_Pos" (Pd.astype_float32 s) in
  let! s := Store.getitem df "Water_Direction" in
  run! Store.setitem df "Water_Direction" (Pd.astype_float32 s) in
  let! s := Store.getitem df "Water Elevation" in
  Store.setitem df "Water Elevation" (Pd.astype_float32 s).

Definition water_features (data : Store.ref) : FrameM Store.ref :=
  let! df := Store.copy data in
  run! water_columns df in
  run! water_store_float32 df in
  Store.ret df.

Definition count_features (data : Store.ref) : FrameM Store.ref :=
  let! df := Store.copy data in
  let! columns := Store.columns df in
  let soil_features :=
    List.filter (String.prefix "Soil_Type") columns in
  let wilderness_features :=
    List.filter (String.prefix "Wilderness_Area") columns in
  (* Count features *)
  let! n := Store.nrows df in
  let! soil := Store.getitems df soil_features in
  let! soil_count := lift (Pd.sum_axis1 n soil) in
  run! Store.setitem df "Soil_Count" soil_count in
  let! wilderness := Store.getitems df wilderness_features in
  let! wilderness_count := lift (Pd.sum_axis1 n wilderness) in
  run! Store.setitem df "Wilderness_Count" wilderness_count in
  Store.ret df.

Definition hydrofire_interactions (data : Store.ref) : FrameM Store.ref :=
  let! df := Store.copy data in
  let! h := Store.getitem df "Horizontal_Distance_To_Hydrology" in
  let! f := Store.getitem df "Horizontal_Distance_To_Fire_Points" in
  let! s := lift (Pd.add h f) in
  run! Store.setitem df "Hydro_Fire_Sum" s in
  let! h := Store.getitem df "Horizontal_Distance_To_Hydrology" in
  let! f := Store.getitem df "Horizontal_Distance_To_Fire_Points" in
  let! d := lift (Pd.sub h f) in
  let! ad := lift (Pd.abs d) in
  run! Store.setitem df "Hydro_Fire_AbsDiff" ad in
  let! h := Store.getitem df "Horizontal_Distance_To_Hydrology" in
  let! eh := lift (start_at_eps h) in
  let! f := Store.getitem df "Horizontal_Distance_To_Fire_Points" in
  let! ef := lift (start_at_eps f) in
  let! es := lift (Pd.add eh ef) in
  run! Store.setitem df "Hydro_Fire_EpsSum" es in
  let! h := Store.getitem df "Horizontal_Distance_To_Hydrology" in
  let! f := Store.getitem df "Horizontal_Distance_To_Fire_Points" in
  let! d := lift (Pd.sub h f) in
  run! Store.setitem df "Hydro_Fire_Diff" d in
  Store.ret df.

(** [abs(df[a] + df[b])] and [abs(df[a] - df[b])] *)
Definition abs_of (op : Pd.Series -> Pd.Series -> outcome Pd.Series)
    (df : Store.ref) (a b : string) : FrameM Pd.Series :=
  let! x := Store.getitem df a in
  let! y := Store.getitem df b in
  let! z := lift (op x y) in
  lift (Pd.abs z).

Definition roadway_interactions (data : Store.ref) : FrameM Store.ref :=
  let! df := Store.copy data in
  let! s := abs_of Pd.add df "Horizontal_Distance_To_Hydrology"
                   "Horizontal_Distance_To_Roadways" in
  run! Store.setitem df "Hydro_Road_1" s in
  let! s := abs_of Pd.sub df "Horizontal_Distance_To_Hydrology"
                   "Horizontal_Distance_To_Roadways" in
  run! Store.setitem df "Hydro_Road_2" s in
  let! s := abs_of Pd.add df "Horizontal_Distance_To_Fire_Points"
                   "Horizontal_Distance_To_Roadways" in
  run! Store.setitem df "Fire_Road_1" s in
  let! s := abs_of Pd.sub df "Horizontal_Distance_To_Fire_Points"
                   "Horizontal_Distance_To_Roadways" in
  run! Store.setitem df "Fire_Road_2" s in
  Store.ret df.

Definition elevation_interactions (data : Store.ref) : FrameM Store.ref :=
  let! df := Store.copy data in
  let! r := Store.getitem df "Horizontal_Distance_To_Roadways" in
  let! e := Store.getitem df "Elevation" in
  let! p := lift (Pd.mul r e) in
  run! Store.setitem df "Road_Elev_Int" p in
  let! v := Store.getitem df "Vertical_Distance_To_Hydrology" in
  let! e := Store.getitem df "Elevation" in
  let! p := lift (Pd.mul v e) in
  run! Store.setitem df "VHydro_Elev_Int" p in
  let! e := Store.getitem df "Elevation" in
  let! v := Store.getitem df "Vertical_Distance_To_Hydrology" in
  let! d := lift (Pd.sub e v) in
  run! Store.setitem df "Elev_VHydro_Diff" d in
  let! e := Store.getitem df "Elevation" in
  let! h := Store.getitem df "Horizontal_Distance_To_Hydrology" in
  let! h02 := lift (Pd.mul_float h Pd.c0_2) in
  let! d := lift (Pd.sub e h02) in
  run! Store.setitem df "Elev_HHydro_Diff" d in
  Store.ret df.

(** The names each function assigns to. *)
Definition aspect_written : list string :=
  ["Aspect_360"; "Aspect_Sine"; "Aspect_Alt"]%string.
Definition hillshade_written : list string :=
  ["Hillshade_9am_Clipped"; "Hillshade_Noon_Clipped";
   "Hillshade_3pm_Clipped"; "Hillshade_Sum"; "Hillshade_Range"]%string.
Definition water_written : list string :=
  ["Horizontal_Distance_To_Hydrology"; "Vertical_Distance_To_Hydrology";
   "Hydro_Taxicab"; "Hydro_Taxicab_Pos"; "Hydro_Euclid";
   "Hydro_Euclid_Pos"; "Water_Direction"; "Water Elevation"]%string.
Definition count_written : list string :=
  ["Soil_Count"; "Wilderness_Count"]%string.
Definition hydrofire_written : list string :=
  ["Hydro_Fire_Sum"; "Hydro_Fire_AbsDiff"; "Hydro_Fire_EpsSum";
   "Hydro_Fire_Diff"]%string.
Definition roadway_written : list string :=
  ["Hydro_Road_1"; "Hydro_Road_2"; "Fire_Road_1"; "Fire_Road_2"]%string.
Definition elevation_written : list string :=
  ["Road_Elev_Int"; "VHydro_Elev_Int"; "Elev_VHydro_Diff";
   "Elev_HHydro_Diff"]%string.

(** A raw feature frame of two rows. *)
Definition example_frame : Frame.t Pd.Series :=
  Frame.Make 2
    [("Elevation", Pd.Int64 [2500; 3000]);
     ("Aspect", Pd.Int64 [90; 350]);
     ("Horizontal_Distance_To_Hydrology", Pd.Int64 [30; 16777217]);
     ("Vertical_Distance_To_Hydrology", Pd.Int64 [-5; 12]);
     ("Horizontal_Distance_To_Roadways", Pd.Int64 [100; 200]);
     ("Horizontal_Distance_To_Fire_Points", Pd.Int64 [300; 50]);
     ("Hillshade_9am", Pd.Int64 [220; 260]);
     ("Hillshade_Noon", Pd.Int64 [230; 240]);
     ("Hillshade_3pm", Pd.Int64 [140; 130]);
     ("Wilderness_Area1", Pd.Int64 [1; 0]);
     ("Wilderness_Area2", Pd.Int64 [0; 1]);
     ("Soil_Type1", Pd.Int64 [0; 1]);
     ("Soil_Type2", Pd.Int64 [1; 0])]%string%Z.

(** [water_features] stopped before its last block. *)
Definition water_features_before_casts (data : Store.ref)
  : FrameM Store.ref :=
  let! df := Store.copy data in
  run! water_columns df in
  Store.ret df.

End ForestCover.

(** ** The five scoring harnesses and the properties stated of them *)

Inductive harness :=
  | Score_features
  | Train_model
  | Train_noisy_model
  | Score_model
  | Score_lightgbm.

Definition harness_num_folds (h : harness) : nat :=
  match h with
  | Score_features => ForestCover.NUM_FOLDS
  | Train_model | Train_noisy_model => NoisyLabels.NUM_FOLDS
  | Score_model => ClassProbabilities.NUM_FOLDS
  | Score_lightgbm => LgbmFeatures.NUM_FOLDS
  end.

(** The [(fold, (train_idx, valid_idx))] items a harness iterates over. *)
Definition harness_folds (h : harness) (test_folds : list nat)
  : list (nat * (list nat * list nat)) :=
  match h with
  | Score_features => ForestCover.folds test_folds
  | Train_model | Train_noisy_model => NoisyLabels.folds test_folds
  | Score_model => ClassProbabilities.folds test_folds
  | Score_lightgbm => LgbmFeatures.folds test_folds
  end.

Definition validation_sets (h : harness) (test_folds : list nat)
  : list (list nat) :=
  map (fun it => snd (snd it)) (harness_folds h test_folds).

(** Every row [i] lies in the validation indices of exactly one fold [f],
    not in the training indices [tr] of that fold; the array holds at [i]
    the value [value_of tr i], and [i] was stored once, during fold [f]. *)
Definition out_of_fold (n_splits : nat) (test_folds : list nat)
    (value_of : list nat -> nat -> option Q) (a : oof_array) : Prop :=
  ∀ i, i < length test_folds →
    ∃ f tr va v,
      KFold.split n_splits test_folds !! f = Some (tr, va)
      ∧ (i ∈ va) ∧ (i ∉ tr)
      ∧ (∀ g tr' va',
           KFold.split n_splits test_folds !! g = Some (tr', va') →
           i ∈ va' → g = f)
      ∧ value_of tr i = Some v
      ∧ oof_values a !! i = Some v
      ∧ filter (fun w : nat * nat => w.2 = i) (oof_writes a) = [(f, i)].

(** [acc = 0; for p in ps: acc = acc + share(p)] *)
Definition running_total `{arith : !FloatArith} (share : Q -> Q)
    (ps : list Q) : Q :=
  fold_left (fun acc p => float_add acc (share p)) ps 0%Q.

(** Entry [t] of [preds] is the running total, the folds taken in the
    order of the loop, of the shares of
    [value_of (train_idx, valid_idx) t]. *)
Definition accumulates `{arith : !FloatArith} (share : Q -> Q) (n_splits : nat)
    (test_folds : list nat) (n_test : nat)
    (value_of : list nat * list nat -> nat -> option Q)
    (preds : list Q) : Prop :=
  length preds = n_test ∧
  ∀ t, t < n_test →
    ∃ ps,
      Forall2 (fun fold p => value_of fold t = Some p)
              (KFold.split n_splits test_folds) ps
      ∧ preds !! t = Some (running_total share ps).

(** Column [c] of a matrix given by its rows. *)
Definition matrix_column (m : list (list Q)) (c : nat) : list Q :=
  map (fun row => default 0%Q (row !! c)) m.

(** The reading of the specification: entry [t] of [preds] is one over
    the number of folds times the sum, over the folds, of
    [value_of (train_idx, valid_idx) t]. *)
Definition fold_average (n_splits : nat) (test_folds : list nat)
    (n_test : nat) (value_of : list nat * list nat -> nat -> option Q)
    (preds : list Q) : Prop :=
  length preds = n_test ∧
  ∀ t, t < n_test →
    ∃ ps q,
      Forall2 (fun fold p => value_of fold t = Some p)
              (KFold.split n_splits test_folds) ps
      ∧ preds !! t = Some q
      ∧ (q == / inject_Z (Z.of_nat n_splits) * fold_left Qplus ps 0)%Q.

(** The share [p / k] of one fold's value in an average over [k] folds,
    and the whole value, as [score_features] adds it. *)
Definition fold_share `{arith : !FloatArith} (k : nat) (p : Q) : Q :=
  float_div p (inject_Z (Z.of_nat k)).

Definition whole_value (p : Q) : Q := p.

(** ** A small instance of the harnesses

    Six training rows, one per fold label, and two test rows.  Rows are
    numbers, a fitted model is the list of rows it was fitted on, and the
    predicted probabilities put everything on class 0 or class 1 according
    to whether the row was seen in training. *)

Module HarnessExample.

Definition train_X : list nat := [10; 11; 12; 13; 14; 15].
Definition train_y : list nat := [0; 1; 2; 3; 4; 5].
Definition sample_weight : list nat := [1; 1; 1; 1; 1; 1].
Definition test_X : list nat := [10; 20].
Definition test_y : list nat := [0; 1].
Definition test_folds : list nat := [0; 1; 2; 3; 4; 5].

Definition columns (frame : list nat) : list string :=
  ["Elevation"; "Soil_Type1"]%string.
Definition clone (e : unit) : unit := e.
Definition LearningWithNoisyLabels (e : unit) : unit := e.
Definition fit (e : unit) (Xs : list nat) (ys : list nat) : list nat := Xs.
Definition fit_weighted (e : unit) (Xs ys ws : list nat) : list nat := Xs.
Definition lgbm_fit (n_estimators early_stopping : Z) (Xs ys : list nat)
    (eval_set : list nat * list nat) : list nat := Xs.
Definition predict_proba (m : list nat) (x : nat) : list Q :=
  if bool_decide (x ∈ m) then [1; 0; 0; 0; 0; 0]%Q
  else [0; 1; 0; 0; 0; 0]%Q.
Definition predict (m : list nat) (x : nat) : Q :=
  if bool_decide (x ∈ m) then 0%Q else 1%Q.
Definition permutation_importance (m : list nat) (Xs ys : list nat)
  : list Q := [1; 0]%Q.
Definition accuracy_score (ys : list nat) (preds : list Q) : Q := 1%Q.
Definition roc_auc_score (ys : list nat) (preds : list Q) : Q := 1%Q.
Definition sort_values (s : list (string * Q)) : list (string * Q) := s.

End HarnessExample.

(** ** binary64 arithmetic as an instance

    The operations of [Pd] on the binary64 value of a rational.  A
    rational whose numerator and denominator are below [2 ^ 53], or
    powers of two, is rounded to the nearest binary64 value by one
    division; a binary64 value is such a rational.  Infinities and NaN
    denote no rational: they are read as 0, and the examples do not reach
    them.  numpy adds an array of fewer than eight entries from left to
    right. *)

Module Binary64.

Definition of_Q (q : Q) : Pd.float :=
  Pd.fdiv (Pd.of_Z (Qnum q)) (Pd.of_Z (Zpos (Qden q))).

Definition to_Q (x : Pd.float) : Q :=
  match x with
  | S754_finite s m e =>
      let z := cond_Zopp s (Zpos m) in
      match e with
      | Z0 => inject_Z z
      | Zpos p => inject_Z (z * 2 ^ Zpos p)
      | Zneg p => Qred (Qmake z (2 ^ p))
      end
  | _ => 0%Q
  end.

Definition add (x y : Q) : Q := to_Q (Pd.fadd (of_Q x) (of_Q y)).
Definition div (x y : Q) : Q := to_Q (Pd.fdiv (of_Q x) (of_Q y)).

Definition arithmetic : FloatArith :=
  {| float_add := add;
     float_div := div;
     float_sum := fun a => fold_left add a 0%Q |}.

(** The binary64 values of [0.1] and [0.9]. *)
Definition tenth : Q := Qmake 3602879701896397 (2 ^ 55).
Definition nine_tenths : Q := Qmake 8106479329266893 (2 ^ 53).

End Binary64.

(** ** An instance a stratified splitter accepts

    Thirty-six training rows, six of each of six classes, and two test
    rows; the six rows of a class fall into the six folds.  The models
    and scores are those of [HarnessExample]. *)

Module StratifiedExample.

Definition train_X : list nat := seq 0 36.
Definition train_y : list nat := map (fun i => i / 6) (seq 0 36).
Definition sample_weight : list nat := replicate 36 1.
Definition test_X : list nat := [0; 100].
Definition test_y : list nat := [0; 1].
Definition test_folds : list nat :=
  map (fun i => (i + i / 6) mod 6) (seq 0 36).

(** Twenty training rows, ten of each of two classes, for the
    harnesses of ten folds. *)
Definition train_X10 : list nat := seq 0 20.
Definition train_y10 : list nat := map (fun i => i / 10) (seq 0 20).
Definition test_folds10 : list nat :=
  map (fun i => (i + 3 * (i / 10)) mod 10) (seq 0 20).

(** Six training rows, three of each of two classes, for the harnesses
    of three folds. *)
Definition train_X3 : list nat := [10; 11; 12; 13; 14; 15].
Definition train_y3 : list nat := [0; 1; 0; 1; 0; 1].
Definition test_folds3 : list nat := [0; 2; 1; 0; 2; 1].

(** Probabilities that are not sums of powers of two: [0.9] and [0.1]
    on the first two classes. *)
Definition predict_tenths (m : list nat) (x : nat) : list Q :=
  [Binary64.nine_tenths; Binary64.tenth; 0; 0; 0; 0]%Q.

End StratifiedExample.

(** ** What a notebook does when it is run from top to bottom

    A notebook is its list of code cells.  Of a cell the model keeps the
    statements that load data, define or call a function of the notebook,
    or write a file; of a function body it keeps the effects, in source
    order and once per call (a loop body is not repeated per fold); a
    cell without such a statement is left out.  Running a notebook gives
    the trace of its effects. *)

Module Notebook.

Inductive metric := Accuracy | AUC.

Inductive event :=
  | Loaded (path : string)        (* pd.read_feather, pd.read_csv *)
  | Split                         (* StratifiedKFold(...).split(...) *)
  | Fitted                        (* model.fit(...) *)
  | Scored (m : metric)           (* accuracy_score, roc_auc_score *)
  | CsvWritten (path : string).   (* DataFrame.to_csv *)

Inductive stmt :=
  | Assign (name : string) (value : bool)          (* NAME = True *)
  | Def (name : string) (effects : list event)     (* def name(...): *)
  | Call (name : string)                           (* name(...) *)
  | Do (e : event)
  | If (name : string) (body : stmt).              (* if NAME: body *)

Definition cell := list stmt.

Record notebook := {
  title : string;
  cells : list cell
}.

Record state := {
  globals : list (string * bool);
  functions : list (string * list event);
  trace : list event
}.

Definition start : state :=
  {| globals := []; functions := []; trace := [] |}.

Fixpoint lookup_name {A} (name : string) (l : list (string * A))
  : option A :=
  match l with
  | [] => None
  | (k, a) :: l' => if String.eqb name k then Some a else lookup_name name l'
  end.

(** [None] is a [NameError]. *)
Fixpoint exec (s : stmt) (st : state) : option state :=
  match s with
  | Assign name value =>
      Some {| globals := (name, value) :: globals st;
              functions := functions st; trace := trace st |}
  | Def name effects =>
      Some {| globals := globals st;
              functions := (name, effects) :: functions st;
              trace := trace st |}
  | Call name =>
      effects ← lookup_name name (functions st);
      Some {| globals := globals st; functions := functions st;
              trace := trace st ++ effects |}
  | Do e =>
      Some {| globals := globals st; functions := functions st;
              trace := trace st ++ [e] |}
  | If name body =>
      flag ← lookup_name name (globals st);
      if (flag : bool) then exec body st else Some st
  end.

Fixpoint exec_all (ss : list stmt) (st : state) : option state :=
  match ss with
  | [] => Some st
  | s :: ss' => st' ← exec s st; exec_all ss' st'
  end.

Definition run (nb : notebook) : option (list event) :=
  st ← exec_all (concat (cells nb)) start; Some (trace st).

Definition is_csv (e : event) : bool :=
  match e with CsvWritten _ => true | _ => false end.

Definition is_split (e : event) : bool :=
  match e with Split => true | _ => false end.

Definition is_fit (e : event) : bool :=
  match e with Fitted => true | _ => false end.

Definition is_score (e : event) : bool :=
  match e with Scored _ => true | _ => false end.

Definition csv_path (e : event) : option string :=
  match e with CsvWritten p => Some p | _ => None end.

(** The files a run writes, in order. *)
Definition csv_files (tr : list event) : list string := omap csv_path tr.

(** The notebook runs, and its run trains under the stratified split and
    scores the held-out rows. *)
Definition cross_validates (nb : notebook) : Prop :=
  ∃ tr, run nb = Some tr
        ∧ existsb is_split tr = true
        ∧ existsb is_fit tr = true
        ∧ existsb is_score tr = true.

(** The notebook runs, and its run writes a CSV file. *)
Definition writes_submission (nb : notebook) : Prop :=
  ∃ tr, run nb = Some tr ∧ csv_files tr ≠ [].

(** Every file is written after a split, a fit and a score. *)
Fixpoint csv_after_training (seen : list event) (tr : list event) : bool :=
  match tr with
  | [] => true
  | e :: tr' =>
      (if is_csv e
       then existsb is_split seen && existsb is_fit seen
            && existsb is_score seen
       else true)
      && csv_after_training (e :: seen) tr'
  end.

(** *** The notebooks *)

(** [score_features] of the TPS 12 notebooks: the fold loop and the
    accuracy of the holdout predictions. *)
Definition score_features_effects : list event :=
  [Split; Fitted; Scored Accuracy; Scored Accuracy].

(** "TPS 12 - Feature Engineering": each feature function is followed
    by a cell that scores it. *)
Definition forest_cover_cells : list cell :=
  [ [Do (Loaded "../data/train.feather")];
    [Def "score_features" score_features_effects];
    [Call "score_features"];
    [Def "aspect_features" []];
    [Call "score_features"];
    [Def "hillshade_features" []];
    [Call "score_features"];
    [Def "start_at_eps" []; Def "water_features" []];
    [Call "score_features"];
    [Def "count_features" []];
    [Call "score_features"];
    [Def "hydrofire_interactions" []];
    [Call "score_features"];
    [Def "roadway_interactions" []];
    [Call "score_features"];
    [Def "elevation_interactions" []];
    [Call "score_features"] ].

Definition tps12_feature_engineering_1 : notebook :=
  {| title := "TPS 12 - Feature Engineering";
     cells := forest_cover_cells |}.

Definition tps12_feature_engineering_2 : notebook :=
  {| title := "TPS 12 - Feature Engineering";
     cells := forest_cover_cells |}.

Definition xgboost_feature_engineering : notebook :=
  {| title := "TPS 12/21 - Feature Engineering";
     cells := forest_cover_cells |}.

Definition baselines : notebook :=
  {| title := "Baselines";
     cells :=
       [ [Do (Loaded "../data/train.feather")];
         [Def "score_lightgbm" [Split; Fitted; Scored AUC]];
         [Call "score_lightgbm"];
         [Def "score_histgbm" [Split; Fitted; Scored AUC]];
         [Call "score_histgbm"] ] |}.

Definition feature_engineering : notebook :=
  {| title := "Feature Engineering";
     cells :=
       [ [Assign "SUBMIT" true];
         [Def "get_training_data" [Loaded "../data/train.feather"]];
         [Call "get_training_data"];
         [Def "score_lightgbm" [Split; Fitted; Scored AUC; Scored AUC]];
         [Call "score_lightgbm"];
         [Def "feature_selection_importance" []];
         [Call "score_lightgbm"];
         [Def "remove_uninformative" []];
         [Call "score_lightgbm"];
         [Def "create_row_stats" []; Def "row_stats" []];
         [Call "score_lightgbm"];
         [Call "get_training_data"];
         [Def "target_encode" []];
         [Call "score_lightgbm"];
         [Def "generate_cluster_labels" []];
         [Def "cluster_label_features" []];
         [Call "score_lightgbm"];
         [Def "generate_cluster_distances" []];
         [Def "cluster_distance_features" []];
         [Call "score_lightgbm"] ] |}.

Definition stacking : notebook :=
  {| title := "Stacking";
     cells :=
       [ [Assign "SUBMIT" true];
         [Do (Loaded "../data/train.feather");
          Do (Loaded "../data/test.feather");
          Do (Loaded "../data/sample_submission.csv")];
         [Do Split];
         [Def "create_row_stats" []];
         [Def "train_xgboost" [Fitted; Scored AUC]];
         [Call "train_xgboost"; Call "train_xgboost"; Call "train_xgboost"];
         [Def "train_lightgbm" [Fitted; Scored AUC]];
         [Call "train_lightgbm"; Call "train_lightgbm"];
         [Def "train_catboost" [Fitted; Scored AUC]];
         [Call "train_catboost"; Call "train_catboost"];
         [Def "train_histgbm" [Fitted; Scored AUC]];
         [Call "train_histgbm"; Call "train_histgbm"];
         [If "SUBMIT"
            (Do (CsvWritten "../output/xgboost_cpu_3fold_submission.csv"))];
         [If "SUBMIT"
            (Do (CsvWritten "../output/catboost_cpu_3fold_submission.csv"))];
         [Def "stack_lightgbm" [Fitted; Scored AUC]];
         [Call "stack_lightgbm";
          If "SUBMIT"
            (Do (CsvWritten "../output/stack_lgbm_3fold_submission.csv"))];
         [Def "stack_xgboost" [Fitted; Scored AUC]];
         [Call "stack_xgboost";
          If "SUBMIT"
            (Do (CsvWritten "../output/stack_xgb_3fold_submission.csv"))]
       ] |}.

Definition neural_network_baseline : notebook :=
  {| title := "Neural Network Baseline";
     cells :=
       [ [Do (Loaded "../data/train.feather");
          Do (Loaded "../data/test.feather");
          Do (Loaded "../data/sample_submission.csv")];
         [Def "train_model" [Split; Fitted; Scored AUC]];
         [Def "build_model" []];
         [Call "train_model";
          Do (CsvWritten "../output/simple_nn_submission.csv")] ] |}.

(** One model of "Handling Mislabeled Data": train, then submit. *)
Definition submit (harness path : string) : cell :=
  [Call harness; Do (CsvWritten path)].

Definition handling_mislabeled_data : notebook :=
  {| title := "TPS 11/21 - Handling Mislabeled Data";
     cells :=
       [ [Do (Loaded "../data/train.feather");
          Do (Loaded "../data/test.feather");
          Do (Loaded "../data/sample_submission.csv")];
         [Def "train_model" [Split; Fitted; Scored AUC]];
         [Def "train_noisy_model" [Split; Fitted; Scored AUC]];
         submit "train_model" "../output/logit_submission.csv";
         submit "train_noisy_model" "../output/noisy_logit_submission.csv";
         submit "train_model" "../output/ridge_submission.csv";
         submit "train_noisy_model" "../output/noisy_ridge_submission.csv";
         submit "train_model" "../output/lda_submission.csv";
         submit "train_noisy_model" "../output/noisy_lda_submission.csv";
         submit "train_model" "../output/sgd_submission.csv";
         submit "train_noisy_model" "../output/noisy_sgd_submission.csv";
         submit "train_model" "../output/nb_submission.csv";
         submit "train_noisy_model" "../output/noisy_nb_submission.csv";
         submit "train_model" "../output/mlp_submission.csv";
         submit "train_noisy_model" "../output/noisy_mlp_submission.csv";
         submit "train_model" "../output/xgb_submission.csv";
         submit "train_noisy_model" "../output/noisy_xgb_submission.csv"
       ] |}.

Definition tweaking_class_probabilities : notebook :=
  {| title := "Tweaking Class Probabilities";
     cells :=
       [ [Def "bias" []; Def "bias_of" []; Def "get_histograms" [];
          Def "gcd_of_all" []; Def "get_target_bins" []];
         [Def "score_model" [Split; Fitted; Scored Accuracy]];
         [Do (Loaded "../data/train.feather");
          Do (Loaded "../data/test.feather");
          Do (Loaded "../data/sample_submission.csv")];
         [Call "score_model"];
         [Do (CsvWritten "../submissions/extratrees_tweaked.csv")];
         [Call "score_model"];
         [Do (CsvWritten "../submissions/bagging_tweaked.csv")];
         [Call "score_model"];
         [Do (CsvWritten "../submissions/four_models_tweaked.csv")] ] |}.

(** The notebooks of the repository. *)
Definition notebooks : list notebook :=
  [ tps12_feature_engineering_1; tps12_feature_engineering_2; baselines;
    feature_engineering; stacking; neural_network_baseline;
    handling_mislabeled_data; xgboost_feature_engineering;
    tweaking_class_probabilities ].

(** The files each notebook writes. *)
Definition files_written (nb : notebook) : option (list string) :=
  tr ← run nb; Some (csv_files tr).

End Notebook.

(** ** The control flow of the feature functions

    The body of a function as its statements, keeping only the control
    structure: what is a loop, a conditional, a comprehension or a
    handler, and what a condition looks at.  A statement whose right-hand
    side is a library expression over whole columns ([clip], [where],
    [sum(axis=1)], arithmetic on Series) is [Simple]. *)

Module Skeleton.

(** What a condition inspects. *)
Inductive subject :=
  | ColumnName      (* x.startswith("Soil_Type") *)
  | Dtype           (* data[col].dtype.name.startswith("int") *)
  | Argument       (* if scale:, if verbose: *)
  | DataValue.      (* scores[i] == 0 *)

#[warnings="-register-all"] Inductive stmt :=
  | Simple
  | Comprehension (filter : option subject)   (* [... for ... if c] *)
  | For (body : list stmt)
  | If (on : subject) (then_ else_ : list stmt)
  | Try (body handler : list stmt).

Definition subject_eqb (a b : subject) : bool :=
  match a, b with
  | ColumnName, ColumnName | Dtype, Dtype | Argument, Argument
  | DataValue, DataValue => true
  | _, _ => false
  end.

(** The conditions of a body, in source order. *)
Fixpoint conditions (s : stmt) : list subject :=
  match s with
  | Simple => []
  | Comprehension filter =>
      match filter with Some c => [c] | None => [] end
  | For body => flat_map conditions body
  | If on then_ else_ =>
      on :: flat_map conditions then_ ++ flat_map conditions else_
  | Try body handler =>
      flat_map conditions body ++ flat_map conditions handler
  end.

Fixpoint has_if (s : stmt) : bool :=
  match s with
  | Simple | Comprehension _ => false
  | For body => existsb has_if body
  | If _ _ _ => true
  | Try body handler => existsb has_if body || existsb has_if handler
  end.

Fixpoint has_try (s : stmt) : bool :=
  match s with
  | Simple | Comprehension _ => false
  | For body => existsb has_try body
  | If _ then_ else_ => existsb has_try then_ || existsb has_try else_
  | Try _ _ => true
  end.

Fixpoint has_loop (s : stmt) : bool :=
  match s with
  | Simple => false
  | Comprehension _ => true
  | For _ => true
  | If _ then_ else_ => existsb has_loop then_ || existsb has_loop else_
  | Try body handler => existsb has_loop body || existsb has_loop handler
  end.

Record function := {
  name : string;
  body : list stmt
}.

Definition body_conditions (f : function) : list subject :=
  flat_map conditions (body f).

(** No [if], no filtering comprehension, no [try]. *)
Definition unconditional (f : function) : bool :=
  match body_conditions f with [] => true | _ => false end
  && negb (existsb has_try (body f)).

Definition handles_exceptions (f : function) : bool :=
  existsb has_try (body f).

(** Only assignments and a return. *)
Definition straight_line (f : function) : bool :=
  forallb (fun s => match s with Simple => true | _ => false end) (body f).

Definition branches_on (c : subject) (f : function) : bool :=
  existsb (subject_eqb c) (body_conditions f).

(** *** "TPS 12 - Feature Engineering" *)

Definition aspect_features : function :=
  {| name := "aspect_features";
     body := [Simple;            (* df = data.copy() *)
              Simple;            (* Aspect_360 *)
              Simple;            (* Aspect_Sine *)
              Simple;            (* Aspect_Alt: Series.where *)
              Simple] |}.        (* return df *)

Definition hillshade_features : function :=
  {| name := "hillshade_features";
     body := [Simple;            (* df = data.copy() *)
              Simple;            (* shade_features = [...] *)
              Simple; Simple; Simple;   (* the three clipped columns *)
              Simple;            (* Hillshade_Sum *)
              Simple;            (* Hillshade_Range *)
              Simple] |}.

Definition start_at_eps : function :=
  {| name := "start_at_eps"; body := [Simple] |}.

Definition water_features : function :=
  {| name := "water_features";
     body := [Simple;                    (* df = data.copy() *)
              Simple; Simple;            (* float64 casts *)
              Simple; Simple;            (* pos_h_hydrology, pos_v_hydrology *)
              Simple; Simple;            (* Hydro_Taxicab, Hydro_Taxicab_Pos *)
              Simple; Simple;            (* Hydro_Euclid, Hydro_Euclid_Pos *)
              Simple; Simple;            (* Water_Direction, Water Elevation *)
              Simple; Simple; Simple; Simple;
              Simple; Simple; Simple; Simple;   (* float32 casts *)
              Simple] |}.

Definition count_features : function :=
  {| name := "count_features";
     body := [Simple;                            (* df = data.copy() *)
              Comprehension (Some ColumnName);   (* soil_features *)
              Comprehension (Some ColumnName);   (* wilderness_features *)
              Simple; Simple;                    (* the two counts *)
              Simple] |}.

Definition hydrofire_interactions : function :=
  {| name := "hydrofire_interactions";
     body := [Simple; Simple; Simple; Simple; Simple; Simple] |}.

Definition roadway_interactions : function :=
  {| name := "roadway_interactions";
     body := [Simple; Simple; Simple; Simple; Simple; Simple] |}.

Definition elevation_interactions : function :=
  {| name := "elevation_interactions";
     body := [Simple; Simple; Simple; Simple; Simple; Simple] |}.

(** *** "Feature Engineering" (LightGBM) *)

Definition feature_selection_importance : function :=
  {| name := "feature_selection_importance"; body := [Simple] |}.

Definition remove_uninformative : function :=
  {| name := "remove_uninformative";
     body := [Comprehension None;               (* binary_features *)
              Simple;                           (* scores = mutual_info_classif *)
              Comprehension (Some DataValue);   (* cols: scores[i] == 0 *)
              Simple; Simple; Simple;           (* drop(..., inplace = True) *)
              If Argument [Simple] [];         (* if verbose: print *)
              Simple] |}.

Definition create_row_stats : function :=
  {| name := "create_row_stats";
     body := [Simple;                           (* cont_cols, cat_cols *)
              For [If Dtype [Simple] [Simple]]; (* for col in data.columns *)
              Simple;                           (* new_data = data.copy() *)
              Simple; Simple; Simple; Simple; Simple;
              Simple; Simple; Simple; Simple; Simple;   (* ten statistics *)
              Simple] |}.

Definition row_stats : function :=
  {| name := "row_stats"; body := [Simple; Simple; Simple; Simple] |}.

Definition target_encode : function :=
  {| name := "target_encode";
     body := [Simple; Simple; Simple; Simple; Simple] |}.

Definition generate_cluster_labels : function :=
  {| name := "generate_cluster_labels";
     body := [If Argument [Simple; Simple; Simple; Simple]
                           [Simple; Simple; Simple];     (* if scale: *)
              Simple;                                   (* kmeans *)
              Simple; Simple; Simple;
              Simple] |}.

Definition cluster_label_features : function :=
  {| name := "cluster_label_features";
     body := [Simple; Simple; Simple; Simple; Simple;   (* corr *)
              Comprehension None;                       (* cols *)
              Simple] |}.

Definition generate_cluster_distances : function :=
  {| name := "generate_cluster_distances";
     body := [If Argument [Simple; Simple; Simple; Simple]
                           [Simple; Simple; Simple];     (* if scale: *)
              Simple;                                   (* kmeans *)
              Simple; Simple; Simple;
              Comprehension None; Comprehension None;
              Comprehension None;                       (* column labels *)
              Simple] |}.

Definition cluster_distance_features : function :=
  {| name := "cluster_distance_features";
     body := [Simple; Simple; Simple; Simple; Simple;
              Comprehension None;
              Simple] |}.

(** *** "Stacking": the same body, looping over the global [features] *)

Definition stacking_create_row_stats : function :=
  {| name := "create_row_stats";
     body := [Simple;
              For [If Dtype [Simple] [Simple]];         (* for col in features *)
              Simple;
              Simple; Simple; Simple; Simple; Simple;
              Simple; Simple; Simple; Simple; Simple;
              Simple] |}.

(** *** "Tweaking Class Probabilities" *)

Definition get_histograms : function :=
  {| name := "get_histograms"; body := [Comprehension None] |}.

Definition gcd_of_all : function :=
  {| name := "gcd_of_all"; body := [Simple; For [Simple]; Simple] |}.

(** The functions that compute derived columns. *)
Definition feature_functions : list function :=
  [ aspect_features; hillshade_features; start_at_eps; water_features;
    count_features; hydrofire_interactions; roadway_interactions;
    elevation_interactions;
    feature_selection_importance; remove_uninformative; create_row_stats;
    row_stats; target_encode; generate_cluster_labels;
    cluster_label_features; generate_cluster_distances;
    cluster_distance_features;
    stacking_create_row_stats;
    get_histograms; gcd_of_all ].

(** The harness that calls them in "Feature Engineering" (LightGBM):
    the call of the preprocessing function is wrapped in a handler. *)
Definition score_lightgbm : function :=
  {| name := "score_lightgbm";
     body := [Simple; Simple; Simple;           (* start, holdout_preds, print *)
              Simple;                           (* skf *)
              For [Simple; Simple; Simple;      (* the three splits *)
                   If Argument [Try [Simple] [Simple]] [];
                   Simple;                      (* model *)
                   Simple;                      (* model.fit *)
                   Simple; Simple;              (* predictions *)
                   Simple; Simple];             (* fold_auc, print *)
              Simple;                           (* end *)
              Simple] |}.

End Skeleton.

From Stdlib Require Import Lqa.

(** ** Arg-max of a row

    [first_max row i]: [i] is the position [np.argmax] returns on a
    non-empty row, the first one that holds the largest entry. *)

Definition first_max (row : list Q) (i : nat) : Prop :=
  ∃ m, row !! i = Some m
       ∧ (∀ j x, row !! j = Some x → (x <= m)%Q)
       ∧ (∀ j x, j < i → row !! j = Some x → (x < m)%Q).

(** ** Notebook "Tweaking Class Probabilities": the cells after the
    harness

    Each of the three submissions adds a constant row of offsets to the
    averaged class probabilities and predicts the arg-max class. *)

Module ProbabilityTweaks.

(** [row + offsets] under numpy's broadcasting of a matrix with a
    vector: equal lengths add entry by entry, a one-column matrix or a
    one-entry vector is stretched, other shapes raise ValueError. *)
Definition add_row (row offsets : list Q) : option (list Q) :=
  if decide (length row = length offsets) then
    Some (zip_with Qplus row offsets)
  else
    match row, offsets with
    | [x], _ => Some (map (Qplus x) offsets)
    | _, [d] => Some (map (fun x => (x + d)%Q) row)
    | _, _ => None
    end.

(** [new_proba = test_proba + np.array([...])] *)
Definition add_offsets (test_proba : list (list Q)) (offsets : list Q)
  : option (list (list Q)) :=
  mapM (fun row => add_row row offsets) test_proba.

(** [encoder.inverse_transform(labels)]: the class of each label; a
    label the encoder has not seen raises ValueError. *)
Definition inverse_transform (classes : list string) (labels : list nat)
  : option (list string) :=
  mapM (fun l => classes !! l) labels.

(** [y_preds = encoder.inverse_transform(np.argmax(new_proba, axis=1))] *)
Definition tweaked_predictions (classes : list string)
    (test_proba : list (list Q)) (offsets : list Q)
  : option (list string) :=
  new_proba ← add_offsets test_proba offsets;
  inverse_transform classes (map Np.argmax new_proba).

(** The offsets of the three submissions. *)
Definition extratrees_offsets : list Q :=
  [0; 0; 1 # 100; 3 # 100; 0; 0; 0; 0; 0; 0]%Q.
Definition bagging_offsets : list Q :=
  [0; 0; 1 # 100; 22 # 1000; 0; 0; 0; 0; 0; 0]%Q.
Definition four_models_offsets : list Q :=
  [0; 0; 15 # 1000; 35 # 1000; 0; 0; 0; 0; 0; 0]%Q.

End ProbabilityTweaks.

(** ** Notebook "Stacking"

    The notebook labels every training row with its fold once, in a
    [kfold] column, and each model function selects its rows with
    [train.kfold == fold] and [train.kfold != fold]. *)

Module Stacking.

Definition NUM_FOLDS : nat := 3.




(** [train['kfold'] = -1], then for every fold
    [train['kfold'].iloc[valid_idx] = fold].  The assignment goes
    through to the column (pandas without copy-on-write). *)
Definition assign_folds (test_folds : list nat) : option (list Z) :=
  for_each
    (fun (kfold : list Z) (it : nat * (list nat * list nat)) =>
       let '(fold, (train_idx, valid_idx)) := it in
       Np.put kfold valid_idx
              (replicate (length valid_idx) (Z.of_nat fold)))
    (Np.enumerate (KFold.split NUM_FOLDS test_folds))
    (replicate (length test_folds) (-1)%Z).

(** [train.kfold == fold] *)
Definition kfold_mask (kfold : list Z) (fold : nat) : list bool :=
  map (Z.eqb (Z.of_nat fold)) kfold.

(** *** The row statistics of this notebook

    The same body as in "Feature Engineering", except that the loop
    that sorts the columns runs over the global [features], not over
    [data.columns]. *)
Section CreateRowStats.
Import LgbmFeatures.
Context `{arith : !FloatArith}.
Variable row_mean : list cell -> cell.
Variable row_std : list cell -> cell.
Variable row_skew : list cell -> cell.
Variable row_mad : list cell -> cell.
Variable zscore : list cell -> list cell.
(** The global [features]. *)
Variable features : list string.

Definition create_row_stats (data : Store.ref) : StatsM Store.ref :=
  let! cols := partition_columns data features [] [] in
  let cont_cols := cols.1 in
  let cat_cols := cols.2 in
  let! new_data := Store.copy data in
  let! n := Store.nrows data in
  let! cat := Store.getitems data cat_cols in
  run! Store.setitem new_data "binary_count"
         (MkSeries (sum_dtype cat) (axis1 row_sum n cat)) in
  let! cat := Store.getitems data cat_cols in
  run! Store.setitem new_data "binary_std"
         (MkSeries float64 (axis1 row_std n cat)) in
  let! cont := Store.getitems data cont_cols in
  run! Store.setitem new_data "min"
         (MkSeries float64 (axis1 row_min n cont)) in
  let! cont := Store.getitems data cont_cols in
  run! Store.setitem new_data "std"
         (MkSeries float64 (axis1 row_std n cont)) in
  let! cont := Store.getitems data cont_cols in
  run! Store.setitem new_data "max"
         (MkSeries float64 (axis1 row_max n cont)) in
  let! cont := Store.getitems data cont_cols in
  run! Store.setitem new_data "median"
         (MkSeries float64 (axis1 row_median n cont)) in
  let! cont := Store.getitems data cont_cols in
  run! Store.setitem new_data "mean"
         (MkSeries float64 (axis1 row_mean n cont)) in
  let! cont := Store.getitems data cont_cols in
  run! Store.setitem new_data "skew"
         (MkSeries float64 (axis1 row_skew n cont)) in
  let! cont := Store.getitems data cont_cols in
  run! Store.setitem new_data "median_abs_dev"
         (MkSeries float64 (axis1 row_mad n cont)) in
  let! cont := Store.getitems data cont_cols in
  let z := map (fun s => MkSeries float64
                           (map (fmap Qabs) (zscore (values s)))) cont in
  run! Store.setitem new_data "zscore"
         (MkSeries float64 (axis1 array_sum n z)) in
  Store.ret new_data.
End CreateRowStats.


(** A training frame as the notebook has it when the statistics are
    added: an id, two features, the target and the fold labels. *)
Definition example_train : Frame.t LgbmFeatures.Series :=
  Frame.Make 2
    [("id", LgbmFeatures.MkSeries LgbmFeatures.int64 [Some 7; Some 8]%Q);
     ("f0", LgbmFeatures.MkSeries LgbmFeatures.float64
              [Some (1 # 2); Some 4]%Q);
     ("f1", LgbmFeatures.MkSeries LgbmFeatures.int64 [Some 1; Some 0]%Q);
     ("target", LgbmFeatures.MkSeries LgbmFeatures.int64
                  [Some 1; Some 0]%Q);
     ("kfold", LgbmFeatures.MkSeries LgbmFeatures.int64
                 [Some 0; Some 2]%Q)]%string.

(** *** The base models and the meta models *)

(** [rows[mask]] for a boolean mask of the same frame. *)
Definition mask_rows {A} (rows : list A) (mask : list bool)
  : option (list A) :=
  if decide (length mask = length rows)
  then Np.iloc rows (Np.flatnonzero mask) else None.

(** [oof_preds[mask] = valid_preds] during fold [fold]. *)
Definition mask_put (a : oof_array) (fold : nat) (mask : list bool)
    (valid_preds : list Q) : option oof_array :=
  if decide (length mask = length (oof_values a))
  then oof_put a fold (Np.flatnonzero mask) valid_preds else None.

Section Models.
Context {X Y Model Params : Type} `{arith : !FloatArith}.
(** [train[cols]] and [test[cols]] as lists of rows, for a list of
    column names; [train['target']]; [train.kfold]; the globals
    [features] and [all_features]; [train.shape[0]] and
    [test.shape[0]]. *)
Variable train_rows : list string -> list X.
Variable test_rows : list string -> list X.
Variable train_y : list Y.
Variable kfold : list Z.
Variable features all_features : list string.
Variable n_train n_test : nat.
Variable predict_proba : Model -> X -> list Q.
Variable roc_auc_score : list Y -> list Q -> Q.
(** The classifier of each library, built from the notebook's
    parameters merged with [model_params] and fitted with
    [fit_params]; the first three are handed the validation rows as
    [eval_set], for early stopping. *)
Variable xgboost_fit :
  Params -> Params -> list X -> list Y -> list X * list Y -> Model.
Variable lightgbm_fit :
  Params -> Params -> list X -> list Y -> list X * list Y -> Model.
Variable catboost_fit :
  Params -> Params -> list X -> list Y -> list X * list Y -> Model.
Variable histgbm_fit : Params -> Params -> list X -> list Y -> Model.

Record state := State {
  oof_preds : oof_array;
  test_preds : list Q
}.

Definition init : state :=
  State (oof_zeros n_train) (Np.zeros n_test).

(** The loop body the four functions share; [fit] stands for the
    two statements that build and fit the model. *)
Definition fold_body
    (fit : list X -> list Y -> list X * list Y -> Model)
    (new_features : bool) (st : state) (fold : nat) : option state :=
  let cols := if new_features then features else all_features in
  let valid := kfold_mask kfold fold in
  X_train ← mask_rows (train_rows cols) (map negb valid);
  y_train ← mask_rows train_y (map negb valid);
  X_valid ← mask_rows (train_rows cols) valid;
  y_valid ← mask_rows train_y valid;
  let X_test := test_rows cols in
  let model := fit X_train y_train (X_valid, y_valid) in
  valid_preds ← column1 (map (predict_proba model) X_valid);
  test_col ← column1 (map (predict_proba model) X_test);
  test_preds' ← Np.vadd (test_preds st) (Np.vdiv test_col NUM_FOLDS);
  oof_preds' ← mask_put (oof_preds st) fold valid valid_preds;
  Some (State oof_preds' test_preds').

Definition train_loop
    (fit : list X -> list Y -> list X * list Y -> Model)
    (new_features : bool) : option state :=
  for_each (fold_body fit new_features) (seq 0 NUM_FOLDS) init.

(** Each returns [test_preds, oof_preds]. *)
Definition train_xgboost (model_params fit_params : Params)
    (new_features : bool) : option (list Q * list Q) :=
  st ← train_loop (xgboost_fit model_params fit_params) new_features;
  Some (test_preds st, oof_values (oof_preds st)).

Definition train_lightgbm (model_params fit_params : Params)
    (new_features : bool) : option (list Q * list Q) :=
  st ← train_loop (lightgbm_fit model_params fit_params) new_features;
  Some (test_preds st, oof_values (oof_preds st)).

Definition train_catboost (model_params fit_params : Params)
    (new_features : bool) : option (list Q * list Q) :=
  st ← train_loop (catboost_fit model_params fit_params) new_features;
  Some (test_preds st, oof_values (oof_preds st)).

(** [model.fit(X_train, y_train, **fit_params)]: no [eval_set]. *)
Definition train_histgbm (model_params fit_params : Params)
    (new_features : bool) : option (list Q * list Q) :=
  st ← train_loop
         (fun X_train y_train _ =>
            histgbm_fit model_params fit_params X_train y_train)
         new_features;
  Some (test_preds st, oof_values (oof_preds st)).

(** The prediction for training row [i], and for test row [t], of
    the model of the fold with index arrays [fold]. *)
Definition oof_value
    (fit : list X -> list Y -> list X * list Y -> Model)
    (cols : list string) (fold : list nat * list nat) (i : nat)
  : option Q :=
  X_train ← Np.iloc (train_rows cols) fold.1;
  y_train ← Np.iloc train_y fold.1;
  X_valid ← Np.iloc (train_rows cols) fold.2;
  y_valid ← Np.iloc train_y fold.2;
  x ← train_rows cols !! i;
  predict_proba (fit X_train y_train (X_valid, y_valid)) x !! 1.

Definition test_value
    (fit : list X -> list Y -> list X * list Y -> Model)
    (cols : list string) (fold : list nat * list nat) (t : nat)
  : option Q :=
  X_train ← Np.iloc (train_rows cols) fold.1;
  y_train ← Np.iloc train_y fold.1;
  X_valid ← Np.iloc (train_rows cols) fold.2;
  y_valid ← Np.iloc train_y fold.2;
  x ← test_rows cols !! t;
  predict_proba (fit X_train y_train (X_valid, y_valid)) x !! 1.

(** *** The meta models

    [stack_lightgbm] and [stack_xgboost] fit a classifier on the
    out-of-fold predictions of the base models. *)

(** [oof_preds.drop('kfold', axis = 1)] and
    [test_preds.drop('id', axis = 1)] as rows. *)
Variable oof_rows : list X.
Variable test_pred_rows : list X.
(** [LGBMClassifier(random_state, n_estimators = 200)] and
    [XGBClassifier(random_state, n_estimators = 200)], fitted with
    the validation rows as [eval_set]. *)
Variable meta_lightgbm_fit : list X -> list Y -> list X * list Y -> Model.
Variable meta_xgboost_fit : list X -> list Y -> list X * list Y -> Model.

Record meta_state := MetaState {
  preds : list Q;
  scores : list Q
}.

Definition stack_body
    (fit : list X -> list Y -> list X * list Y -> Model)
    (st : meta_state) (j : nat) : option meta_state :=
  let valid := kfold_mask kfold j in
  X_train ← mask_rows oof_rows (map negb valid);
  X_valid ← mask_rows oof_rows valid;
  y_train ← mask_rows train_y (map negb valid);
  y_valid ← mask_rows train_y valid;
  let X_test := test_pred_rows in
  let model := fit X_train y_train (X_valid, y_valid) in
  test_col ← column1 (map (predict_proba model) X_test);
  preds' ← Np.vadd (preds st) (Np.vdiv test_col NUM_FOLDS);
  preds_valid ← column1 (map (predict_proba model) X_valid);
  scores' ← set_item (scores st) j (roc_auc_score y_valid preds_valid);
  Some (MetaState preds' scores').

Definition stack_loop
    (fit : list X -> list Y -> list X * list Y -> Model)
  : option meta_state :=
  for_each (stack_body fit) (seq 0 NUM_FOLDS)
           (MetaState (Np.zeros n_test) (Np.zeros NUM_FOLDS)).

(** Each returns [preds]. *)
Definition stack_lightgbm : option (list Q) :=
  st ← stack_loop meta_lightgbm_fit; Some (preds st).

Definition stack_xgboost : option (list Q) :=
  st ← stack_loop meta_xgboost_fit; Some (preds st).

Definition meta_value
    (fit : list X -> list Y -> list X * list Y -> Model)
    (fold : list nat * list nat) (t : nat) : option Q :=
  X_train ← Np.iloc oof_rows fold.1;
  y_train ← Np.iloc train_y fold.1;
  X_valid ← Np.iloc oof_rows fold.2;
  y_valid ← Np.iloc train_y fold.2;
  x ← test_pred_rows !! t;
  predict_proba (fit X_train y_train (X_valid, y_valid)) x !! 1.

End Models.

(** Every row [i] lies in the validation indices of exactly one fold,
    not in its training indices; the array holds at [i] the value
    [value_of fold i] for that fold, stored once, during that fold. *)
Definition out_of_fold_of (test_folds : list nat)
    (value_of : list nat * list nat -> nat -> option Q) (a : oof_array)
  : Prop :=
  ∀ i, i < length test_folds →
    ∃ f tr va v,
      KFold.split NUM_FOLDS test_folds !! f = Some (tr, va)
      ∧ (i ∈ va) ∧ (i ∉ tr)
      ∧ (∀ g tr' va',
           KFold.split NUM_FOLDS test_folds !! g = Some (tr', va') →
           i ∈ va' → g = f)
      ∧ value_of (tr, va) i = Some v
      ∧ oof_values a !! i = Some v
      ∧ filter (fun w : nat * nat => w.2 = i) (oof_writes a) = [(f, i)].

End Stacking.

(** ** Notebook "Neural Network Baseline"

    [train_model] of this notebook scales the rows inside the fold loop:
    a new pipeline of a standard scaler and a min-max scaler is fitted on
    the training rows of the fold and then applied to the validation rows
    and to the test rows.  Fitting the pipeline gives its parameters;
    applying it works row by row. *)

Module NeuralNetwork.

Definition NUM_FOLDS : nat := 10.

Section Harness.
Context {X X' Y Estimator Model Scaler : Type} `{arith : !FloatArith}.
(** Globals: [train[features]], [train['target']], [test[features]]
    and the fold labels of [skf.split(train, train['target'])]. *)
Variable train_X : list X.
Variable train_y : list Y.
Variable test_X : list X.
Variable test_folds : list nat.
(** [make_pipeline(StandardScaler(), MinMaxScaler())], fitted on
    rows, and what the fitted pipeline makes of a row. *)
Variable scaler_fit : list X -> Scaler.
Variable transform : Scaler -> X -> X'.
Variable clone : Estimator -> Estimator.
Variable fit : Estimator -> list X' -> list Y -> Model.
Variable predict_proba : Model -> X' -> list Q.
Variable roc_auc_score : list Y -> list Q -> Q.

Record state := State {
  oof_preds : oof_array;
  test_preds : list Q;
  scores : list Q
}.

Definition init : state :=
  State (oof_zeros (length train_X)) (Np.zeros (length test_X))
        (Np.zeros NUM_FOLDS).

Definition fold_body (sklearn_model : Estimator)
    (st : state) (it : nat * (list nat * list nat)) : option state :=
  let '(fold, (train_idx, valid_idx)) := it in
  (* scaler.fit_transform(train[features].iloc[train_idx]) *)
  train_rows ← Np.iloc train_X train_idx;
  let scaler := scaler_fit train_rows in
  let X_train := map (transform scaler) train_rows in
  valid_rows ← Np.iloc train_X valid_idx;
  let X_valid := map (transform scaler) valid_rows in
  let X_test := map (transform scaler) test_X in
  y_train ← Np.iloc train_y train_idx;
  y_valid ← Np.iloc train_y valid_idx;
  let model := fit (clone sklearn_model) X_train y_train in
  valid_preds ← column1 (map (predict_proba model) X_valid);
  test_col ← column1 (map (predict_proba model) X_test);
  test_preds' ← Np.vadd (test_preds st) (Np.vdiv test_col NUM_FOLDS);
  oof_preds' ← oof_put (oof_preds st) fold valid_idx valid_preds;
  let fold_auc := roc_auc_score y_valid valid_preds in
  scores' ← set_item (scores st) fold fold_auc;
  Some (State oof_preds' test_preds' scores').

Definition folds : list (nat * (list nat * list nat)) :=
  Np.enumerate (KFold.split NUM_FOLDS test_folds).

Definition train_model_loop (sklearn_model : Estimator) : option state :=
  for_each (fold_body sklearn_model) folds init.

(** Returns [scores, test_preds, oof_preds]. *)
Definition train_model (sklearn_model : Estimator)
  : option (list Q * list Q * list Q) :=
  st ← train_model_loop sklearn_model;
  Some (scores st, test_preds st, oof_values (oof_preds st)).

(** The prediction for training row [i], and for test row [t], of
    the model fitted on the rows [tr] after scaling with the pipeline
    fitted on the rows [tr]. *)
Definition oof_value (sklearn_model : Estimator) (tr : list nat)
    (i : nat) : option Q :=
  train_rows ← Np.iloc train_X tr;
  y_train ← Np.iloc train_y tr;
  x ← train_X !! i;
  let scaler := scaler_fit train_rows in
  predict_proba (fit (clone sklearn_model)
                     (map (transform scaler) train_rows) y_train)
                (transform scaler x) !! 1.

Definition test_value (sklearn_model : Estimator)
    (fold : list nat * list nat) (t : nat) : option Q :=
  train_rows ← Np.iloc train_X fold.1;
  y_train ← Np.iloc train_y fold.1;
  x ← test_X !! t;
  let scaler := scaler_fit train_rows in
  predict_proba (fit (clone sklearn_model)
                     (map (transform scaler) train_rows) y_train)
                (transform scaler x) !! 1.
End Harness.

End NeuralNetwork.
Module ForestCounts.
(** The integer entry of column [c] in row [r] of a frame. *)
Definition int_entry (df : Frame.t Pd.Series) (r : nat) (c : string)
  : option Z :=
  match Frame.get df c with
  | Some (Pd.Int64 v) => v !! r
  | _ => None
  end.

(** How many of the columns [names] hold 1 in row [r]. *)
Definition ones_in_row (df : Frame.t Pd.Series) (names : list string)
    (r : nat) : nat :=
  length (List.filter
            (fun c => bool_decide (int_entry df r c = Some 1%Z)) names).

(** The indicator columns of a frame: integer columns of zeros and
    ones, one entry a row. *)
Definition indicator_columns (df : Frame.t Pd.Series)
    (names : list string) : Prop :=
  ∀ c, c ∈ names →
    ∃ v, Frame.get df c = Some (Pd.Int64 v)
         ∧ length v = Frame.nrows df
         ∧ Forall (fun z => z = 0%Z ∨ z = 1%Z) v.
End ForestCounts.

(** ** Notebook "LightGBM Feature Engineering": feature selection

    The two selection steps handed to [score_lightgbm] as preprocessing:
    by feature importance, which builds new frames, and by mutual
    information, which drops columns of the frames it is given. *)

Module LgbmSelection.
Import LgbmFeatures.

Definition mem (c : string) (l : list string) : bool :=
  existsb (String.eqb c) l.

(** *** 1.1 Feature importance *)

(** [for score, col in zip(model.feature_importances_,
    train[features].columns): if score >= 3: good_columns.append(col)] *)
Fixpoint good_columns_loop (pairs : list (Q * string))
    (good_columns : list string) : list string :=
  match pairs with
  | [] => good_columns
  | (score, col) :: pairs' =>
      if Qle_bool 3 score
      then good_columns_loop pairs' (good_columns ++ [col])
      else good_columns_loop pairs' good_columns
  end.

Definition good_columns_of (feature_importances_ : list Q)
    (columns : list string) : list string :=
  good_columns_loop (zip feature_importances_ columns) [].

(** [X[names]] for a list of names: a new frame of the listed columns. *)
Definition getitem_list (r : Store.ref) (names : list string)
  : StatsM Store.ref :=
  fun h =>
    match h !! r with
    | Some df =>
        match Frame.select df names with
        | Ok l =>
            Ok (length h,
                h ++ [Frame.Make (Frame.nrows df) (zip names l)])
        | Raise e => Raise e
        | Unmodelled => Unmodelled
        end
    | None => Unmodelled
    end.

Section FeatureSelection.
(** The global [good_columns]. *)
Variable good_columns : list string.

Definition feature_selection_importance
    (X_train X_valid X_test : Store.ref)
  : StatsM (Store.ref * Store.ref * Store.ref) :=
  let! X_train := getitem_list X_train good_columns in
  let! X_valid := getitem_list X_valid good_columns in
  let! X_test := getitem_list X_test good_columns in
  Store.ret (X_train, X_valid, X_test).
End FeatureSelection.

(** *** 1.2 Mutual information *)

(** A frame without the columns [labels]. *)
Definition drop_columns (df : Frame.t Series) (labels : list string)
  : Frame.t Series :=
  Frame.Make (Frame.nrows df)
             (List.filter (fun p => negb (mem p.1 labels)) (Frame.cols df)).

Section RemoveUninformative.
Context {Y : Type}.
(** sklearn's [mutual_info_classif(X, y, discrete_features = ...)],
    and the text of the KeyError pandas raises for labels that are
    not columns. *)
Variable mutual_info_classif :
  Frame.t Series -> list Y -> list bool -> list Q.
Variable not_found_in_axis : list string -> string.

(** [df.drop(labels, axis = 1, inplace = True)] *)
Definition drop (r : Store.ref) (labels : list string) : StatsM unit :=
  fun h =>
    match h !! r with
    | Some df =>
        match List.filter
                (fun c => negb (mem c (Frame.columns df))) labels with
        | [] => Ok (tt, <[r := drop_columns df labels]> h)
        | missing => Raise (KeyError (not_found_in_axis missing))
        end
    | None => Unmodelled
    end.

(** [[X_train[x].dtype.name.startswith("int") for x in
    X_train.columns]] *)
Fixpoint dtype_flags (X_train : Store.ref) (columns : list string)
  : StatsM (list bool) :=
  match columns with
  | [] => Store.ret []
  | x :: columns' =>
      let! s := Store.getitem X_train x in
      let! flags := dtype_flags X_train columns' in
      Store.ret (name_starts_with_int (dtype_of s) :: flags)
  end.

(** [[x for i, x in enumerate(X_train.columns) if scores[i] == 0]] *)
Fixpoint zero_scored (columns : list string) (scores : list Q) (i : nat)
  : outcome (list string) :=
  match columns with
  | [] => Ok []
  | x :: columns' =>
      match scores !! i with
      | None => Raise IndexError
      | Some score =>
          match zero_scored columns' scores (S i) with
          | Ok cols => Ok (if Qeq_bool score 0 then x :: cols else cols)
          | Raise e => Raise e
          | Unmodelled => Unmodelled
          end
      end
  end.

Definition remove_uninformative (X_train X_valid X_test : Store.ref)
    (y_train : list Y) (verbose : bool)
  : StatsM (Store.ref * Store.ref * Store.ref) :=
  (* 0. categoricals *)
  let! columns := Store.columns X_train in
  let! binary_features := dtype_flags X_train columns in
  (* 1. Determine uninformative columns *)
  let! df := Store.read X_train in
  let scores := mutual_info_classif df y_train binary_features in
  let! columns := Store.columns X_train in
  let! cols := Store.lift (zero_scored columns scores 0) in
  (* 2. Drop the uninformative columns *)
  run! drop X_train cols in
  run! drop X_valid cols in
  run! drop X_test cols in
  (* [if verbose: print(...)] changes no frame *)
  Store.ret (X_train, X_valid, X_test).

(** The flags and the scores of a frame, and its columns of score
    zero. *)
Definition binary_flags (df : Frame.t Series) : list bool :=
  map (fun c => match Frame.get df c with
                | Some s => name_starts_with_int (dtype_of s)
                | None => false
                end) (Frame.columns df).

Definition scores_of (df : Frame.t Series) (y_train : list Y) : list Q :=
  mutual_info_classif df y_train (binary_flags df).

Definition uninformative (df : Frame.t Series) (y_train : list Y)
  : list string :=
  map fst (List.filter (fun p => Qeq_bool p.2 0)
                       (zip (Frame.columns df) (scores_of df y_train))).
End RemoveUninformative.

(** Frames of three rows for the examples. *)
Definition example_X : Frame.t Series :=
  Frame.Make 3
    [("f0", MkSeries float64 [Some 1; Some 2; Some 3]);
     ("f1", MkSeries int64 [Some 0; Some 1; Some 0]);
     ("f2", MkSeries float64 [Some 5; Some 5; Some 5])]%string%Q.

Definition example_X_short : Frame.t Series :=
  Frame.Make 3
    [("f0", MkSeries float64 [Some 1; Some 2; Some 3]);
     ("f1", MkSeries int64 [Some 0; Some 1; Some 0])]%string%Q.

Definition example_scores (df : Frame.t Series) (y : list nat)
    (flags : list bool) : list Q :=
  [1 # 2; 1 # 3; 0]%Q.

Definition example_message (missing : list string) : string :=
  String.concat ", " missing.
End LgbmSelection.

From stdpp Require Import pretty.

(** ** Notebook "LightGBM Feature Engineering": cluster distances

    The frames of this step carry their index: the harness hands over
    [train[features].iloc[train_idx].copy()], whose rows keep the labels
    they have in [train], and [DataFrame.join] matches rows by label. *)

Module ClusterDistances.
Import LgbmFeatures.

(** A frame: the index labels, the column names and the rows. *)
Record frame := Frame {
  index : list nat;
  columns : list string;
  data : list (list cell)
}.

(** A two-dimensional array: [shape[1]] and the rows. *)
Record ndarray := Ndarray {
  shape1 : nat;
  rows : list (list cell)
}.

Definition obind {A B} (o : outcome A) (k : A -> outcome B) : outcome B :=
  match o with
  | Ok a => k a
  | Raise e => Raise e
  | Unmodelled => Unmodelled
  end.

(** The position of a column name. *)
Fixpoint position (c : string) (columns : list string) : option nat :=
  match columns with
  | [] => None
  | k :: columns' =>
      if String.eqb c k then Some 0 else S <$> position c columns'
  end.

Fixpoint positions (columns names : list string) : outcome (list nat) :=
  match names with
  | [] => Ok []
  | c :: names' =>
      match position c columns with
      | None => Raise (KeyError c)
      | Some p => obind (positions columns names') (fun ps => Ok (p :: ps))
      end
  end.

(** [X[features]], as the rows handed to scikit-learn. *)
Definition getitem_list (X : frame) (features : list string)
  : outcome (list (list cell)) :=
  obind (positions (columns X) features) (fun ps =>
    Ok (map (fun row => map (fun p => default None (row !! p)) ps)
            (data X))).

(** [df.iloc[idx]]: the rows at the positions [idx], with their
    labels. *)
Definition iloc (df : frame) (idx : list nat) : option frame :=
  labels ← Np.iloc (index df) idx;
  rows ← Np.iloc (data df) idx;
  Some (Frame labels (columns df) rows).

(** [reset_index(drop = True)] *)
Definition reset_index (df : frame) : frame :=
  Frame (seq 0 (length (data df))) (columns df) (data df).

(** [[name + "_Centroid_" + str(i) for i in range(shape1)]] *)
Definition centroid_columns (name : string) (shape1 : nat) : list string :=
  map (fun i => (name ++ "_Centroid_" ++ pretty i)%string) (seq 0 shape1).

(** [pd.DataFrame(a, columns = names)]: the rows of the array under a
    fresh index 0, 1, ... *)
Definition DataFrame (a : ndarray) (names : list string) : frame :=
  Frame (seq 0 (length (rows a))) names (rows a).

(** The row of [right] under the label [i]. *)
Fixpoint loc (labels : list nat) (rows : list (list cell)) (i : nat)
  : option (list cell) :=
  match labels, rows with
  | l :: labels', row :: rows' =>
      if Nat.eqb l i then Some row else loc labels' rows' i
  | _, _ => None
  end.

(** [left.join(right)]: a left join on the index.  Every row of [left]
    is extended by the row of [right] that has its label, or by
    missing values when [right] has no such row.  Overlapping column
    names raise ValueError; a [right] whose labels repeat is not
    modelled. *)
Definition join (left right : frame) : outcome frame :=
  if existsb (fun c => LgbmSelection.mem c (columns left)) (columns right)
  then Unmodelled
  else if bool_decide (NoDup (index right)) then
    Ok (Frame (index left) (columns left ++ columns right)
              (zip_with
                 (fun i row =>
                    row ++ default (replicate (length (columns right)) None)
                                   (loc (index right) (data right) i))
                 (index left) (data left)))
  else Unmodelled.

Section GenerateClusterDistances.
Context {Scaler KMeans : Type}.
(** [StandardScaler().fit], [scaler.transform],
    [KMeans(n_clusters = 10, n_init = 10, random_state = 0).fit] and
    [kmeans.transform]. *)
Variable scaler_fit : list (list cell) -> Scaler.
Variable scaler_transform : Scaler -> list (list cell) -> list (list cell).
Variable kmeans_fit : list (list cell) -> KMeans.
Variable kmeans_transform : KMeans -> list (list cell) -> ndarray.

Definition generate_cluster_distances (X_train X_valid X_test : frame)
    (name : string) (features : list string) (scale : bool)
  : outcome (frame * frame * frame) :=
  (* 1. normalize based on training data *)
  obind (getitem_list X_train features) (fun train_rows =>
  obind (getitem_list X_valid features) (fun valid_rows =>
  obind (getitem_list X_test features) (fun test_rows =>
  let '(X_scaled, X_valid_scaled, X_test_scaled) :=
    if scale then
      let scaler := scaler_fit train_rows in
      (scaler_transform scaler train_rows,
       scaler_transform scaler valid_rows,
       scaler_transform scaler test_rows)
    else (train_rows, valid_rows, test_rows) in
  (* 2. generate cluster distances (use transform) *)
  let kmeans := kmeans_fit X_scaled in
  let X_cd := kmeans_transform kmeans X_scaled in
  let X_valid_cd := kmeans_transform kmeans X_valid_scaled in
  let X_test_cd := kmeans_transform kmeans X_test_scaled in
  (* 3. column labels *)
  let X_cd := DataFrame X_cd (centroid_columns name (shape1 X_cd)) in
  let X_valid_cd :=
    DataFrame X_valid_cd (centroid_columns name (shape1 X_valid_cd)) in
  let X_test_cd :=
    DataFrame X_test_cd (centroid_columns name (shape1 X_test_cd)) in
  obind (join X_train X_cd) (fun train_joined =>
  obind (join X_valid X_valid_cd) (fun valid_joined =>
  obind (join X_test X_test_cd) (fun test_joined =>
  Ok (train_joined, valid_joined, test_joined))))))).

(** [cluster_distance_features]; [corr_columns] are the columns of
    [train] without [id] and [target], sorted by the size of their
    correlation with the target. *)
Variable corr_columns : list string.

Definition cluster_distance_features {Y} (X_train X_valid X_test : frame)
    (y_train : list Y) : outcome (frame * frame * frame) :=
  let cols := take 15 corr_columns in
  generate_cluster_distances X_train X_valid X_test "Top15" cols true.

(** The array of distances the code computes for the training rows. *)
Definition train_distances (X_train : frame) (features : list string)
    (scale : bool) : outcome ndarray :=
  obind (getitem_list X_train features) (fun train_rows =>
    let X_scaled :=
      if scale then scaler_transform (scaler_fit train_rows) train_rows
      else train_rows in
    Ok (kmeans_transform (kmeans_fit X_scaled) X_scaled)).
End GenerateClusterDistances.

(** A training set of three rows, and its rows 1 and 2. *)
Definition example_train : frame :=
  Frame [0; 1; 2] ["f0"; "f1"]%string
        [[Some 1; Some 10]; [Some 2; Some 20]; [Some 3; Some 30]]%Q.

Definition example_distances (km : unit) (m : list (list cell)) : ndarray :=
  Ndarray 1 (map (fun row => [default None (row !! 0)]) m).
End ClusterDistances.

(** ** Notebook "Baselines"

    Both scoring functions cross-validate on three folds and return the
    mean of the fold scores. *)

Module Baselines.
Import LgbmFeatures.

Definition NUM_TREES : Z := 10000.
Definition EARLY_STOP : Z := 150.
Definition NUM_FOLDS : nat := 3.

(** *** The feature lists *)

Section Features.
Variable train : Frame.t Series.

(** [[x for x in train.columns if x not in ['id','target']]] *)
Definition features : list string :=
  List.filter (fun x => negb (LgbmSelection.mem x ["id"; "target"]%string))
              (Frame.columns train).

(** [[x for x in features if
    train[x].dtype.name.startswith("int")]] *)
Fixpoint lgbm_cat_features_of (features : list string)
  : outcome (list string) :=
  match features with
  | [] => Ok []
  | x :: features' =>
      match Frame.get train x with
      | None => Raise (KeyError x)
      | Some s =>
          match lgbm_cat_features_of features' with
          | Ok l =>
              Ok (if name_starts_with_int (dtype_of s) then x :: l else l)
          | Raise e => Raise e
          | Unmodelled => Unmodelled
          end
      end
  end.

(** [[train[x].dtype.name.startswith("int") for x in features]] *)
Fixpoint hist_cat_features_of (features : list string)
  : outcome (list bool) :=
  match features with
  | [] => Ok []
  | x :: features' =>
      match Frame.get train x with
      | None => Raise (KeyError x)
      | Some s =>
          match hist_cat_features_of features' with
          | Ok l => Ok (name_starts_with_int (dtype_of s) :: l)
          | Raise e => Raise e
          | Unmodelled => Unmodelled
          end
      end
  end.

Definition lgbm_cat_features : outcome (list string) :=
  lgbm_cat_features_of features.
Definition hist_cat_features : outcome (list bool) :=
  hist_cat_features_of features.
End Features.

(** *** The scoring functions *)

Section Harness.
Context {X Y Model : Type} `{arith : !FloatArith}.
(** [train[features]], [train['target']] and the fold labels of
    [skf.split(train, train['target'])]. *)
Variable train_X : list X.
Variable train_y : list Y.
Variable test_folds : list nat.
(** [LGBMClassifier(n_estimators).fit(X, y, eval_set,
    early_stopping_rounds, categorical_feature)] and
    [HistGradientBoostingClassifier(max_iter, n_iter_no_change,
    categorical_features).fit(X, y)]. *)
Variable lgbm_fit :
  Z -> list X -> list Y -> list X * list Y -> Z -> list string -> Model.
Variable hist_fit : Z -> Z -> list bool -> list X -> list Y -> Model.
Variable predict_proba : Model -> X -> list Q.
Variable roc_auc_score : list Y -> list Q -> Q.
Variable lgbm_cat : list string.
Variable hist_cat : list bool.
(** [round(end - start, 2)], read off the clock. *)
Variable elapsed : Q.

Definition fold_body
    (fit : list X -> list Y -> list X * list Y -> Model)
    (scores : list Q) (it : nat * (list nat * list nat))
  : option (list Q) :=
  let '(fold, (train_idx, valid_idx)) := it in
  X_train ← Np.iloc train_X train_idx;
  y_train ← Np.iloc train_y train_idx;
  X_valid ← Np.iloc train_X valid_idx;
  y_valid ← Np.iloc train_y valid_idx;
  let model := fit X_train y_train (X_valid, y_valid) in
  valid_preds ← column1 (map (predict_proba model) X_valid);
  set_item scores fold (roc_auc_score y_valid valid_preds).

Definition folds : list (nat * (list nat * list nat)) :=
  Np.enumerate (KFold.split NUM_FOLDS test_folds).

Definition lightgbm_model (X_train : list X) (y_train : list Y)
    (eval_set : list X * list Y) : Model :=
  lgbm_fit NUM_TREES X_train y_train eval_set EARLY_STOP lgbm_cat.

Definition histgbm_model (X_train : list X) (y_train : list Y)
    (eval_set : list X * list Y) : Model :=
  hist_fit NUM_TREES EARLY_STOP hist_cat X_train y_train.

Definition score_lightgbm : option (Q * Q) :=
  scores ← for_each (fold_body lightgbm_model) folds
                    (Np.zeros NUM_FOLDS);
  Some (Np.mean scores, elapsed).

Definition score_histgbm : option (Q * Q) :=
  scores ← for_each (fold_body histgbm_model) folds
                    (Np.zeros NUM_FOLDS);
  Some (Np.mean scores, elapsed).

(** The score of fold [f]: the AUC, on the validation rows of the
    fold, of the model fitted on its training rows. *)
Definition fold_auc (fit : list X -> list Y -> list X * list Y -> Model)
    (f : nat) : Q :=
  let X_train := rows train_X (train_idx_of test_folds f) in
  let y_train := rows train_y (train_idx_of test_folds f) in
  let X_valid := rows train_X (valid_idx_of test_folds f) in
  let y_valid := rows train_y (valid_idx_of test_folds f) in
  let model := fit X_train y_train (X_valid, y_valid) in
  roc_auc_score y_valid
    (default [] (column1 (map (predict_proba model) X_valid))).
End Harness.
End Baselines.

(** ** Notebook "Tweaking Class Probabilities": the class
    [FourResolutions]

    One model a resolution: the rows are told apart by the greatest
    common divisor of their histogram counts, and each row is handed to
    the model of its resolution. *)

Module FourResolutions.

(** A two-dimensional array: [shape[1]] and the rows. *)
Record ndarray := Ndarray {
  shape1 : nat;
  values : list (list Q)
}.

(** [np.zeros((n, w))] *)
Definition zeros (n w : nat) : ndarray :=
  Ndarray w (replicate n (replicate w 0%Q)).

(** The rows of [vals] under numpy's broadcasting to the shape
    [(count, width)]: an axis of length one is stretched, another
    mismatch raises ValueError. *)
Definition broadcast_to (count width : nat) (vals : ndarray)
  : option (list (list Q)) :=
  stretched ←
    (if decide (length (values vals) = count) then Some (values vals)
     else match values vals with
          | [row] => Some (replicate count row)
          | _ => None
          end);
  if decide (shape1 vals = width) then Some stretched
  else if decide (shape1 vals = 1)
       then Some (map (fun row => replicate width (default 0%Q (row !! 0)))
                      stretched)
       else None.

(** [temp[mask] = vals] for a boolean mask over the rows. *)
Definition setitem_mask (temp : ndarray) (mask : list bool) (vals : ndarray)
  : option ndarray :=
  if decide (length mask = length (values temp)) then
    vals' ← broadcast_to (length (Np.flatnonzero mask)) (shape1 temp) vals;
    rows' ← Np.put (values temp) (Np.flatnonzero mask) vals';
    Some (Ndarray (shape1 temp) rows')
  else None.

(** The masks [self.gcd1], ..., [self.gcd4]. *)
Record masks := Masks {
  gcd1 : list bool;
  gcd2 : list bool;
  gcd3 : list bool;
  gcd4 : list bool
}.

(** The method [gcd_of_all]: the row-wise greatest common divisor over
    all columns of [df_i], compared with 1, 10, 1000 and 10000. *)
Definition gcd_of_all (df_i : Frame.t (list Z)) : option masks :=
  match ClassProbabilities.gcd_of_all (Frame.columns df_i) df_i with
  | Ok gcd =>
      Some (Masks (map (fun z => Z.eqb z 1) gcd)
                  (map (fun z => Z.eqb z 10) gcd)
                  (map (fun z => Z.eqb z 1000) gcd)
                  (map (fun z => Z.eqb z 10000) gcd))
  | _ => None
  end.

Section Class.
Context {X Y W Estimator Model : Type} `{EqDecision Y}.
(** [clone], the [fit] and [predict_proba] of the base estimator, on
    rows, and the method [get_histograms], which turns the rows into
    a frame of integer counts. *)
Variable clone : Estimator -> Estimator.
Variable base_fit :
  Estimator -> list X -> list Y -> option (list W) -> option Model.
Variable base_predict_proba : Model -> list X -> option ndarray.
Variable get_histograms : list X -> option (Frame.t (list Z)).

(** The attributes [fit] sets. *)
Record fitted := Fitted {
  model1 : Model;
  model2 : Model;
  model3 : Model;
  model4 : Model;
  num_labels : nat
}.

Definition fit (base_estimator : Estimator) (X_ : list X) (y : list Y)
    (sample_weight : option (list W)) : option fitted :=
  (* self.clone_models() *)
  let m1 := clone base_estimator in
  let m2 := clone base_estimator in
  let m3 := clone base_estimator in
  let m4 := clone base_estimator in
  temp ← get_histograms X_;
  g ← gcd_of_all temp;
  let num_labels := length (remove_dups y) in
  match sample_weight with
  | Some sample_weight =>
      X1 ← Stacking.mask_rows X_ (gcd1 g);
      y1 ← Stacking.mask_rows y (gcd1 g);
      w1 ← Stacking.mask_rows sample_weight (gcd1 g);
      model1 ← base_fit m1 X1 y1 (Some w1);
      X2 ← Stacking.mask_rows X_ (gcd2 g);
      y2 ← Stacking.mask_rows y (gcd2 g);
      w2 ← Stacking.mask_rows sample_weight (gcd2 g);
      model2 ← base_fit m2 X2 y2 (Some w2);
      X3 ← Stacking.mask_rows X_ (gcd3 g);
      y3 ← Stacking.mask_rows y (gcd3 g);
      w3 ← Stacking.mask_rows sample_weight (gcd3 g);
      model3 ← base_fit m3 X3 y3 (Some w3);
      X4 ← Stacking.mask_rows X_ (gcd4 g);
      y4 ← Stacking.mask_rows y (gcd4 g);
      w4 ← Stacking.mask_rows sample_weight (gcd4 g);
      model4 ← base_fit m4 X4 y4 (Some w4);
      Some (Fitted model1 model2 model3 model4 num_labels)
  | None =>
      X1 ← Stacking.mask_rows X_ (gcd1 g);
      y1 ← Stacking.mask_rows y (gcd1 g);
      model1 ← base_fit m1 X1 y1 None;
      X2 ← Stacking.mask_rows X_ (gcd2 g);
      y2 ← Stacking.mask_rows y (gcd2 g);
      model2 ← base_fit m2 X2 y2 None;
      X3 ← Stacking.mask_rows X_ (gcd3 g);
      y3 ← Stacking.mask_rows y (gcd3 g);
      model3 ← base_fit m3 X3 y3 None;
      X4 ← Stacking.mask_rows X_ (gcd4 g);
      y4 ← Stacking.mask_rows y (gcd4 g);
      model4 ← base_fit m4 X4 y4 None;
      Some (Fitted model1 model2 model3 model4 num_labels)
  end.

Definition predict_proba (self : fitted) (X_ : list X) : option ndarray :=
  temp ← get_histograms X_;
  g ← gcd_of_all temp;
  let temp := zeros (length X_) (num_labels self) in
  X1 ← Stacking.mask_rows X_ (gcd1 g);
  p1 ← base_predict_proba (model1 self) X1;
  temp ← setitem_mask temp (gcd1 g) p1;
  X2 ← Stacking.mask_rows X_ (gcd2 g);
  p2 ← base_predict_proba (model2 self) X2;
  temp ← setitem_mask temp (gcd2 g) p2;
  X3 ← Stacking.mask_rows X_ (gcd3 g);
  p3 ← base_predict_proba (model3 self) X3;
  temp ← setitem_mask temp (gcd3 g) p3;
  X4 ← Stacking.mask_rows X_ (gcd4 g);
  p4 ← base_predict_proba (model4 self) X4;
  temp ← setitem_mask temp (gcd4 g) p4;
  Some temp.

(** The resolutions and their models. *)
Definition resolutions (self : fitted) : list (Z * Model) :=
  [(1, model1 self); (10, model2 self); (1000, model3 self);
   (10000, model4 self)]%Z.
End Class.

(** The positions of the rows whose greatest common divisor is [c],
    and these rows. *)
Definition positions_of_gcd (gcd : list Z) (c : Z) : list nat :=
  Np.flatnonzero (map (fun z => Z.eqb z c) gcd).

Definition rows_of_gcd {A} (X_ : list A) (gcd : list Z) (c : Z) : list A :=
  rows X_ (positions_of_gcd gcd c).

(** An example: a row is its only count; every model predicts
    one half for each of two classes. *)
Definition example_histograms (X_ : list Z) : option (Frame.t (list Z)) :=
  Some (Frame.Make (length X_) [("A0T0G0C10"%string, X_)]).

Definition example_predict_proba (m : unit) (X_ : list Z) : option ndarray :=
  Some (Ndarray 2 (map (fun _ => [1 # 2; 1 # 2]%Q) X_)).
End FourResolutions.

(** ** Notebooks "Handling Noisy Labels" and "Neural Network Baseline":
    the statistics of skewed and bimodal features

    The cell splits the features by the skew of their training column
    and adds eight row statistics to [train] and to [test], in place. *)

Module SkewStatistics.
Import LgbmFeatures.

(** [skew >= 2] and [skew < 2]; a comparison with NaN is false. *)
Definition high_skew (skew : cell) : bool :=
  match skew with
  | Some q => Qle_bool 2 q
  | None => false
  end.

Definition low_skew (skew : cell) : bool :=
  match skew with
  | Some q => negb (Qle_bool 2 q)
  | None => false
  end.

Section Cell.
Context `{arith : !FloatArith}.
(** pandas' [skew] of a column; [mean], [var], [std] and [skew] of a
    row; and the dtype of a reduction that keeps the dtype of its
    columns. *)
Variable col_skew : Series -> cell.
Variable row_mean : list cell -> cell.
Variable row_var : list cell -> cell.
Variable row_std : list cell -> cell.
Variable row_skew : list cell -> cell.
Variable common_dtype : list Series -> dtype.

(** [train[features].loc[:, test(train[features].skew())].columns] *)
Definition skewed (train : Store.ref) (features : list string)
    (test : cell -> bool) : StatsM (list string) :=
  let! frame := Store.getitems train features in
  let! cols := Store.getitems train features in
  let mask := map (fun s => test (col_skew s)) cols in
  Store.ret (map fst (List.filter snd (zip features mask))).

(** [df[name] = df[cols].f(axis=1)] *)
Definition add_stat (df : Store.ref) (name : string)
    (dtype_of_result : list Series -> dtype) (f : list cell -> cell)
    (cols : list string) : StatsM unit :=
  let! sel := Store.getitems df cols in
  let! n := Store.nrows df in
  Store.setitem df name (MkSeries (dtype_of_result sel) (axis1 f n sel)).

Definition float_result (sel : list Series) : dtype := float64.

Definition skew_statistics (train test : Store.ref)
    (features : list string) : StatsM (list string) :=
  let! h_skew := skewed train features high_skew in
  let! l_skew := skewed train features low_skew in
  (* Skewed distributions *)
  run! add_stat train "median_h" float_result row_median h_skew in
  run! add_stat test "median_h" float_result row_median h_skew in
  run! add_stat train "var_h" float_result row_var h_skew in
  run! add_stat test "var_h" float_result row_var h_skew in
  (* Bimodal distributions *)
  run! add_stat train "mean_l" float_result row_mean l_skew in
  run! add_stat test "mean_l" float_result row_mean l_skew in
  run! add_stat train "std_l" float_result row_std l_skew in
  run! add_stat test "std_l" float_result row_std l_skew in
  run! add_stat train "median_l" float_result row_median l_skew in
  run! add_stat test "median_l" float_result row_median l_skew in
  run! add_stat train "skew_l" float_result row_skew l_skew in
  run! add_stat test "skew_l" float_result row_skew l_skew in
  run! add_stat train "max_l" common_dtype row_max l_skew in
  run! add_stat test "max_l" common_dtype row_max l_skew in
  run! add_stat train "var_l" float_result row_var l_skew in
  run! add_stat test "var_l" float_result row_var l_skew in
  (* Update feature columns *)
  let! columns := Store.columns train in
  Store.ret (List.filter
               (fun x => negb (LgbmSelection.mem x ["id"; "target"]%string))
               columns).

(** The columns a frame holds under the names [names], the features
    of high and of low skew of a training frame, and the eight
    statistics: name, dtype, row function, and whether it is taken
    over the features of high skew. *)
Definition selected (df : Frame.t Series) (names : list string)
  : list Series :=
  match Frame.select df names with
  | Ok l => l
  | _ => []
  end.

Definition skewed_of (train : Frame.t Series) (features : list string)
    (test : cell -> bool) : list string :=
  List.filter (fun c => match Frame.get train c with
                        | Some s => test (col_skew s)
                        | None => false
                        end) features.

Definition statistics
  : list (string * (list Series -> dtype) * (list cell -> cell) * bool) :=
  [("median_h", float_result, row_median, true);
   ("var_h", float_result, row_var, true);
   ("mean_l", float_result, row_mean, false);
   ("std_l", float_result, row_std, false);
   ("median_l", float_result, row_median, false);
   ("skew_l", float_result, row_skew, false);
   ("max_l", common_dtype, row_max, false);
   ("var_l", float_result, row_var, false)]%string.

Definition statistic_names : list string :=
  map (fun s => s.1.1.1) statistics.
End Cell.

(** A frame with one more statistic: the column [name] holds the row
    function [f] of the columns [cols]. *)
Definition stat_of (df : Frame.t Series) (dty : list Series -> dtype)
    (f : list cell -> cell) (cols : list string) : Series :=
  MkSeries (dty (selected df cols))
           (axis1 f (Frame.nrows df) (selected df cols)).

Definition with_stat (df : Frame.t Series)
    (st : string * (list Series -> dtype) * (list cell -> cell)
          * list string) : Frame.t Series :=
  Frame.set df st.1.1.1 (stat_of df st.1.1.2 st.1.2 st.2).

(** Frames of two rows for the example. *)
Definition example_train : Frame.t Series :=
  Frame.Make 2
    [("id", MkSeries int64 [Some 0; Some 1]);
     ("f0", MkSeries float64 [Some 1; Some 3]);
     ("f1", MkSeries float64 [Some 2; Some 2]);
     ("target", MkSeries int64 [Some 0; Some 1])]%string%Q.

Definition example_test : Frame.t Series :=
  Frame.Make 2
    [("id", MkSeries int64 [Some 2; Some 3]);
     ("f0", MkSeries float64 [Some 5; Some 7]);
     ("f1", MkSeries float64 [Some 6; Some 6])]%string%Q.

(** A column is taken to be skewed when its first value is 1. *)
Definition example_skew (s : Series) : cell :=
  match values s with
  | Some q :: _ => if Qeq_bool q 1 then Some 3%Q else Some 0%Q
  | _ => None
  end.
End SkewStatistics.

(** * Properties *)

Lemma lookup_map {A B} (f : A → B) (l : list A) (i : nat) :
  map f l !! i = f <$> (l !! i).
Proof. apply list_lookup_fmap. Qed.

Lemma bind_Some {A B} (x : A) (f : A → option B) : (Some x ≫= f) = f x.
Proof. reflexivity. Qed.

(** ** The splitter *)

Section KFoldFacts.
Implicit Types (mask : list bool) (test_folds : list nat).

Lemma elem_of_flatnonzero mask i :
  i ∈ Np.flatnonzero mask ↔ mask !! i = Some true.
Proof.
  unfold Np.flatnonzero. rewrite list_elem_of_filter, elem_of_seq.
  split; [tauto|]. intros H. split; [done|].
  apply lookup_lt_Some in H. lia.
Qed.

Lemma NoDup_flatnonzero mask : NoDup (Np.flatnonzero mask).
Proof. apply NoDup_filter, NoDup_seq. Qed.

Lemma flatnonzero_lt mask i : i ∈ Np.flatnonzero mask → i < length mask.
Proof. rewrite elem_of_flatnonzero. apply lookup_lt_Some. Qed.

Lemma test_mask_lookup test_folds f i :
  KFold.test_mask test_folds f !! i = Some true ↔ test_folds !! i = Some f.
Proof.
  unfold KFold.test_mask. rewrite list_lookup_fmap.
  destruct (test_folds !! i) as [g|]; simpl; [|split; discriminate].
  split; intros H.
  - injection H as H. apply Nat.eqb_eq in H. congruence.
  - injection H as ->. by rewrite Nat.eqb_refl.
Qed.

Lemma train_mask_lookup test_folds f i :
  (negb <$> KFold.test_mask test_folds f) !! i = Some true ↔
  ∃ g, test_folds !! i = Some g ∧ g ≠ f.
Proof.
  unfold KFold.test_mask. rewrite !list_lookup_fmap.
  destruct (test_folds !! i) as [g|]; simpl.
  - split.
    + intros H. injection H as H. apply negb_true_iff, Nat.eqb_neq in H.
      exists g. split; [done|congruence].
    + intros (g' & [= <-] & Hne). f_equal.
      apply negb_true_iff, Nat.eqb_neq. congruence.
  - split; [discriminate|]. by intros (g & ? & _).
Qed.

Lemma split_lookup n_splits test_folds f tr va :
  KFold.split n_splits test_folds !! f = Some (tr, va) ↔
  f < n_splits ∧
  tr = Np.flatnonzero (negb <$> KFold.test_mask test_folds f) ∧
  va = Np.flatnonzero (KFold.test_mask test_folds f).
Proof.
  unfold KFold.split. rewrite list_lookup_fmap.
  destruct (decide (f < n_splits)) as [Hlt|Hge].
  - rewrite lookup_seq_lt by done. simpl. split.
    + intros [= <- <-]. done.
    + intros (_ & -> & ->). done.
  - rewrite lookup_seq_ge by lia. simpl. split; [discriminate|]. tauto.
Qed.

Lemma split_length n_splits test_folds :
  length (KFold.split n_splits test_folds) = n_splits.
Proof. unfold KFold.split. by rewrite length_map, length_seq. Qed.

Lemma split_valid_elem n_splits test_folds f tr va i :
  KFold.split n_splits test_folds !! f = Some (tr, va) →
  i ∈ va ↔ test_folds !! i = Some f.
Proof.
  intros (_ & _ & ->)%split_lookup.
  by rewrite elem_of_flatnonzero, test_mask_lookup.
Qed.

Lemma split_train_elem n_splits test_folds f tr va i :
  KFold.split n_splits test_folds !! f = Some (tr, va) →
  i ∈ tr ↔ ∃ g, test_folds !! i = Some g ∧ g ≠ f.
Proof.
  intros (_ & -> & _)%split_lookup.
  by rewrite elem_of_flatnonzero, train_mask_lookup.
Qed.

Lemma split_train_valid_disjoint n_splits test_folds f tr va i :
  KFold.split n_splits test_folds !! f = Some (tr, va) →
  i ∈ va → i ∉ tr.
Proof.
  intros Hs Hva Htr.
  rewrite (split_valid_elem _ _ _ _ _ _ Hs) in Hva.
  rewrite (split_train_elem _ _ _ _ _ _ Hs) in Htr.
  destruct Htr as (g & Hg & Hne). congruence.
Qed.

Lemma split_idx_lt n_splits test_folds f tr va :
  KFold.split n_splits test_folds !! f = Some (tr, va) →
  Forall (fun i => i < length test_folds) tr ∧
  Forall (fun i => i < length test_folds) va.
Proof.
  intros (_ & -> & ->)%split_lookup. split; apply Forall_forall; intros i Hi;
    apply flatnonzero_lt in Hi; unfold KFold.test_mask in Hi;
    by rewrite ?length_fmap, ?length_map in Hi.
Qed.

Lemma split_NoDup n_splits test_folds f tr va :
  KFold.split n_splits test_folds !! f = Some (tr, va) →
  NoDup tr ∧ NoDup va.
Proof.
  intros (_ & -> & ->)%split_lookup. split; apply NoDup_flatnonzero.
Qed.

Lemma valid_sets_lookup n_splits test_folds f va :
  KFold.valid_sets n_splits test_folds !! f = Some va ↔
  ∃ tr, KFold.split n_splits test_folds !! f = Some (tr, va).
Proof.
  unfold KFold.valid_sets. rewrite list_lookup_fmap. split.
  - destruct (KFold.split n_splits test_folds !! f) as [[tr va']|]; simpl;
      [|discriminate]. intros [= <-]. by exists tr.
  - intros (tr & ->). done.
Qed.

End KFoldFacts.

(** ** Loops and array stores *)

Section LoopFacts.
Context {S A : Type} (body : S → nat * A → option S).

Lemma for_each_seq_ind (P : nat → S → Prop) (xs : list A) (j : nat) st0 :
  P j st0 →
  (∀ k x st, xs !! k = Some x → P (j + k) st →
     ∃ st', body st (j + k, x) = Some st' ∧ P (Datatypes.S (j + k)) st') →
  ∃ st, for_each body (zip (seq j (length xs)) xs) st0 = Some st
        ∧ P (j + length xs) st.
Proof.
  revert j st0. induction xs as [|x xs IH]; intros j st0 H0 Hstep; simpl.
  - exists st0. by rewrite Nat.add_0_r.
  - destruct (Hstep 0 x st0) as (st1 & Hb & H1); [done|by rewrite Nat.add_0_r|].
    rewrite Nat.add_0_r in Hb, H1. rewrite Hb. simpl.
    destruct (IH (Datatypes.S j) st1 H1) as (st & Hst & HP).
    + intros k y st Hk HPk.
      replace (Datatypes.S j + k) with (j + Datatypes.S k) in * by lia.
      by apply Hstep.
    + exists st. split; [done|].
      by replace (j + Datatypes.S (length xs)) with (Datatypes.S j + length xs) by lia.
Qed.

Lemma for_each_enumerate_ind (P : nat → S → Prop) (xs : list A) st0 :
  P 0 st0 →
  (∀ k x st, xs !! k = Some x → P k st →
     ∃ st', body st (k, x) = Some st' ∧ P (Datatypes.S k) st') →
  ∃ st, for_each body (Np.enumerate xs) st0 = Some st ∧ P (length xs) st.
Proof.
  intros H0 Hstep. apply (for_each_seq_ind P xs 0 st0 H0).
  intros k x st Hk HP. simpl in *. by apply Hstep.
Qed.
End LoopFacts.

Section ArrayFacts.
Context {A : Type}.
Implicit Types (arr vals : list A) (idx : list nat).

Lemma iloc_is_Some (df : list A) idx :
  Forall (fun i => i < length df) idx → is_Some (Np.iloc df idx).
Proof.
  unfold Np.iloc. induction 1 as [|i idx Hi _ IH]; [by eexists|].
  apply lookup_lt_is_Some_2 in Hi as [x Hx]. destruct IH as [l Hl].
  exists (x :: l). apply mapM_Some. constructor; [done|]. by apply mapM_Some.
Qed.

Lemma iloc_length (df : list A) idx l :
  Np.iloc df idx = Some l → length l = length idx.
Proof. intros H%mapM_Some. symmetry. by eapply Forall2_length. Qed.

Lemma iloc_lookup (df : list A) idx l j i :
  Np.iloc df idx = Some l → idx !! j = Some i → l !! j = df !! i.
Proof.
  intros H%mapM_Some Hj.
  destruct (Forall2_lookup_l _ _ _ _ _ H Hj) as (x & Hx & Hdf). congruence.
Qed.

Lemma put_spec arr idx vals :
  Forall (fun i => i < length arr) idx → length vals = length idx →
  NoDup idx →
  ∃ arr', Np.put arr idx vals = Some arr'
    ∧ length arr' = length arr
    ∧ (∀ i, i ∉ idx → arr' !! i = arr !! i)
    ∧ (∀ j i, idx !! j = Some i → arr' !! i = vals !! j).
Proof.
  revert arr vals. induction idx as [|i idx IH]; intros arr vals Hlt Hlen Hnd.
  - destruct vals; [|done]. exists arr. by split_and!.
  - destruct vals as [|v vals]; [done|]. simpl.
    apply Forall_cons in Hlt as [Hi Hlt]. apply NoDup_cons in Hnd as [Hni Hnd].
    rewrite decide_True by done.
    destruct (IH (<[i:=v]> arr) vals) as (arr' & Hput & Hl & Hout & Hin).
    { by rewrite length_insert. } { simpl in Hlen. lia. } { done. }
    exists arr'. split; [done|]. rewrite length_insert in Hl.
    split; [done|]. split.
    + intros i' Hi'. apply not_elem_of_cons in Hi' as [Hne Hi'].
      rewrite Hout by done. by apply list_lookup_insert_ne.
    + intros [|j] i' Hj; simpl in Hj.
      * injection Hj as <-. rewrite Hout by done. simpl.
        by apply list_lookup_insert_eq.
      * simpl. by apply Hin.
Qed.
End ArrayFacts.

Section FoldFacts.
Variable test_folds : list nat.
Implicit Types (vals : nat → list Q) (a : oof_array).

Lemma split_lookup_lt n_splits f :
  f < n_splits →
  KFold.split n_splits test_folds !! f
  = Some (train_idx_of test_folds f, valid_idx_of test_folds f).
Proof. intros Hf. by apply split_lookup. Qed.

Lemma split_lookup_inv n_splits f tr va :
  KFold.split n_splits test_folds !! f = Some (tr, va) →
  f < n_splits ∧ tr = train_idx_of test_folds f
  ∧ va = valid_idx_of test_folds f.
Proof. by intros ?%split_lookup. Qed.

Lemma valid_idx_of_elem f i :
  i ∈ valid_idx_of test_folds f ↔ test_folds !! i = Some f.
Proof.
  unfold valid_idx_of. by rewrite elem_of_flatnonzero, test_mask_lookup.
Qed.

Lemma train_idx_of_elem f i :
  i ∈ train_idx_of test_folds f ↔ ∃ g, test_folds !! i = Some g ∧ g ≠ f.
Proof.
  unfold train_idx_of. rewrite elem_of_flatnonzero.
  apply train_mask_lookup.
Qed.

Lemma valid_idx_of_lt f :
  Forall (fun i => i < length test_folds) (valid_idx_of test_folds f).
Proof.
  apply Forall_forall. intros i Hi%valid_idx_of_elem.
  by apply lookup_lt_Some in Hi.
Qed.

Lemma train_idx_of_lt f :
  Forall (fun i => i < length test_folds) (train_idx_of test_folds f).
Proof.
  apply Forall_forall. intros i (g & Hg & _)%train_idx_of_elem.
  by apply lookup_lt_Some in Hg.
Qed.

Lemma valid_idx_of_NoDup f : NoDup (valid_idx_of test_folds f).
Proof. apply NoDup_flatnonzero. Qed.

Lemma iloc_valid_is_Some {A} (df : list A) f :
  length df = length test_folds →
  is_Some (Np.iloc df (valid_idx_of test_folds f)).
Proof. intros Hl. apply iloc_is_Some. rewrite Hl. apply valid_idx_of_lt. Qed.

Lemma iloc_train_is_Some {A} (df : list A) f :
  length df = length test_folds →
  is_Some (Np.iloc df (train_idx_of test_folds f)).
Proof. intros Hl. apply iloc_is_Some. rewrite Hl. apply train_idx_of_lt. Qed.

Lemma oof_after_0 vals : oof_after test_folds vals 0 (oof_zeros (length test_folds)).
Proof.
  split_and!; simpl; [apply length_replicate|done|]. intros; lia.
Qed.

Lemma oof_after_step vals k a :
  oof_after test_folds vals k a →
  length (vals k) = length (valid_idx_of test_folds k) →
  ∃ a', oof_put a k (valid_idx_of test_folds k) (vals k) = Some a'
        ∧ oof_after test_folds vals (S k) a'.
Proof.
  intros (Hlen & Hw & Hv) Hvals.
  destruct (put_spec (oof_values a) (valid_idx_of test_folds k) (vals k))
    as (arr' & Hput & Hl & Hout & Hin).
  { rewrite Hlen. apply valid_idx_of_lt. } { done. }
  { apply valid_idx_of_NoDup. }
  unfold oof_put. rewrite Hput. simpl. eexists. split; [done|].
  split_and!; cbn [oof_writes oof_values].
  - congruence.
  - rewrite Hw, seq_S, flat_map_app. simpl. by rewrite app_nil_r.
  - intros i f Hi Hf. destruct (decide (f = k)) as [->|Hne].
    + apply valid_idx_of_elem, list_elem_of_lookup in Hi as [j Hj].
      exists j. split; [done|]. by apply Hin.
    + destruct (Hv i f Hi) as (j & Hj & Hval); [lia|].
      exists j. split; [done|]. rewrite Hout; [done|].
      rewrite valid_idx_of_elem. congruence.
Qed.

Lemma filter_snd_pair (g i : nat) (l : list nat) :
  NoDup l →
  filter (fun w : nat * nat => w.2 = i) (map (pair g) l)
  = if decide (i ∈ l) then [(g, i)] else [].
Proof.
  induction 1 as [|x l Hx Hnd IH]; [done|].
  simpl. rewrite filter_cons. simpl. rewrite IH.
  destruct (decide (x = i)) as [->|Hne].
  - rewrite decide_False by done. rewrite decide_True by left. done.
  - destruct (decide (i ∈ l)) as [Hin|Hin].
    + rewrite decide_True by (by right). done.
    + rewrite decide_False; [done|].
      intros [?|?]%elem_of_cons; [congruence|done].
Qed.

(** Row [i], labelled [f], is stored once, by fold [f]. *)
Lemma writes_of_row k i f :
  test_folds !! i = Some f →
  filter (fun w : nat * nat => w.2 = i)
    (flat_map (fun g => map (pair g) (valid_idx_of test_folds g)) (seq 0 k))
  = if decide (f < k) then [(f, i)] else [].
Proof.
  intros Hi. induction k as [|k IH]; [done|].
  rewrite seq_S, flat_map_app, filter_app, IH. simpl.
  rewrite app_nil_r, filter_snd_pair by apply valid_idx_of_NoDup.
  destruct (decide (i ∈ valid_idx_of test_folds k)) as [Hin|Hin].
  - apply valid_idx_of_elem in Hin. assert (f = k) as -> by congruence.
    rewrite decide_False by lia. rewrite decide_True by lia. done.
  - rewrite valid_idx_of_elem in Hin. rewrite app_nil_r.
    destruct (decide (f < k)).
    + rewrite decide_True by lia. done.
    + rewrite decide_False; [done|]. intros Hlt.
      assert (f = k) as -> by lia. done.
Qed.

End FoldFacts.

(** ** Accumulators *)

Section AccumulatorFacts.
Context `{arith : !FloatArith}.
Implicit Types (contrib : nat → list Q) (init : list Q).

Lemma vsum_length contrib k init :
  (∀ f, f < k → length (contrib f) = length init) →
  length (vsum contrib k init) = length init.
Proof.
  induction k as [|k IH]; intros H; simpl; [done|].
  rewrite length_zip_with, IH, H by (intros; try apply H; lia). lia.
Qed.

Lemma vadd_vsum contrib k init :
  (∀ f, f < S k → length (contrib f) = length init) →
  Np.vadd (vsum contrib k init) (contrib k)
  = Some (vsum contrib (S k) init).
Proof.
  intros H. unfold Np.vadd.
  rewrite decide_True; [done|].
  rewrite vsum_length, H by (intros; try apply H; lia). done.
Qed.

Lemma vsum_lookup contrib k init t (c : nat → Q) q0 :
  init !! t = Some q0 →
  (∀ f, f < k → contrib f !! t = Some (c f)) →
  vsum contrib k init !! t = Some (fold_left float_add (map c (seq 0 k)) q0).
Proof.
  intros H0. induction k as [|k IH]; intros Hc; [done|].
  simpl vsum. rewrite lookup_zip_with, IH, Hc by (intros; try apply Hc; lia).
  rewrite seq_S, map_app, fold_left_app. done.
Qed.

Lemma vsum_ext contrib contrib' k init :
  (∀ f, f < k → contrib f = contrib' f) →
  vsum contrib k init = vsum contrib' k init.
Proof.
  induction k as [|k IH]; intros H; [done|].
  simpl. rewrite IH, H by (intros; try apply H; lia). done.
Qed.

Lemma madd_Some (a b : list (list Q)) :
  Forall2 (fun r s => length r = length s) a b →
  Np.madd a b = Some (zip_with (zip_with float_add) a b).
Proof.
  induction 1 as [|r s a b Hrs _ IH]; [done|].
  simpl. unfold Np.vadd. rewrite decide_True by done. simpl.
  by rewrite IH.
Qed.

Lemma msum_length (contrib : nat → list (list Q)) k (init : list (list Q)) :
  (∀ f, f < k → length (contrib f) = length init) →
  length (msum contrib k init) = length init.
Proof.
  induction k as [|k IH]; intros H; simpl; [done|].
  rewrite length_zip_with, IH, H by (intros; try apply H; lia). lia.
Qed.

Lemma msum_lookup (contrib : nat → list (list Q)) k
    (init : list (list Q)) t (cr : nat → list Q) r0 :
  init !! t = Some r0 →
  (∀ f, f < k → contrib f !! t = Some (cr f)) →
  msum contrib k init !! t = Some (vsum cr k r0).
Proof.
  intros H0. induction k as [|k IH]; intros Hc; [done|].
  simpl. by rewrite lookup_zip_with, IH, Hc by (intros; try apply Hc; lia).
Qed.

Lemma madd_msum (contrib : nat → list (list Q)) k
    (init : list (list Q)) (w : nat) :
  Forall (fun r => length r = w) init →
  (∀ f, f < S k → length (contrib f) = length init
                  ∧ Forall (fun r => length r = w) (contrib f)) →
  Np.madd (msum contrib k init) (contrib k)
  = Some (msum contrib (S k) init)
  ∧ Forall (fun r => length r = w) (msum contrib (S k) init).
Proof.
  intros Hinit. induction k as [|k IH]; intros H.
  - destruct (H 0) as [Hl Hw]; [lia|]. simpl. split.
    + apply madd_Some. apply Forall2_same_length_lookup. split; [done|].
      intros i r s Hr Hs. rewrite Forall_lookup in Hinit, Hw.
      rewrite (Hinit _ _ Hr), (Hw _ _ Hs). done.
    + apply Forall_lookup. intros i r Hr.
      apply lookup_zip_with_Some in Hr as (r1 & r2 & -> & Hr1 & Hr2).
      rewrite Forall_lookup in Hinit, Hw.
      rewrite length_zip_with, (Hinit _ _ Hr1), (Hw _ _ Hr2). lia.
  - destruct IH as [_ IHw]; [intros; apply H; lia|].
    destruct (H (S k)) as [Hl Hw]; [lia|].
    assert (Hlen : length (msum contrib (S k) init) = length init).
    { apply msum_length. intros. apply H. lia. }
    split.
    + apply madd_Some. apply Forall2_same_length_lookup.
      split; [congruence|].
      intros i r s Hr Hs. rewrite Forall_lookup in IHw, Hw.
      rewrite (IHw _ _ Hr), (Hw _ _ Hs). done.
    + apply Forall_lookup. intros i r Hr.
      change (msum contrib (S (S k)) init)
        with (zip_with (zip_with float_add) (msum contrib (S k) init)
                       (contrib (S k))) in Hr.
      apply lookup_zip_with_Some in Hr as (r1 & r2 & -> & Hr1 & Hr2).
      rewrite Forall_lookup in IHw, Hw.
      rewrite length_zip_with, (IHw _ _ Hr1), (Hw _ _ Hr2). lia.
Qed.

(** The running total of the shares of a list of values. *)
Lemma running_total_map (share : Q → Q) (ps : list Q) :
  running_total share ps = fold_left float_add (map share ps) 0%Q.
Proof.
  unfold running_total. generalize 0%Q.
  induction ps as [|p ps IH]; intros a; [done|]. simpl. apply IH.
Qed.

Lemma matrix_column_zip_with (a b : list (list Q)) (w c : nat) :
  c < w →
  Forall (fun r => length r = w) a → Forall (fun r => length r = w) b →
  matrix_column (zip_with (zip_with float_add) a b) c
  = zip_with float_add (matrix_column a c) (matrix_column b c).
Proof.
  intros Hc Ha. revert b. induction Ha as [|r a Hr _ IH]; intros b Hb; [done|].
  destruct Hb as [|s b Hs Hb]; [done|]. simpl. f_equal; [|by apply IH].
  rewrite lookup_zip_with.
  destruct (lookup_lt_is_Some_2 r c) as [x ->]; [lia|].
  destruct (lookup_lt_is_Some_2 s c) as [y ->]; [lia|]. done.
Qed.

Lemma msum_width (contrib : nat → list (list Q)) k
    (init : list (list Q)) (w : nat) :
  Forall (fun r => length r = w) init →
  (∀ f, f < k → Forall (fun r => length r = w) (contrib f)) →
  Forall (fun r => length r = w) (msum contrib k init).
Proof.
  intros Hinit. induction k as [|k IH]; intros H; [done|].
  simpl. apply Forall_lookup. intros i r Hr.
  apply lookup_zip_with_Some in Hr as (r1 & r2 & -> & Hr1 & Hr2).
  assert (Hw1 : Forall (fun r => length r = w) (msum contrib k init))
    by (apply IH; intros; apply H; lia).
  assert (Hw2 : Forall (fun r => length r = w) (contrib k))
    by (apply H; lia).
  rewrite Forall_lookup in Hw1, Hw2.
  rewrite length_zip_with, (Hw1 _ _ Hr1), (Hw2 _ _ Hr2). lia.
Qed.

Lemma msum_column (contrib : nat → list (list Q)) k
    (init : list (list Q)) (w c : nat) :
  c < w →
  Forall (fun r => length r = w) init →
  (∀ f, f < k → Forall (fun r => length r = w) (contrib f)) →
  matrix_column (msum contrib k init) c
  = vsum (fun f => matrix_column (contrib f) c) k (matrix_column init c).
Proof.
  intros Hc Hinit. induction k as [|k IH]; intros H; [done|].
  simpl. rewrite (matrix_column_zip_with _ _ w); [|done| |].
  - rewrite IH; [done|]. intros. apply H. lia.
  - apply msum_width; [done|]. intros. apply H. lia.
  - apply H. lia.
Qed.

Lemma matrix_column_mdiv (m : list (list Q)) (k w c : nat) :
  c < w → Forall (fun r => length r = w) m →
  matrix_column (Np.mdiv m k) c = Np.vdiv (matrix_column m c) k.
Proof.
  intros Hc. induction 1 as [|r m Hr _ IH]; [done|].
  simpl. rewrite IH. f_equal. unfold Np.vdiv. rewrite lookup_map.
  destruct (lookup_lt_is_Some_2 r c) as [x ->]; [lia|]. done.
Qed.

Lemma matrix_column_zeros (n w c : nat) :
  c < w → matrix_column (replicate n (Np.zeros w)) c = Np.zeros n.
Proof.
  intros Hc. induction n as [|n IH]; [done|]. simpl. rewrite IH.
  unfold Np.zeros at 1. by rewrite lookup_replicate_2.
Qed.

Lemma matrix_column_lookup (m : list (list Q)) (w c t : nat) p :
  c < w → Forall (fun r => length r = w) m →
  matrix_column m c !! t = Some p →
  ∃ row, m !! t = Some row ∧ row !! c = Some p.
Proof.
  intros Hc Hw. unfold matrix_column. rewrite lookup_map.
  destruct (m !! t) as [row|] eqn:Hrow; [|done]. simpl. intros [= <-].
  exists row. split; [done|]. rewrite Forall_lookup in Hw.
  destruct (lookup_lt_is_Some_2 row c) as [x ->]; [|done].
  rewrite (Hw _ _ Hrow). lia.
Qed.

End AccumulatorFacts.

(** ** From the loop invariants to the row-wise statements *)

Section RowwiseFacts.
Context `{arith : !FloatArith}.
Variable test_folds : list nat.

Lemma oof_after_out_of_fold n_splits (vals : nat → list Q)
    (value_of : list nat → nat → option Q) a :
  Forall (fun f => f < n_splits) test_folds →
  oof_after test_folds vals n_splits a →
  (∀ f j i, f < n_splits → valid_idx_of test_folds f !! j = Some i →
     ∃ v, vals f !! j = Some v
          ∧ value_of (train_idx_of test_folds f) i = Some v) →
  out_of_fold n_splits test_folds value_of a.
Proof.
  intros Hrange (Hlen & Hw & Hv) Hlink i Hi.
  apply lookup_lt_is_Some_2 in Hi as [f Hf].
  assert (Hlt : f < n_splits).
  { rewrite Forall_lookup in Hrange. by eapply Hrange. }
  destruct (Hv i f Hf Hlt) as (j & Hj & Hval).
  destruct (Hlink f j i Hlt Hj) as (v & Hvj & Hvo).
  exists f, (train_idx_of test_folds f), (valid_idx_of test_folds f), v.
  split_and!.
  - by apply split_lookup_lt.
  - by apply valid_idx_of_elem.
  - intros (g & Hg & Hne)%train_idx_of_elem. congruence.
  - intros g tr' va' (_ & _ & ->)%split_lookup_inv Hin%valid_idx_of_elem.
    congruence.
  - done.
  - congruence.
  - rewrite Hw, (writes_of_row test_folds n_splits i f Hf).
    by rewrite decide_True.
Qed.

Lemma split_Forall2 n_splits (P : list nat * list nat → Q → Prop)
    (c : nat → Q) :
  (∀ f, f < n_splits →
     P (train_idx_of test_folds f, valid_idx_of test_folds f) (c f)) →
  Forall2 P (KFold.split n_splits test_folds) (map c (seq 0 n_splits)).
Proof.
  intros H. unfold KFold.split.
  apply Forall2_fmap, Forall_Forall2_diag, Forall_forall.
  intros f Hf%elem_of_seq. apply H. lia.
Qed.

Lemma vsum_accumulates (share : Q → Q) n_splits n_test
    (col : nat → list Q)
    (value_of : list nat * list nat → nat → option Q) :
  (∀ f, f < n_splits → length (col f) = n_test) →
  (∀ f t p, f < n_splits → col f !! t = Some p →
     value_of (train_idx_of test_folds f, valid_idx_of test_folds f) t
     = Some p) →
  accumulates share n_splits test_folds n_test value_of
    (vsum (fun f => map share (col f)) n_splits (Np.zeros n_test)).
Proof.
  intros Hlen Hval. split.
  - rewrite vsum_length; [apply length_replicate|].
    intros f Hf. unfold Np.zeros.
    by rewrite length_map, length_replicate, Hlen.
  - intros t Ht.
    set (c := fun f => default 0%Q (col f !! t)).
    assert (Hc : ∀ f, f < n_splits → col f !! t = Some (c f)).
    { intros f Hf. unfold c.
      destruct (lookup_lt_is_Some_2 (col f) t) as [p ->]; [|done].
      by rewrite Hlen. }
    exists (map c (seq 0 n_splits)). split.
    + apply split_Forall2. intros f Hf. apply Hval; [done|by apply Hc].
    + rewrite running_total_map, map_map.
      apply (vsum_lookup _ _ _ t (fun f => share (c f)) 0%Q).
      * by apply lookup_replicate_2.
      * intros f Hf. by rewrite lookup_map, Hc.
Qed.

Lemma vsum_accumulates_shares n_splits n_test (col : nat → list Q)
    (value_of : list nat * list nat → nat → option Q) :
  (∀ f, f < n_splits → length (col f) = n_test) →
  (∀ f t p, f < n_splits → col f !! t = Some p →
     value_of (train_idx_of test_folds f, valid_idx_of test_folds f) t
     = Some p) →
  accumulates (fold_share n_splits) n_splits test_folds n_test value_of
    (vsum (fun f => Np.vdiv (col f) n_splits) n_splits (Np.zeros n_test)).
Proof. apply vsum_accumulates. Qed.

Lemma vsum_accumulates_plain n_splits n_test (col : nat → list Q)
    (value_of : list nat * list nat → nat → option Q) init :
  init = Np.zeros n_test →
  (∀ f, f < n_splits → length (col f) = n_test) →
  (∀ f t p, f < n_splits → col f !! t = Some p →
     value_of (train_idx_of test_folds f, valid_idx_of test_folds f) t
     = Some p) →
  accumulates whole_value n_splits test_folds n_test value_of
    (vsum col n_splits init).
Proof.
  intros -> Hlen Hval.
  rewrite (vsum_ext col (fun f => map whole_value (col f)))
    by (intros; symmetry; apply map_id).
  by apply vsum_accumulates.
Qed.

End RowwiseFacts.

(** Without rounding, the running total of the shares is the average of
    the specification. *)
Section ExactArithmetic.

#[local] Existing Instance exact_arithmetic.

Lemma running_total_exact (n : nat) (ps : list Q) :
(running_total (fold_share n) ps
 == / inject_Z (Z.of_nat n) * fold_left Qplus ps 0)%Q.
Proof.
rewrite running_total_map. simpl.
induction ps as [|p ps IH] using rev_ind; [simpl; ring|].
rewrite map_app, !fold_left_app. simpl. rewrite IH.
unfold fold_share. simpl. unfold Qdiv. ring.
Qed.

Lemma accumulates_exact_is_average n_splits test_folds n_test value_of
  preds :
accumulates (fold_share n_splits) n_splits test_folds n_test value_of
  preds →
fold_average n_splits test_folds n_test value_of preds.
Proof.
intros [Hlen Hacc]. split; [done|]. intros t Ht.
destruct (Hacc t Ht) as (ps & HF & Hq).
exists ps. eexists. split_and!; [done|exact Hq|].
apply running_total_exact.
Qed.

End ExactArithmetic.

Lemma column1_spec {X} (pp : X → list Q) (xs : list X) :
  (∀ x, x ∈ xs → is_Some (pp x !! 1)) →
  ∃ col, column1 (map pp xs) = Some col
    ∧ length col = length xs
    ∧ ∀ j x, xs !! j = Some x → pp x !! 1 = col !! j.
Proof.
  unfold column1. induction xs as [|x xs IH]; intros H.
  - exists []. split_and!; try done.
  - destruct (H x) as [p Hp]; [left|].
    destruct IH as (col & Hcol & Hlen & Hlk); [intros; apply H; by right|].
    exists (p :: col). split_and!.
    + simpl. rewrite Hp. simpl. simpl in Hcol. by rewrite Hcol.
    + simpl. by rewrite Hlen.
    + intros [|j] y Hy; simpl in *; [by injection Hy as <-|by apply Hlk].
Qed.

Lemma rows_iloc {A} (df : list A) idx l : Np.iloc df idx = Some l → rows df idx = l.
Proof. unfold rows. by intros ->. Qed.

Lemma set_item_Some {A} (arr : list A) i v :
  i < length arr → set_item arr i v = Some (<[i:=v]> arr).
Proof. intros. unfold set_item. by rewrite decide_True. Qed.

(** ** Harness of the notebook on mislabeled data *)

Section NoisyLabelsFacts.
Import NoisyLabels.
Context {X Y Estimator Model : Type} `{arith : !FloatArith}.
Variable train_X : list X.
Variable train_y : list Y.
Variable test_X : list X.
Variable test_folds : list nat.
Variable clone : Estimator → Estimator.
Variable LearningWithNoisyLabels : Estimator → Estimator.
Variable fit : Estimator → list X → list Y → Model.
Variable predict_proba : Model → X → list Q.
Variable roc_auc_score : list Y → list Q → Q.

Hypothesis train_X_rows : length train_X = length test_folds.
Hypothesis train_y_rows : length train_y = length test_folds.
Hypothesis two_columns : ∀ m x, is_Some (predict_proba m x !! 1).

Local Abbreviation body make est :=
  (fold_body train_X train_y test_X fit predict_proba roc_auc_score make est).
Local Abbreviation vals make est :=
  (fold_valid_preds train_X train_y test_folds fit predict_proba make est).
Local Abbreviation tcol make est :=
  (fold_test_col train_X train_y test_X test_folds fit predict_proba make est).

Local Abbreviation noisy_inv make est :=
  (loop_invariant train_X train_y test_X test_folds fit predict_proba
                  make est).

Lemma noisy_fold_test_col_length make est f :
  length (tcol make est f) = length test_X.
Proof.
  unfold fold_test_col.
  destruct (column1_spec
    (predict_proba (fold_model train_X train_y test_folds fit make est f))
    test_X) as (col & -> & Hl & _); [intros; apply two_columns|done].
Qed.

Lemma noisy_step make est k st :
  k < NUM_FOLDS → noisy_inv make est k st →
  ∃ st', body make est st
           (k, (train_idx_of test_folds k, valid_idx_of test_folds k))
         = Some st'
         ∧ noisy_inv make est (S k) st'.
Proof.
  intros Hk (Hoof & Htp & Hsc). unfold fold_body, loop_invariant.
  destruct (iloc_train_is_Some test_folds train_X k train_X_rows) as [Xtr HXtr].
  destruct (iloc_train_is_Some test_folds train_y k train_y_rows) as [ytr Hytr].
  destruct (iloc_valid_is_Some test_folds train_X k train_X_rows) as [Xva HXva].
  destruct (iloc_valid_is_Some test_folds train_y k train_y_rows) as [yva Hyva].
  rewrite HXtr, Hytr, HXva, Hyva. simpl.
  pose proof (fun f => noisy_fold_test_col_length make est f) as Htl.
  assert (Hm : fit (make est) Xtr ytr
               = fold_model train_X train_y test_folds fit make est k).
  { unfold fold_model. by rewrite (rows_iloc _ _ _ HXtr), (rows_iloc _ _ _ Hytr). }
  rewrite Hm.
  destruct (column1_spec
    (predict_proba (fold_model train_X train_y test_folds fit make est k))
    Xva) as (vp & Hvp & Hvl & _); [intros; apply two_columns|].
  assert (Hvals : vals make est k = vp).
  { unfold fold_valid_preds. by rewrite (rows_iloc _ _ _ HXva), Hvp. }
  rewrite Hvp. simpl.
  destruct (column1_spec
    (predict_proba (fold_model train_X train_y test_folds fit make est k))
    test_X) as (tc & Htc & _ & _); [intros; apply two_columns|].
  assert (Htcol : tcol make est k = tc).
  { unfold fold_test_col. by rewrite Htc. }
  rewrite Htc. simpl. rewrite Htp, <- Htcol.
  rewrite (vadd_vsum (fun f => Np.vdiv (tcol make est f) NUM_FOLDS)).
  2:{ intros f _. unfold Np.vdiv, Np.zeros.
      by rewrite length_map, length_replicate, Htl. }
  simpl.
  destruct (oof_after_step test_folds (vals make est) k _ Hoof) as (a' & Ha' & Hinv').
  { rewrite Hvals, Hvl. by apply iloc_length in HXva. }
  rewrite Hvals in Ha'. rewrite Ha'. simpl.
  rewrite set_item_Some by lia. simpl.
  eexists. split; [done|]. split_and!; simpl; try done.
  by rewrite length_insert.
Qed.

Lemma noisy_loop make est :
  ∃ st, for_each (body make est) (folds test_folds)
                 (init train_X test_X) = Some st
        ∧ noisy_inv make est NUM_FOLDS st.
Proof.
  unfold folds.
  destruct (for_each_enumerate_ind (body make est)
              (fun k st => k ≤ NUM_FOLDS ∧ noisy_inv make est k st)
              (KFold.split NUM_FOLDS test_folds) (init train_X test_X))
    as (st & Hst & _ & Hinv).
  - split; [lia|]. unfold init. split_and!; simpl.
    + rewrite train_X_rows. apply oof_after_0.
    + done.
    + done.
  - intros k [tr va] st Hk [_ Hinv].
    apply split_lookup_inv in Hk as (Hlt & -> & ->).
    destruct (noisy_step make est k st Hlt Hinv) as (st' & Hb & Hinv').
    exists st'. split; [done|]. split; [lia|done].
  - exists st. split; [done|]. by rewrite split_length in Hinv.
Qed.

Lemma noisy_oof_link make est f j i :
  valid_idx_of test_folds f !! j = Some i →
  ∃ v, vals make est f !! j = Some v
       ∧ oof_value train_X train_y fit predict_proba make est
                   (train_idx_of test_folds f) i = Some v.
Proof.
  intros Hj. unfold fold_valid_preds, oof_value.
  destruct (iloc_train_is_Some test_folds train_X f train_X_rows) as [Xtr HXtr].
  destruct (iloc_train_is_Some test_folds train_y f train_y_rows) as [ytr Hytr].
  destruct (iloc_valid_is_Some test_folds train_X f train_X_rows) as [Xva HXva].
  unfold fold_model.
  rewrite (rows_iloc _ _ _ HXtr), (rows_iloc _ _ _ Hytr),
          (rows_iloc _ _ _ HXva), HXtr, Hytr. simpl.
  pose proof (iloc_lookup _ _ _ _ _ HXva Hj) as Hx.
  assert (Hi : i < length train_X).
  { rewrite train_X_rows.
    apply list_elem_of_lookup_2, valid_idx_of_elem in Hj.
    by apply lookup_lt_Some in Hj. }
  apply lookup_lt_is_Some_2 in Hi as [x Hxi]. rewrite Hxi in Hx |- *. simpl.
  destruct (column1_spec (predict_proba (fit (make est) Xtr ytr)) Xva)
    as (col & -> & _ & Hcol); [intros; apply two_columns|]. simpl.
  destruct (two_columns (fit (make est) Xtr ytr) x) as [v Hv].
  exists v. split; [|done]. by rewrite <- (Hcol j x Hx).
Qed.

Lemma noisy_test_link make est f t p :
  tcol make est f !! t = Some p →
  test_value train_X train_y test_X fit predict_proba make est
             (train_idx_of test_folds f, valid_idx_of test_folds f) t
  = Some p.
Proof.
  unfold fold_test_col, test_value, fold_model. simpl.
  destruct (iloc_train_is_Some test_folds train_X f train_X_rows) as [Xtr HXtr].
  destruct (iloc_train_is_Some test_folds train_y f train_y_rows) as [ytr Hytr].
  rewrite (rows_iloc _ _ _ HXtr), (rows_iloc _ _ _ Hytr), HXtr, Hytr. simpl.
  destruct (column1_spec (predict_proba (fit (make est) Xtr ytr)) test_X)
    as (col & -> & Hl & Hcol); [intros; apply two_columns|]. simpl.
  intros Hp.
  assert (Ht : t < length test_X).
  { rewrite <- Hl. by apply lookup_lt_Some in Hp. }
  apply lookup_lt_is_Some_2 in Ht as [x Hx]. rewrite Hx. simpl.
  by rewrite (Hcol t x Hx).
Qed.

Lemma noisy_rowwise make est :
  ∃ st, for_each (body make est) (folds test_folds)
                 (init train_X test_X) = Some st
    ∧ (Forall (fun f => f < NUM_FOLDS) test_folds →
       out_of_fold NUM_FOLDS test_folds
         (oof_value train_X train_y fit predict_proba make est)
         (oof_preds st))
    ∧ accumulates (fold_share NUM_FOLDS) NUM_FOLDS test_folds
        (length test_X)
        (test_value train_X train_y test_X fit predict_proba make est)
        (test_preds st).
Proof.
  destruct (noisy_loop make est) as (st & Hst & Hoof & Htp & _).
  exists st. split_and!; [done| |].
  - intros Hrange.
    apply (oof_after_out_of_fold test_folds NUM_FOLDS (vals make est));
      [done|done|].
    intros f j i _ Hj. by apply noisy_oof_link.
  - rewrite Htp. apply vsum_accumulates_shares.
    + intros f _. apply noisy_fold_test_col_length.
    + intros f t p _ Hp. by apply noisy_test_link.
Qed.

End NoisyLabelsFacts.

(** ** Harness of the notebook on class probabilities *)

Section ClassProbabilitiesFacts.
Import ClassProbabilities.
Context {X Y W Estimator Model : Type} `{EqDecision Y} `{arith : !FloatArith}.
Variable train_X : list X.
Variable train_y : list Y.
Variable sample_weight : list W.
Variable test_X : list X.
Variable test_folds : list nat.
Variable clone : Estimator → Estimator.
Variable fit : Estimator → list X → list Y → list W → Model.
Variable predict_proba : Model → X → list Q.

Hypothesis train_X_rows : length train_X = length test_folds.
Hypothesis train_y_rows : length train_y = length test_folds.
Hypothesis weight_rows : length sample_weight = length test_folds.
Hypothesis proba_columns :
  ∀ m x, length (predict_proba m x) = n_classes train_y.

Local Abbreviation cp_inv est :=
  (loop_invariant train_X train_y sample_weight test_X test_folds clone fit
                  predict_proba est).
Local Abbreviation cp_prob est :=
  (fold_test_prob train_X train_y sample_weight test_X test_folds clone fit
                  predict_proba est).

Lemma cp_contrib_shape est f :
  length (Np.mdiv (cp_prob est f) NUM_FOLDS) = length test_X
  ∧ Forall (fun r => length r = n_classes train_y)
           (Np.mdiv (cp_prob est f) NUM_FOLDS).
Proof.
  unfold Np.mdiv, fold_test_prob. rewrite !length_map. split; [done|].
  apply Forall_forall. intros r Hr.
  apply list_elem_of_In, in_map_iff in Hr as (r' & <- & Hr').
  apply in_map_iff in Hr' as (x & <- & _).
  unfold Np.vdiv. by rewrite length_map.
Qed.

Lemma cp_contrib_shape' est f :
  length (cp_prob est f) = length test_X
  ∧ Forall (fun r => length r = n_classes train_y) (cp_prob est f).
Proof.
  unfold fold_test_prob. rewrite length_map. split; [done|].
  apply Forall_forall. intros r Hr.
  by apply list_elem_of_In, in_map_iff in Hr as (x & <- & _).
Qed.

Lemma cp_step est k st :
  k < NUM_FOLDS → cp_inv est k st →
  ∃ st', fold_body train_X train_y sample_weight test_X clone fit
           predict_proba est st
           (k, (train_idx_of test_folds k, valid_idx_of test_folds k))
         = Some st'
         ∧ cp_inv est (S k) st'.
Proof.
  intros Hk (Hoof & Htp & Hpreds). unfold fold_body.
  destruct (iloc_train_is_Some test_folds train_X k train_X_rows) as [Xtr HXtr].
  destruct (iloc_train_is_Some test_folds train_y k train_y_rows) as [ytr Hytr].
  destruct (iloc_train_is_Some test_folds sample_weight k weight_rows) as [wtr Hwtr].
  destruct (iloc_valid_is_Some test_folds train_X k train_X_rows) as [Xva HXva].
  destruct (iloc_valid_is_Some test_folds train_y k train_y_rows) as [yva Hyva].
  destruct (iloc_valid_is_Some test_folds sample_weight k weight_rows) as [wva Hwva].
  rewrite HXtr, Hytr, HXva, Hyva, Hwtr, Hwva. simpl.
  assert (Hm : fit (clone est) Xtr ytr wtr
               = fold_model train_X train_y sample_weight test_folds clone
                            fit est k).
  { unfold fold_model.
    by rewrite (rows_iloc _ _ _ HXtr), (rows_iloc _ _ _ Hytr),
               (rows_iloc _ _ _ Hwtr). }
  rewrite Hm.
  change (map (predict_proba
                 (fold_model train_X train_y sample_weight test_folds clone
                             fit est k)) test_X)
    with (cp_prob est k).
  rewrite Htp.
  destruct (madd_msum (fun f => Np.mdiv (cp_prob est f) NUM_FOLDS) k
              (replicate (length test_X) (Np.zeros (n_classes train_y)))
              (n_classes train_y)) as [Hadd _].
  { apply Forall_forall. intros r Hr%elem_of_replicate.
    destruct Hr as [-> _]. apply length_replicate. }
  { intros f _. rewrite length_replicate. apply cp_contrib_shape. }
  rewrite Hadd. simpl.
  destruct (oof_after_step test_folds
              (fold_valid_preds train_X train_y sample_weight test_folds
                 clone fit predict_proba est) k _ Hoof) as (a' & Ha' & Hinv').
  { unfold fold_valid_preds. rewrite length_map, (rows_iloc _ _ _ HXva).
    by apply iloc_length in HXva. }
  unfold fold_valid_preds in Ha' at 1. rewrite (rows_iloc _ _ _ HXva) in Ha'.
  rewrite Ha'. simpl.
  eexists. split; [done|]. unfold loop_invariant. split_and!; [done|done|].
  cbn [test_preds]. by rewrite Hpreds, seq_S, map_app.
Qed.

Lemma cp_loop est :
  ∃ st, score_model_loop train_X train_y sample_weight test_X test_folds
          clone fit predict_proba est = Some st
        ∧ cp_inv est NUM_FOLDS st.
Proof.
  unfold score_model_loop, folds.
  destruct (for_each_enumerate_ind
              (fold_body train_X train_y sample_weight test_X clone fit
                         predict_proba est)
              (fun k st => k ≤ NUM_FOLDS ∧ cp_inv est k st)
              (KFold.split NUM_FOLDS test_folds)
              (init train_X train_y test_X))
    as (st & Hst & _ & Hinv).
  - split; [lia|]. unfold init. split_and!; simpl; try done.
    rewrite train_X_rows. apply oof_after_0.
  - intros k [tr va] st Hk [_ Hinv].
    apply split_lookup_inv in Hk as (Hlt & -> & ->).
    destruct (cp_step est k st Hlt Hinv) as (st' & Hb & Hinv').
    exists st'. split; [done|]. split; [lia|done].
  - exists st. split; [done|]. by rewrite split_length in Hinv.
Qed.

Lemma cp_oof_link est f j i :
  valid_idx_of test_folds f !! j = Some i →
  ∃ v, fold_valid_preds train_X train_y sample_weight test_folds clone fit
         predict_proba est f !! j = Some v
       ∧ oof_value train_X train_y sample_weight clone fit predict_proba est
                   (train_idx_of test_folds f) i = Some v.
Proof.
  intros Hj. unfold fold_valid_preds, oof_value, fold_model.
  destruct (iloc_train_is_Some test_folds train_X f train_X_rows) as [Xtr HXtr].
  destruct (iloc_train_is_Some test_folds train_y f train_y_rows) as [ytr Hytr].
  destruct (iloc_train_is_Some test_folds sample_weight f weight_rows) as [wtr Hwtr].
  destruct (iloc_valid_is_Some test_folds train_X f train_X_rows) as [Xva HXva].
  rewrite (rows_iloc _ _ _ HXtr), (rows_iloc _ _ _ Hytr),
          (rows_iloc _ _ _ Hwtr), (rows_iloc _ _ _ HXva), HXtr, Hytr, Hwtr.
  simpl.
  pose proof (iloc_lookup _ _ _ _ _ HXva Hj) as Hx.
  assert (Hi : i < length train_X).
  { rewrite train_X_rows.
    apply list_elem_of_lookup_2, valid_idx_of_elem in Hj.
    by apply lookup_lt_Some in Hj. }
  apply lookup_lt_is_Some_2 in Hi as [x Hxi]. rewrite Hxi in Hx |- *. simpl.
  eexists. split; [|done]. by rewrite lookup_map, Hx.
Qed.

Lemma cp_test_link est c f t p :
  matrix_column (cp_prob est f) c !! t = Some p →
  c < n_classes train_y →
  test_value train_X train_y sample_weight test_X clone fit predict_proba
             est c
             (train_idx_of test_folds f, valid_idx_of test_folds f) t
  = Some p.
Proof.
  intros Hp Hc.
  destruct (matrix_column_lookup _ _ _ _ _ Hc
              (proj2 (cp_contrib_shape' est f)) Hp)
    as (row & Hrow & Hrc).
  revert Hrow. unfold fold_test_prob, test_value, fold_model. simpl.
  destruct (iloc_train_is_Some test_folds train_X f train_X_rows) as [Xtr HXtr].
  destruct (iloc_train_is_Some test_folds train_y f train_y_rows) as [ytr Hytr].
  destruct (iloc_train_is_Some test_folds sample_weight f weight_rows) as [wtr Hwtr].
  rewrite (rows_iloc _ _ _ HXtr), (rows_iloc _ _ _ Hytr),
          (rows_iloc _ _ _ Hwtr), HXtr, Hytr, Hwtr. simpl.
  rewrite lookup_map. destruct (test_X !! t) as [x|]; [|done]. simpl.
  by intros [= ->].
Qed.

Lemma cp_rowwise est :
  ∃ st, score_model_loop train_X train_y sample_weight test_X test_folds
          clone fit predict_proba est = Some st
    ∧ (Forall (fun f => f < NUM_FOLDS) test_folds →
       out_of_fold NUM_FOLDS test_folds
         (oof_value train_X train_y sample_weight clone fit predict_proba
                    est)
         (oof_preds st))
    ∧ Forall (fun r => length r = n_classes train_y) (test_proba st)
    ∧ ∀ c, c < n_classes train_y →
        accumulates (fold_share NUM_FOLDS) NUM_FOLDS test_folds
          (length test_X)
          (test_value train_X train_y sample_weight test_X clone fit
                      predict_proba est c)
          (matrix_column (test_proba st) c).
Proof.
  destruct (cp_loop est) as (st & Hst & Hoof & Htp & _).
  assert (Hinit : Forall (fun r => length r = n_classes train_y)
            (replicate (length test_X) (Np.zeros (n_classes train_y)))).
  { apply Forall_forall. intros r Hr%elem_of_replicate.
    destruct Hr as [-> _]. apply length_replicate. }
  exists st. split_and!; [done| | |].
  - intros Hrange.
    apply (oof_after_out_of_fold test_folds NUM_FOLDS
             (fold_valid_preds train_X train_y sample_weight test_folds
                clone fit predict_proba est)); [done|done|].
    intros f j i _ Hj. by apply cp_oof_link.
  - rewrite Htp. apply msum_width; [done|].
    intros f _. apply cp_contrib_shape.
  - intros c Hc. rewrite Htp.
    rewrite (msum_column _ _ _ (n_classes train_y)); [|done|done|].
    2:{ intros f _. apply cp_contrib_shape. }
    rewrite matrix_column_zeros by done.
    erewrite vsum_ext.
    + apply (vsum_accumulates_shares test_folds NUM_FOLDS (length test_X)
               (fun f => matrix_column (cp_prob est f) c)).
      * intros f _. unfold matrix_column, fold_test_prob.
        by rewrite !length_map.
      * intros f t p _ Hp. by apply cp_test_link.
    + intros f _. apply (matrix_column_mdiv _ _ (n_classes train_y)); [done|].
      apply cp_contrib_shape'.
Qed.

End ClassProbabilitiesFacts.

(** ** Harness of the forest-cover notebooks *)

Section ForestCoverFacts.
Import ForestCover.
Context {X Y Estimator Model : Type} `{arith : !FloatArith}.
Variable train_X : list X.
Variable train_y : list Y.
Variable test_X : list X.
Variable test_y : list Y.
Variable test_folds : list nat.
Variable columns : list X → list string.
Variable clone : Estimator → Estimator.
Variable fit : Estimator → list X → list Y → Model.
Variable predict : Model → X → Q.
Variable predict_proba : Model → X → list Q.
Variable permutation_importance : Model → list X → list Y → list Q.
Variable accuracy_score : list Y → list Q → Q.
Variable sort_values : list (string * Q) → list (string * Q).

(** The processed frames. *)
Variables X_temp X_test : list X.

Hypothesis X_temp_rows : length X_temp = length test_folds.
Hypothesis train_y_rows : length train_y = length test_folds.
Hypothesis proba_columns : ∀ m x, length (predict_proba m x) = 6.
Hypothesis importance_length :
  ∀ m xs ys,
    length (permutation_importance m xs ys) = length (columns X_temp).

Local Abbreviation fc_inv est :=
  (loop_invariant train_y test_folds columns clone fit predict
                  predict_proba permutation_importance est X_temp X_test).
Local Abbreviation fc_body est :=
  (fold_body clone fit predict predict_proba permutation_importance
             accuracy_score est X_temp X_test train_y).
Local Abbreviation fc_prob est :=
  (fold_test_prob train_y test_folds clone fit predict_proba est
                  X_temp X_test).
Local Abbreviation fc_imp est :=
  (fold_importance train_y test_folds clone fit permutation_importance est
                   X_temp).

Lemma fc_contrib_shape est f :
  length (fc_prob est f) = length X_test
  ∧ Forall (fun r => length r = 6) (fc_prob est f).
Proof.
  unfold fold_test_prob. rewrite length_map. split; [done|].
  apply Forall_forall. intros r Hr.
  by apply list_elem_of_In, in_map_iff in Hr as (x & <- & _).
Qed.

Lemma fc_step est k st :
  k < NUM_FOLDS → fc_inv est k st →
  ∃ st', fc_body est st
           (k, (train_idx_of test_folds k, valid_idx_of test_folds k))
         = Some st'
         ∧ fc_inv est (S k) st'.
Proof.
  intros Hk (Hoof & Htp & Hfi & Hsc). unfold fold_body.
  destruct (iloc_train_is_Some test_folds X_temp k X_temp_rows) as [Xtr HXtr].
  destruct (iloc_train_is_Some test_folds train_y k train_y_rows) as [ytr Hytr].
  destruct (iloc_valid_is_Some test_folds X_temp k X_temp_rows) as [Xva HXva].
  destruct (iloc_valid_is_Some test_folds train_y k train_y_rows) as [yva Hyva].
  rewrite HXtr, Hytr, HXva, Hyva. simpl.
  assert (Hm : fit (clone est) Xtr ytr
               = fold_model train_y test_folds clone fit est X_temp k).
  { unfold fold_model. by rewrite (rows_iloc _ _ _ HXtr), (rows_iloc _ _ _ Hytr). }
  rewrite Hm.
  assert (Himp : Np.vdiv (permutation_importance
                   (fold_model train_y test_folds clone fit est X_temp k)
                   Xva yva) NUM_FOLDS = fc_imp est k).
  { unfold fold_importance.
    by rewrite (rows_iloc _ _ _ HXva), (rows_iloc _ _ _ Hyva). }
  rewrite Himp, Hfi.
  rewrite (vadd_vsum (fc_imp est)).
  2:{ intros f _. unfold fold_importance, Np.vdiv, Np.zeros.
      by rewrite length_map, length_replicate, importance_length. }
  simpl.
  destruct (oof_after_step test_folds
              (fold_valid_preds train_y test_folds clone fit predict est
                                X_temp) k _ Hoof) as (a' & Ha' & Hinv').
  { unfold fold_valid_preds. rewrite length_map, (rows_iloc _ _ _ HXva).
    by apply iloc_length in HXva. }
  unfold fold_valid_preds in Ha' at 1. rewrite (rows_iloc _ _ _ HXva) in Ha'.
  rewrite Ha'. simpl.
  change (map (predict_proba
                 (fold_model train_y test_folds clone fit est X_temp k))
              X_test)
    with (fc_prob est k).
  rewrite Htp.
  destruct (madd_msum (fc_prob est) k
              (replicate (length X_test) (Np.zeros 6)) 6) as [Hadd _].
  { apply Forall_forall. intros r Hr%elem_of_replicate.
    by destruct Hr as [-> _]. }
  { intros f _. rewrite length_replicate. apply fc_contrib_shape. }
  rewrite Hadd. simpl.
  rewrite set_item_Some by lia. simpl.
  eexists. split; [done|]. unfold loop_invariant.
  split_and!; try done. cbn [scores]. by rewrite length_insert.
Qed.

Lemma fc_loop est :
  ∃ st, for_each (fc_body est) (folds test_folds)
                 (init columns X_temp X_test) = Some st
        ∧ fc_inv est NUM_FOLDS st.
Proof.
  unfold folds.
  destruct (for_each_enumerate_ind (fc_body est)
              (fun k st => k ≤ NUM_FOLDS ∧ fc_inv est k st)
              (KFold.split NUM_FOLDS test_folds)
              (init columns X_temp X_test))
    as (st & Hst & _ & Hinv).
  - split; [lia|]. unfold init. split_and!; simpl; try done.
    rewrite X_temp_rows. apply oof_after_0.
  - intros k [tr va] st Hk [_ Hinv].
    apply split_lookup_inv in Hk as (Hlt & -> & ->).
    destruct (fc_step est k st Hlt Hinv) as (st' & Hb & Hinv').
    exists st'. split; [done|]. split; [lia|done].
  - exists st. split; [done|]. by rewrite split_length in Hinv.
Qed.

Lemma fc_oof_link est f j i :
  valid_idx_of test_folds f !! j = Some i →
  ∃ v, fold_valid_preds train_y test_folds clone fit predict est X_temp f
         !! j = Some v
       ∧ oof_value train_y clone fit predict est X_temp
                   (train_idx_of test_folds f) i = Some v.
Proof.
  intros Hj. unfold fold_valid_preds, oof_value, fold_model.
  destruct (iloc_train_is_Some test_folds X_temp f X_temp_rows) as [Xtr HXtr].
  destruct (iloc_train_is_Some test_folds train_y f train_y_rows) as [ytr Hytr].
  destruct (iloc_valid_is_Some test_folds X_temp f X_temp_rows) as [Xva HXva].
  rewrite (rows_iloc _ _ _ HXtr), (rows_iloc _ _ _ Hytr),
          (rows_iloc _ _ _ HXva), HXtr, Hytr.
  simpl.
  pose proof (iloc_lookup _ _ _ _ _ HXva Hj) as Hx.
  assert (Hi : i < length X_temp).
  { rewrite X_temp_rows.
    apply list_elem_of_lookup_2, valid_idx_of_elem in Hj.
    by apply lookup_lt_Some in Hj. }
  apply lookup_lt_is_Some_2 in Hi as [x Hxi]. rewrite Hxi in Hx |- *. simpl.
  eexists. split; [|done]. by rewrite lookup_map, Hx.
Qed.

Lemma fc_test_link est c f t p :
  matrix_column (fc_prob est f) c !! t = Some p →
  c < 6 →
  test_value train_y clone fit predict_proba est X_temp X_test c
             (train_idx_of test_folds f, valid_idx_of test_folds f) t
  = Some p.
Proof.
  intros Hp Hc.
  destruct (matrix_column_lookup _ _ _ _ _ Hc
              (proj2 (fc_contrib_shape est f)) Hp) as (row & Hrow & Hrc).
  revert Hrow. unfold fold_test_prob, test_value, fold_model. simpl.
  destruct (iloc_train_is_Some test_folds X_temp f X_temp_rows) as [Xtr HXtr].
  destruct (iloc_train_is_Some test_folds train_y f train_y_rows) as [ytr Hytr].
  rewrite (rows_iloc _ _ _ HXtr), (rows_iloc _ _ _ Hytr), HXtr, Hytr. simpl.
  rewrite lookup_map. destruct (X_test !! t) as [x|]; [|done]. simpl.
  by intros [= ->].
Qed.

Lemma fc_rowwise est :
  ∃ st, for_each (fc_body est) (folds test_folds)
                 (init columns X_temp X_test) = Some st
    ∧ (Forall (fun f => f < NUM_FOLDS) test_folds →
       out_of_fold NUM_FOLDS test_folds
         (oof_value train_y clone fit predict est X_temp) (oof_preds st))
    ∧ Forall (fun r => length r = 6) (test_preds st)
    ∧ length (fi_scores st) = length (columns X_temp)
    ∧ ∀ c, c < 6 →
        accumulates whole_value NUM_FOLDS test_folds (length X_test)
          (test_value train_y clone fit predict_proba est X_temp X_test c)
          (matrix_column (test_preds st) c).
Proof.
  destruct (fc_loop est) as (st & Hst & Hoof & Htp & Hfi & _).
  assert (Hinit : Forall (fun r => length r = 6)
            (replicate (length X_test) (Np.zeros 6))).
  { apply Forall_forall. intros r Hr%elem_of_replicate.
    by destruct Hr as [-> _]. }
  exists st. split_and!; [done| | | |].
  - intros Hrange.
    apply (oof_after_out_of_fold test_folds NUM_FOLDS
             (fold_valid_preds train_y test_folds clone fit predict est
                               X_temp)); [done|done|].
    intros f j i _ Hj. by apply fc_oof_link.
  - rewrite Htp. apply msum_width; [done|].
    intros f _. apply fc_contrib_shape.
  - rewrite Hfi, vsum_length; [apply length_replicate|].
    intros f _. unfold fold_importance, Np.vdiv, Np.zeros.
    by rewrite length_map, length_replicate, importance_length.
  - intros c Hc. rewrite Htp.
    rewrite (msum_column _ _ _ 6); [|done|done|].
    2:{ intros f _. apply fc_contrib_shape. }
    apply (vsum_accumulates_plain test_folds NUM_FOLDS (length X_test)
             (fun f => matrix_column (fc_prob est f) c)).
    + by apply matrix_column_zeros.
    + intros f _. unfold matrix_column, fold_test_prob.
      by rewrite !length_map.
    + intros f t p _ Hp. by apply fc_test_link.
Qed.

End ForestCoverFacts.

(** ** Harness of the LightGBM feature-engineering notebook *)

Section LgbmFeaturesFacts.
Import LgbmFeatures.
Context {X Y Model : Type} `{arith : !FloatArith}.
Variable train_X : list X.
Variable train_y : list Y.
Variable holdout_X : list X.
Variable holdout_y : list Y.
Variable test_folds : list nat.
Variable lgbm_fit : Z → Z → list X → list Y → list X * list Y → Model.
Variable predict_proba : Model → X → list Q.
Variable roc_auc_score : list Y → list Q → Q.
Variable preprocessing : option (preprocessor (X:=X) (Y:=Y)).

Hypothesis train_X_rows : length train_X = length test_folds.
Hypothesis train_y_rows : length train_y = length test_folds.
Hypothesis two_columns : ∀ m x, is_Some (predict_proba m x !! 1).
Hypothesis preprocessing_ok : keeps_rows preprocessing.

Local Abbreviation lg_inv :=
  (loop_invariant train_X train_y holdout_X test_folds lgbm_fit
                  predict_proba preprocessing).
Local Abbreviation lg_col :=
  (fold_test_col train_X train_y holdout_X test_folds lgbm_fit predict_proba
                 preprocessing).
Local Abbreviation lg_frames :=
  (fold_frames train_X train_y holdout_X test_folds preprocessing).

Lemma lg_frames_holdout f :
  length (lg_frames f).2 = length holdout_X.
Proof.
  unfold fold_frames. destruct preprocessing as [p|]; [|done].
  destruct (preprocessing_ok
              (rows train_X (train_idx_of test_folds f))
              (rows train_X (valid_idx_of test_folds f)) holdout_X
              (rows train_y (train_idx_of test_folds f)))
    as (a' & b' & c' & -> & _ & Hc). done.
Qed.

Lemma lg_col_length f : length (lg_col f) = length holdout_X.
Proof.
  unfold fold_test_col. pose proof (lg_frames_holdout f) as Hl.
  destruct (lg_frames f) as [[a b] c]. simpl in Hl.
  destruct (column1_spec
    (predict_proba (fold_model train_X train_y holdout_X test_folds
                               lgbm_fit preprocessing f)) c)
    as (col & -> & Hcl & _); [intros; apply two_columns|].
  simpl. congruence.
Qed.

Lemma lg_step k st :
  k < NUM_FOLDS → lg_inv k st →
  ∃ st', fold_body train_X train_y holdout_X lgbm_fit predict_proba
           roc_auc_score preprocessing st
           (k, (train_idx_of test_folds k, valid_idx_of test_folds k))
         = Some st'
         ∧ lg_inv (S k) st'.
Proof.
  intros Hk (Hhp & Hmodel). unfold fold_body.
  destruct (iloc_train_is_Some test_folds train_X k train_X_rows) as [Xtr HXtr].
  destruct (iloc_train_is_Some test_folds train_y k train_y_rows) as [ytr Hytr].
  destruct (iloc_valid_is_Some test_folds train_X k train_X_rows) as [Xva HXva].
  destruct (iloc_valid_is_Some test_folds train_y k train_y_rows) as [yva Hyva].
  rewrite HXtr, Hytr, HXva, Hyva. simpl.
  pose proof (lg_col_length k) as Hcl.
  assert (Hfr : match preprocessing with
                | Some p => try_preprocessing p Xtr Xva holdout_X ytr
                | None => Some (Xtr, Xva, holdout_X)
                end = Some (lg_frames k)).
  { unfold fold_frames.
    rewrite (rows_iloc _ _ _ HXtr), (rows_iloc _ _ _ Hytr),
            (rows_iloc _ _ _ HXva).
    pose proof preprocessing_ok as Hok.
    destruct preprocessing as [p|]; [|done].
    destruct (Hok Xtr Xva holdout_X ytr) as (a' & b' & c' & -> & _). done. }
  rewrite Hfr.
  destruct (lg_frames k) as [[Xtr' Xva'] Xte'] eqn:Hfrk. simpl.
  assert (Hmod : fold_model train_X train_y holdout_X test_folds lgbm_fit
                   preprocessing k
                 = lgbm_fit NUM_TREES EARLY_STOP Xtr' ytr (Xva', yva)).
  { unfold fold_model.
    by rewrite Hfrk, (rows_iloc _ _ _ Hytr), (rows_iloc _ _ _ Hyva). }
  destruct (column1_spec
    (predict_proba (lgbm_fit NUM_TREES EARLY_STOP Xtr' ytr (Xva', yva)))
    Xte') as (tc & Htc & _ & _); [intros; apply two_columns|].
  assert (Hcol : lg_col k = tc).
  { unfold fold_test_col. by rewrite Hfrk, Hmod, Htc. }
  rewrite Htc. simpl.
  destruct (column1_spec
    (predict_proba (lgbm_fit NUM_TREES EARLY_STOP Xtr' ytr (Xva', yva)))
    Xva') as (vp & Hvp & _ & _); [intros; apply two_columns|].
  rewrite Hvp, Hhp, <- Hcol.
  rewrite (vadd_vsum (fun f => Np.vdiv (lg_col f) NUM_FOLDS)).
  2:{ intros f _. unfold Np.vdiv, Np.zeros.
      by rewrite length_map, length_replicate, lg_col_length. }
  simpl. eexists. split; [done|]. split; [done|]. simpl. by rewrite Hmod.
Qed.

Lemma lg_loop :
  ∃ st, score_lightgbm_loop train_X train_y holdout_X test_folds lgbm_fit
          predict_proba roc_auc_score preprocessing = Some st
        ∧ lg_inv NUM_FOLDS st.
Proof.
  unfold score_lightgbm_loop, folds.
  destruct (for_each_enumerate_ind
              (fold_body train_X train_y holdout_X lgbm_fit predict_proba
                         roc_auc_score preprocessing)
              (fun k st => k ≤ NUM_FOLDS ∧ lg_inv k st)
              (KFold.split NUM_FOLDS test_folds)
              (init holdout_X (Model:=Model)))
    as (st & Hst & _ & Hinv).
  - split; [lia|]. by unfold init.
  - intros k [tr va] st Hk [_ Hinv].
    apply split_lookup_inv in Hk as (Hlt & -> & ->).
    destruct (lg_step k st Hlt Hinv) as (st' & Hb & Hinv').
    exists st'. split; [done|]. split; [lia|done].
  - exists st. split; [done|]. by rewrite split_length in Hinv.
Qed.

Lemma lg_test_link f t p :
  lg_col f !! t = Some p →
  test_value train_X train_y holdout_X lgbm_fit predict_proba preprocessing
             (train_idx_of test_folds f, valid_idx_of test_folds f) t
  = Some p.
Proof.
  unfold fold_test_col, test_value, fold_model, fold_frames. simpl.
  destruct (iloc_train_is_Some test_folds train_X f train_X_rows) as [Xtr HXtr].
  destruct (iloc_train_is_Some test_folds train_y f train_y_rows) as [ytr Hytr].
  destruct (iloc_valid_is_Some test_folds train_X f train_X_rows) as [Xva HXva].
  destruct (iloc_valid_is_Some test_folds train_y f train_y_rows) as [yva Hyva].
  rewrite (rows_iloc _ _ _ HXtr), (rows_iloc _ _ _ Hytr),
          (rows_iloc _ _ _ HXva), (rows_iloc _ _ _ Hyva),
          HXtr, Hytr, HXva, Hyva. simpl.
  assert (Hfr : ∃ fr,
            match preprocessing with
            | Some p => try_preprocessing p Xtr Xva holdout_X ytr
            | None => Some (Xtr, Xva, holdout_X)
            end = Some fr
            ∧ match preprocessing with
              | Some p => default (Xtr, Xva, holdout_X)
                            (try_preprocessing p Xtr Xva holdout_X ytr)
              | None => (Xtr, Xva, holdout_X)
              end = fr).
  { pose proof preprocessing_ok as Hok.
    destruct preprocessing as [pr|]; [|by eexists].
    destruct (Hok Xtr Xva holdout_X ytr) as (a' & b' & c' & -> & _).
    by eexists. }
  destruct Hfr as ([[Xtr' Xva'] Xte'] & -> & ->). simpl.
  destruct (column1_spec
    (predict_proba (lgbm_fit NUM_TREES EARLY_STOP Xtr' ytr (Xva', yva)))
    Xte') as (col & -> & Hl & Hcol); [intros; apply two_columns|]. simpl.
  intros Hp.
  assert (Ht : t < length Xte').
  { rewrite <- Hl. by apply lookup_lt_Some in Hp. }
  apply lookup_lt_is_Some_2 in Ht as [x Hx]. rewrite Hx. simpl.
  by rewrite (Hcol t x Hx).
Qed.

Lemma lg_rowwise :
  ∃ st, score_lightgbm_loop train_X train_y holdout_X test_folds lgbm_fit
          predict_proba roc_auc_score preprocessing = Some st
    ∧ is_Some (model st)
    ∧ accumulates (fold_share NUM_FOLDS) NUM_FOLDS test_folds
        (length holdout_X)
        (test_value train_X train_y holdout_X lgbm_fit predict_proba
                    preprocessing)
        (holdout_preds st).
Proof.
  destruct lg_loop as (st & Hst & Hhp & Hm).
  exists st. split_and!; [done|by rewrite Hm|].
  rewrite Hhp. apply vsum_accumulates_shares.
  - intros f _. apply lg_col_length.
  - intros f t p _ Hp. by apply lg_test_link.
Qed.

End LgbmFeaturesFacts.


(** ** Properties of the scoring harnesses *)

Lemma validation_sets_eq (h : harness) (test_folds : list nat) :
  validation_sets h test_folds
  = KFold.valid_sets (harness_num_folds h) test_folds.
Proof.
  assert (H : ∀ {A B} (xs : list (A * B)),
             map (fun it => snd (snd it)) (Np.enumerate xs) = map snd xs).
  { intros A B xs. unfold Np.enumerate.
    rewrite <- (map_map snd snd).
    change (map snd (zip (seq 0 (length xs)) xs))
      with ((zip (seq 0 (length xs)) xs).*2).
    rewrite snd_zip; [done|]. by rewrite length_seq. }
  unfold validation_sets, KFold.valid_sets.
  destruct h; apply H.
Qed.

(** C1.  In each of the five scoring harnesses the validation index arrays
    of the folds are pairwise disjoint, their union is the set of all row
    indices of the training frame, and every row lies in the validation
    array of exactly one fold.  The fold labels are those the library
    splitter computes, each below the number of folds. *)
Theorem validation_sets_partition (h : harness) (test_folds : list nat) :
  Forall (fun f => f < harness_num_folds h) test_folds →
  let sets := validation_sets h test_folds in
  length sets = harness_num_folds h
  ∧ (∀ f g va vb, sets !! f = Some va → sets !! g = Some vb → f ≠ g →
       (list_to_set va : gset nat) ## list_to_set vb)
  ∧ (⋃ (list_to_set <$> sets) : gset nat) = set_seq 0 (length test_folds)
  ∧ (∀ i, i < length test_folds →
       ∃ f va, sets !! f = Some va ∧ i ∈ va
               ∧ ∀ g vb, sets !! g = Some vb → i ∈ vb → g = f).
Proof.
  intros Hrange sets. subst sets. rewrite validation_sets_eq.
  set (K := harness_num_folds h) in *.
  assert (Hsets : ∀ f va, KFold.valid_sets K test_folds !! f = Some va →
                     f < K ∧ va = valid_idx_of test_folds f).
  { intros f va (tr & Hs)%valid_sets_lookup.
    by apply split_lookup_inv in Hs as (? & _ & ?). }
  split_and!.
  - unfold KFold.valid_sets. by rewrite length_map, split_length.
  - intros f g va vb [_ ->]%Hsets [_ ->]%Hsets Hne.
    apply elem_of_disjoint. intros i.
    rewrite !elem_of_list_to_set, !valid_idx_of_elem. congruence.
  - apply set_eq. intros i.
    rewrite elem_of_union_list, elem_of_set_seq. split.
    + intros (S & HS & Hi).
      apply list_elem_of_fmap in HS as (va & -> & Hva).
      apply list_elem_of_lookup in Hva as (f & Hf).
      apply Hsets in Hf as [_ ->].
      apply elem_of_list_to_set, valid_idx_of_elem, lookup_lt_Some in Hi. lia.
    + intros [_ Hi]. simpl in Hi.
      apply lookup_lt_is_Some_2 in Hi as [f Hf].
      assert (f < K) by (rewrite Forall_lookup in Hrange; by eapply Hrange).
      exists (list_to_set (valid_idx_of test_folds f)). split.
      * apply list_elem_of_fmap. eexists. split; [done|].
        apply list_elem_of_lookup. exists f. apply valid_sets_lookup.
        eexists. by apply split_lookup_lt.
      * by apply elem_of_list_to_set, valid_idx_of_elem.
  - intros i Hi. apply lookup_lt_is_Some_2 in Hi as [f Hf].
    assert (f < K) by (rewrite Forall_lookup in Hrange; by eapply Hrange).
    exists f, (valid_idx_of test_folds f). split_and!.
    + apply valid_sets_lookup. eexists. by apply split_lookup_lt.
    + by apply valid_idx_of_elem.
    + intros g vb [_ ->]%Hsets Hin%valid_idx_of_elem. congruence.
Qed.

Lemma validation_sets_partition_witness :
  Forall (fun f => f < harness_num_folds Score_lightgbm) [0; 1; 2; 0; 1]
  ∧ length (validation_sets Score_lightgbm [0; 1; 2; 0; 1]) = 3.
Proof.
  assert (H : Forall (fun f => f < harness_num_folds Score_lightgbm)
                     [0; 1; 2; 0; 1]).
  { repeat constructor. }
  split; [exact H|].
  exact (proj1 (validation_sets_partition Score_lightgbm [0; 1; 2; 0; 1] H)).
Defined.

Lemma series_loc_is_Some (index : list string) (data : list Q)
    (keys : list string) :
  length index = length data → keys ⊆ index →
  is_Some (ForestCover.series_loc index data keys).
Proof.
  intros Hlen Hsub. unfold ForestCover.series_loc.
  rewrite decide_True by done.
  assert (Hget : ∀ k, k ∈ index →
            is_Some (ForestCover.series_get (zip index data) k)).
  { clear Hsub keys. intros k. unfold ForestCover.series_get.
    revert data Hlen. induction index as [|k' index IH];
      intros [|d data] Hlen Hk; try done.
    - by apply elem_of_nil in Hk.
    - simpl. destruct (String.eqb k k') eqn:Heq; [by eexists|].
      apply elem_of_cons in Hk as [->|Hk].
      + by rewrite String.eqb_refl in Heq.
      + apply IH; [by injection Hlen|done]. }
  induction keys as [|k keys IH]; [by eexists|].
  destruct (Hget k) as [v Hv]; [apply Hsub; left|].
  destruct IH as [l Hl]; [intros k' Hk'; apply Hsub; by right|].
  exists ((k, v) :: l). apply mapM_Some. constructor.
  - by rewrite Hv.
  - by apply mapM_Some.
Qed.

Section HarnessClaims.
Context {X Y W Estimator Model : Type} `{EqDecision Y} `{arith : !FloatArith}.
Variable train_X : list X.
Variable train_y : list Y.
Variable sample_weight : list W.
Variable test_X : list X.
Variable test_y : list Y.
Variable test_folds : list nat.
Variable columns : list X → list string.
Variable clone : Estimator → Estimator.
Variable LearningWithNoisyLabels : Estimator → Estimator.
Variable fit : Estimator → list X → list Y → Model.
Variable fit_weighted : Estimator → list X → list Y → list W → Model.
Variable lgbm_fit : Z → Z → list X → list Y → list X * list Y → Model.
Variable predict : Model → X → Q.
Variable predict_proba : Model → X → list Q.
Variable permutation_importance : Model → list X → list Y → list Q.
Variable accuracy_score : list Y → list Q → Q.
Variable roc_auc_score : list Y → list Q → Q.
Variable sort_values : list (string * Q) → list (string * Q).

Local Abbreviation score_features_loop' :=
  (ForestCover.score_features_loop train_X train_y test_X test_folds
     columns clone fit predict predict_proba permutation_importance
     accuracy_score).
Local Abbreviation score_features' :=
  (ForestCover.score_features train_X train_y test_X test_y test_folds
     columns clone fit predict predict_proba permutation_importance
     accuracy_score sort_values).

(** What [score_features] returns, from the state at the end of its loop. *)
Lemma score_features_returns est processing X_temp X_test :
  ForestCover.apply_processing processing train_X = Some X_temp →
  ForestCover.apply_processing processing test_X = Some X_test →
  length X_temp = length test_folds →
  length train_y = length test_folds →
  (∀ m x, length (predict_proba m x) = 6) →
  (∀ m xs ys,
     length (permutation_importance m xs ys) = length (columns X_temp)) →
  columns X_test ⊆ columns X_temp →
  ∃ st fi,
    score_features_loop' est processing = Some (X_temp, X_test, st)
    ∧ score_features' est processing
      = Some (Np.mean (ForestCover.scores st),
              oof_values (ForestCover.oof_preds st),
              accuracy_score test_y
                (map ForestCover.nat_to_Q
                     (map Np.argmax (ForestCover.test_preds st))),
              sort_values fi)
    ∧ (Forall (fun f => f < ForestCover.NUM_FOLDS) test_folds →
       out_of_fold ForestCover.NUM_FOLDS test_folds
         (ForestCover.oof_value train_y clone fit predict est X_temp)
         (ForestCover.oof_preds st))
    ∧ ∀ c, c < 6 →
        accumulates whole_value ForestCover.NUM_FOLDS test_folds (length X_test)
          (ForestCover.test_value train_y clone fit predict_proba est
                                  X_temp X_test c)
          (matrix_column (ForestCover.test_preds st) c).
Proof.
  intros HXt HXe Hrows Hy Hpp Hpi Hcols.
  destruct (fc_rowwise train_y test_folds columns clone fit predict
              predict_proba permutation_importance accuracy_score
              X_temp X_test Hrows Hy Hpp Hpi est)
    as (st & Hst & Hoof & _ & Hfi & Hacc).
  destruct (series_loc_is_Some (columns X_temp) (ForestCover.fi_scores st)
              (filter (fun x => ¬ String.prefix "Soil_Type" x = true)
                      (columns X_test))) as [fi Hfis].
  { done. }
  { intros k Hk%list_elem_of_filter. apply Hcols. tauto. }
  exists st, fi.
  assert (Hloop : score_features_loop' est processing
                  = Some (X_temp, X_test, st)).
  { unfold ForestCover.score_features_loop.
    by rewrite HXt, bind_Some, HXe, bind_Some, Hst. }
  split_and!; [done| |done|done].
  unfold ForestCover.score_features.
  by rewrite Hloop, bind_Some, Hfis.
Qed.

(** C2.  In the four harnesses that return out-of-fold predictions
    ([score_features], [train_model], [train_noisy_model], [score_model])
    the loop runs to its end, and for every training row [i] the returned
    [oof_preds[i]] is stored exactly once, in the one fold whose
    validation indices contain [i], and is the prediction for row [i] of a
    model fitted, from a clone of the given estimator, on the rows of
    that fold's training indices, which do not contain [i]. *)
Theorem oof_predictions_are_out_of_fold :
  length train_X = length test_folds →
  length train_y = length test_folds →
  length sample_weight = length test_folds →
  (∀ est processing X_temp X_test,
     ForestCover.apply_processing processing train_X = Some X_temp →
     ForestCover.apply_processing processing test_X = Some X_test →
     length X_temp = length test_folds →
     (∀ m x, length (predict_proba m x) = 6) →
     (∀ m xs ys,
        length (permutation_importance m xs ys) = length (columns X_temp)) →
     columns X_test ⊆ columns X_temp →
     Forall (fun f => f < ForestCover.NUM_FOLDS) test_folds →
     ∃ st r,
       score_features_loop' est processing = Some (X_temp, X_test, st)
       ∧ score_features' est processing = Some r
       ∧ r.1.1.2 = oof_values (ForestCover.oof_preds st)
       ∧ out_of_fold ForestCover.NUM_FOLDS test_folds
           (ForestCover.oof_value train_y clone fit predict est X_temp)
           (ForestCover.oof_preds st))
  ∧ ((∀ m x, is_Some (predict_proba m x !! 1)) →
     Forall (fun f => f < NoisyLabels.NUM_FOLDS) test_folds →
     ∀ est,
       (∃ st,
          NoisyLabels.train_model train_X train_y test_X test_folds clone
            fit predict_proba roc_auc_score est
          = Some (NoisyLabels.scores st, NoisyLabels.test_preds st,
                  oof_values (NoisyLabels.oof_preds st))
          ∧ out_of_fold NoisyLabels.NUM_FOLDS test_folds
              (NoisyLabels.oof_value train_X train_y fit predict_proba
                 clone est)
              (NoisyLabels.oof_preds st))
       ∧ (∃ st,
            NoisyLabels.train_noisy_model train_X train_y test_X
              test_folds clone LearningWithNoisyLabels fit predict_proba
              roc_auc_score est
            = Some (NoisyLabels.scores st, NoisyLabels.test_preds st,
                    oof_values (NoisyLabels.oof_preds st))
            ∧ out_of_fold NoisyLabels.NUM_FOLDS test_folds
                (NoisyLabels.oof_value train_X train_y fit predict_proba
                   (fun e => LearningWithNoisyLabels (clone e)) est)
                (NoisyLabels.oof_preds st)))
  ∧ ((∀ m x, length (predict_proba m x)
             = ClassProbabilities.n_classes train_y) →
     Forall (fun f => f < ClassProbabilities.NUM_FOLDS) test_folds →
     ∀ est,
       ∃ st,
         ClassProbabilities.score_model train_X train_y sample_weight
           test_X test_folds clone fit_weighted predict_proba est
         = Some (oof_values (ClassProbabilities.oof_preds st),
                 ClassProbabilities.test_proba st)
         ∧ out_of_fold ClassProbabilities.NUM_FOLDS test_folds
             (ClassProbabilities.oof_value train_X train_y sample_weight
                clone fit_weighted predict_proba est)
             (ClassProbabilities.oof_preds st)).
Proof.
  intros HX Hy Hw. split_and!.
  - intros est processing X_temp X_test HXt HXe Hrows Hpp Hpi Hcols Hrange.
    destruct (score_features_returns est processing X_temp X_test
                HXt HXe Hrows Hy Hpp Hpi Hcols)
      as (st & fi & Hloop & Hret & Hoof & _).
    exists st. eexists. split_and!; [done|exact Hret|done|by apply Hoof].
  - intros Hpp Hrange est. split.
    + destruct (noisy_rowwise train_X train_y test_X test_folds fit
                  predict_proba roc_auc_score HX Hy Hpp clone est)
        as (st & Hst & Hoof & _).
      exists st. split; [|by apply Hoof].
      unfold NoisyLabels.train_model, NoisyLabels.train_model_loop.
      by rewrite Hst.
    + destruct (noisy_rowwise train_X train_y test_X test_folds fit
                  predict_proba roc_auc_score HX Hy Hpp
                  (fun e => LearningWithNoisyLabels (clone e)) est)
        as (st & Hst & Hoof & _).
      exists st. split; [|by apply Hoof].
      unfold NoisyLabels.train_noisy_model,
        NoisyLabels.train_noisy_model_loop.
      by rewrite Hst.
  - intros Hpp Hrange est.
    destruct (cp_rowwise train_X train_y sample_weight test_X test_folds
                clone fit_weighted predict_proba HX Hy Hw Hpp est)
      as (st & Hst & Hoof & _).
    exists st. split; [|by apply Hoof].
    unfold ClassProbabilities.score_model. by rewrite Hst.
Qed.

(** C3, as the code has it.  In [train_model], [train_noisy_model],
    [score_model] and [score_lightgbm] the accumulated test (holdout)
    predictions are, entry by entry, what [acc = 0] followed by
    [acc = acc + p / NUM_FOLDS] for the predicted probability [p] of
    the model of each fold, in the order of the loop, leaves in [acc],
    whatever the rounding of the sum and of the quotient; the first
    three return that array, [score_lightgbm] returns its AUC.  Without
    rounding this is the average over the folds; in binary64 it need
    not be.  In [score_features] the accumulator adds the probabilities
    themselves, without dividing, and what is returned is the accuracy
    of its row-wise argmax. *)
Theorem test_predictions_accumulate :
  length train_X = length test_folds →
  length train_y = length test_folds →
  length sample_weight = length test_folds →
  ((∀ m x, is_Some (predict_proba m x !! 1)) →
   ∀ est,
     (∃ st,
        NoisyLabels.train_model train_X train_y test_X test_folds clone
          fit predict_proba roc_auc_score est
        = Some (NoisyLabels.scores st, NoisyLabels.test_preds st,
                oof_values (NoisyLabels.oof_preds st))
        ∧ accumulates (fold_share NoisyLabels.NUM_FOLDS)
            NoisyLabels.NUM_FOLDS test_folds (length test_X)
            (NoisyLabels.test_value train_X train_y test_X fit
               predict_proba clone est)
            (NoisyLabels.test_preds st))
     ∧ (∃ st,
          NoisyLabels.train_noisy_model train_X train_y test_X test_folds
            clone LearningWithNoisyLabels fit predict_proba roc_auc_score
            est
          = Some (NoisyLabels.scores st, NoisyLabels.test_preds st,
                  oof_values (NoisyLabels.oof_preds st))
          ∧ accumulates (fold_share NoisyLabels.NUM_FOLDS)
              NoisyLabels.NUM_FOLDS test_folds (length test_X)
              (NoisyLabels.test_value train_X train_y test_X fit
                 predict_proba
                 (fun e => LearningWithNoisyLabels (clone e)) est)
              (NoisyLabels.test_preds st)))
  ∧ ((∀ m x, length (predict_proba m x)
             = ClassProbabilities.n_classes train_y) →
     ∀ est,
       ∃ st,
         ClassProbabilities.score_model train_X train_y sample_weight
           test_X test_folds clone fit_weighted predict_proba est
         = Some (oof_values (ClassProbabilities.oof_preds st),
                 ClassProbabilities.test_proba st)
         ∧ ∀ c, c < ClassProbabilities.n_classes train_y →
             accumulates (fold_share ClassProbabilities.NUM_FOLDS)
               ClassProbabilities.NUM_FOLDS test_folds (length test_X)
               (ClassProbabilities.test_value train_X train_y
                  sample_weight test_X clone fit_weighted predict_proba
                  est c)
               (matrix_column (ClassProbabilities.test_proba st) c))
  ∧ ((∀ m x, is_Some (predict_proba m x !! 1)) →
     ∀ preprocessing,
       LgbmFeatures.keeps_rows preprocessing →
       ∃ st m,
         LgbmFeatures.score_lightgbm_loop train_X train_y test_X
           test_folds lgbm_fit predict_proba roc_auc_score preprocessing
         = Some st
         ∧ LgbmFeatures.score_lightgbm train_X train_y test_X test_y
             test_folds lgbm_fit predict_proba roc_auc_score preprocessing
           = Some (roc_auc_score test_y (LgbmFeatures.holdout_preds st), m)
         ∧ accumulates (fold_share LgbmFeatures.NUM_FOLDS)
             LgbmFeatures.NUM_FOLDS test_folds (length test_X)
             (LgbmFeatures.test_value train_X train_y test_X lgbm_fit
                predict_proba preprocessing)
             (LgbmFeatures.holdout_preds st))
  ∧ (∀ est processing X_temp X_test,
       ForestCover.apply_processing processing train_X = Some X_temp →
       ForestCover.apply_processing processing test_X = Some X_test →
       length X_temp = length test_folds →
       (∀ m x, length (predict_proba m x) = 6) →
       (∀ m xs ys,
          length (permutation_importance m xs ys)
          = length (columns X_temp)) →
       columns X_test ⊆ columns X_temp →
       ∃ st r,
         score_features_loop' est processing = Some (X_temp, X_test, st)
         ∧ score_features' est processing = Some r
         ∧ r.1.2 = accuracy_score test_y
                     (map ForestCover.nat_to_Q
                          (map Np.argmax (ForestCover.test_preds st)))
         ∧ ∀ c, c < 6 →
             accumulates whole_value ForestCover.NUM_FOLDS test_folds
               (length X_test)
               (ForestCover.test_value train_y clone fit predict_proba
                  est X_temp X_test c)
               (matrix_column (ForestCover.test_preds st) c)).
Proof.
  intros HX Hy Hw. split_and!.
  - intros Hpp est. split.
    + destruct (noisy_rowwise train_X train_y test_X test_folds fit
                  predict_proba roc_auc_score HX Hy Hpp clone est)
        as (st & Hst & _ & Hacc).
      exists st. split; [|done].
      unfold NoisyLabels.train_model, NoisyLabels.train_model_loop.
      by rewrite Hst.
    + destruct (noisy_rowwise train_X train_y test_X test_folds fit
                  predict_proba roc_auc_score HX Hy Hpp
                  (fun e => LearningWithNoisyLabels (clone e)) est)
        as (st & Hst & _ & Hacc).
      exists st. split; [|done].
      unfold NoisyLabels.train_noisy_model,
        NoisyLabels.train_noisy_model_loop.
      by rewrite Hst.
  - intros Hpp est.
    destruct (cp_rowwise train_X train_y sample_weight test_X test_folds
                clone fit_weighted predict_proba HX Hy Hw Hpp est)
      as (st & Hst & _ & _ & Hacc).
    exists st. split; [|done].
    unfold ClassProbabilities.score_model. by rewrite Hst.
  - intros Hpp preprocessing Hok.
    destruct (lg_rowwise train_X train_y test_X test_folds lgbm_fit
                predict_proba roc_auc_score preprocessing HX Hy Hpp Hok)
      as (st & Hst & [m Hm] & Hacc).
    exists st, m. split_and!; [done| |done].
    unfold LgbmFeatures.score_lightgbm. rewrite Hst. simpl.
    by rewrite Hm.
  - intros est processing X_temp X_test HXt HXe Hrows Hpp Hpi Hcols.
    destruct (score_features_returns est processing X_temp X_test
                HXt HXe Hrows Hy Hpp Hpi Hcols)
      as (st & fi & Hloop & Hret & _ & Hacc).
    exists st. eexists. split_and!; [done|exact Hret|done|done].
Qed.

End HarnessClaims.

Section HarnessExamples.
Import HarnessExample.

Lemma example_proba_length m x : length (predict_proba m x) = 6.
Proof. unfold predict_proba. by case_bool_decide. Qed.

Lemma example_proba_column1 m x : is_Some (predict_proba m x !! 1).
Proof. unfold predict_proba. case_bool_decide; by eexists. Qed.

Lemma example_folds_lt k : 6 ≤ k → Forall (fun f => f < k) test_folds.
Proof. intros. unfold test_folds. repeat constructor; lia. Qed.

#[local] Existing Instance exact_arithmetic.

Lemma oof_predictions_are_out_of_fold_witness :
length HarnessExample.train_X = length HarnessExample.test_folds
∧ length HarnessExample.train_y = length HarnessExample.test_folds
∧ length HarnessExample.sample_weight = length HarnessExample.test_folds
∧ ∃ st,
    ClassProbabilities.score_model HarnessExample.train_X
      HarnessExample.train_y HarnessExample.sample_weight
      HarnessExample.test_X HarnessExample.test_folds
      HarnessExample.clone HarnessExample.fit_weighted
      HarnessExample.predict_proba tt
    = Some (oof_values (ClassProbabilities.oof_preds st),
            ClassProbabilities.test_proba st)
    ∧ out_of_fold ClassProbabilities.NUM_FOLDS HarnessExample.test_folds
        (ClassProbabilities.oof_value HarnessExample.train_X
           HarnessExample.train_y HarnessExample.sample_weight
           HarnessExample.clone HarnessExample.fit_weighted
           HarnessExample.predict_proba tt)
        (ClassProbabilities.oof_preds st).
Proof.
split; [reflexivity|]. split; [reflexivity|]. split; [reflexivity|].
refine (proj2 (proj2 (oof_predictions_are_out_of_fold
          HarnessExample.train_X HarnessExample.train_y
          HarnessExample.sample_weight HarnessExample.test_X
          HarnessExample.test_y HarnessExample.test_folds
          HarnessExample.columns HarnessExample.clone
          HarnessExample.LearningWithNoisyLabels HarnessExample.fit
          HarnessExample.fit_weighted HarnessExample.predict
          HarnessExample.predict_proba
          HarnessExample.permutation_importance
          HarnessExample.accuracy_score HarnessExample.roc_auc_score
          HarnessExample.sort_values eq_refl eq_refl eq_refl)) _ _ tt).
- intros m x. apply example_proba_length.
- apply example_folds_lt. unfold ClassProbabilities.NUM_FOLDS. lia.
Defined.

End HarnessExamples.

Section StratifiedExamples.
Import StratifiedExample.

#[local] Existing Instance Binary64.arithmetic.

Lemma tenths_column1 m x : is_Some (predict_tenths m x !! 1).
Proof. by eexists. Qed.

(** [train_model] in binary64: every fold predicts [0.1] for each test
    row, and the accumulated prediction is [0.09999999999999999]. *)
Lemma train_model_rounds :
  ∃ scores oof,
    NoisyLabels.train_model train_X train_y test_X test_folds
      HarnessExample.clone HarnessExample.fit predict_tenths
      HarnessExample.roc_auc_score tt
    = Some (scores,
            [Qmake 7205759403792793 (2 ^ 56);
             Qmake 7205759403792793 (2 ^ 56)], oof)
    ∧ ¬ (Qmake 7205759403792793 (2 ^ 56) == Binary64.tenth)%Q.
Proof.
  eexists _, _. split; [vm_compute; reflexivity|]. by vm_compute.
Qed.

Lemma test_predictions_accumulate_witness :
length StratifiedExample.train_X = length StratifiedExample.test_folds
∧ length StratifiedExample.train_y = length StratifiedExample.test_folds
∧ length StratifiedExample.sample_weight
  = length StratifiedExample.test_folds
∧ ∃ st,
    NoisyLabels.train_model StratifiedExample.train_X
      StratifiedExample.train_y StratifiedExample.test_X
      StratifiedExample.test_folds HarnessExample.clone
      HarnessExample.fit StratifiedExample.predict_tenths
      HarnessExample.roc_auc_score tt
    = Some (NoisyLabels.scores st, NoisyLabels.test_preds st,
            oof_values (NoisyLabels.oof_preds st))
    ∧ accumulates (fold_share NoisyLabels.NUM_FOLDS) NoisyLabels.NUM_FOLDS
        StratifiedExample.test_folds (length StratifiedExample.test_X)
        (NoisyLabels.test_value StratifiedExample.train_X
           StratifiedExample.train_y StratifiedExample.test_X
           HarnessExample.fit StratifiedExample.predict_tenths
           HarnessExample.clone tt)
        (NoisyLabels.test_preds st).
Proof.
split; [reflexivity|]. split; [reflexivity|]. split; [reflexivity|].
refine (proj1 (proj1 (test_predictions_accumulate
          StratifiedExample.train_X StratifiedExample.train_y
          StratifiedExample.sample_weight StratifiedExample.test_X
          StratifiedExample.test_y StratifiedExample.test_folds
          HarnessExample.columns HarnessExample.clone
          HarnessExample.LearningWithNoisyLabels HarnessExample.fit
          HarnessExample.fit_weighted HarnessExample.lgbm_fit
          HarnessExample.predict
          StratifiedExample.predict_tenths
          HarnessExample.permutation_importance
          HarnessExample.accuracy_score HarnessExample.roc_auc_score
          HarnessExample.sort_values eq_refl eq_refl eq_refl) _ tt)).
intros m x. apply tenths_column1.
Defined.

(** C3 as stated fails for [score_features].  On thirty-six rows, six of
  each class and one of each class in every fold, the test row 0 is a
  training row of five of the six folds; their models give it
  probability one for class 0 and the sixth gives it zero.  The
  accumulated entry is 5 in binary64, not the average 5/6. *)
Lemma score_features_sum_is_not_average :
∃ st,
  ForestCover.score_features_loop StratifiedExample.train_X
    StratifiedExample.train_y StratifiedExample.test_X
    StratifiedExample.test_folds
    HarnessExample.columns HarnessExample.clone HarnessExample.fit
    HarnessExample.predict HarnessExample.predict_proba
    HarnessExample.permutation_importance HarnessExample.accuracy_score
    tt None
  = Some (StratifiedExample.train_X, StratifiedExample.test_X, st)
  ∧ matrix_column (ForestCover.test_preds st) 0 = [5; 0]%Q
  ∧ ¬ fold_average ForestCover.NUM_FOLDS
        StratifiedExample.test_folds (length StratifiedExample.test_X)
        (ForestCover.test_value StratifiedExample.train_y
           HarnessExample.clone HarnessExample.fit
           HarnessExample.predict_proba tt StratifiedExample.train_X
           StratifiedExample.test_X 0)
        (matrix_column (ForestCover.test_preds st) 0).
Proof.
eexists. split; [vm_compute; reflexivity|]. split; [vm_compute; reflexivity|].
intros [_ Hacc]. destruct (Hacc 0) as (ps & q & HF & Hq & Heq).
{ simpl. lia. }
vm_compute in Hq. injection Hq as <-.
vm_compute in HF.
repeat match goal with
       | H : Forall2 _ (_ :: _) _ |- _ =>
           apply Forall2_cons_inv_l in H as (? & ? & ? & H & ->)
       | H : Forall2 _ [] _ |- _ => apply Forall2_nil_inv_l in H as ->
       | H : Some _ = Some _ |- _ => injection H as <-
       end.
vm_compute in Heq. discriminate.
Qed.

End StratifiedExamples.

(** ** Frames and the object store *)

Section FrameFacts.
Context {S : Type}.
Implicit Types (df : Frame.t S) (c : string) (s : S).

Lemma assoc_set_eq c s (l : list (string * S)) :
  Frame.assoc c (Frame.assoc_set c s l) = Some s.
Proof.
  induction l as [|[k s'] l IH]; simpl.
  - by rewrite String.eqb_refl.
  - destruct (String.eqb c k) eqn:Heq; simpl; by rewrite Heq.
Qed.

Lemma assoc_set_ne c c' s (l : list (string * S)) :
  c ≠ c' → Frame.assoc c' (Frame.assoc_set c s l) = Frame.assoc c' l.
Proof.
  intros Hne. induction l as [|[k s'] l IH]; simpl.
  - destruct (String.eqb c' c) eqn:Heq; [|done].
    apply String.eqb_eq in Heq. congruence.
  - destruct (String.eqb c k) eqn:Heq; simpl.
    + apply String.eqb_eq in Heq as ->.
      destruct (String.eqb c' k) eqn:Heq'; [|done].
      apply String.eqb_eq in Heq'. congruence.
    + by rewrite IH.
Qed.

Lemma get_set_eq df c s : Frame.get (Frame.set df c s) c = Some s.
Proof. apply assoc_set_eq. Qed.

Lemma get_set_ne df c c' s :
  c ≠ c' → Frame.get (Frame.set df c s) c' = Frame.get df c'.
Proof. apply assoc_set_ne. Qed.


Lemma get_None_columns df c :
  Frame.get df c = None ↔ c ∉ Frame.columns df.
Proof.
  unfold Frame.get, Frame.columns. induction (Frame.cols df) as [|[k s'] l IH];
    simpl.
  - split; [intros _; apply not_elem_of_nil|done].
  - destruct (String.eqb c k) eqn:Heq.
    + apply String.eqb_eq in Heq as ->. split; [done|].
      intros H. exfalso. apply H. left.
    + rewrite IH, not_elem_of_cons. apply String.eqb_neq in Heq. tauto.
Qed.

Lemma columns_set_new df c s :
  c ∉ Frame.columns df →
  Frame.columns (Frame.set df c s) = Frame.columns df ++ [c].
Proof.
  unfold Frame.columns, Frame.set. simpl.
  induction (Frame.cols df) as [|[k s'] l IH]; simpl; [done|].
  intros [Hne Hl]%not_elem_of_cons.
  apply String.eqb_neq in Hne. rewrite Hne. simpl. by rewrite IH.
Qed.

Lemma columns_set_old df c s :
  c ∈ Frame.columns df →
  Frame.columns (Frame.set df c s) = Frame.columns df.
Proof.
  unfold Frame.columns, Frame.set. simpl.
  induction (Frame.cols df) as [|[k s'] l IH]; simpl.
  - intros H. by apply elem_of_nil in H.
  - destruct (String.eqb c k) eqn:Heq; [done|]. simpl.
    intros [->|Hl]%elem_of_cons; [by rewrite String.eqb_refl in Heq|].
    by rewrite IH.
Qed.
End FrameFacts.

Section StoreFacts.
Context {S : Type}.
Implicit Types (h : Store.heap S) (df : Frame.t S) (r : Store.ref)
               (W : list string).

Lemma lookup_last h df : (h ++ [df]) !! length h = Some df.
Proof. by rewrite lookup_app_r, Nat.sub_diag by lia. Qed.

Lemma insert_last h df df' : <[length h := df']> (h ++ [df]) = h ++ [df'].
Proof.
  rewrite insert_app_r_alt by lia. by rewrite Nat.sub_diag.
Qed.

Lemma local_ret {A} r W (a : A) (Q : A → Prop) :
  Q a → local_to (S:=S) r W (Store.ret a) Q.
Proof.
  intros HQ h df a' h2 _ Heq. unfold Store.ret in Heq. simplify_eq.
  split; [done|]. by exists df.
Qed.

Lemma local_bind {A B} r W (m : Store.M S A) (k : A → Store.M S B)
    (Q1 : A → Prop) (Q2 : B → Prop) :
  local_to r W m Q1 →
  (∀ a, Q1 a → local_to r W (k a) Q2) →
  local_to r W (Store.bind m k) Q2.
Proof.
  intros Hm Hk h df b h2 Hr. unfold Store.bind.
  destruct (m (h ++ [df])) as [[a h1]| |] eqn:Hrun; try done.
  destruct (Hm h df a h1 Hr Hrun) as (Ha & df1 & -> & Hn1 & Hg1).
  intros Hrun2.
  destruct (Hk a Ha h df1 b h2 Hr Hrun2) as (Hb & df2 & -> & Hn2 & Hg2).
  split; [done|]. exists df2. split_and!; [done|congruence|].
  intros c Hc. rewrite Hg2, Hg1 by done. done.
Qed.

Lemma local_lift {A} r W (o : outcome A) :
  local_to (S:=S) r W (Store.lift o) (fun _ => True).
Proof.
  intros h df a h2 _ Hrun. unfold Store.lift in Hrun.
  destruct o; simplify_eq. split; [done|]. by exists df.
Qed.

Lemma local_read r W r' :
  local_to (S:=S) r W (Store.read r') (fun _ => True).
Proof.
  intros h df a h2 _ Hrun. unfold Store.read in Hrun.
  case_match; simplify_eq. split; [done|]. by exists df.
Qed.

Lemma local_getitem r W r' c :
  local_to (S:=S) r W (Store.getitem r' c) (fun _ => True).
Proof.
  unfold Store.getitem. eapply local_bind; [apply local_read|].
  intros a _. apply local_lift.
Qed.

Lemma local_getitems r W r' names :
  local_to (S:=S) r W (Store.getitems r' names) (fun _ => True).
Proof.
  unfold Store.getitems. eapply local_bind; [apply local_read|].
  intros a _. apply local_lift.
Qed.

Lemma local_columns r W r' :
  local_to (S:=S) r W (Store.columns r') (fun _ => True).
Proof.
  unfold Store.columns. eapply local_bind; [apply local_read|].
  intros a _. by apply local_ret.
Qed.

Lemma local_nrows r W r' :
  local_to (S:=S) r W (Store.nrows r') (fun _ => True).
Proof.
  unfold Store.nrows. eapply local_bind; [apply local_read|].
  intros a _. by apply local_ret.
Qed.

Lemma local_setitem r W c (s : S) :
  c ∈ W → local_to r W (Store.setitem r c s) (fun _ => True).
Proof.
  intros Hc h df a h2 <- Hrun. unfold Store.setitem in Hrun.
  rewrite lookup_last, insert_last in Hrun. simplify_eq.
  split; [done|]. eexists. split_and!; [done|done|].
  intros c' Hc'. apply get_set_ne. intros ->. done.
Qed.

Lemma builds_copy_intro W (body : Store.ref → Store.M S Store.ref) :
  (∀ r, local_to r W (body r) (fun a => a = r)) →
  builds_copy W (fun data => Store.bind (Store.copy data) body).
Proof.
  intros Hbody data h r h' Hrun. unfold Store.bind, Store.copy in Hrun.
  destruct (h !! data) as [df0|] eqn:Hdata; [|done].
  destruct (Hbody (length h) h df0 r h' eq_refl Hrun)
    as (-> & df2 & -> & Hn & Hg).
  by exists df0, df2.
Qed.
End StoreFacts.

(** Steps through a computation that only reads, or assigns to the columns
    in the given list of the frame it works on. *)
Ltac local_steps :=
  repeat first
    [ apply local_ret; reflexivity
    | eapply local_bind;
      [ first [ apply local_getitem | apply local_getitems
              | apply local_lift | apply local_columns | apply local_nrows
              | apply local_read
              | apply local_setitem; apply list_elem_of_In; simpl; tauto ]
      | intros ? _ ] ].

(** ** The feature functions of the forest-cover notebooks *)

Section ForestFeatureFacts.
Import ForestCover.

Lemma aspect_features_builds_copy np_sin :
  builds_copy aspect_written (aspect_features np_sin).
Proof. apply builds_copy_intro. intros r. unfold lift. local_steps. Qed.

Lemma hillshade_features_builds_copy :
  builds_copy hillshade_written hillshade_features.
Proof. apply builds_copy_intro. intros r. unfold lift. local_steps. Qed.

Lemma local_water_columns r :
  local_to r water_written (water_columns r) (fun _ => True).
Proof.
  unfold water_columns, lift. local_steps.
  apply local_setitem. apply list_elem_of_In. simpl. tauto.
Qed.

Lemma local_water_store_float32 r :
  local_to r water_written (water_store_float32 r) (fun _ => True).
Proof.
  unfold water_store_float32, lift. local_steps.
  apply local_setitem. apply list_elem_of_In. simpl. tauto.
Qed.

Lemma water_features_builds_copy :
  builds_copy water_written water_features.
Proof.
  apply builds_copy_intro. intros r.
  eapply local_bind; [apply local_water_columns|intros ? _].
  eapply local_bind; [apply local_water_store_float32|intros ? _].
  by apply local_ret.
Qed.

Lemma count_features_builds_copy :
  builds_copy count_written count_features.
Proof. apply builds_copy_intro. intros r. unfold lift. local_steps. Qed.

Lemma hydrofire_interactions_builds_copy :
  builds_copy hydrofire_written hydrofire_interactions.
Proof. apply builds_copy_intro. intros r. unfold lift. local_steps. Qed.

Lemma local_abs_of r W op r' a b :
  local_to r W (abs_of op r' a b) (fun _ => True).
Proof.
  unfold abs_of, lift.
  eapply local_bind; [apply local_getitem|intros ? _].
  eapply local_bind; [apply local_getitem|intros ? _].
  eapply local_bind; [apply local_lift|intros ? _].
  apply local_lift.
Qed.

Lemma roadway_interactions_builds_copy :
  builds_copy roadway_written roadway_interactions.
Proof.
  apply builds_copy_intro. intros r. unfold roadway_interactions.
  repeat first
    [ apply local_ret; reflexivity
    | eapply local_bind;
      [ first [ apply local_abs_of
              | apply local_setitem; apply list_elem_of_In; simpl; tauto ]
      | intros ? _ ] ].
Qed.

Lemma elevation_interactions_builds_copy :
  builds_copy elevation_written elevation_interactions.
Proof. apply builds_copy_intro. intros r. unfold lift. local_steps. Qed.
End ForestFeatureFacts.

(** ** Running a computation on the copy, step by step *)

Section StoreRuns.
Context {S : Type}.
Implicit Types (h : Store.heap S) (df : Frame.t S) (r : Store.ref).

Lemma bind_Ok_inv {A B} (m : Store.M S A) (k : A → Store.M S B) h b h2 :
  Store.bind m k h = Ok (b, h2) →
  ∃ a h1, m h = Ok (a, h1) ∧ k a h1 = Ok (b, h2).
Proof.
  unfold Store.bind. destruct (m h) as [[a h1]| |]; try done.
  intros H. by exists a, h1.
Qed.

Lemma ret_Ok_inv {A} (a b : A) h h2 :
  Store.ret a h = Ok (b, h2) → b = a ∧ h2 = h.
Proof. unfold Store.ret. intros H. by simplify_eq. Qed.

Lemma lift_Ok_inv {A} (o : outcome A) (a : A) h h2 :
  Store.lift o h = Ok (a, h2) → o = Ok a ∧ h2 = h.
Proof. unfold Store.lift. destruct o; intros H; by simplify_eq. Qed.

Lemma copy_Ok_inv r h r' h2 :
  Store.copy r h = Ok (r', h2) →
  ∃ df, h !! r = Some df ∧ r' = length h ∧ h2 = h ++ [df].
Proof.
  unfold Store.copy. destruct (h !! r) as [df|]; intros H; [|done].
  exists df. by simplify_eq.
Qed.

Lemma read_Ok_inv r h df h2 :
  Store.read r h = Ok (df, h2) → h !! r = Some df ∧ h2 = h.
Proof.
  unfold Store.read. destruct (h !! r) as [df'|]; intros H; by simplify_eq.
Qed.

Lemma getitem_Ok_inv r c h (s : S) h2 :
  Store.getitem r c h = Ok (s, h2) →
  ∃ df, h !! r = Some df ∧ Frame.get df c = Some s ∧ h2 = h.
Proof.
  unfold Store.getitem.
  intros (df & h1 & [Hdf ->]%read_Ok_inv & Hl)%bind_Ok_inv.
  apply lift_Ok_inv in Hl as [Hg ->]. exists df. split_and!; try done.
  by destruct (Frame.get df c); simplify_eq.
Qed.

Lemma getitems_Ok_inv r names h (l : list S) h2 :
  Store.getitems r names h = Ok (l, h2) →
  ∃ df, h !! r = Some df ∧ Frame.select df names = Ok l ∧ h2 = h.
Proof.
  unfold Store.getitems.
  intros (df & h1 & [Hdf ->]%read_Ok_inv & Hl)%bind_Ok_inv.
  apply lift_Ok_inv in Hl as [Hg ->]. by exists df.
Qed.

Lemma columns_Ok_inv r h l h2 :
  Store.columns (S:=S) r h = Ok (l, h2) →
  ∃ df, h !! r = Some df ∧ l = Frame.columns df ∧ h2 = h.
Proof.
  unfold Store.columns.
  intros (df & h1 & [Hdf ->]%read_Ok_inv & Hl)%bind_Ok_inv.
  apply ret_Ok_inv in Hl as [-> ->]. by exists df.
Qed.

Lemma nrows_Ok_inv r h n h2 :
  Store.nrows (S:=S) r h = Ok (n, h2) →
  ∃ df, h !! r = Some df ∧ n = Frame.nrows df ∧ h2 = h.
Proof.
  unfold Store.nrows.
  intros (df & h1 & [Hdf ->]%read_Ok_inv & Hl)%bind_Ok_inv.
  apply ret_Ok_inv in Hl as [-> ->]. by exists df.
Qed.

Lemma setitem_Ok_inv r c (s : S) h u h2 :
  Store.setitem r c s h = Ok (u, h2) →
  ∃ df, h !! r = Some df ∧ h2 = <[r := Frame.set df c s]> h.
Proof.
  unfold Store.setitem. destruct (h !! r) as [df|]; intros H; [|done].
  exists df. by simplify_eq.
Qed.

Lemma lookup_last_Some h df df' :
  (h ++ [df]) !! length h = Some df' → df' = df.
Proof. rewrite lookup_last. congruence. Qed.

Lemma select_Ok_lookup df names (l : list S) i c :
  Frame.select df names = Ok l → names !! i = Some c →
  ∃ s, l !! i = Some s ∧ Frame.get df c = Some s.
Proof.
  revert l i. induction names as [|c' names IH]; intros l i Hsel Hi; [done|].
  simpl in Hsel. destruct (Frame.get df c') as [s'|] eqn:Hg; [|done].
  destruct (Frame.select df names) as [l'| |] eqn:Hs; try done.
  simplify_eq. destruct i as [|i]; simpl in *.
  - simplify_eq. by exists s'.
  - by apply IH.
Qed.
End StoreRuns.

(** Takes apart a hypothesis [m h = Ok (a, h')] along the steps of [m]. *)
Ltac store_inv H :=
  lazymatch type of H with
  | Store.bind _ _ _ = Ok _ =>
      let a := fresh "a" in
      let h1 := fresh "h" in
      let H1 := fresh "Hstep" in
      apply bind_Ok_inv in H as (a & h1 & H1 & H);
      store_inv H1; store_inv H
  | Store.ret _ _ = Ok _ => apply ret_Ok_inv in H as (? & ?); subst
  | Store.copy _ _ = Ok _ => apply copy_Ok_inv in H as (? & ? & -> & ->)
  | Store.getitem _ _ _ = Ok _ =>
      apply getitem_Ok_inv in H as (? & ?%lookup_last_Some & ? & ->); subst
  | Store.getitems _ _ _ = Ok _ =>
      apply getitems_Ok_inv in H as (? & ?%lookup_last_Some & ? & ->); subst
  | Store.columns _ _ = Ok _ =>
      apply columns_Ok_inv in H as (? & ?%lookup_last_Some & -> & ->); subst
  | Store.nrows _ _ = Ok _ =>
      apply nrows_Ok_inv in H as (? & ?%lookup_last_Some & -> & ->); subst
  | Store.setitem _ _ _ _ = Ok _ =>
      apply setitem_Ok_inv in H as (? & ?%lookup_last_Some & ->); subst;
      rewrite ?insert_last in *
  | Store.lift _ _ = Ok _ => apply lift_Ok_inv in H as (? & ->)
  | _ => idtac
  end.

(** Simplifies reads of a frame after column assignments. *)
Ltac frame_simpl :=
  repeat first
    [ rewrite get_set_eq
    | rewrite get_set_ne by (intros ?; simplify_eq)
    | match goal with
      | H : context [Frame.get (Frame.set _ ?c _) ?c] |- _ =>
          rewrite get_set_eq in H
      | H : context [Frame.get (Frame.set _ _ _) _] |- _ =>
          rewrite get_set_ne in H by (intros ?; simplify_eq)
      end ].

(** Identifies the results of repeated evaluations of one expression. *)
Ltac same_results :=
  repeat match goal with
         | H1 : ?x = Ok ?a, H2 : ?x = Ok ?b |- _ =>
             rewrite H1 in H2; simplify_eq
         | H1 : ?x = Some ?a, H2 : ?x = Some ?b |- _ =>
             rewrite H1 in H2; simplify_eq
         end.

Section HillshadeFacts.
Import ForestCover.

Lemma hillshade_features_run data h r h' :
  hillshade_features data h = Ok (r, h') →
  ∃ df0 df' s9 c,
    h !! data = Some df0
    ∧ r = length h ∧ h' = h ++ [df']
    ∧ Frame.get df0 "Hillshade_9am" = Some s9
    ∧ Pd.clip s9 0 255 = Ok c
    ∧ Frame.get df' "Hillshade_9am_Clipped" = Some c
    ∧ Frame.get df' "Hillshade_Noon_Clipped" = Some c
    ∧ Frame.get df' "Hillshade_3pm_Clipped" = Some c.
Proof.
  intros H. unfold hillshade_features, lift in H. store_inv H.
  frame_simpl. same_results.
  eexists _, _, _, _. split_and!; try done; by frame_simpl.
Qed.
End HillshadeFacts.

Section StoreEval.
Context {S : Type}.
Implicit Types (h : Store.heap S) (df : Frame.t S).

Lemma bind_eval {A B} (m : Store.M S A) (k : A → Store.M S B) h a h1 :
  m h = Ok (a, h1) → Store.bind m k h = k a h1.
Proof. unfold Store.bind. by intros ->. Qed.

Lemma copy_eval r h df :
  h !! r = Some df → Store.copy r h = Ok (length h, h ++ [df]).
Proof. unfold Store.copy. by intros ->. Qed.

Lemma getitem_last h df c (s : S) :
  Frame.get df c = Some s →
  Store.getitem (length h) c (h ++ [df]) = Ok (s, h ++ [df]).
Proof.
  intros Hg. unfold Store.getitem, Store.bind, Store.read.
  rewrite lookup_last, Hg. done.
Qed.

Lemma getitems_last h df names (l : list S) :
  Frame.select df names = Ok l →
  Store.getitems (length h) names (h ++ [df]) = Ok (l, h ++ [df]).
Proof.
  intros Hg. unfold Store.getitems, Store.bind, Store.read.
  rewrite lookup_last, Hg. done.
Qed.

Lemma nrows_last h df :
  Store.nrows (length h) (h ++ [df]) = Ok (Frame.nrows df, h ++ [df]).
Proof.
  unfold Store.nrows, Store.bind, Store.read. by rewrite lookup_last.
Qed.

Lemma columns_last h df :
  Store.columns (length h) (h ++ [df]) = Ok (Frame.columns df, h ++ [df]).
Proof.
  unfold Store.columns, Store.bind, Store.read. by rewrite lookup_last.
Qed.

Lemma setitem_last h df c (s : S) :
  Store.setitem (length h) c s (h ++ [df])
  = Ok (tt, h ++ [Frame.set df c s]).
Proof.
  unfold Store.setitem. by rewrite lookup_last, insert_last.
Qed.

Lemma lift_eval {A} (o : outcome A) (a : A) h :
  o = Ok a → Store.lift (S:=S) o h = Ok (a, h).
Proof. by intros ->. Qed.

Lemma bind_assoc {A B C} (m : Store.M S A) (k1 : A → Store.M S B)
    (k2 : B → Store.M S C) h :
  Store.bind (Store.bind m k1) k2 h
  = Store.bind m (fun a => Store.bind (k1 a) k2) h.
Proof. unfold Store.bind. by destruct (m h) as [[a h1]| |]. Qed.
End StoreEval.

(** Runs the next step of a computation on the copy. *)
Ltac store_step :=
  rewrite ?bind_assoc;
  erewrite bind_eval;
  [| first
       [ apply setitem_last
       | apply nrows_last
       | apply columns_last
       | apply getitem_last; frame_simpl; first [eassumption | reflexivity]
       | apply getitems_last; simpl; frame_simpl;
         repeat match goal with
                | H : Frame.get _ _ = Some _ |- _ => rewrite H
                end; reflexivity
       | apply lift_eval; first [eassumption | reflexivity] ] ].

Section HillshadeTotal.
Import ForestCover.

Lemma hillshade_features_returns data h df0 v9 vn v3 :
  h !! data = Some df0 →
  Frame.get df0 "Hillshade_9am" = Some (Pd.Int64 v9) →
  Frame.get df0 "Hillshade_Noon" = Some (Pd.Int64 vn) →
  Frame.get df0 "Hillshade_3pm" = Some (Pd.Int64 v3) →
  ∃ h', hillshade_features data h = Ok (length h, h').
Proof.
  intros Hdata H9 Hn H3. unfold hillshade_features, lift.
  erewrite bind_eval by (by apply copy_eval).
  repeat store_step.
  eexists. reflexivity.
Qed.
End HillshadeTotal.

Section WaterFacts.
Import ForestCover.

Lemma astype_float32_idem s :
  Pd.astype_float32 (Pd.astype_float32 s) = Pd.astype_float32 s.
Proof. by destruct s. Qed.

(** The columns of the frame when the last block of [water_features]
    is reached, and when the function returns. *)
Lemma water_columns_run h df0 u h1 :
  water_columns (length h) (h ++ [df0]) = Ok (u, h1) →
  ∃ df1 sh sv pos_h pos_v h2 v2 s root abs_h abs_v taxi,
    h1 = h ++ [df1]
    ∧ Frame.get df0 "Horizontal_Distance_To_Hydrology" = Some sh
    ∧ Frame.get df0 "Vertical_Distance_To_Hydrology" = Some sv
    ∧ start_at_eps (Pd.astype_float64 sh) = Ok pos_h
    ∧ start_at_eps (Pd.astype_float64 sv) = Ok pos_v
    ∧ Pd.square pos_h = Ok h2 ∧ Pd.square pos_v = Ok v2
    ∧ Pd.add h2 v2 = Ok s ∧ Pd.sqrt s = Ok root
    ∧ Pd.abs (Pd.astype_float64 sh) = Ok abs_h
    ∧ Pd.abs (Pd.astype_float64 sv) = Ok abs_v
    ∧ Pd.add abs_h abs_v = Ok taxi
    ∧ Frame.get df1 "Hydro_Taxicab_Pos" = Some (Pd.astype_float32 root)
    ∧ Frame.get df1 "Hydro_Euclid_Pos" = Some root
    ∧ Frame.get df1 "Hydro_Taxicab" = Some taxi.
Proof.
  intros H. unfold water_columns, lift in H. store_inv H.
  frame_simpl. simplify_eq. same_results.
  eexists _, _, _, _, _, _, _, _, _, _, _, _.
  split_and!; try done; by frame_simpl.
Qed.

Lemma water_store_float32_run h df1 u h2 :
  water_store_float32 (length h) (h ++ [df1]) = Ok (u, h2) →
  ∃ df2 taxi_pos euclid_pos taxi,
    h2 = h ++ [df2]
    ∧ Frame.get df1 "Hydro_Taxicab_Pos" = Some taxi_pos
    ∧ Frame.get df1 "Hydro_Euclid_Pos" = Some euclid_pos
    ∧ Frame.get df1 "Hydro_Taxicab" = Some taxi
    ∧ Frame.get df2 "Hydro_Taxicab_Pos" = Some (Pd.astype_float32 taxi_pos)
    ∧ Frame.get df2 "Hydro_Euclid_Pos"
      = Some (Pd.astype_float32 euclid_pos)
    ∧ Frame.get df2 "Hydro_Taxicab" = Some (Pd.astype_float32 taxi).
Proof.
  intros H. unfold water_store_float32 in H. store_inv H.
  frame_simpl. eexists _, _, _, _.
  split_and!; try done; by frame_simpl.
Qed.

Lemma water_features_returns data h df0 vh vv ve :
  h !! data = Some df0 →
  Frame.get df0 "Horizontal_Distance_To_Hydrology" = Some (Pd.Int64 vh) →
  Frame.get df0 "Vertical_Distance_To_Hydrology" = Some (Pd.Int64 vv) →
  Frame.get df0 "Elevation" = Some (Pd.Int64 ve) →
  ∃ h', water_features data h = Ok (length h, h').
Proof.
  intros Hdata Hh Hv He.
  unfold water_features, water_columns, water_store_float32, lift.
  erewrite bind_eval by (by apply copy_eval).
  repeat store_step.
  eexists. reflexivity.
Qed.

End WaterFacts.


(** ** Row statistics *)

Section RowStatsFacts.
Import LgbmFeatures.
Context `{arith : !FloatArith}.

(** *** The reductions *)






(** Without overflow the cell holds the sum itself. *)
Lemma is_sum_in_range vals c :
  is_sum vals c →
  (- 2 ^ 63 <= zsum (map int_of vals) < 2 ^ 63)%Z →
  c = Some (Some (inject_Z (zsum (map int_of vals)))).
Proof.
  intros (z & -> & Hz & Hmod) Hs. do 3 f_equal.
  apply Z.mod_divide in Hmod as [k Hk]; [|done]. lia.
Qed.








(** *** Reading the argument frame *)

Lemma assoc_In_NoDup (l : list (string * Series)) c s :
  NoDup (map fst l) → (c, s) ∈ l → Frame.assoc c l = Some s.
Proof.
  induction l as [|[k s'] l IH]; intros Hnd Hin; simpl.
  - by apply elem_of_nil in Hin.
  - simpl in Hnd. apply NoDup_cons in Hnd as [Hk Hnd].
    apply elem_of_cons in Hin as [Heq|Hin].
    + simplify_eq. by rewrite String.eqb_refl.
    + destruct (String.eqb c k) eqn:Heq; [|by apply IH].
      apply String.eqb_eq in Heq as ->. exfalso. apply Hk.
      apply list_elem_of_In, in_map_iff. exists (k, s).
      split; [done|]. by apply list_elem_of_In.
Qed.



Section WithLibrary.
Variable row_mean row_std row_skew row_mad : list cell → cell.
Variable zscore : list cell → list cell.


Lemma partition_columns_readonly data columns cont cat
    (h : Store.heap Series) a h1 :
  partition_columns data columns cont cat h = Ok (a, h1) → h1 = h.
Proof.
  revert cont cat. induction columns as [|c columns IH];
    intros cont cat H; simpl in H.
  - apply ret_Ok_inv in H as [_ ->]. done.
  - apply bind_Ok_inv in H as (s & h2 & Hg & H).
    apply getitem_Ok_inv in Hg as (df & _ & _ & ->).
    destruct (name_starts_with_int (dtype_of s)); by eapply IH.
Qed.

Lemma create_row_stats_builds_copy :
  builds_copy stat_names
    (create_row_stats row_mean row_std row_skew row_mad zscore).
Proof.
  intros data h r h' H. unfold create_row_stats in H.
  apply bind_Ok_inv in H as (cols & h1 & Hc & H).
  apply columns_Ok_inv in Hc as (df0 & Hdf0 & -> & ->).
  apply bind_Ok_inv in H as (p & h1 & Hp & H).
  apply partition_columns_readonly in Hp as ->.
  revert H. apply builds_copy_intro. intros r'. local_steps.
Qed.






End WithLibrary.
End RowStatsFacts.

Section RowStatsExamples.
Import LgbmFeatures.

#[local] Existing Instance exact_arithmetic.


End RowStatsExamples.

(** ** Properties of the feature functions *)

Section FeatureClaims.
Import ForestCover.

(** C4, as the code has it.  Each of the eight feature functions works
    on a copy: whenever it returns, the result is a new frame, every
    frame that existed before the call (the argument among them) is
    unchanged, and the new frame has the argument's row count and agrees
    with the argument on every column whose name is not one the function
    assigns to.  The assigned names are those of the derived columns; for
    [water_features] they include the two hydrology distance columns of
    the input, which it replaces by float32 casts. *)
Theorem feature_functions_build_copies
    `{arith : !FloatArith} (np_sin : Pd.float → Pd.float)
    (row_mean row_std row_skew row_mad
       : list LgbmFeatures.cell → LgbmFeatures.cell)
    (zscore : list LgbmFeatures.cell → list LgbmFeatures.cell) :
  builds_copy aspect_written (aspect_features np_sin)
  ∧ builds_copy hillshade_written hillshade_features
  ∧ builds_copy water_written water_features
  ∧ builds_copy count_written count_features
  ∧ builds_copy hydrofire_written hydrofire_interactions
  ∧ builds_copy roadway_written roadway_interactions
  ∧ builds_copy elevation_written elevation_interactions
  ∧ builds_copy LgbmFeatures.stat_names
      (LgbmFeatures.create_row_stats row_mean row_std row_skew row_mad
         zscore).
Proof.
  split_and!.
  - apply aspect_features_builds_copy.
  - apply hillshade_features_builds_copy.
  - apply water_features_builds_copy.
  - apply count_features_builds_copy.
  - apply hydrofire_interactions_builds_copy.
  - apply roadway_interactions_builds_copy.
  - apply elevation_interactions_builds_copy.
  - apply create_row_stats_builds_copy.
Qed.

(** C4 as stated fails for [water_features]: the hydrology distance
    column of the input, an integer column, comes back as a float32
    column, and its value 16777217 as 16777216. *)
Lemma water_features_replaces_input_columns :
  ∃ df',
    water_features 0 [example_frame] = Ok (1, [example_frame; df'])
    ∧ Frame.get example_frame "Horizontal_Distance_To_Hydrology"
      = Some (Pd.Int64 [30; 16777217]%Z)
    ∧ Frame.get df' "Horizontal_Distance_To_Hydrology"
      = Some (Pd.Float32 [S754_finite false 15728640 (-19);
                          S754_finite false 8388608 1])
    ∧ Frame.get df' "Horizontal_Distance_To_Hydrology"
      ≠ Frame.get example_frame "Horizontal_Distance_To_Hydrology".
Proof.
  eexists. split; [vm_compute; reflexivity|].
  split; [reflexivity|]. split; [reflexivity|]. discriminate.
Qed.

(** C8.  Whenever [hillshade_features] returns, the three clipped
    columns of the result all hold the clipping of the argument's
    [Hillshade_9am] column to [0, 255]: they are equal to each other and
    the same for two arguments with the same [Hillshade_9am] column,
    whatever their [Hillshade_Noon] and [Hillshade_3pm] columns.  It
    returns on every frame in which the three hillshade columns are
    integer columns. *)
Theorem hillshade_clipped_columns_coincide :
  (∀ data h r h',
     hillshade_features data h = Ok (r, h') →
     ∃ df0 df' s9 c,
       h !! data = Some df0 ∧ h' !! r = Some df'
       ∧ Frame.get df0 "Hillshade_9am" = Some s9
       ∧ Pd.clip s9 0 255 = Ok c
       ∧ Frame.get df' "Hillshade_9am_Clipped" = Some c
       ∧ Frame.get df' "Hillshade_Noon_Clipped" = Some c
       ∧ Frame.get df' "Hillshade_3pm_Clipped" = Some c)
  ∧ (∀ data1 h1 r1 h1' df1 df1' data2 h2 r2 h2' df2 df2',
       hillshade_features data1 h1 = Ok (r1, h1') →
       hillshade_features data2 h2 = Ok (r2, h2') →
       h1 !! data1 = Some df1 → h2 !! data2 = Some df2 →
       h1' !! r1 = Some df1' → h2' !! r2 = Some df2' →
       Frame.get df1 "Hillshade_9am" = Frame.get df2 "Hillshade_9am" →
       ∀ c, c ∈ ["Hillshade_9am_Clipped"; "Hillshade_Noon_Clipped";
                 "Hillshade_3pm_Clipped"]%string →
            Frame.get df1' c = Frame.get df2' c)
  ∧ (∀ data h df0 v9 vn v3,
       h !! data = Some df0 →
       Frame.get df0 "Hillshade_9am" = Some (Pd.Int64 v9) →
       Frame.get df0 "Hillshade_Noon" = Some (Pd.Int64 vn) →
       Frame.get df0 "Hillshade_3pm" = Some (Pd.Int64 v3) →
       ∃ h', hillshade_features data h = Ok (length h, h')).
Proof.
  assert (Hrun : ∀ data h r h',
     hillshade_features data h = Ok (r, h') →
     ∃ df0 df' s9 c,
       h !! data = Some df0 ∧ h' !! r = Some df'
       ∧ Frame.get df0 "Hillshade_9am" = Some s9
       ∧ Pd.clip s9 0 255 = Ok c
       ∧ Frame.get df' "Hillshade_9am_Clipped" = Some c
       ∧ Frame.get df' "Hillshade_Noon_Clipped" = Some c
       ∧ Frame.get df' "Hillshade_3pm_Clipped" = Some c).
  { intros data h r h' H.
    destruct (hillshade_features_run data h r h' H)
      as (df0 & df' & s9 & c & Hd & -> & -> & H9 & Hc & H1 & H2 & H3).
    exists df0, df', s9, c. split_and!; try done. apply lookup_last. }
  split_and!; [exact Hrun| |].
  - intros data1 h1 r1 h1' df1 df1' data2 h2 r2 h2' df2 df2'
           Hf1 Hf2 Hd1 Hd2 Hr1 Hr2 H9 c Hc.
    destruct (Hrun _ _ _ _ Hf1)
      as (x1 & y1 & s1 & c1 & Hx1 & Hy1 & Hs1 & Hc1 & Ha1 & Hb1 & Hd1').
    destruct (Hrun _ _ _ _ Hf2)
      as (x2 & y2 & s2 & c2 & Hx2 & Hy2 & Hs2 & Hc2 & Ha2 & Hb2 & Hd2').
    simplify_eq. rewrite Hs1 in H9. rewrite Hs2 in H9. simplify_eq.
    rewrite Hc1 in Hc2. simplify_eq.
    apply list_elem_of_In in Hc. simpl in Hc.
    destruct Hc as [<-|[<-|[<-|[]]]]; congruence.
  - apply hillshade_features_returns.
Qed.

Lemma hillshade_clipped_columns_coincide_witness :
  ∃ r h',
    hillshade_features 0 [example_frame] = Ok (r, h')
    ∧ ∃ df0 df' s9 c,
        [example_frame] !! 0 = Some df0 ∧ h' !! r = Some df'
        ∧ Frame.get df0 "Hillshade_9am" = Some s9
        ∧ Pd.clip s9 0 255 = Ok c
        ∧ Frame.get df' "Hillshade_9am_Clipped" = Some c
        ∧ Frame.get df' "Hillshade_Noon_Clipped" = Some c
        ∧ Frame.get df' "Hillshade_3pm_Clipped" = Some c.
Proof.
  eexists _, _. split; [vm_compute; reflexivity|].
  apply (proj1 hillshade_clipped_columns_coincide 0 [example_frame]).
  vm_compute. reflexivity.
Defined.

Lemma feature_functions_build_copies_witness :
  ∃ r h',
    water_features 0 [example_frame] = Ok (r, h')
    ∧ ∃ df0 df',
        [example_frame] !! 0 = Some df0
        ∧ r = 1 ∧ h' = [example_frame] ++ [df']
        ∧ Frame.nrows df' = Frame.nrows df0
        ∧ ∀ c, c ∉ water_written → Frame.get df' c = Frame.get df0 c.
Proof.
  eexists _, _. split; [vm_compute; reflexivity|].
  apply (proj1 (proj2 (proj2 (feature_functions_build_copies
           (arith := exact_arithmetic)
           (fun x => x) LgbmFeatures.exact_mean LgbmFeatures.no_stat
           LgbmFeatures.no_stat LgbmFeatures.no_stat
           LgbmFeatures.no_zscore))) 0 [example_frame]).
  vm_compute. reflexivity.
Defined.

(** C9, as the code has it.  Whenever [water_features] returns, the
    columns [Hydro_Taxicab_Pos] and [Hydro_Euclid_Pos] of the result are
    equal: both are the float32 cast of the square root of the sum of
    the squares of the eps-shifted horizontal and vertical hydrology
    distances.  Before the last block of casts they differ in general:
    [Hydro_Taxicab_Pos] is cast to float32 when it is assigned,
    [Hydro_Euclid_Pos] is still the float64 root.  The Manhattan
    distance is what [Hydro_Taxicab] holds, and [Hydro_Taxicab_Pos] is a
    different column.  The function returns on every frame in which the
    two distances and the elevation are integer columns. *)
Theorem water_taxicab_pos_is_euclid_pos :
  (∀ data h r h',
     water_features data h = Ok (r, h') →
     ∃ df0 df' sh sv pos_h pos_v h2 v2 s root abs_h abs_v taxi,
       h !! data = Some df0 ∧ h' !! r = Some df'
       ∧ Frame.get df0 "Horizontal_Distance_To_Hydrology" = Some sh
       ∧ Frame.get df0 "Vertical_Distance_To_Hydrology" = Some sv
       ∧ start_at_eps (Pd.astype_float64 sh) = Ok pos_h
       ∧ start_at_eps (Pd.astype_float64 sv) = Ok pos_v
       ∧ Pd.square pos_h = Ok h2 ∧ Pd.square pos_v = Ok v2
       ∧ Pd.add h2 v2 = Ok s ∧ Pd.sqrt s = Ok root
       ∧ Pd.abs (Pd.astype_float64 sh) = Ok abs_h
       ∧ Pd.abs (Pd.astype_float64 sv) = Ok abs_v
       ∧ Pd.add abs_h abs_v = Ok taxi
       ∧ Frame.get df' "Hydro_Taxicab_Pos" = Some (Pd.astype_float32 root)
       ∧ Frame.get df' "Hydro_Euclid_Pos" = Some (Pd.astype_float32 root)
       ∧ Frame.get df' "Hydro_Taxicab" = Some (Pd.astype_float32 taxi))
  ∧ (∀ data h r h',
       water_features_before_casts data h = Ok (r, h') →
       ∃ df' root,
         h' !! r = Some df'
         ∧ Frame.get df' "Hydro_Taxicab_Pos"
           = Some (Pd.astype_float32 root)
         ∧ Frame.get df' "Hydro_Euclid_Pos" = Some root)
  ∧ (∀ data h df0 vh vv ve,
       h !! data = Some df0 →
       Frame.get df0 "Horizontal_Distance_To_Hydrology"
       = Some (Pd.Int64 vh) →
       Frame.get df0 "Vertical_Distance_To_Hydrology"
       = Some (Pd.Int64 vv) →
       Frame.get df0 "Elevation" = Some (Pd.Int64 ve) →
       ∃ h', water_features data h = Ok (length h, h'))
  ∧ (∃ df',
       water_features 0 [example_frame] = Ok (1, [example_frame; df'])
       ∧ Frame.get df' "Hydro_Taxicab_Pos"
         ≠ Frame.get df' "Hydro_Taxicab").
Proof.
  split_and!.
  - intros data h r h' H. unfold water_features in H.
    apply bind_Ok_inv in H as (df & h0 & Hcopy & H).
    apply copy_Ok_inv in Hcopy as (df0 & Hdata & -> & ->).
    apply bind_Ok_inv in H as (u1 & h1 & Hcols & H).
    apply water_columns_run in Hcols
      as (df1 & sh & sv & pos_h & pos_v & h2 & v2 & s & root & abs_h
          & abs_v & taxi & -> & Hsh & Hsv & Hph & Hpv & Hh2 & Hv2 & Hs
          & Hroot & Hah & Hav & Htaxi & Htp & Hep & Ht).
    apply bind_Ok_inv in H as (u2 & h2' & Hcast & H).
    apply water_store_float32_run in Hcast
      as (df2 & tp & ep & t & -> & Htp1 & Hep1 & Ht1 & Htp2 & Hep2 & Ht2).
    apply ret_Ok_inv in H as [-> ->].
    simplify_eq.
    exists df0, df2, sh, sv, pos_h, pos_v, h2, v2, s, root, abs_h, abs_v,
           taxi.
    rewrite astype_float32_idem in Htp2.
    split_and!; try done. apply lookup_last.
  - intros data h r h' H. unfold water_features_before_casts in H.
    apply bind_Ok_inv in H as (df & h0 & Hcopy & H).
    apply copy_Ok_inv in Hcopy as (df0 & Hdata & -> & ->).
    apply bind_Ok_inv in H as (u1 & h1 & Hcols & H).
    apply water_columns_run in Hcols
      as (df1 & sh & sv & pos_h & pos_v & h2 & v2 & s & root & abs_h
          & abs_v & taxi & -> & Hsh & Hsv & Hph & Hpv & Hh2 & Hv2 & Hs
          & Hroot & Hah & Hav & Htaxi & Htp & Hep & Ht).
    apply ret_Ok_inv in H as [-> ->].
    exists df1, root. split_and!; try done. apply lookup_last.
  - apply water_features_returns.
  - eexists. split; [vm_compute; reflexivity|]. discriminate.
Qed.

Lemma water_taxicab_pos_is_euclid_pos_witness :
  ∃ r h',
    water_features 0 [example_frame] = Ok (r, h')
    ∧ ∃ df' root,
        h' !! r = Some df'
        ∧ Frame.get df' "Hydro_Taxicab_Pos"
          = Some (Pd.astype_float32 root)
        ∧ Frame.get df' "Hydro_Euclid_Pos"
          = Some (Pd.astype_float32 root).
Proof.
  eexists _, _. split; [vm_compute; reflexivity|].
  destruct (proj1 water_taxicab_pos_is_euclid_pos 0 [example_frame] _ _
              eq_refl)
    as (df0 & df' & sh & sv & pos_h & pos_v & h2 & v2 & s & root & abs_h
        & abs_v & taxi & _ & Hdf' & _ & _ & _ & _ & _ & _ & _ & _ & _ & _
        & _ & Htp & Hep & _).
  by exists df', root.
Defined.

(** C9 as stated fails before the last block of casts: there
    [Hydro_Taxicab_Pos] is a float32 column and [Hydro_Euclid_Pos] a
    float64 column, and their first entries are different numbers. *)
Lemma water_columns_differ_before_casts :
  ∃ df',
    water_features_before_casts 0 [example_frame]
    = Ok (1, [example_frame; df'])
    ∧ Frame.get df' "Hydro_Taxicab_Pos"
      = Some (Pd.Float32 [S754_finite false 10190483 (-56);
                          S754_finite false 16777187 0])
    ∧ Frame.get df' "Hydro_Euclid_Pos"
      = Some (Pd.Float64 [S754_finite false 5470973728006459 (-85);
                          S754_finite false 9007183685489168 (-29)])
    ∧ SFcompare (S754_finite false 10190483 (-56))
                (S754_finite false 5470973728006459 (-85)) = Some Gt
    ∧ Frame.get df' "Hydro_Taxicab_Pos" ≠ Frame.get df' "Hydro_Euclid_Pos".
Proof.
  eexists. split; [vm_compute; reflexivity|].
  split; [reflexivity|]. split; [reflexivity|].
  split; [vm_compute; reflexivity|]. discriminate.
Qed.
End FeatureClaims.

(** ** The row-wise greatest common divisor *)

Section GcdFacts.
Import ClassProbabilities.

Lemma fold_gcd_divides (vs : list Z) (a : Z) :
  Z.divide (fold_left Z.gcd vs a) a
  ∧ Forall (Z.divide (fold_left Z.gcd vs a)) vs.
Proof.
  revert a. induction vs as [|v vs IH]; intros a; simpl.
  - split; [apply Z.divide_refl|constructor].
  - destruct (IH (Z.gcd a v)) as [Ha Hvs]. split.
    + etrans; [exact Ha|apply Z.gcd_divide_l].
    + constructor; [|done]. etrans; [exact Ha|apply Z.gcd_divide_r].
Qed.

Lemma fold_gcd_greatest (vs : list Z) (a d : Z) :
  Z.divide d a → Forall (Z.divide d) vs →
  Z.divide d (fold_left Z.gcd vs a).
Proof.
  revert a. induction vs as [|v vs IH]; intros a Ha Hvs; simpl; [done|].
  inversion Hvs; subst. apply IH; [|done]. by apply Z.gcd_greatest.
Qed.

Lemma fold_gcd_nonneg (vs : list Z) (a : Z) :
  (0 <= a)%Z → (0 <= fold_left Z.gcd vs a)%Z.
Proof.
  revert a. induction vs as [|v vs IH]; intros a Ha; simpl; [done|].
  apply IH, Z.gcd_nonneg.
Qed.

Lemma gcd_row_cons (df : Frame.t (list Z)) (r : nat) (c : string)
    (cols : list string) (s : list Z) (v : Z) (vs : list Z) :
  Frame.get df c = Some s → s !! r = Some v →
  gcd_row cols df r = Some vs →
  gcd_row (c :: cols) df r = Some (v :: vs).
Proof.
  intros Hs Hv Hvs.
  assert (He : entry df r c = Some v) by (unfold entry; by rewrite Hs).
  unfold gcd_row in *. cbn [mapM]. by rewrite He, Hvs.
Qed.

Lemma gcd_loop_spec (df : Frame.t (list Z)) (n : nat) (cols : list string) :
  ∀ g : list Z,
    length g = n →
    (∀ c, c ∈ cols → ∃ s, Frame.get df c = Some s ∧ length s = n) →
    ∃ g',
      gcd_loop df cols g = Ok g' ∧ length g' = n
      ∧ ∀ r a, g !! r = Some a →
          ∃ vs, gcd_row cols df r = Some vs
                ∧ g' !! r = Some (fold_left Z.gcd vs a).
Proof.
  induction cols as [|c cols IH]; intros g Hg Hcols; simpl.
  - exists g. split_and!; [done..|]. intros r a Ha. by exists [].
  - destruct (Hcols c) as (s & Hs & Hlen); [left|]. rewrite Hs.
    destruct (IH (np_gcd g s)) as (g' & Hrun & Hlen' & Hrows).
    + unfold np_gcd. rewrite length_zip_with. lia.
    + intros c' Hc'. apply Hcols. by right.
    + exists g'. split_and!; [done..|]. intros r a Ha.
      assert (Hr : r < length s)
        by (rewrite Hlen, <- Hg; by eapply lookup_lt_Some).
      destruct (lookup_lt_is_Some_2 s r Hr) as [v Hv].
      destruct (Hrows r (Z.gcd a v)) as (vs & Hvs & Hg').
      { unfold np_gcd. rewrite lookup_zip_with, Ha. simpl. by rewrite Hv. }
      exists (v :: vs). split; [|done]. by eapply gcd_row_cons.
Qed.

Lemma gcd_row_nonneg (df : Frame.t (list Z)) (r : nat) (cols : list string) :
  ∀ vs,
    (∀ c s, c ∈ cols → Frame.get df c = Some s →
            Forall (fun v => 0 <= v)%Z s) →
    gcd_row cols df r = Some vs → Forall (fun v => 0 <= v)%Z vs.
Proof.
  unfold gcd_row. induction cols as [|c cols IH]; intros vs Hpos; simpl.
  - intros [= <-]. constructor.
  - destruct (entry df r c) as [v|] eqn:Hv; [|done]. simpl.
    destruct (mapM (entry df r) cols) as [vs'|] eqn:Hvs; [|done]. simpl.
    intros [= <-]. constructor.
    + unfold entry in Hv.
      destruct (Frame.get df c) as [s|] eqn:Hs; [|done]. simpl in Hv.
      eapply (Forall_lookup_1 _ s); [|exact Hv]. eapply Hpos; [left|done].
    + apply IH; [|done]. intros c' s Hc'. apply Hpos. by right.
Qed.

(** C10.  On a frame whose feature columns are present, have one entry
    per row and hold non-negative integers, and with at least one
    feature, [gcd_of_all] returns a column with one entry per row; the
    entry of row [r] is the left fold of the binary gcd over the row's
    values in feature order, starting from the first feature; it is
    non-negative, divides every value of the row, and every common
    divisor of the row divides it. *)
Theorem gcd_of_all_is_row_gcd (features : list string)
    (df_i : Frame.t (list Z)) :
  features ≠ [] →
  (∀ c, c ∈ features →
     ∃ s, Frame.get df_i c = Some s ∧ length s = Frame.nrows df_i
          ∧ Forall (fun v => 0 <= v)%Z s) →
  ∃ g,
    gcd_of_all features df_i = Ok g
    ∧ length g = Frame.nrows df_i
    ∧ ∀ r, r < Frame.nrows df_i →
        ∃ v0 vs g_r,
          gcd_row features df_i r = Some (v0 :: vs)
          ∧ g !! r = Some g_r
          ∧ g_r = fold_left Z.gcd vs v0
          ∧ (0 <= g_r)%Z
          ∧ Forall (Z.divide g_r) (v0 :: vs)
          ∧ ∀ d, Forall (Z.divide d) (v0 :: vs) → Z.divide d g_r.
Proof.
  intros Hne Hcols. destruct features as [|c0 rest]; [done|]. simpl.
  destruct (Hcols c0) as (s0 & Hs0 & Hlen0 & Hpos0); [left|]. rewrite Hs0.
  destruct (gcd_loop_spec df_i (Frame.nrows df_i) rest s0 Hlen0)
    as (g & Hrun & Hlen & Hrows).
  { intros c Hc. destruct (Hcols c) as (s & Hs & Hl & _); [by right|].
    by exists s. }
  exists g. split_and!; [done..|]. intros r Hr.
  destruct (lookup_lt_is_Some_2 s0 r) as [v0 Hv0]; [lia|].
  destruct (Hrows r v0 Hv0) as (vs & Hvs & Hg).
  exists v0, vs, (fold_left Z.gcd vs v0).
  assert (Hrow : gcd_row (c0 :: rest) df_i r = Some (v0 :: vs)).
  { by eapply gcd_row_cons. }
  split_and!; [done..| | |].
  - apply fold_gcd_nonneg. by eapply (Forall_lookup_1 _ s0).
  - destruct (fold_gcd_divides vs v0). by constructor.
  - intros d Hd. inversion Hd; subst. by apply fold_gcd_greatest.
Qed.

Lemma gcd_of_all_is_row_gcd_witness :
  ∃ g,
    gcd_of_all ["A0T0G1C9"; "A0T0G2C8"; "A0T0G3C7"] gcd_example = Ok g
    ∧ length g = 2
    ∧ ∀ r, r < 2 →
        ∃ v0 vs g_r,
          gcd_row ["A0T0G1C9"; "A0T0G2C8"; "A0T0G3C7"] gcd_example r
          = Some (v0 :: vs)
          ∧ g !! r = Some g_r
          ∧ g_r = fold_left Z.gcd vs v0
          ∧ (0 <= g_r)%Z
          ∧ Forall (Z.divide g_r) (v0 :: vs)
          ∧ ∀ d, Forall (Z.divide d) (v0 :: vs) → Z.divide d g_r.
Proof.
  apply (gcd_of_all_is_row_gcd ["A0T0G1C9"; "A0T0G2C8"; "A0T0G3C7"]
           gcd_example); [done|].
  intros c Hc.
  repeat (apply elem_of_cons in Hc as [->|Hc];
          [eexists; split; [reflexivity|];
           split; [reflexivity|repeat constructor; lia]|]).
  by apply elem_of_nil in Hc.
Defined.

(** The example evaluates to the column [6; 5]. *)
Lemma gcd_of_all_example :
  gcd_of_all ["A0T0G1C9"; "A0T0G2C8"; "A0T0G3C7"] gcd_example
  = Ok [6; 5]%Z.
Proof. reflexivity. Qed.
End GcdFacts.

(** ** The notebooks, run from top to bottom *)

Section NotebookFacts.
Import Notebook.

Lemma run_cross_validates (nb : notebook) (tr : list event) :
  run nb = Some tr →
  existsb is_split tr && existsb is_fit tr && existsb is_score tr = true →
  cross_validates nb.
Proof.
  intros Hrun [[Hs Hf]%andb_true_iff Hsc]%andb_true_iff. by exists tr.
Qed.

Lemma no_csv_no_submission (nb : notebook) :
  files_written nb = Some [] → ¬ writes_submission nb.
Proof.
  unfold files_written. intros Hfiles (tr & Hrun & Hne).
  rewrite Hrun in Hfiles. simpl in Hfiles. by injection Hfiles.
Qed.

(** C6, as amended.  Every notebook runs, trains under the stratified
    split and scores held-out rows; the files written are exactly the
    ones listed: four by "Stacking", one by "Neural Network Baseline",
    fourteen by "Handling Mislabeled Data", three by "Tweaking Class
    Probabilities", and none by the three feature-engineering notebooks
    of TPS 12, by "Baselines" and by "Feature Engineering"; and every
    file is written after a split, a fit and a score. *)
Theorem notebooks_cross_validate_and_four_write_csv :
  Forall cross_validates notebooks
  ∧ map (fun nb => (title nb, files_written nb)) notebooks
    = [ ("TPS 12 - Feature Engineering", Some []);
        ("TPS 12 - Feature Engineering", Some []);
        ("Baselines", Some []);
        ("Feature Engineering", Some []);
        ("Stacking",
         Some ["../output/xgboost_cpu_3fold_submission.csv";
               "../output/catboost_cpu_3fold_submission.csv";
               "../output/stack_lgbm_3fold_submission.csv";
               "../output/stack_xgb_3fold_submission.csv"]);
        ("Neural Network Baseline",
         Some ["../output/simple_nn_submission.csv"]);
        ("TPS 11/21 - Handling Mislabeled Data",
         Some ["../output/logit_submission.csv";
               "../output/noisy_logit_submission.csv";
               "../output/ridge_submission.csv";
               "../output/noisy_ridge_submission.csv";
               "../output/lda_submission.csv";
               "../output/noisy_lda_submission.csv";
               "../output/sgd_submission.csv";
               "../output/noisy_sgd_submission.csv";
               "../output/nb_submission.csv";
               "../output/noisy_nb_submission.csv";
               "../output/mlp_submission.csv";
               "../output/noisy_mlp_submission.csv";
               "../output/xgb_submission.csv";
               "../output/noisy_xgb_submission.csv"]);
        ("TPS 12/21 - Feature Engineering", Some []);
        ("Tweaking Class Probabilities",
         Some ["../submissions/extratrees_tweaked.csv";
               "../submissions/bagging_tweaked.csv";
               "../submissions/four_models_tweaked.csv"]) ]
  ∧ Forall (fun nb => ∃ tr, run nb = Some tr
                            ∧ csv_after_training [] tr = true) notebooks
  ∧ Forall (fun nb => writes_submission nb
                      ↔ ∃ p ps, files_written nb = Some (p :: ps))
           notebooks.
Proof.
  split_and!.
  - repeat constructor;
      (eapply run_cross_validates; [vm_compute; reflexivity|reflexivity]).
  - vm_compute. reflexivity.
  - repeat constructor; (eexists; split; [vm_compute|]; reflexivity).
  - apply Forall_forall. intros nb _. unfold writes_submission,
      files_written. destruct (run nb) as [tr|]; simpl.
    + split.
      * intros (tr' & [= <-] & Hne). destruct (csv_files tr); [done|].
        by eexists _, _.
      * intros (p & ps & [= Hfiles]). exists tr. by rewrite Hfiles.
    + split; [by intros (? & ? & _)|by intros (? & ? & ?)].
Qed.

(** C6 as stated fails: the feature-engineering notebook of TPS 12 is
    one of the notebooks, it runs its eight cross-validations, and it
    writes no file. *)
Lemma feature_engineering_notebook_writes_no_csv :
  In xgboost_feature_engineering notebooks
  ∧ cross_validates xgboost_feature_engineering
  ∧ files_written xgboost_feature_engineering = Some []
  ∧ ¬ writes_submission xgboost_feature_engineering
  ∧ ¬ Forall writes_submission notebooks.
Proof.
  assert (Hno : ¬ writes_submission xgboost_feature_engineering)
    by (apply no_csv_no_submission; reflexivity).
  split_and!; [|eapply run_cross_validates|..|done|].
  - simpl. tauto.
  - vm_compute; reflexivity.
  - reflexivity.
  - reflexivity.
  - intros Hall. apply Hno. eapply (proj1 (List.Forall_forall _ _) Hall).
    simpl. tauto.
Qed.
End NotebookFacts.

(** ** The control flow of the feature functions *)

Section StoreFailures.
Context {S : Type}.
Implicit Types (h : Store.heap S) (df : Frame.t S).

Lemma bind_raise {A B} (m : Store.M S A) (k : A → Store.M S B) h e :
  m h = Raise e → Store.bind m k h = Raise e.
Proof. unfold Store.bind. by intros ->. Qed.

Lemma getitem_last_missing h df c :
  Frame.get df c = None →
  Store.getitem (length h) c (h ++ [df]) = Raise (KeyError c).
Proof.
  intros Hg. unfold Store.getitem, Store.bind, Store.read.
  rewrite lookup_last, Hg. done.
Qed.
End StoreFailures.

(** The first read of a missing column ends the run of a feature
    function. *)
Ltac raises_at_first_read :=
  erewrite bind_eval by (by apply copy_eval);
  rewrite ?bind_assoc; apply bind_raise;
  by apply getitem_last_missing.

Section SkeletonFacts.
Import Skeleton.

Lemma aspect_features_raises np_sin data (h : Store.heap Pd.Series) df0 :
  h !! data = Some df0 → Frame.get df0 "Aspect" = None →
  ForestCover.aspect_features np_sin data h = Raise (KeyError "Aspect").
Proof.
  intros Hdata Hc. unfold ForestCover.aspect_features.
  raises_at_first_read.
Qed.

Lemma hillshade_features_raises data (h : Store.heap Pd.Series) df0 :
  h !! data = Some df0 → Frame.get df0 "Hillshade_9am" = None →
  ForestCover.hillshade_features data h
  = Raise (KeyError "Hillshade_9am").
Proof.
  intros Hdata Hc. unfold ForestCover.hillshade_features.
  raises_at_first_read.
Qed.

Lemma water_features_raises data (h : Store.heap Pd.Series) df0 :
  h !! data = Some df0 →
  Frame.get df0 "Horizontal_Distance_To_Hydrology" = None →
  ForestCover.water_features data h
  = Raise (KeyError "Horizontal_Distance_To_Hydrology").
Proof.
  intros Hdata Hc.
  unfold ForestCover.water_features, ForestCover.water_columns.
  raises_at_first_read.
Qed.

Lemma hydrofire_interactions_raises data (h : Store.heap Pd.Series) df0 :
  h !! data = Some df0 →
  Frame.get df0 "Horizontal_Distance_To_Hydrology" = None →
  ForestCover.hydrofire_interactions data h
  = Raise (KeyError "Horizontal_Distance_To_Hydrology").
Proof.
  intros Hdata Hc. unfold ForestCover.hydrofire_interactions.
  raises_at_first_read.
Qed.

Lemma roadway_interactions_raises data (h : Store.heap Pd.Series) df0 :
  h !! data = Some df0 →
  Frame.get df0 "Horizontal_Distance_To_Hydrology" = None →
  ForestCover.roadway_interactions data h
  = Raise (KeyError "Horizontal_Distance_To_Hydrology").
Proof.
  intros Hdata Hc.
  unfold ForestCover.roadway_interactions, ForestCover.abs_of.
  raises_at_first_read.
Qed.

Lemma elevation_interactions_raises data (h : Store.heap Pd.Series) df0 :
  h !! data = Some df0 →
  Frame.get df0 "Horizontal_Distance_To_Roadways" = None →
  ForestCover.elevation_interactions data h
  = Raise (KeyError "Horizontal_Distance_To_Roadways").
Proof.
  intros Hdata Hc. unfold ForestCover.elevation_interactions.
  raises_at_first_read.
Qed.

(** The handler of the harness: when the call with four arguments
    raises, the preprocessing function is called with three. *)
Lemma try_preprocessing_recovers {X Y : Type}
    (p : LgbmFeatures.preprocessor (X:=X) (Y:=Y)) a b c y :
  LgbmFeatures.call4 p a b c y = None →
  LgbmFeatures.try_preprocessing p a b c y = LgbmFeatures.call3 p a b c.
Proof. unfold LgbmFeatures.try_preprocessing. by intros ->. Qed.

(** C7, as amended.  No feature function has a handler; the one
    [try]/[except] is in the harness [score_lightgbm], around the call
    of the preprocessing function.  The conditions of each function are
    the ones listed: none in eleven of them ([gcd_of_all] loops without
    a condition), two filters on column names in [count_features], a
    filter on data-derived scores and a test of [verbose] in
    [remove_uninformative], a test of the dtype name per column in
    both [create_row_stats], a test of [scale] in the two cluster
    helpers.  The straight-line functions are the ones listed.  In the
    runs of the functions this shows as follows: the [KeyError] of the
    first read of a missing column leaves the feature function, while
    the harness answers a failure of the four-argument call of the
    preprocessing function by the three-argument call. *)
Theorem feature_functions_control_flow :
  Forall (fun f => handles_exceptions f = false) feature_functions
  ∧ handles_exceptions score_lightgbm = true
  ∧ map (fun f => (name f, body_conditions f)) feature_functions
    = [ ("aspect_features", []);
        ("hillshade_features", []);
        ("start_at_eps", []);
        ("water_features", []);
        ("count_features", [ColumnName; ColumnName]);
        ("hydrofire_interactions", []);
        ("roadway_interactions", []);
        ("elevation_interactions", []);
        ("feature_selection_importance", []);
        ("remove_uninformative", [DataValue; Argument]);
        ("create_row_stats", [Dtype]);
        ("row_stats", []);
        ("target_encode", []);
        ("generate_cluster_labels", [Argument]);
        ("cluster_label_features", []);
        ("generate_cluster_distances", [Argument]);
        ("cluster_distance_features", []);
        ("create_row_stats", [Dtype]);
        ("get_histograms", []);
        ("gcd_of_all", []) ]
  ∧ map name (List.filter straight_line feature_functions)
    = [ "aspect_features"; "hillshade_features"; "start_at_eps";
        "water_features"; "hydrofire_interactions";
        "roadway_interactions"; "elevation_interactions";
        "feature_selection_importance"; "row_stats"; "target_encode" ]
  ∧ map name (List.filter (fun f => existsb has_if (body f))
                          feature_functions)
    = [ "remove_uninformative"; "create_row_stats";
        "generate_cluster_labels"; "generate_cluster_distances";
        "create_row_stats" ]
  ∧ map name (List.filter (branches_on DataValue) feature_functions)
    = [ "remove_uninformative" ]
  ∧ (∀ np_sin data (h : Store.heap Pd.Series) df0,
       h !! data = Some df0 →
       (Frame.get df0 "Aspect" = None →
        ForestCover.aspect_features np_sin data h
        = Raise (KeyError "Aspect"))
       ∧ (Frame.get df0 "Hillshade_9am" = None →
          ForestCover.hillshade_features data h
          = Raise (KeyError "Hillshade_9am"))
       ∧ (Frame.get df0 "Horizontal_Distance_To_Hydrology" = None →
          ForestCover.water_features data h
          = Raise (KeyError "Horizontal_Distance_To_Hydrology")
          ∧ ForestCover.hydrofire_interactions data h
            = Raise (KeyError "Horizontal_Distance_To_Hydrology")
          ∧ ForestCover.roadway_interactions data h
            = Raise (KeyError "Horizontal_Distance_To_Hydrology"))
       ∧ (Frame.get df0 "Horizontal_Distance_To_Roadways" = None →
          ForestCover.elevation_interactions data h
          = Raise (KeyError "Horizontal_Distance_To_Roadways")))
  ∧ (∀ (p : LgbmFeatures.preprocessor (X:=nat) (Y:=nat)) a b c y,
       LgbmFeatures.call4 p a b c y = None →
       LgbmFeatures.try_preprocessing p a b c y
       = LgbmFeatures.call3 p a b c).
Proof.
  split_and!; [|reflexivity..| |].
  - repeat constructor.
  - intros np_sin data h df0 Hdata. split_and!.
    + by apply aspect_features_raises.
    + by apply hillshade_features_raises.
    + intros Hc. split_and!.
      * by eapply water_features_raises.
      * by eapply hydrofire_interactions_raises.
      * by eapply roadway_interactions_raises.
    + by apply elevation_interactions_raises.
  - intros p a b c y. apply try_preprocessing_recovers.
Qed.

(** On a frame without columns every read fails, and a preprocessing
    function that takes three arguments is reached through the
    handler. *)
Lemma feature_functions_control_flow_witness :
  ForestCover.hillshade_features 0 [Frame.Make 0 []]
  = Raise (KeyError "Hillshade_9am")
  ∧ LgbmFeatures.try_preprocessing
      (LgbmFeatures.Preprocessor (fun _ _ _ _ => None)
         (fun a b c => Some (a, b, c))) [1] [2] [3] [0]
    = Some ([1], [2], [3]).
Proof.
  destruct feature_functions_control_flow
    as (_ & _ & _ & _ & _ & _ & Hraise & Hharness).
  split.
  - destruct (Hraise (fun x => x) 0 [Frame.Make 0 []] (Frame.Make 0 [])
                eq_refl) as (_ & Hh & _).
    exact (Hh eq_refl).
  - exact (Hharness
             (LgbmFeatures.Preprocessor (fun _ _ _ _ => None)
                (fun a b c => Some (a, b, c))) [1] [2] [3] [0] eq_refl).
Defined.

(** C7 as stated fails: [create_row_stats] is a feature function whose
    body loops over the columns and has an [if]/[else] in the loop, and
    [remove_uninformative] keeps the columns whose score, computed from
    the data, is zero.  On a frame with integer and float columns the
    loop of [create_row_stats] takes both branches. *)
Lemma create_row_stats_has_conditional :
  In create_row_stats feature_functions
  ∧ existsb has_if (body create_row_stats) = true
  ∧ existsb has_loop (body create_row_stats) = true
  ∧ straight_line create_row_stats = false
  ∧ branches_on DataValue remove_uninformative = true
  ∧ LgbmFeatures.partition_columns 0
      (Frame.columns LgbmFeatures.example_frame) [] []
      [LgbmFeatures.example_frame]
    = Ok (["f0"; "f2"; "f4"], ["f1"; "f3"], [LgbmFeatures.example_frame])
  ∧ ¬ Forall (fun f => unconditional f = true) feature_functions
  ∧ ¬ Forall (fun f => existsb has_if (body f) = false) feature_functions.
Proof.
  split_and!; [simpl; tauto|reflexivity..| |].
  - intros Hall.
    assert (Hin : In create_row_stats feature_functions) by (simpl; tauto).
    pose proof (proj1 (List.Forall_forall _ _) Hall _ Hin) as Hf.
    vm_compute in Hf. discriminate Hf.
  - intros Hall.
    assert (Hin : In create_row_stats feature_functions) by (simpl; tauto).
    pose proof (proj1 (List.Forall_forall _ _) Hall _ Hin) as Hf.
    vm_compute in Hf. discriminate Hf.
Qed.
End SkeletonFacts.

(** ** Arg-max *)

Section ArgmaxFacts.

Lemma argmax_from_first_max (row pre : list Q) (best : Q) (besti : nat) :
  pre !! besti = Some best →
  (∀ j x, pre !! j = Some x → (x <= best)%Q) →
  (∀ j x, j < besti → pre !! j = Some x → (x < best)%Q) →
  first_max (pre ++ row) (Np.argmax_from best besti (length pre) row).
Proof.
  revert pre best besti.
  induction row as [|x row IH]; intros pre best besti Hb Hle Hlt; simpl.
  - rewrite app_nil_r. by exists best.
  - assert (Hpre : ∀ j y, (pre ++ [x]) !! j = Some y →
                     pre !! j = Some y ∨ (j = length pre ∧ y = x)).
    { intros j y Hj. apply lookup_app_Some in Hj as [Hj|[Hge Hj]];
        [by left|right].
      apply list_lookup_singleton_Some in Hj as [Hj ->]. split; [lia|done]. }
    assert (Hbi : besti < length pre) by (by eapply lookup_lt_Some).
    replace (pre ++ x :: row) with ((pre ++ [x]) ++ row)
      by (by rewrite <- app_assoc).
    replace (S (length pre)) with (length (pre ++ [x]))
      by (rewrite length_app; simpl; lia).
    destruct (Qlt_le_dec best x) as [Hbx|Hxb]; apply IH.
    + rewrite lookup_app_r, Nat.sub_diag by lia. done.
    + intros j y [Hj|[_ ->]]%Hpre; [|apply Qle_refl].
      apply Qlt_le_weak. eapply Qle_lt_trans; [by eapply Hle|done].
    + intros j y Hj [Hjp|[-> _]]%Hpre; [|lia].
      eapply Qle_lt_trans; [by eapply Hle|done].
    + by rewrite lookup_app_l.
    + intros j y [Hj|[_ ->]]%Hpre; [by eapply Hle|done].
    + intros j y Hj [Hjp|[-> _]]%Hpre; [by eapply Hlt|lia].
Qed.

Lemma argmax_first_max (row : list Q) :
  row ≠ [] → first_max row (Np.argmax row).
Proof.
  destruct row as [|x row]; [done|]. intros _. unfold Np.argmax.
  apply (argmax_from_first_max row [x] x 0); [done| |].
  - intros [|j] y Hj; [|done]. injection Hj as <-. apply Qle_refl.
  - intros j y Hj. lia.
Qed.

Lemma first_max_unique (row : list Q) (i j : nat) :
  first_max row i → first_max row j → i = j.
Proof.
  intros (m & Hi & Hle & Hlt) (m' & Hj & Hle' & Hlt').
  destruct (Nat.lt_trichotomy i j) as [Hij|[->|Hji]]; [|done|].
  - specialize (Hlt' i m Hij Hi). specialize (Hle j m' Hj).
    exfalso. eapply Qlt_irrefl, Qlt_le_trans; [exact Hlt'|exact Hle].
  - specialize (Hlt j m' Hji Hj). specialize (Hle' i m Hi).
    exfalso. eapply Qlt_irrefl, Qlt_le_trans; [exact Hlt|exact Hle'].
Qed.

Lemma argmax_lt_length (row : list Q) :
  row ≠ [] → Np.argmax row < length row.
Proof.
  intros Hne. destruct (argmax_first_max row Hne) as (m & Hm & _).
  by eapply lookup_lt_Some.
Qed.

End ArgmaxFacts.

(** ** The probability tweaks of "Tweaking Class Probabilities" *)

Section ProbabilityTweakFacts.
Import ProbabilityTweaks.

Lemma add_row_same_length (row offsets : list Q) :
  length row = length offsets →
  add_row row offsets = Some (zip_with Qplus row offsets).
Proof. intros H. unfold add_row. by rewrite decide_True. Qed.

(** After non-negative offsets the arg-max stays, or moves to a
    position whose offset is positive. *)
Lemma argmax_after_offsets (row offsets : list Q) :
  row ≠ [] → length row = length offsets →
  Forall (fun d => 0 <= d)%Q offsets →
  let p := Np.argmax (zip_with Qplus row offsets) in
  p = Np.argmax row ∨ ∃ d, offsets !! p = Some d ∧ (0 < d)%Q.
Proof.
  intros Hne Hlen Hpos p.
  assert (Hnew : zip_with Qplus row offsets ≠ []).
  { intros H%(f_equal length).
    rewrite length_zip_with, <- Hlen, Nat.min_id in H. by destruct row. }
  destruct (argmax_first_max _ Hnew) as (m & Hm & Hle & Hlt).
  fold p in Hm, Hlt.
  rewrite lookup_zip_with in Hm.
  destruct (row !! p) as [x|] eqn:Hx; [|done]. simpl in Hm.
  destruct (offsets !! p) as [d|] eqn:Hd; [|done]. simpl in Hm.
  injection Hm as <-.
  destruct (Qlt_le_dec 0 d) as [Hd0|Hd0]; [right; by exists d|left].
  assert (Hnn : ∀ j y, row !! j = Some y →
            ∃ dj, offsets !! j = Some dj ∧ (0 <= dj)%Q
                  ∧ zip_with Qplus row offsets !! j = Some (y + dj)%Q).
  { intros j y Hj.
    destruct (lookup_lt_is_Some_2 offsets j) as [dj Hdj].
    { rewrite <- Hlen. by eapply lookup_lt_Some. }
    exists dj. split_and!; [done| |].
    - rewrite Forall_forall in Hpos. apply Hpos.
      by eapply list_elem_of_lookup_2.
    - by rewrite lookup_zip_with, Hj, Hdj. }
  apply (first_max_unique row); [|by apply argmax_first_max].
  exists x. split_and!; [done| |].
  - intros j y Hj. destruct (Hnn j y Hj) as (dj & _ & Hdj & Hz).
    specialize (Hle j _ Hz). lra.
  - intros j y Hjp Hj. destruct (Hnn j y Hj) as (dj & _ & Hdj & Hz).
    specialize (Hlt j _ Hjp Hz). lra.
Qed.

Lemma positive_offsets (offsets : list Q) (p : nat) (d : Q) :
  offsets ∈ [extratrees_offsets; bagging_offsets; four_models_offsets] →
  offsets !! p = Some d → (0 < d)%Q → p = 2 ∨ p = 3.
Proof.
  intros Hin Hp Hd.
  repeat (apply elem_of_cons in Hin as [->|Hin]);
    [| | |by apply elem_of_nil in Hin];
    (destruct p as [|[|[|[|[|[|[|[|[|[|p]]]]]]]]]]; [..|done];
     injection Hp as <-;
     first [by left|by right|by apply Qlt_irrefl in Hd]).
Qed.

(** X1.  In each of the three submissions the tweak leaves the
    predicted class of a test row as it is or moves it to one of the
    two classes whose offset is positive, labels 2 and 3: for a
    probability matrix with ten columns the tweaked matrix exists, and
    the arg-max of each of its rows is the arg-max of the untweaked row,
    or 2, or 3. *)
Theorem tweak_moves_predictions_only_to_raised_classes
    (offsets : list Q) (test_proba : list (list Q)) :
  offsets ∈ [extratrees_offsets; bagging_offsets; four_models_offsets] →
  Forall (fun row => length row = 10) test_proba →
  ∃ new_proba,
    add_offsets test_proba offsets = Some new_proba
    ∧ length new_proba = length test_proba
    ∧ ∀ t row, test_proba !! t = Some row →
        ∃ new_row,
          new_proba !! t = Some new_row
          ∧ (Np.argmax new_row = Np.argmax row
             ∨ Np.argmax new_row = 2 ∨ Np.argmax new_row = 3).
Proof.
  intros Hin Hrows.
  assert (Hlen : length offsets = 10).
  { repeat (apply elem_of_cons in Hin as [->|Hin]); try done.
    by apply elem_of_nil in Hin. }
  assert (Hpos : Forall (fun d => 0 <= d)%Q offsets).
  { repeat (apply elem_of_cons in Hin as [->|Hin]);
      [..|by apply elem_of_nil in Hin];
      repeat constructor; by vm_compute. }
  exists (map (fun row => zip_with Qplus row offsets) test_proba).
  split_and!.
  - unfold add_offsets. apply mapM_Some.
    apply Forall2_fmap_r, Forall_Forall2_diag.
    eapply Forall_impl; [exact Hrows|]. intros row Hr. simpl.
    apply add_row_same_length. by rewrite Hr, Hlen.
  - by rewrite length_map.
  - intros t row Ht. eexists. split; [by rewrite lookup_map, Ht|].
    assert (Hr : length row = 10).
    { rewrite Forall_forall in Hrows. apply Hrows.
      by eapply list_elem_of_lookup_2. }
    destruct (argmax_after_offsets row offsets) as [Heq|(d & Hd & Hd0)];
      [by destruct row|by rewrite Hr, Hlen|done|by left|right].
    by eapply positive_offsets.
Qed.

Lemma tweak_moves_predictions_only_to_raised_classes_witness :
  ∃ new_proba,
    add_offsets [[1 # 10; 1 # 10; 3 # 10; 29 # 100; 1 # 10; 1 # 10;
                  0; 0; 0; 1 # 100]%Q] extratrees_offsets
    = Some new_proba
    ∧ length new_proba = 1
    ∧ ∀ t row,
        [[1 # 10; 1 # 10; 3 # 10; 29 # 100; 1 # 10; 1 # 10;
          0; 0; 0; 1 # 100]%Q] !! t = Some row →
        ∃ new_row,
          new_proba !! t = Some new_row
          ∧ (Np.argmax new_row = Np.argmax row
             ∨ Np.argmax new_row = 2 ∨ Np.argmax new_row = 3).
Proof.
  apply (tweak_moves_predictions_only_to_raised_classes extratrees_offsets).
  - left.
  - by repeat constructor.
Defined.

End ProbabilityTweakFacts.
(** ** What [score_features] returns *)

Section ForestCoverReturns.
Import ForestCover.
Context {X Y Estimator Model : Type} `{arith : !FloatArith}.
Variable train_X : list X.
Variable train_y : list Y.
Variable test_X : list X.
Variable test_y : list Y.
Variable test_folds : list nat.
Variable columns : list X → list string.
Variable clone : Estimator → Estimator.
Variable fit : Estimator → list X → list Y → Model.
Variable predict : Model → X → Q.
Variable predict_proba : Model → X → list Q.
Variable permutation_importance : Model → list X → list Y → list Q.
Variable accuracy_score : list Y → list Q → Q.
Variable sort_values : list (string * Q) → list (string * Q).

Local Abbreviation score_features_here :=
  (score_features train_X train_y test_X test_y test_folds
     columns clone fit predict predict_proba permutation_importance
     accuracy_score sort_values).

Lemma series_get_zip (index : list string) (data : list Q) c v :
  series_get (zip index data) c = Some v →
  ∃ pos, index !! pos = Some c ∧ data !! pos = Some v.
Proof.
  unfold series_get. revert data.
  induction index as [|k index IH]; intros [|d data]; simpl; try done.
  destruct (String.eqb c k) eqn:Heq; simpl.
  - intros [= <-]. apply String.eqb_eq in Heq as ->. by exists 0.
  - intros H. destruct (IH data H) as (pos & Hp & Hd). by exists (S pos).
Qed.

Lemma series_loc_entries (index : list string) (data : list Q)
    (keys : list string) fi :
  series_loc index data keys = Some fi →
  map fst fi = keys
  ∧ ∀ c v, (c, v) ∈ fi →
      ∃ pos, index !! pos = Some c ∧ data !! pos = Some v.
Proof.
  unfold series_loc. case_decide; [|done]. intros Hm%mapM_Some.
  induction Hm as [|k [c' v'] keys fi Hk Hm [IH1 IH2]]; [split; [done|]|].
  - intros c v Hin. by apply elem_of_nil in Hin.
  - destruct (series_get (zip index data) k) as [v0|] eqn:Hg; [|done].
    simpl in Hk. injection Hk as <- <-. split; [simpl; by rewrite IH1|].
    intros c v [[= -> ->]|Hin]%elem_of_cons; [|by apply IH2].
    by apply series_get_zip.
Qed.

(** X3.  The feature importances [score_features] returns are, for
    every column of the processed holdout frame whose name does not
    start with "Soil_Type", the running total, over the six folds in
    the order of the loop, of the permutation importance of that
    column divided by [NUM_FOLDS], each importance computed for the
    fold's model on the fold's validation rows; they are handed to
    [sort_values] in the column order of the holdout frame. *)
Theorem feature_importances_accumulate_over_folds
    est processing X_temp X_test :
  apply_processing processing train_X = Some X_temp →
  apply_processing processing test_X = Some X_test →
  length X_temp = length test_folds →
  length train_y = length test_folds →
  (∀ m x, length (predict_proba m x) = 6) →
  (∀ m xs ys,
     length (permutation_importance m xs ys) = length (columns X_temp)) →
  columns X_test ⊆ columns X_temp →
  NoDup (columns X_temp) →
  ∃ cv oof ts fi,
    score_features_here est processing = Some (cv, oof, ts, sort_values fi)
    ∧ map fst fi
      = filter (fun x => ¬ String.prefix "Soil_Type" x = true)
               (columns X_test)
    ∧ ∀ c v, (c, v) ∈ fi →
        ∃ pos imps,
          columns X_temp !! pos = Some c
          ∧ Forall2
              (fun f imp =>
                 permutation_importance
                   (fold_model train_y test_folds clone fit est X_temp f)
                   (rows X_temp (valid_idx_of test_folds f))
                   (rows train_y (valid_idx_of test_folds f)) !! pos
                 = Some imp)
              (seq 0 NUM_FOLDS) imps
          ∧ v = running_total (fold_share NUM_FOLDS) imps.
Proof.
  intros HXt HXe Hrows Hy Hpp Hpi Hcols Hnd.
  destruct (fc_loop train_y test_folds columns clone fit predict
              predict_proba permutation_importance accuracy_score
              X_temp X_test Hrows Hy Hpp Hpi est)
    as (st & Hst & _ & Htp & Hfi & _).
  destruct (series_loc_is_Some (columns X_temp) (fi_scores st)
              (filter (fun x => ¬ String.prefix "Soil_Type" x = true)
                      (columns X_test))) as [fi Hfis].
  { rewrite Hfi, vsum_length; [unfold Np.zeros; by rewrite length_replicate|].
    intros f _. unfold fold_importance, Np.vdiv, Np.zeros.
    by rewrite length_map, length_replicate, Hpi. }
  { intros k Hk%list_elem_of_filter. apply Hcols. tauto. }
  destruct (series_loc_entries _ _ _ _ Hfis) as [Hkeys Hent].
  eexists _, _, _, fi. split_and!; [|done|].
  { unfold score_features, score_features_loop.
    rewrite HXt, bind_Some, HXe, bind_Some, Hst. simpl. by rewrite Hfis. }
  intros c v Hin. destruct (Hent c v Hin) as (pos & Hpos & Hv).
  set (imp := fun f =>
         default 0%Q
           (permutation_importance
              (fold_model train_y test_folds clone fit est X_temp f)
              (rows X_temp (valid_idx_of test_folds f))
              (rows train_y (valid_idx_of test_folds f)) !! pos)).
  assert (Himp : ∀ f,
            permutation_importance
              (fold_model train_y test_folds clone fit est X_temp f)
              (rows X_temp (valid_idx_of test_folds f))
              (rows train_y (valid_idx_of test_folds f)) !! pos
            = Some (imp f)).
  { intros f. unfold imp.
    destruct (lookup_lt_is_Some_2
                (permutation_importance
                   (fold_model train_y test_folds clone fit est X_temp f)
                   (rows X_temp (valid_idx_of test_folds f))
                   (rows train_y (valid_idx_of test_folds f))) pos)
      as [p ->]; [|done].
    rewrite Hpi. by eapply lookup_lt_Some. }
  exists pos, (map imp (seq 0 NUM_FOLDS)). split_and!; [done| |].
  - apply Forall2_fmap_r, Forall_Forall2_diag, Forall_forall.
    intros f _. apply Himp.
  - rewrite Hfi in Hv.
    rewrite (vsum_lookup _ _ _ pos
               (fun f => fold_share NUM_FOLDS (imp f)) 0%Q)
      in Hv.
    + apply (inj Some) in Hv. rewrite <- Hv.
      by rewrite running_total_map, map_map.
    + apply lookup_replicate_2. by eapply lookup_lt_Some.
    + intros f _. unfold fold_importance, Np.vdiv.
      by rewrite lookup_map, Himp.
Qed.
End ForestCoverReturns.

Section ForestCoverReturnsExamples.

#[local] Existing Instance Binary64.arithmetic.

Lemma feature_importances_accumulate_over_folds_witness :
∃ cv oof ts fi,
  ForestCover.score_features StratifiedExample.train_X
    StratifiedExample.train_y StratifiedExample.test_X
    StratifiedExample.test_y StratifiedExample.test_folds
    HarnessExample.columns HarnessExample.clone HarnessExample.fit
    HarnessExample.predict HarnessExample.predict_proba
    HarnessExample.permutation_importance HarnessExample.accuracy_score
    HarnessExample.sort_values tt None
  = Some (cv, oof, ts, HarnessExample.sort_values fi)
  ∧ map fst fi = ["Elevation"].
Proof.
destruct (feature_importances_accumulate_over_folds
            StratifiedExample.train_X StratifiedExample.train_y
            StratifiedExample.test_X StratifiedExample.test_y
            StratifiedExample.test_folds
            HarnessExample.columns HarnessExample.clone HarnessExample.fit
            HarnessExample.predict HarnessExample.predict_proba
            HarnessExample.permutation_importance
            HarnessExample.accuracy_score HarnessExample.sort_values
            tt None StratifiedExample.train_X StratifiedExample.test_X)
  as (cv & oof & ts & fi & Hrun & Hkeys & _); try reflexivity.
- intros m x. apply example_proba_length.
- apply NoDup_ListNoDup. unfold HarnessExample.columns.
  repeat constructor; simpl; intuition discriminate.
- exists cv, oof, ts, fi. split; [exact Hrun|exact Hkeys].
Defined.

End ForestCoverReturnsExamples.

(** ** Notebook "Stacking": the fold labels *)

Section StackingFolds.
Import Stacking.

Lemma assign_folds_labels (test_folds : list nat) :
  Forall (fun f => f < NUM_FOLDS) test_folds →
  assign_folds test_folds = Some (map Z.of_nat test_folds).
Proof.
  intros Hrange. unfold assign_folds.
  destruct (for_each_enumerate_ind
              (fun (kfold : list Z) (it : nat * (list nat * list nat)) =>
                 let '(fold, (train_idx, valid_idx)) := it in
                 Np.put kfold valid_idx
                        (replicate (length valid_idx) (Z.of_nat fold)))
              (fun k kf =>
                 length kf = length test_folds
                 ∧ ∀ i f, test_folds !! i = Some f →
                     kf !! i = Some (if decide (f < k) then Z.of_nat f
                                     else (-1)%Z))
              (KFold.split NUM_FOLDS test_folds)
              (replicate (length test_folds) (-1)%Z))
    as (kf & Hrun & Hlen & Hkf).
  - split; [by rewrite length_replicate|]. intros i f Hi.
    rewrite decide_False by lia. apply lookup_replicate_2.
    by eapply lookup_lt_Some.
  - intros k [tr va] kf Hk [Hlen Hkf].
    apply split_lookup_inv in Hk as (Hlt & -> & ->).
    destruct (put_spec kf (valid_idx_of test_folds k)
                (replicate (length (valid_idx_of test_folds k))
                           (Z.of_nat k)))
      as (kf' & Hput & Hlen' & Hout & Hin).
    { rewrite Hlen. apply valid_idx_of_lt. }
    { by rewrite length_replicate. }
    { apply valid_idx_of_NoDup. }
    exists kf'. split; [done|]. split; [congruence|].
    intros i f Hi. destruct (decide (f = k)) as [->|Hne].
    + assert (Hiv : i ∈ valid_idx_of test_folds k)
        by (by apply valid_idx_of_elem).
      apply list_elem_of_lookup in Hiv as [j Hj].
      rewrite (Hin j i Hj), decide_True by lia.
      apply lookup_replicate_2. by eapply lookup_lt_Some.
    + rewrite Hout, (Hkf i f Hi).
      * destruct (decide (f < k)), (decide (f < S k)); try done; lia.
      * intros Hiv%valid_idx_of_elem. congruence.
  - rewrite Hrun. f_equal. rewrite split_length in Hkf.
    apply list_eq. intros i. rewrite list_lookup_fmap.
    destruct (test_folds !! i) as [f|] eqn:Hi; simpl.
    + rewrite (Hkf i f Hi), decide_True; [done|].
      rewrite Forall_forall in Hrange. apply Hrange.
      by eapply list_elem_of_lookup_2.
    + apply lookup_ge_None. rewrite Hlen. by apply lookup_ge_None.
Qed.

Lemma kfold_mask_labels (test_folds : list nat) (fold : nat) :
  kfold_mask (map Z.of_nat test_folds) fold
  = KFold.test_mask test_folds fold.
Proof.
  unfold kfold_mask, KFold.test_mask. rewrite map_map.
  apply map_ext. intros f.
  destruct (Nat.eqb_spec fold f) as [->|Hne].
  - apply Z.eqb_refl.
  - apply Z.eqb_neq. lia.
Qed.

(** X4.  After the loop that fills [train['kfold']] no entry is left at
    -1: every row holds the number of the one fold whose validation
    indices contain it.  So [train.kfold == fold] selects exactly the
    validation rows of fold [fold], and [train.kfold != fold] its
    training rows. *)
Theorem kfold_column_holds_the_fold_of_each_row (test_folds : list nat) :
  Forall (fun f => f < NUM_FOLDS) test_folds →
  ∃ kfold,
    assign_folds test_folds = Some kfold
    ∧ length kfold = length test_folds
    ∧ (∀ i, i < length test_folds →
         ∃ f, kfold !! i = Some (Z.of_nat f) ∧ f < NUM_FOLDS
              ∧ (∀ g tr va,
                   KFold.split NUM_FOLDS test_folds !! g = Some (tr, va) →
                   i ∈ va ↔ g = f))
    ∧ ∀ fold, fold < NUM_FOLDS →
        KFold.split NUM_FOLDS test_folds !! fold
        = Some (Np.flatnonzero (map negb (kfold_mask kfold fold)),
                Np.flatnonzero (kfold_mask kfold fold)).
Proof.
  intros Hrange. exists (map Z.of_nat test_folds).
  split_and!; [by apply assign_folds_labels|by rewrite length_map| |].
  - intros i Hi. destruct (lookup_lt_is_Some_2 test_folds i Hi) as [f Hf].
    exists f. split_and!.
    + by rewrite lookup_map, Hf.
    + rewrite Forall_forall in Hrange. apply Hrange.
      by eapply list_elem_of_lookup_2.
    + intros g tr va (_ & _ & ->)%split_lookup_inv.
      rewrite valid_idx_of_elem. split; [congruence|by intros ->].
  - intros fold Hfold. rewrite kfold_mask_labels.
    by apply split_lookup_lt.
Qed.

Lemma kfold_column_holds_the_fold_of_each_row_witness :
  ∃ kfold,
    assign_folds [0; 2; 1; 0] = Some kfold
    ∧ length kfold = 4
    ∧ (∀ i, i < 4 →
         ∃ f, kfold !! i = Some (Z.of_nat f) ∧ f < NUM_FOLDS
              ∧ (∀ g tr va,
                   KFold.split NUM_FOLDS [0; 2; 1; 0] !! g = Some (tr, va) →
                   i ∈ va ↔ g = f))
    ∧ ∀ fold, fold < NUM_FOLDS →
        KFold.split NUM_FOLDS [0; 2; 1; 0] !! fold
        = Some (Np.flatnonzero (map negb (kfold_mask kfold fold)),
                Np.flatnonzero (kfold_mask kfold fold)).
Proof.
  apply (kfold_column_holds_the_fold_of_each_row [0; 2; 1; 0]).
  unfold NUM_FOLDS. repeat constructor.
Defined.
End StackingFolds.

(** ** Notebook "Stacking": the row statistics *)

Section StackingStats.
Import LgbmFeatures Stacking.
Context `{arith : !FloatArith}.
Variable row_mean row_std row_skew row_mad : list cell → cell.
Variable zscore : list cell → list cell.







(** A feature that the frame does not have ends the call with a
    [KeyError], before anything is built. *)
Lemma partition_columns_missing data (h : Store.heap Series) df
    (pre : list (string * Series)) c post cont cat :
  h !! data = Some df → NoDup (Frame.columns df) → pre ⊆ Frame.cols df →
  Frame.get df c = None →
  partition_columns data (map fst pre ++ c :: post) cont cat h
  = Raise (KeyError c).
Proof.
  intros Hdata Hnd. revert cont cat.
  induction pre as [|[k s] pre IH]; intros cont cat Hsub Hc; simpl.
  - unfold Store.bind, Store.getitem, Store.bind, Store.read.
    by rewrite Hdata, Hc.
  - assert (Hget : Store.getitem data k h = Ok (s, h)).
    { unfold Store.getitem, Store.bind, Store.read. rewrite Hdata.
      unfold Frame.get.
      by rewrite (assoc_In_NoDup _ k s Hnd) by (apply Hsub; left). }
    rewrite (bind_eval _ _ _ _ _ Hget).
    assert (Hsub' : pre ⊆ Frame.cols df)
      by (intros x Hx; apply Hsub; by right).
    destruct (name_starts_with_int (dtype_of s)); by apply IH.
Qed.

(** X6.  [create_row_stats] of "Stacking" needs every feature in the
    frame it is given: with the first missing feature [c] it raises
    [KeyError c] and the store is untouched, whatever the frame holds
    otherwise. *)
Theorem stacking_statistics_need_every_feature data
    (h : Store.heap Series) df (pre : list (string * Series))
    (c : string) (post : list string) :
  h !! data = Some df → NoDup (Frame.columns df) → pre ⊆ Frame.cols df →
  Frame.get df c = None →
  create_row_stats row_mean row_std row_skew row_mad zscore
    (map fst pre ++ c :: post) data h
  = Raise (KeyError c).
Proof.
  intros Hdata Hnd Hsub Hc. unfold create_row_stats.
  apply bind_raise. by eapply partition_columns_missing.
Qed.
End StackingStats.

Section StackingStatsExamples.

#[local] Existing Instance exact_arithmetic.


Lemma stacking_statistics_need_every_feature_witness :
Stacking.create_row_stats LgbmFeatures.exact_mean LgbmFeatures.no_stat
  LgbmFeatures.no_stat LgbmFeatures.no_stat LgbmFeatures.no_zscore
  ["f0"; "f7"; "f1"]%string 0 [Stacking.example_train]
= Raise (KeyError "f7").
Proof.
apply (stacking_statistics_need_every_feature
         LgbmFeatures.exact_mean
         LgbmFeatures.no_stat LgbmFeatures.no_stat LgbmFeatures.no_stat
         LgbmFeatures.no_zscore 0 [Stacking.example_train]
         Stacking.example_train
         [("f0"%string, LgbmFeatures.MkSeries LgbmFeatures.float64
                          [Some (1 # 2); Some 4]%Q)]
         "f7"%string ["f1"%string]).
- reflexivity.
- apply NoDup_ListNoDup. repeat constructor; simpl; intuition discriminate.
- intros x ->%list_elem_of_singleton. right. left.
- reflexivity.
Defined.

End StackingStatsExamples.

(** ** Notebook "Stacking": the base models and the meta models *)

Section RangeLoops.
Context {S : Type} (body : S → nat → option S).

Lemma for_each_range_from (P : nat → S → Prop) (n j : nat) st0 :
  P j st0 →
  (∀ k st, j ≤ k < j + n → P k st →
     ∃ st', body st k = Some st' ∧ P (Datatypes.S k) st') →
  ∃ st, for_each body (seq j n) st0 = Some st ∧ P (j + n) st.
Proof.
  revert j st0. induction n as [|n IH]; intros j st0 H0 Hstep; simpl.
  - exists st0. by rewrite Nat.add_0_r.
  - destruct (Hstep j st0) as (st1 & Hb & H1); [lia|done|].
    rewrite Hb. simpl.
    destruct (IH (Datatypes.S j) st1 H1) as (st & Hst & HP).
    + intros k st Hk. apply Hstep. lia.
    + exists st. split; [done|].
      by replace (j + Datatypes.S n) with (Datatypes.S j + n) by lia.
Qed.

Lemma for_each_range_ind (P : nat → S → Prop) (n : nat) st0 :
  P 0 st0 →
  (∀ k st, k < n → P k st →
     ∃ st', body st k = Some st' ∧ P (Datatypes.S k) st') →
  ∃ st, for_each body (seq 0 n) st0 = Some st ∧ P n st.
Proof.
  intros H0 Hstep. apply (for_each_range_from P n 0 st0 H0).
  intros k st Hk. apply Hstep. lia.
Qed.
End RangeLoops.

Section StackingModelFacts.
Import Stacking.
Context {X Y Model Params : Type} `{arith : !FloatArith}.
Variable train_rows : list string → list X.
Variable test_rows : list string → list X.
Variable train_y : list Y.
Variable test_folds : list nat.
Variable features all_features : list string.
Variable n_test : nat.
Variable predict_proba : Model → X → list Q.
Variable roc_auc_score : list Y → list Q → Q.
Variable oof_rows : list X.
Variable test_pred_rows : list X.

Hypothesis train_rows_length :
  ∀ cols, length (train_rows cols) = length test_folds.
Hypothesis test_rows_length : ∀ cols, length (test_rows cols) = n_test.
Hypothesis train_y_rows : length train_y = length test_folds.
Hypothesis two_columns : ∀ m x, is_Some (predict_proba m x !! 1).

Local Abbreviation kfold := (map Z.of_nat test_folds).

Lemma mask_rows_valid {A} (rows : list A) f :
  length rows = length test_folds →
  mask_rows rows (kfold_mask kfold f)
  = Np.iloc rows (valid_idx_of test_folds f).
Proof.
  intros Hl. unfold mask_rows. rewrite kfold_mask_labels.
  rewrite decide_True; [done|].
  unfold KFold.test_mask. by rewrite length_map.
Qed.

Lemma mask_rows_train {A} (rows : list A) f :
  length rows = length test_folds →
  mask_rows rows (map negb (kfold_mask kfold f))
  = Np.iloc rows (train_idx_of test_folds f).
Proof.
  intros Hl. unfold mask_rows. rewrite kfold_mask_labels.
  rewrite decide_True; [done|].
  unfold KFold.test_mask. by rewrite !length_map.
Qed.

Section OneModel.
Variable fit : list X → list Y → list X * list Y → Model.
Variable new_features : bool.

Local Abbreviation cols :=
  (if new_features then features else all_features).
Local Abbreviation base_model f :=
  (fit (rows (train_rows cols) (train_idx_of test_folds f))
       (rows train_y (train_idx_of test_folds f))
       (rows (train_rows cols) (valid_idx_of test_folds f),
        rows train_y (valid_idx_of test_folds f))).
Local Abbreviation base_valid_preds f :=
  (default [] (column1 (map (predict_proba (base_model f))
                            (rows (train_rows cols)
                                  (valid_idx_of test_folds f))))).
Local Abbreviation base_test_col f :=
  (default [] (column1 (map (predict_proba (base_model f))
                            (test_rows cols)))).
Local Abbreviation base_body :=
  (fold_body train_rows test_rows train_y kfold features all_features
             predict_proba fit new_features).
Local Abbreviation base_inv k st :=
  (oof_after test_folds (fun f => base_valid_preds f) k (oof_preds st)
   ∧ test_preds st
     = vsum (fun f => Np.vdiv (base_test_col f) NUM_FOLDS) k
            (Np.zeros n_test)).

Lemma base_test_col_length f : length (base_test_col f) = n_test.
Proof.
  destruct (column1_spec (predict_proba (base_model f)) (test_rows cols))
    as (col & -> & Hl & _); [intros; apply two_columns|].
  simpl. by rewrite Hl, test_rows_length.
Qed.

Lemma base_step k st :
  k < NUM_FOLDS → base_inv k st →
  ∃ st', base_body st k = Some st' ∧ base_inv (S k) st'.
Proof.
  intros Hk (Hoof & Htp). unfold fold_body.
  rewrite !mask_rows_train, !mask_rows_valid by done.
  destruct (iloc_train_is_Some test_folds (train_rows cols) k
              (train_rows_length cols)) as [Xtr HXtr].
  destruct (iloc_train_is_Some test_folds train_y k train_y_rows)
    as [ytr Hytr].
  destruct (iloc_valid_is_Some test_folds (train_rows cols) k
              (train_rows_length cols)) as [Xva HXva].
  destruct (iloc_valid_is_Some test_folds train_y k train_y_rows)
    as [yva Hyva].
  rewrite HXtr, Hytr, HXva, Hyva. simpl.
  destruct (column1_spec (predict_proba (fit Xtr ytr (Xva, yva))) Xva)
    as (vp & Hvp & Hvl & _); [intros; apply two_columns|].
  assert (Hvals : base_valid_preds k = vp).
  { by rewrite (rows_iloc _ _ _ HXtr), (rows_iloc _ _ _ Hytr),
               (rows_iloc _ _ _ HXva), (rows_iloc _ _ _ Hyva), Hvp. }
  rewrite Hvp. simpl.
  destruct (column1_spec (predict_proba (fit Xtr ytr (Xva, yva)))
              (test_rows cols))
    as (tc & Htc & _ & _); [intros; apply two_columns|].
  assert (Htcol : base_test_col k = tc).
  { by rewrite (rows_iloc _ _ _ HXtr), (rows_iloc _ _ _ Hytr),
               (rows_iloc _ _ _ HXva), (rows_iloc _ _ _ Hyva), Htc. }
  rewrite Htc. simpl. rewrite Htp, <- Htcol.
  rewrite (vadd_vsum (fun f => Np.vdiv (base_test_col f) NUM_FOLDS)).
  2:{ intros f _. unfold Np.vdiv, Np.zeros.
      by rewrite length_map, length_replicate, base_test_col_length. }
  simpl.
  destruct (oof_after_step test_folds (fun f => base_valid_preds f) k _
              Hoof) as (a' & Ha' & Hinv').
  { rewrite Hvals, Hvl. by apply iloc_length in HXva. }
  rewrite Hvals in Ha'.
  unfold mask_put. rewrite kfold_mask_labels.
  rewrite decide_True.
  2:{ destruct Hoof as (Hlen & _). rewrite Hlen.
      unfold KFold.test_mask. by rewrite length_map. }
  fold (valid_idx_of test_folds k). rewrite Ha'. simpl.
  eexists. split; [done|]. by split.
Qed.

Lemma base_loop :
  ∃ st, train_loop train_rows test_rows train_y kfold features
                   all_features (length test_folds) n_test
                   predict_proba fit new_features = Some st
        ∧ base_inv NUM_FOLDS st.
Proof.
  unfold train_loop.
  apply (for_each_range_ind base_body (fun k st => base_inv k st)).
  - unfold init. split; simpl; [apply oof_after_0|done].
  - intros k st Hk Hinv. by apply base_step.
Qed.

Lemma base_oof_link f j i :
  valid_idx_of test_folds f !! j = Some i →
  ∃ v, base_valid_preds f !! j = Some v
       ∧ oof_value train_rows train_y predict_proba fit cols
                   (train_idx_of test_folds f,
                    valid_idx_of test_folds f) i = Some v.
Proof.
  intros Hj. unfold oof_value. cbn [fst snd].
  destruct (iloc_train_is_Some test_folds (train_rows cols) f
              (train_rows_length cols)) as [Xtr HXtr].
  destruct (iloc_train_is_Some test_folds train_y f train_y_rows)
    as [ytr Hytr].
  destruct (iloc_valid_is_Some test_folds (train_rows cols) f
              (train_rows_length cols)) as [Xva HXva].
  destruct (iloc_valid_is_Some test_folds train_y f train_y_rows)
    as [yva Hyva].
  rewrite (rows_iloc _ _ _ HXtr), (rows_iloc _ _ _ Hytr),
          (rows_iloc _ _ _ HXva), (rows_iloc _ _ _ Hyva),
          HXtr, Hytr, HXva, Hyva. simpl.
  pose proof (iloc_lookup _ _ _ _ _ HXva Hj) as Hx.
  assert (Hi : i < length (train_rows cols)).
  { rewrite train_rows_length.
    apply list_elem_of_lookup_2, valid_idx_of_elem in Hj.
    by apply lookup_lt_Some in Hj. }
  apply lookup_lt_is_Some_2 in Hi as [x Hxi]. rewrite Hxi in Hx |- *.
  simpl.
  destruct (column1_spec (predict_proba (fit Xtr ytr (Xva, yva))) Xva)
    as (col & -> & _ & Hcol); [intros; apply two_columns|]. simpl.
  destruct (two_columns (fit Xtr ytr (Xva, yva)) x) as [v Hv].
  exists v. split; [|done]. by rewrite <- (Hcol j x Hx).
Qed.

Lemma base_test_link f t p :
  base_test_col f !! t = Some p →
  test_value train_rows test_rows train_y predict_proba fit cols
             (train_idx_of test_folds f, valid_idx_of test_folds f) t
  = Some p.
Proof.
  unfold test_value. cbn [fst snd].
  destruct (iloc_train_is_Some test_folds (train_rows cols) f
              (train_rows_length cols)) as [Xtr HXtr].
  destruct (iloc_train_is_Some test_folds train_y f train_y_rows)
    as [ytr Hytr].
  destruct (iloc_valid_is_Some test_folds (train_rows cols) f
              (train_rows_length cols)) as [Xva HXva].
  destruct (iloc_valid_is_Some test_folds train_y f train_y_rows)
    as [yva Hyva].
  rewrite (rows_iloc _ _ _ HXtr), (rows_iloc _ _ _ Hytr),
          (rows_iloc _ _ _ HXva), (rows_iloc _ _ _ Hyva),
          HXtr, Hytr, HXva, Hyva. simpl.
  destruct (column1_spec (predict_proba (fit Xtr ytr (Xva, yva)))
              (test_rows cols))
    as (col & -> & Hl & Hcol); [intros; apply two_columns|]. simpl.
  intros Hp.
  assert (Ht : t < length (test_rows cols)).
  { rewrite <- Hl. by apply lookup_lt_Some in Hp. }
  apply lookup_lt_is_Some_2 in Ht as [x Hx]. rewrite Hx. simpl.
  by rewrite (Hcol t x Hx).
Qed.

Lemma base_rowwise :
  Forall (fun f => f < NUM_FOLDS) test_folds →
  ∃ st, train_loop train_rows test_rows train_y kfold features
                   all_features (length test_folds) n_test
                   predict_proba fit new_features = Some st
    ∧ out_of_fold_of test_folds
        (oof_value train_rows train_y predict_proba fit cols)
        (oof_preds st)
    ∧ accumulates (fold_share NUM_FOLDS) NUM_FOLDS test_folds n_test
        (test_value train_rows test_rows train_y predict_proba fit cols)
        (test_preds st).
Proof.
  intros Hrange.
  destruct base_loop as (st & Hst & (Hlen & Hw & Hv) & Htp).
  exists st. split_and!; [done| |].
  - intros i Hi.
    apply lookup_lt_is_Some_2 in Hi as [f Hf].
    assert (Hlt : f < NUM_FOLDS).
    { rewrite Forall_lookup in Hrange. by eapply Hrange. }
    destruct (Hv i f Hf Hlt) as (j & Hj & Hval).
    destruct (base_oof_link f j i Hj) as (v & Hvj & Hvo).
    exists f, (train_idx_of test_folds f), (valid_idx_of test_folds f), v.
    split_and!.
    + by apply split_lookup_lt.
    + by apply valid_idx_of_elem.
    + intros (g & Hg & Hne)%train_idx_of_elem. congruence.
    + intros g tr' va' (_ & _ & ->)%split_lookup_inv
             Hin%valid_idx_of_elem.
      congruence.
    + done.
    + congruence.
    + rewrite Hw, (writes_of_row test_folds NUM_FOLDS i f Hf).
      by rewrite decide_True.
  - rewrite Htp. apply vsum_accumulates_shares.
    + intros f _. apply base_test_col_length.
    + intros f t p _ Hp. by apply base_test_link.
Qed.
End OneModel.

Section MetaModel.
Variable fit : list X → list Y → list X * list Y → Model.
Hypothesis oof_rows_length : length oof_rows = length test_folds.
Hypothesis test_pred_rows_length : length test_pred_rows = n_test.

Local Abbreviation meta_model f :=
  (fit (rows oof_rows (train_idx_of test_folds f))
       (rows train_y (train_idx_of test_folds f))
       (rows oof_rows (valid_idx_of test_folds f),
        rows train_y (valid_idx_of test_folds f))).
Local Abbreviation meta_test_col f :=
  (default [] (column1 (map (predict_proba (meta_model f))
                            test_pred_rows))).
Local Abbreviation meta_body :=
  (stack_body train_y kfold predict_proba roc_auc_score oof_rows
              test_pred_rows fit).
Local Abbreviation meta_inv k st :=
  (preds st
   = vsum (fun f => Np.vdiv (meta_test_col f) NUM_FOLDS) k
          (Np.zeros n_test)
   ∧ length (scores st) = NUM_FOLDS).

Lemma meta_test_col_length f : length (meta_test_col f) = n_test.
Proof.
  destruct (column1_spec (predict_proba (meta_model f)) test_pred_rows)
    as (col & -> & Hl & _); [intros; apply two_columns|].
  simpl. by rewrite Hl.
Qed.

Lemma meta_step k st :
  k < NUM_FOLDS → meta_inv k st →
  ∃ st', meta_body st k = Some st' ∧ meta_inv (S k) st'.
Proof.
  intros Hk (Htp & Hsc). unfold stack_body.
  rewrite !mask_rows_train, !mask_rows_valid by done.
  destruct (iloc_train_is_Some test_folds oof_rows k oof_rows_length)
    as [Xtr HXtr].
  destruct (iloc_train_is_Some test_folds train_y k train_y_rows)
    as [ytr Hytr].
  destruct (iloc_valid_is_Some test_folds oof_rows k oof_rows_length)
    as [Xva HXva].
  destruct (iloc_valid_is_Some test_folds train_y k train_y_rows)
    as [yva Hyva].
  rewrite HXtr, HXva, Hytr, Hyva. simpl.
  destruct (column1_spec (predict_proba (fit Xtr ytr (Xva, yva)))
              test_pred_rows)
    as (tc & Htc & _ & _); [intros; apply two_columns|].
  assert (Htcol : meta_test_col k = tc).
  { by rewrite (rows_iloc _ _ _ HXtr), (rows_iloc _ _ _ Hytr),
               (rows_iloc _ _ _ HXva), (rows_iloc _ _ _ Hyva), Htc. }
  rewrite Htc. simpl. rewrite Htp, <- Htcol.
  rewrite (vadd_vsum (fun f => Np.vdiv (meta_test_col f) NUM_FOLDS)).
  2:{ intros f _. unfold Np.vdiv, Np.zeros.
      by rewrite length_map, length_replicate, meta_test_col_length. }
  simpl.
  destruct (column1_spec (predict_proba (fit Xtr ytr (Xva, yva))) Xva)
    as (vp & Hvp & _ & _); [intros; apply two_columns|].
  rewrite Hvp. simpl. rewrite set_item_Some by lia. simpl.
  eexists. split; [done|]. split; simpl; [done|].
  by rewrite length_insert.
Qed.

Lemma meta_test_link f t p :
  meta_test_col f !! t = Some p →
  meta_value train_y predict_proba oof_rows test_pred_rows fit
             (train_idx_of test_folds f, valid_idx_of test_folds f) t
  = Some p.
Proof.
  unfold meta_value. cbn [fst snd].
  destruct (iloc_train_is_Some test_folds oof_rows f oof_rows_length)
    as [Xtr HXtr].
  destruct (iloc_train_is_Some test_folds train_y f train_y_rows)
    as [ytr Hytr].
  destruct (iloc_valid_is_Some test_folds oof_rows f oof_rows_length)
    as [Xva HXva].
  destruct (iloc_valid_is_Some test_folds train_y f train_y_rows)
    as [yva Hyva].
  rewrite (rows_iloc _ _ _ HXtr), (rows_iloc _ _ _ Hytr),
          (rows_iloc _ _ _ HXva), (rows_iloc _ _ _ Hyva),
          HXtr, Hytr, HXva, Hyva. simpl.
  destruct (column1_spec (predict_proba (fit Xtr ytr (Xva, yva)))
              test_pred_rows)
    as (col & -> & Hl & Hcol); [intros; apply two_columns|]. simpl.
  intros Hp.
  assert (Ht : t < length test_pred_rows).
  { rewrite <- Hl. by apply lookup_lt_Some in Hp. }
  apply lookup_lt_is_Some_2 in Ht as [x Hx]. rewrite Hx. simpl.
  by rewrite (Hcol t x Hx).
Qed.

Lemma meta_rowwise :
  ∃ st, stack_loop train_y kfold n_test predict_proba roc_auc_score
                   oof_rows test_pred_rows fit = Some st
    ∧ accumulates (fold_share NUM_FOLDS) NUM_FOLDS test_folds n_test
        (meta_value train_y predict_proba oof_rows test_pred_rows fit)
        (preds st).
Proof.
  destruct (for_each_range_ind meta_body (fun k st => meta_inv k st)
              NUM_FOLDS
              (MetaState (Np.zeros n_test) (Np.zeros NUM_FOLDS)))
    as (st & Hst & Htp & _).
  - split; [done|]. cbn [scores]. unfold Np.zeros.
    by rewrite length_replicate.
  - intros k st Hk Hinv. by apply meta_step.
  - exists st. split; [done|]. rewrite Htp.
    apply vsum_accumulates_shares.
    + intros f _. apply meta_test_col_length.
    + intros f t p _ Hp. by apply meta_test_link.
Qed.
End MetaModel.
End StackingModelFacts.

Section StackingModelClaims.
Import Stacking.
Context {X Y Model Params : Type} `{arith : !FloatArith}.
Variable train_rows : list string → list X.
Variable test_rows : list string → list X.
Variable train_y : list Y.
Variable test_folds : list nat.
Variable features all_features : list string.
Variable n_test : nat.
Variable predict_proba : Model → X → list Q.
Variable roc_auc_score : list Y → list Q → Q.
Variable xgboost_fit lightgbm_fit catboost_fit :
  Params → Params → list X → list Y → list X * list Y → Model.
Variable histgbm_fit : Params → Params → list X → list Y → Model.
Variable oof_rows : list X.
Variable test_pred_rows : list X.
Variable meta_lightgbm_fit meta_xgboost_fit :
  list X → list Y → list X * list Y → Model.

(** What a base-model function returns for the model [fit]. *)
Local Abbreviation cross_validated fit new_features result :=
  (∃ st,
     result = Some (test_preds st, oof_values (oof_preds st))
     ∧ out_of_fold_of test_folds
         (oof_value train_rows train_y predict_proba fit
            (if new_features : bool then features else all_features))
         (oof_preds st)
     ∧ accumulates (fold_share NUM_FOLDS) NUM_FOLDS test_folds n_test
         (test_value train_rows test_rows train_y predict_proba fit
            (if new_features : bool then features else all_features))
         (test_preds st)).

(** X7.  With the [kfold] column holding the fold labels, each of
    [train_xgboost], [train_lightgbm], [train_catboost] and
    [train_histgbm] runs its three folds and returns: out-of-fold
    predictions in which the entry of row [i] was stored once, in the
    fold whose validation rows contain [i], by the model fitted on the
    other rows; and test predictions that are the running total, over
    the folds in the order of the loop, of the models' class-1
    probabilities divided by [NUM_FOLDS].  The rows are
    [train[features]] when [new_features] is true and
    [train[all_features]] otherwise.  The first three models are given
    the validation rows of their fold as [eval_set]; the model of
    [train_histgbm] is not. *)
Theorem base_models_are_cross_validated
    (model_params fit_params : Params) (new_features : bool) :
  (∀ cols, length (train_rows cols) = length test_folds) →
  (∀ cols, length (test_rows cols) = n_test) →
  length train_y = length test_folds →
  (∀ m x, is_Some (predict_proba m x !! 1)) →
  Forall (fun f => f < NUM_FOLDS) test_folds →
  cross_validated (xgboost_fit model_params fit_params) new_features
    (train_xgboost train_rows test_rows train_y
       (map Z.of_nat test_folds) features all_features
       (length test_folds) n_test predict_proba xgboost_fit
       model_params fit_params new_features)
  ∧ cross_validated (lightgbm_fit model_params fit_params) new_features
      (train_lightgbm train_rows test_rows train_y
         (map Z.of_nat test_folds) features all_features
         (length test_folds) n_test predict_proba lightgbm_fit
         model_params fit_params new_features)
  ∧ cross_validated (catboost_fit model_params fit_params) new_features
      (train_catboost train_rows test_rows train_y
         (map Z.of_nat test_folds) features all_features
         (length test_folds) n_test predict_proba catboost_fit
         model_params fit_params new_features)
  ∧ cross_validated
      (fun X_train y_train _ =>
         histgbm_fit model_params fit_params X_train y_train)
      new_features
      (train_histgbm train_rows test_rows train_y
         (map Z.of_nat test_folds) features all_features
         (length test_folds) n_test predict_proba histgbm_fit
         model_params fit_params new_features).
Proof.
  intros Htr Hte Hy Hpp Hrange.
  split_and!.
  - destruct (base_rowwise train_rows test_rows train_y test_folds
                features all_features n_test predict_proba Htr Hte Hy Hpp
                (xgboost_fit model_params fit_params) new_features Hrange)
      as (st & Hst & Hoof & Hacc).
    exists st. unfold train_xgboost. by rewrite Hst.
  - destruct (base_rowwise train_rows test_rows train_y test_folds
                features all_features n_test predict_proba Htr Hte Hy Hpp
                (lightgbm_fit model_params fit_params) new_features Hrange)
      as (st & Hst & Hoof & Hacc).
    exists st. unfold train_lightgbm. by rewrite Hst.
  - destruct (base_rowwise train_rows test_rows train_y test_folds
                features all_features n_test predict_proba Htr Hte Hy Hpp
                (catboost_fit model_params fit_params) new_features Hrange)
      as (st & Hst & Hoof & Hacc).
    exists st. unfold train_catboost. by rewrite Hst.
  - destruct (base_rowwise train_rows test_rows train_y test_folds
                features all_features n_test predict_proba Htr Hte Hy Hpp
                (fun X_train y_train _ =>
                   histgbm_fit model_params fit_params X_train y_train)
                new_features Hrange)
      as (st & Hst & Hoof & Hacc).
    exists st. unfold train_histgbm. by rewrite Hst.
Qed.

(** X8.  [stack_lightgbm] and [stack_xgboost] return the running total,
    over the three folds in the order of the loop, of the class-1
    probabilities, divided by [NUM_FOLDS], that the meta model of the
    fold gives the rows of [test_preds]; the meta model of fold [j] is
    fitted on the out-of-fold predictions of the rows with
    [kfold != j], with those of the rows with [kfold == j] as
    [eval_set]. *)
Theorem meta_models_accumulate_over_folds :
  length oof_rows = length test_folds →
  length test_pred_rows = n_test →
  length train_y = length test_folds →
  (∀ m x, is_Some (predict_proba m x !! 1)) →
  (∃ preds,
     stack_lightgbm train_y (map Z.of_nat test_folds) n_test
       predict_proba roc_auc_score oof_rows test_pred_rows
       meta_lightgbm_fit = Some preds
     ∧ accumulates (fold_share NUM_FOLDS) NUM_FOLDS test_folds n_test
         (meta_value train_y predict_proba oof_rows test_pred_rows
                     meta_lightgbm_fit) preds)
  ∧ (∃ preds,
       stack_xgboost train_y (map Z.of_nat test_folds) n_test
         predict_proba roc_auc_score oof_rows test_pred_rows
         meta_xgboost_fit = Some preds
       ∧ accumulates (fold_share NUM_FOLDS) NUM_FOLDS test_folds n_test
           (meta_value train_y predict_proba oof_rows test_pred_rows
                       meta_xgboost_fit) preds).
Proof.
  intros Ho Ht Hy Hpp. split.
  - destruct (meta_rowwise train_y test_folds n_test predict_proba
                roc_auc_score oof_rows test_pred_rows Hy Hpp
                meta_lightgbm_fit Ho Ht) as (st & Hst & Hacc).
    exists (preds st). unfold stack_lightgbm. by rewrite Hst.
  - destruct (meta_rowwise train_y test_folds n_test predict_proba
                roc_auc_score oof_rows test_pred_rows Hy Hpp
                meta_xgboost_fit Ho Ht) as (st & Hst & Hacc).
    exists (preds st). unfold stack_xgboost. by rewrite Hst.
Qed.
End StackingModelClaims.

Section StackingModelExamples.
Import StratifiedExample.

#[local] Existing Instance Binary64.arithmetic.

Lemma base_models_are_cross_validated_witness :
∃ st,
  Stacking.train_histgbm (fun _ => train_X3) (fun _ => [10; 20])
    train_y3 (map Z.of_nat test_folds3) ["f0"%string]
    ["f0"; "min"]%string 6 2 predict_tenths
    (fun (_ _ : unit) (Xs ys : list nat) => Xs) tt tt true
  = Some (Stacking.test_preds st, oof_values (Stacking.oof_preds st))
  ∧ accumulates (fold_share Stacking.NUM_FOLDS) Stacking.NUM_FOLDS
      test_folds3 2
      (Stacking.test_value (fun _ => train_X3)
         (fun _ => [10; 20]) train_y3 predict_tenths
         (fun Xs ys (_ : list nat * list nat) => Xs) ["f0"%string])
      (Stacking.test_preds st).
Proof.
destruct (base_models_are_cross_validated
            (fun _ => train_X3) (fun _ => [10; 20]) train_y3
            test_folds3 ["f0"%string] ["f0"; "min"]%string 2
            predict_tenths
            (fun (_ _ : unit) (Xs ys : list nat)
                 (_ : list nat * list nat) => Xs)
            (fun (_ _ : unit) (Xs ys : list nat)
                 (_ : list nat * list nat) => Xs)
            (fun (_ _ : unit) (Xs ys : list nat)
                 (_ : list nat * list nat) => Xs)
            (fun (_ _ : unit) (Xs ys : list nat) => Xs) tt tt true)
  as (_ & _ & _ & st & Hst & _ & Hacc).
- reflexivity.
- reflexivity.
- reflexivity.
- intros m x. apply tenths_column1.
- unfold Stacking.NUM_FOLDS. repeat constructor.
- exists st. split; [exact Hst|exact Hacc].
Defined.

Lemma meta_models_accumulate_over_folds_witness :
∃ preds,
  Stacking.stack_lightgbm train_y3 (map Z.of_nat test_folds3) 2
    predict_tenths HarnessExample.roc_auc_score
    train_X3 [10; 20]
    (fun Xs ys (_ : list nat * list nat) => Xs)
  = Some preds
  ∧ accumulates (fold_share Stacking.NUM_FOLDS) Stacking.NUM_FOLDS
      test_folds3 2
      (Stacking.meta_value train_y3 predict_tenths
         train_X3 [10; 20]
         (fun Xs ys (_ : list nat * list nat) => Xs))
      preds.
Proof.
refine (proj1 (meta_models_accumulate_over_folds
                 train_y3 test_folds3 2 predict_tenths
                 HarnessExample.roc_auc_score train_X3 [10; 20]
                 (fun Xs ys (_ : list nat * list nat) => Xs)
                 (fun Xs ys (_ : list nat * list nat) => Xs)
                 eq_refl eq_refl eq_refl _)).
intros m x. apply tenths_column1.
Defined.

End StackingModelExamples.

Section NeuralNetworkFacts.
Import NeuralNetwork.
Context {X X' Y Estimator Model Scaler : Type} `{arith : !FloatArith}.
Variable train_X : list X.
Variable train_y : list Y.
Variable test_X : list X.
Variable test_folds : list nat.
Variable scaler_fit : list X → Scaler.
Variable transform : Scaler → X → X'.
Variable clone : Estimator → Estimator.
Variable fit : Estimator → list X' → list Y → Model.
Variable predict_proba : Model → X' → list Q.
Variable roc_auc_score : list Y → list Q → Q.

Hypothesis train_X_rows : length train_X = length test_folds.
Hypothesis train_y_rows : length train_y = length test_folds.
Hypothesis two_columns : ∀ m x, is_Some (predict_proba m x !! 1).

Variable est : Estimator.

Local Abbreviation nn_scaler f :=
  (scaler_fit (rows train_X (train_idx_of test_folds f))).
Local Abbreviation nn_model f :=
  (fit (clone est)
       (map (transform (nn_scaler f))
            (rows train_X (train_idx_of test_folds f)))
       (rows train_y (train_idx_of test_folds f))).
Local Abbreviation nn_vals f :=
  (default [] (column1 (map (predict_proba (nn_model f))
                            (map (transform (nn_scaler f))
                                 (rows train_X
                                       (valid_idx_of test_folds f)))))).
Local Abbreviation nn_tcol f :=
  (default [] (column1 (map (predict_proba (nn_model f))
                            (map (transform (nn_scaler f)) test_X)))).
Local Abbreviation nn_body :=
  (fold_body train_X train_y test_X scaler_fit transform clone fit
             predict_proba roc_auc_score est).
Local Abbreviation nn_inv k st :=
  (oof_after test_folds (fun f => nn_vals f) k (oof_preds st)
   ∧ test_preds st
     = vsum (fun f => Np.vdiv (nn_tcol f) NUM_FOLDS) k
            (Np.zeros (length test_X))
   ∧ length (scores st) = NUM_FOLDS).

Lemma nn_tcol_length f : length (nn_tcol f) = length test_X.
Proof.
  destruct (column1_spec (predict_proba (nn_model f))
              (map (transform (nn_scaler f)) test_X))
    as (col & -> & Hl & _); [intros; apply two_columns|].
  simpl. by rewrite Hl, length_map.
Qed.

Lemma nn_step k st :
  k < NUM_FOLDS → nn_inv k st →
  ∃ st', nn_body st
           (k, (train_idx_of test_folds k, valid_idx_of test_folds k))
         = Some st'
         ∧ nn_inv (S k) st'.
Proof.
  intros Hk (Hoof & Htp & Hsc). unfold fold_body.
  destruct (iloc_train_is_Some test_folds train_X k train_X_rows)
    as [Xtr HXtr].
  destruct (iloc_train_is_Some test_folds train_y k train_y_rows)
    as [ytr Hytr].
  destruct (iloc_valid_is_Some test_folds train_X k train_X_rows)
    as [Xva HXva].
  destruct (iloc_valid_is_Some test_folds train_y k train_y_rows)
    as [yva Hyva].
  rewrite HXtr, HXva, Hytr, Hyva. simpl.
  set (s := scaler_fit Xtr).
  set (m := fit (clone est) (map (transform s) Xtr) ytr).
  destruct (column1_spec (predict_proba m) (map (transform s) Xva))
    as (vp & Hvp & Hvl & _); [intros; apply two_columns|].
  assert (Hvals : nn_vals k = vp).
  { rewrite (rows_iloc _ _ _ HXtr), (rows_iloc _ _ _ Hytr),
            (rows_iloc _ _ _ HXva).
    fold s. fold m. by rewrite Hvp. }
  rewrite Hvp. simpl.
  destruct (column1_spec (predict_proba m) (map (transform s) test_X))
    as (tc & Htc & _ & _); [intros; apply two_columns|].
  assert (Htcol : nn_tcol k = tc).
  { rewrite (rows_iloc _ _ _ HXtr), (rows_iloc _ _ _ Hytr).
    fold s. fold m. by rewrite Htc. }
  rewrite Htc. simpl. rewrite Htp, <- Htcol.
  rewrite (vadd_vsum (fun f => Np.vdiv (nn_tcol f) NUM_FOLDS)).
  2:{ intros f _. unfold Np.vdiv, Np.zeros.
      by rewrite length_map, length_replicate, nn_tcol_length. }
  simpl.
  destruct (oof_after_step test_folds (fun f => nn_vals f) k _ Hoof)
    as (a' & Ha' & Hinv').
  { rewrite Hvals, Hvl, length_map. by apply iloc_length in HXva. }
  rewrite Hvals in Ha'. rewrite Ha'. simpl.
  rewrite set_item_Some by lia. simpl.
  eexists. split; [done|]. split_and!; simpl; try done.
  by rewrite length_insert.
Qed.

Lemma nn_loop :
  ∃ st, train_model_loop train_X train_y test_X test_folds scaler_fit
          transform clone fit predict_proba roc_auc_score est = Some st
        ∧ nn_inv NUM_FOLDS st.
Proof.
  unfold train_model_loop, folds.
  destruct (for_each_enumerate_ind nn_body
              (fun k st => k ≤ NUM_FOLDS ∧ nn_inv k st)
              (KFold.split NUM_FOLDS test_folds)
              (init train_X test_X))
    as (st & Hst & _ & Hinv).
  - split; [lia|]. unfold init. split_and!; simpl.
    + rewrite train_X_rows. apply oof_after_0.
    + done.
    + done.
  - intros k [tr va] st Hk [_ Hinv].
    apply split_lookup_inv in Hk as (Hlt & -> & ->).
    destruct (nn_step k st Hlt Hinv) as (st' & Hb & Hinv').
    exists st'. split; [done|]. split; [lia|done].
  - exists st. split; [done|]. by rewrite split_length in Hinv.
Qed.

Lemma nn_oof_link f j i :
  valid_idx_of test_folds f !! j = Some i →
  ∃ v, nn_vals f !! j = Some v
       ∧ oof_value train_X train_y scaler_fit transform clone fit
                   predict_proba est (train_idx_of test_folds f) i
         = Some v.
Proof.
  intros Hj. unfold oof_value.
  destruct (iloc_train_is_Some test_folds train_X f train_X_rows)
    as [Xtr HXtr].
  destruct (iloc_train_is_Some test_folds train_y f train_y_rows)
    as [ytr Hytr].
  destruct (iloc_valid_is_Some test_folds train_X f train_X_rows)
    as [Xva HXva].
  rewrite (rows_iloc _ _ _ HXtr), (rows_iloc _ _ _ Hytr),
          (rows_iloc _ _ _ HXva), HXtr, Hytr. simpl.
  pose proof (iloc_lookup _ _ _ _ _ HXva Hj) as Hx.
  assert (Hi : i < length train_X).
  { rewrite train_X_rows.
    apply list_elem_of_lookup_2, valid_idx_of_elem in Hj.
    by apply lookup_lt_Some in Hj. }
  apply lookup_lt_is_Some_2 in Hi as [x Hxi]. rewrite Hxi in Hx |- *.
  simpl.
  set (s := scaler_fit Xtr).
  set (m := fit (clone est) (map (transform s) Xtr) ytr).
  destruct (column1_spec (predict_proba m) (map (transform s) Xva))
    as (col & -> & _ & Hcol); [intros; apply two_columns|]. simpl.
  destruct (two_columns m (transform s x)) as [v Hv].
  exists v. split; [|done].
  rewrite <- (Hcol j (transform s x)); [done|].
  by rewrite lookup_map, Hx.
Qed.

Lemma nn_test_link f t p :
  nn_tcol f !! t = Some p →
  test_value train_X train_y test_X scaler_fit transform clone fit
             predict_proba est
             (train_idx_of test_folds f, valid_idx_of test_folds f) t
  = Some p.
Proof.
  unfold test_value. cbn [fst snd].
  destruct (iloc_train_is_Some test_folds train_X f train_X_rows)
    as [Xtr HXtr].
  destruct (iloc_train_is_Some test_folds train_y f train_y_rows)
    as [ytr Hytr].
  rewrite (rows_iloc _ _ _ HXtr), (rows_iloc _ _ _ Hytr), HXtr, Hytr.
  simpl.
  set (s := scaler_fit Xtr).
  set (m := fit (clone est) (map (transform s) Xtr) ytr).
  destruct (column1_spec (predict_proba m) (map (transform s) test_X))
    as (col & -> & Hl & Hcol); [intros; apply two_columns|]. simpl.
  intros Hp.
  assert (Ht : t < length test_X).
  { rewrite length_map in Hl. rewrite <- Hl. by apply lookup_lt_Some in Hp. }
  apply lookup_lt_is_Some_2 in Ht as [x Hx]. rewrite Hx. simpl.
  rewrite <- (Hcol t (transform s x)) in Hp; [done|].
  by rewrite lookup_map, Hx.
Qed.

(** X9.  [train_model] of "Neural Network Baseline" runs its ten folds
    and returns out-of-fold predictions and test predictions such that:
    the entry of training row [i] was stored once, in the fold whose
    validation rows contain [i], and is the class-1 probability that
    the model of that fold gives row [i]; this model is fitted, from a
    clone of the given estimator, on the training rows of the fold
    scaled by a pipeline that is itself fitted on those training rows
    only, and row [i] is scaled by the same pipeline; the test
    predictions are the running total, over the folds in the order of
    the loop, of the class-1 probabilities of the test rows divided by
    [NUM_FOLDS], each row scaled by the pipeline of the fold. *)
Theorem scaled_predictions_are_out_of_fold :
  Forall (fun f => f < NUM_FOLDS) test_folds →
  ∃ st,
    train_model train_X train_y test_X test_folds scaler_fit transform
      clone fit predict_proba roc_auc_score est
    = Some (scores st, test_preds st, oof_values (oof_preds st))
    ∧ out_of_fold NUM_FOLDS test_folds
        (oof_value train_X train_y scaler_fit transform clone fit
                   predict_proba est)
        (oof_preds st)
    ∧ accumulates (fold_share NUM_FOLDS) NUM_FOLDS test_folds
        (length test_X)
        (test_value train_X train_y test_X scaler_fit transform clone fit
                    predict_proba est)
        (test_preds st)
    ∧ length (scores st) = NUM_FOLDS.
Proof.
  intros Hrange.
  destruct nn_loop as (st & Hst & Hoof & Htp & Hsc).
  exists st. split_and!; [|  | |done].
  - unfold train_model. by rewrite Hst.
  - apply (oof_after_out_of_fold test_folds NUM_FOLDS (fun f => nn_vals f));
      [done|done|].
    intros f j i _ Hj. by apply nn_oof_link.
  - rewrite Htp. apply vsum_accumulates_shares.
    + intros f _. apply nn_tcol_length.
    + intros f t p _ Hp. by apply nn_test_link.
Qed.
End NeuralNetworkFacts.

Section NeuralNetworkExamples.
Import StratifiedExample.

#[local] Existing Instance Binary64.arithmetic.

Lemma scaled_predictions_are_out_of_fold_witness :
∃ st,
  NeuralNetwork.train_model train_X10 train_y10 test_X test_folds10
    (fun rows : list nat => length rows) (fun (s : nat) (x : nat) => x)
    HarnessExample.clone HarnessExample.fit predict_tenths
    HarnessExample.roc_auc_score tt
  = Some (NeuralNetwork.scores st, NeuralNetwork.test_preds st,
          oof_values (NeuralNetwork.oof_preds st))
  ∧ length (NeuralNetwork.scores st) = 10.
Proof.
destruct (scaled_predictions_are_out_of_fold train_X10 train_y10 test_X
            test_folds10
            (fun rows : list nat => length rows)
            (fun (s : nat) (x : nat) => x)
            HarnessExample.clone HarnessExample.fit
            predict_tenths HarnessExample.roc_auc_score
            eq_refl eq_refl (fun m x => tenths_column1 m x) tt)
  as (st & Hst & _ & _ & Hsc).
- apply (bool_decide_unpack _). by vm_compute.
- exists st. split; [exact Hst|exact Hsc].
Defined.

End NeuralNetworkExamples.

Section AspectValues.
Import ForestCover.

Lemma wrap64_small z :
  (- 2 ^ 63 ≤ z < 2 ^ 63)%Z → Pd.wrap64 z = z.
Proof. unfold Pd.wrap64. intros Hz. rewrite Z.mod_small; lia. Qed.

(** X10.  On a frame whose [Aspect] column holds integers,
    [aspect_features] returns a copy in which [Aspect_360] is the
    aspect reduced to 0..359 (also for negative aspects), and
    [Aspect_Alt] is the aspect turned by 180 degrees: it differs from
    [Aspect + 180] by a multiple of 360, and for an aspect in 0..359
    it lies in 1..360, so that the direction opposite to 180 is
    written 360 and not 0. *)
Theorem aspect_directions np_sin data (h : Store.heap Pd.Series) df0
    (aspect : list Z) :
  h !! data = Some df0 →
  Frame.get df0 "Aspect" = Some (Pd.Int64 aspect) →
  Forall (fun a => - 2 ^ 62 ≤ a ≤ 2 ^ 62)%Z aspect →
  ∃ df' v360 valt,
    aspect_features np_sin data h = Ok (length h, h ++ [df'])
    ∧ Frame.get df' "Aspect_360" = Some (Pd.Int64 v360)
    ∧ Frame.get df' "Aspect_Alt" = Some (Pd.Int64 valt)
    ∧ length v360 = length aspect ∧ length valt = length aspect
    ∧ ∀ r a, aspect !! r = Some a →
        ∃ m alt,
          v360 !! r = Some m ∧ valt !! r = Some alt
          ∧ (0 ≤ m < 360)%Z ∧ ((a - m) mod 360 = 0)%Z
          ∧ ((alt - (a + 180)) mod 360 = 0)%Z
          ∧ ((0 ≤ a < 360)%Z → (0 < alt ≤ 360)%Z)
          ∧ (a = 180%Z → alt = 360%Z ∧ m = 180%Z).
Proof.
  intros Hdata Ha Hrange. unfold aspect_features, lift.
  erewrite bind_eval by (by apply copy_eval).
  repeat store_step.
  eexists _, _, _. split; [reflexivity|].
  frame_simpl. split; [reflexivity|]. split; [reflexivity|].
  split; [by rewrite length_map|].
  split.
  { rewrite length_zip_with, length_zip, !length_map. lia. }
  intros r a Hr.
  rewrite Forall_forall in Hrange.
  pose proof (Hrange a (list_elem_of_lookup_2 _ _ _ Hr)) as Hb.
  exists (a mod 360)%Z,
    (if (360 <? Pd.wrap64 (a + 180))%Z then Pd.wrap64 (a - 180)
     else Pd.wrap64 (a + 180)).
  split; [by rewrite list_lookup_fmap, Hr|].
  split.
  { rewrite lookup_zip_with, list_lookup_fmap, list_lookup_fmap, Hr. simpl.
    rewrite lookup_zip_with, !list_lookup_fmap, Hr. done. }
  rewrite !wrap64_small by lia.
  split; [apply Z.mod_pos_bound; lia|].
  split.
  { rewrite Zminus_mod_idemp_r, Z.sub_diag. done. }
  split.
  { destruct (360 <? a + 180)%Z.
    - replace (a - 180 - (a + 180))%Z with (-1 * 360)%Z by lia.
      apply Z_mod_mult.
    - by rewrite Z.sub_diag. }
  split.
  { intros Ha360. destruct (360 <? a + 180)%Z eqn:E; lia. }
  intros ->. done.
Qed.
End AspectValues.

Section CountValues.
Import ForestCover ForestCounts.

Local Abbreviation colZ df c :=
  (match Frame.get df c with Some (Pd.Int64 v) => v | _ => [] end).

Lemma select_indicator (df : Frame.t Pd.Series) names :
  indicator_columns df names →
  Frame.select df names = Ok (map (fun c => Pd.Int64 (colZ df c)) names).
Proof.
  induction names as [|c names IH]; intros Hind; [done|].
  simpl. destruct (Hind c) as (v & Hv & _); [left|].
  rewrite Hv, IH; [done|].
  intros c' Hc'. apply Hind. by right.
Qed.

Lemma int_columns_map (df : Frame.t Pd.Series) names :
  Pd.int_columns (map (fun c => Pd.Int64 (colZ df c)) names)
  = Ok (map (fun c => colZ df c) names).
Proof. induction names as [|c names IH]; [done|]. simpl. by rewrite IH. Qed.

Lemma sum_of_indicators (df : Frame.t Pd.Series) names r (acc : Z) :
  indicator_columns df names →
  r < Frame.nrows df →
  (0 ≤ acc)%Z → (acc + Z.of_nat (length names) < 2 ^ 63)%Z →
  fold_left (fun a z => Pd.wrap64 (a + z))
            (Pd.row (map (fun c => colZ df c) names) r) acc
  = (acc + Z.of_nat (ones_in_row df names r))%Z.
Proof.
  revert acc. induction names as [|c names IH]; intros acc Hind Hr H0 Hb.
  { unfold ones_in_row. simpl. lia. }
  destruct (Hind c) as (v & Hv & Hlen & H01); [left|].
  assert (Hr' : r < length v) by lia.
  apply lookup_lt_is_Some_2 in Hr' as [z Hz].
  pose proof (proj1 (Forall_forall _ _) H01 z
                (list_elem_of_lookup_2 _ _ _ Hz)) as Hz01.
  assert (He : int_entry df r c = Some z).
  { unfold int_entry. by rewrite Hv. }
  unfold Pd.row, ones_in_row in *. simpl.
  rewrite He, Hv, Hz. simpl.
  simpl length in Hb.
  rewrite wrap64_small by lia.
  rewrite IH; [| by intros c' Hc'; apply Hind; right | done | lia | lia].
  destruct Hz01 as [-> | ->].
  - rewrite bool_decide_false by done. lia.
  - rewrite bool_decide_true by done. simpl length. lia.
Qed.

Lemma indicator_columns_set (df : Frame.t Pd.Series) names c s :
  c ∉ names →
  indicator_columns df names →
  indicator_columns (Frame.set df c s) names.
Proof.
  intros Hc Hind c' Hc'. destruct (Hind c' Hc') as (v & Hv & Hl & H01).
  exists v. rewrite get_set_ne by (intros ->; done). done.
Qed.

Lemma ones_in_row_set (df : Frame.t Pd.Series) names c s r :
  c ∉ names →
  ones_in_row (Frame.set df c s) names r = ones_in_row df names r.
Proof.
  intros Hc. unfold ones_in_row. f_equal.
  induction names as [|c' names IH]; [done|].
  apply not_elem_of_cons in Hc as [Hne Hc]. simpl.
  assert (He : int_entry (Frame.set df c s) r c' = int_entry df r c').
  { unfold int_entry. by rewrite get_set_ne by done. }
  by rewrite He, IH.
Qed.

Lemma prefix_filter_excludes (p c : string) (l : list string) :
  String.prefix p c = false → c ∉ List.filter (String.prefix p) l.
Proof.
  intros Hp Hc%list_elem_of_In%filter_In. destruct Hc as [_ Hc]. congruence.
Qed.

(** X11.  On a frame whose [Soil_Type...] and [Wilderness_Area...]
    columns are indicator columns (integer zeros and ones) and which
    has at least one column of each kind, [count_features] returns a
    copy in which [Soil_Count] holds, for every row, the number of
    soil-type columns set to 1 in that row, and [Wilderness_Count] the
    number of wilderness-area columns set to 1. *)
Theorem count_features_count_ones data (h : Store.heap Pd.Series) df0 :
  let soil := List.filter (String.prefix "Soil_Type") (Frame.columns df0) in
  let wild :=
    List.filter (String.prefix "Wilderness_Area") (Frame.columns df0) in
  h !! data = Some df0 →
  soil ≠ [] → wild ≠ [] →
  indicator_columns df0 (soil ++ wild) →
  (Z.of_nat (length (Frame.columns df0)) < 2 ^ 63)%Z →
  ∃ df' sc wc,
    count_features data h = Ok (length h, h ++ [df'])
    ∧ Frame.get df' "Soil_Count" = Some (Pd.Int64 sc)
    ∧ Frame.get df' "Wilderness_Count" = Some (Pd.Int64 wc)
    ∧ length sc = Frame.nrows df0 ∧ length wc = Frame.nrows df0
    ∧ ∀ r, r < Frame.nrows df0 →
        sc !! r = Some (Z.of_nat (ones_in_row df0 soil r))
        ∧ wc !! r = Some (Z.of_nat (ones_in_row df0 wild r)).
Proof.
  intros soil wild Hdata _ _ Hind Hlen.
  assert (Hsoil : indicator_columns df0 soil).
  { intros c Hc. apply Hind, elem_of_app. by left. }
  assert (Hwild : indicator_columns df0 wild).
  { intros c Hc. apply Hind, elem_of_app. by right. }
  assert (Hnotin : "Soil_Count"%string ∉ wild).
  { by apply prefix_filter_excludes. }
  unfold count_features, lift.
  erewrite bind_eval by (by apply copy_eval).
  store_step. store_step.
  erewrite bind_eval
    by (apply getitems_last, (select_indicator df0 soil Hsoil)).
  unfold Pd.sum_axis1 at 1. rewrite int_columns_map.
  store_step. store_step.
  erewrite bind_eval.
  2:{ apply getitems_last.
      apply (select_indicator _ wild).
      by apply indicator_columns_set. }
  unfold Pd.sum_axis1 at 1. rewrite int_columns_map.
  store_step. store_step.
  eexists _, _, _. split; [reflexivity|].
  frame_simpl. split; [reflexivity|]. split; [reflexivity|].
  split; [by rewrite length_map, length_seq|].
  split; [by rewrite length_map, length_seq|].
  intros r Hr.
  pose proof (List.filter_length_le (String.prefix "Soil_Type")
                (Frame.columns df0)) as Hls.
  pose proof (List.filter_length_le (String.prefix "Wilderness_Area")
                (Frame.columns df0)) as Hlw.
  rewrite !list_lookup_fmap, !lookup_seq_lt by done. simpl.
  split; f_equal.
  - rewrite (sum_of_indicators df0 soil r 0); [lia|done|done|lia|].
    fold soil in Hls. lia.
  - rewrite (sum_of_indicators _ wild r 0).
    + rewrite ones_in_row_set by done. lia.
    + by apply indicator_columns_set.
    + done.
    + lia.
    + fold wild in Hlw. lia.
Qed.
End CountValues.

Lemma aspect_directions_witness :
  ∃ df' v360 valt,
    ForestCover.aspect_features (fun x => x) 0 [ForestCover.example_frame]
    = Ok (1, [ForestCover.example_frame] ++ [df'])
    ∧ Frame.get df' "Aspect_360" = Some (Pd.Int64 v360)
    ∧ Frame.get df' "Aspect_Alt" = Some (Pd.Int64 valt)
    ∧ length v360 = 2 ∧ length valt = 2.
Proof.
  destruct (aspect_directions (fun x => x) 0 [ForestCover.example_frame]
              ForestCover.example_frame [90; 350]%Z)
    as (df' & v360 & valt & Hrun & H360 & Halt & Hl1 & Hl2 & _).
  - reflexivity.
  - reflexivity.
  - repeat constructor; lia.
  - by exists df', v360, valt.
Defined.

Lemma count_features_count_ones_witness :
  ∃ df' sc wc,
    ForestCover.count_features 0 [ForestCover.example_frame]
    = Ok (1, [ForestCover.example_frame] ++ [df'])
    ∧ Frame.get df' "Soil_Count" = Some (Pd.Int64 sc)
    ∧ Frame.get df' "Wilderness_Count" = Some (Pd.Int64 wc)
    ∧ sc !! 0 = Some 1%Z ∧ wc !! 1 = Some 1%Z.
Proof.
  destruct (count_features_count_ones 0 [ForestCover.example_frame]
              ForestCover.example_frame)
    as (df' & sc & wc & Hrun & Hsc & Hwc & _ & _ & Hrows).
  - reflexivity.
  - vm_compute. discriminate.
  - vm_compute. discriminate.
  - intros c Hc. apply list_elem_of_In in Hc. vm_compute in Hc.
    destruct Hc as [<-|[<-|[<-|[<-|[]]]]];
      eexists; (split; [reflexivity|]); (split; [reflexivity|]);
      repeat (constructor 2; [auto|]); constructor 1.
  - vm_compute. reflexivity.
  - exists df', sc, wc. split_and!; try done.
    + by destruct (Hrows 0) as [-> _]; [vm_compute; lia|].
    + by destruct (Hrows 1) as [_ ->]; [vm_compute; lia|].
Defined.

Section SelectionFacts.
Import LgbmFeatures LgbmSelection.
Implicit Types (h : Store.heap Series) (df : Frame.t Series).

Lemma mem_elem (c : string) (l : list string) : mem c l = true ↔ c ∈ l.
Proof.
  unfold mem. rewrite existsb_exists. split.
  - intros (x & Hx & ->%String.eqb_eq). by apply list_elem_of_In.
  - intros Hc. exists c. split; [by apply list_elem_of_In|].
    apply String.eqb_refl.
Qed.

Lemma mem_not_elem (c : string) (l : list string) :
  mem c l = false ↔ c ∉ l.
Proof.
  rewrite <- mem_elem. by destruct (mem c l).
Qed.

Lemma get_is_Some df c : c ∈ Frame.columns df → is_Some (Frame.get df c).
Proof.
  intros Hc. destruct (Frame.get df c) eqn:Hg; [done|].
  by apply get_None_columns in Hg.
Qed.

(** *** Selecting columns *)

Lemma select_is_Ok df names :
  (∀ c, c ∈ names → c ∈ Frame.columns df) →
  ∃ l, Frame.select df names = Ok l ∧ length l = length names.
Proof.
  induction names as [|c names IH]; intros Hin; [by exists []|].
  destruct (get_is_Some df c) as [s Hs]; [apply Hin; left|].
  destruct IH as (l & Hl & Hlen); [intros c' Hc'; apply Hin; by right|].
  exists (s :: l). simpl. rewrite Hs, Hl. by rewrite <- Hlen.
Qed.

Lemma select_assoc df names (l : list Series) c :
  Frame.select df names = Ok l → c ∈ names →
  Frame.assoc c (zip names l) = Frame.get df c.
Proof.
  revert l. induction names as [|c0 names IH]; intros l Hsel Hc.
  { by apply elem_of_nil in Hc. }
  simpl in Hsel. destruct (Frame.get df c0) as [s0|] eqn:Hg0; [|done].
  destruct (Frame.select df names) as [l'| |] eqn:Hl'; simplify_eq.
  simpl. destruct (String.eqb c c0) eqn:Heq.
  - apply String.eqb_eq in Heq as ->. done.
  - apply IH; [done|].
    apply elem_of_cons in Hc as [->|Hc]; [|done].
    by rewrite String.eqb_refl in Heq.
Qed.

Lemma getitem_list_eval h r df names :
  h !! r = Some df →
  (∀ c, c ∈ names → c ∈ Frame.columns df) →
  ∃ df',
    getitem_list r names h = Ok (length h, h ++ [df'])
    ∧ Frame.nrows df' = Frame.nrows df
    ∧ Frame.columns df' = names
    ∧ ∀ c, c ∈ names → Frame.get df' c = Frame.get df c.
Proof.
  intros Hr Hin. destruct (select_is_Ok df names Hin) as (l & Hl & Hlen).
  eexists. unfold getitem_list. rewrite Hr, Hl.
  split; [reflexivity|]. split; [done|]. split.
  - unfold Frame.columns. simpl. by rewrite fst_zip by lia.
  - intros c Hc. by apply select_assoc.
Qed.

Lemma good_columns_loop_filter pairs good :
  good_columns_loop pairs good
  = good ++ map snd (List.filter (fun p => Qle_bool 3 p.1) pairs).
Proof.
  revert good. induction pairs as [|[score col] pairs IH]; intros good.
  { simpl. by rewrite app_nil_r. }
  simpl. destruct (Qle_bool 3 score).
  - rewrite IH. simpl. by rewrite <- app_assoc.
  - apply IH.
Qed.

Lemma good_columns_subseteq importances columns c :
  c ∈ good_columns_of importances columns → c ∈ columns.
Proof.
  unfold good_columns_of. rewrite good_columns_loop_filter. simpl.
  intros ([s c'] & -> & Hin)%list_elem_of_fmap.
  apply list_elem_of_In, filter_In in Hin as [Hin _].
  apply list_elem_of_In, elem_of_zip_r in Hin. done.
Qed.

(** X12.  The frames [feature_selection_importance] returns are new
    objects, the three given frames stay as they are; each new frame
    has the rows of the frame it is taken from and exactly the columns
    of [good_columns], which are the feature columns whose importance
    is at least 3, in their order in the training frame.  With frames
    that hold every feature column the selection raises nothing. *)
Theorem feature_selection_builds_frames_of_good_columns
    (feature_importances_ : list Q) (features : list string)
    h X_train X_valid X_test dt dv de :
  let good_columns := good_columns_of feature_importances_ features in
  h !! X_train = Some dt → h !! X_valid = Some dv →
  h !! X_test = Some de →
  (∀ c, c ∈ features →
        c ∈ Frame.columns dt ∧ c ∈ Frame.columns dv
        ∧ c ∈ Frame.columns de) →
  ∃ nt nv ne,
    feature_selection_importance good_columns X_train X_valid X_test h
    = Ok ((length h, S (length h), S (S (length h))), h ++ [nt; nv; ne])
    ∧ Frame.columns nt = good_columns
    ∧ Frame.columns nv = good_columns
    ∧ Frame.columns ne = good_columns
    ∧ Frame.nrows nt = Frame.nrows dt
    ∧ Frame.nrows nv = Frame.nrows dv
    ∧ Frame.nrows ne = Frame.nrows de
    ∧ (∀ c, c ∈ good_columns →
            Frame.get nt c = Frame.get dt c
            ∧ Frame.get nv c = Frame.get dv c
            ∧ Frame.get ne c = Frame.get de c)
    ∧ good_columns
      = map snd (List.filter (fun p => Qle_bool 3 p.1)
                             (zip feature_importances_ features)).
Proof.
  intros good Ht Hv He Hin.
  assert (Hgood : ∀ c, c ∈ good → c ∈ features).
  { intros c. apply good_columns_subseteq. }
  destruct (getitem_list_eval h X_train dt good Ht)
    as (nt & Hrt & Hnt & Hct & Hgt).
  { intros c Hc. by apply Hin, Hgood. }
  destruct (getitem_list_eval (h ++ [nt]) X_valid dv good)
    as (nv & Hrv & Hnv & Hcv & Hgv).
  { by apply lookup_app_l_Some. }
  { intros c Hc. by apply Hin, Hgood. }
  destruct (getitem_list_eval ((h ++ [nt]) ++ [nv]) X_test de good)
    as (ne & Hre & Hne & Hce & Hge).
  { by do 2 apply lookup_app_l_Some. }
  { intros c Hc. by apply Hin, Hgood. }
  exists nt, nv, ne. split.
  { unfold feature_selection_importance.
    erewrite bind_eval by exact Hrt.
    erewrite bind_eval by exact Hrv.
    erewrite bind_eval by exact Hre.
    unfold Store.ret. rewrite !length_app. simpl.
    rewrite <- !app_assoc. simpl.
    repeat f_equal; lia. }
  split_and!; try done.
  - intros c Hc. by rewrite Hgt, Hgv, Hge.
  - unfold good, good_columns_of. by rewrite good_columns_loop_filter.
Qed.

(** *** Dropping columns *)

Section Remove.
Context {Y : Type}.
Variable mutual_info_classif :
  Frame.t Series → list Y → list bool → list Q.
Variable not_found_in_axis : list string → string.

Local Abbreviation drop' := (drop not_found_in_axis).

Lemma getitem_at h r df c s :
  h !! r = Some df → Frame.get df c = Some s →
  Store.getitem r c h = Ok (s, h).
Proof.
  intros Hr Hg. unfold Store.getitem, Store.bind, Store.read.
  by rewrite Hr, Hg.
Qed.

Lemma columns_at h r df :
  h !! r = Some df → Store.columns r h = Ok (Frame.columns df, h).
Proof.
  intros Hr. unfold Store.columns, Store.bind, Store.read. by rewrite Hr.
Qed.

Lemma read_at h r df : h !! r = Some df → Store.read r h = Ok (df, h).
Proof. intros Hr. unfold Store.read. by rewrite Hr. Qed.

Lemma dtype_flags_eval h r df columns :
  h !! r = Some df →
  (∀ c, c ∈ columns → c ∈ Frame.columns df) →
  dtype_flags r columns h
  = Ok (map (fun c => match Frame.get df c with
                      | Some s => name_starts_with_int (dtype_of s)
                      | None => false
                      end) columns, h).
Proof.
  intros Hr. induction columns as [|c columns IH]; intros Hin; [done|].
  destruct (get_is_Some df c) as [s Hs]; [apply Hin; left|].
  simpl. erewrite bind_eval by (by eapply getitem_at).
  erewrite bind_eval by (apply IH; intros c' Hc'; apply Hin; by right).
  by rewrite Hs.
Qed.

Lemma zero_scored_spec columns scores i :
  i + length columns ≤ length scores →
  zero_scored columns scores i
  = Ok (map fst (List.filter (fun p => Qeq_bool p.2 0)
                             (zip columns (skipn i scores)))).
Proof.
  revert i. induction columns as [|c columns IH]; intros i Hlen; [done|].
  simpl in Hlen |- *.
  destruct (lookup_lt_is_Some_2 scores i) as [s Hs]; [lia|].
  rewrite Hs, IH by lia.
  rewrite (drop_S _ _ _ Hs). simpl.
  by destruct (Qeq_bool s 0).
Qed.

Lemma drop_eval h r df labels :
  h !! r = Some df →
  (∀ c, c ∈ labels → c ∈ Frame.columns df) →
  drop' r labels h = Ok (tt, <[r := drop_columns df labels]> h).
Proof.
  intros Hr Hin. unfold drop. rewrite Hr.
  assert (Hnone : List.filter
                    (fun c => negb (mem c (Frame.columns df))) labels
                  = []).
  { induction labels as [|c labels IH]; [done|]. simpl.
    rewrite (proj2 (mem_elem c _)) by (apply Hin; left). simpl.
    apply IH. intros c' Hc'. apply Hin. by right. }
  by rewrite Hnone.
Qed.

Lemma drop_missing h r df labels c :
  h !! r = Some df → c ∈ labels → c ∉ Frame.columns df →
  drop' r labels h
  = Raise (KeyError
             (not_found_in_axis
                (List.filter
                   (fun c => negb (mem c (Frame.columns df))) labels))).
Proof.
  intros Hr Hc Hnot. unfold drop. rewrite Hr.
  destruct (List.filter _ labels) as [|m ms] eqn:Hf; [|done].
  exfalso.
  assert (Hin : In c (List.filter
                        (fun c => negb (mem c (Frame.columns df)))
                        labels)).
  { apply filter_In. split; [by apply list_elem_of_In|].
    by rewrite (proj2 (mem_not_elem c _)). }
  by rewrite Hf in Hin.
Qed.

Lemma columns_drop_columns df labels :
  Frame.columns (drop_columns df labels)
  = List.filter (fun c => negb (mem c labels)) (Frame.columns df).
Proof.
  unfold Frame.columns, drop_columns. simpl.
  induction (Frame.cols df) as [|[k s] l IH]; [done|]. simpl.
  destruct (mem k labels); simpl; by rewrite IH.
Qed.

Lemma get_drop_columns df labels c :
  Frame.get (drop_columns df labels) c
  = if mem c labels then None else Frame.get df c.
Proof.
  unfold Frame.get, drop_columns. simpl.
  induction (Frame.cols df) as [|[k s] l IH]; simpl.
  { by destruct (mem c labels). }
  destruct (mem k labels) eqn:Hk; simpl.
  - destruct (String.eqb c k) eqn:Heq; [|done].
    apply String.eqb_eq in Heq as ->. by rewrite IH, Hk.
  - destruct (String.eqb c k) eqn:Heq; [|done].
    apply String.eqb_eq in Heq as ->. by rewrite Hk.
Qed.

Lemma uninformative_subseteq df (y : list Y) c :
  c ∈ uninformative mutual_info_classif df y → c ∈ Frame.columns df.
Proof.
  unfold uninformative.
  intros ([c' s] & -> & Hin)%list_elem_of_fmap.
  apply list_elem_of_In, filter_In in Hin as [Hin _].
  apply list_elem_of_In, elem_of_zip_l in Hin. done.
Qed.

Lemma remove_uninformative_steps h X_train dt (y_train : list Y)
    (k : list string → StatsM (Store.ref * Store.ref * Store.ref)) :
  h !! X_train = Some dt →
  length (scores_of mutual_info_classif dt y_train)
  = length (Frame.columns dt) →
  (let! columns := Store.columns X_train in
   let! binary_features := dtype_flags X_train columns in
   let! df := Store.read X_train in
   let scores := mutual_info_classif df y_train binary_features in
   let! columns := Store.columns X_train in
   let! cols := Store.lift (zero_scored columns scores 0) in
   k cols) h
  = k (uninformative mutual_info_classif dt y_train) h.
Proof.
  intros Ht Hlen.
  erewrite bind_eval by (by apply columns_at).
  erewrite bind_eval by (by apply dtype_flags_eval).
  erewrite bind_eval by (by apply read_at).
  erewrite bind_eval by (by apply columns_at).
  erewrite bind_eval; [reflexivity|].
  apply lift_eval. fold (binary_flags dt).
  fold (scores_of mutual_info_classif dt y_train).
  rewrite zero_scored_spec by (rewrite Hlen; simpl; lia).
  done.
Qed.

(** X13.  [remove_uninformative] returns the three frames it was
    given, not copies: with one score a column and the zero-score
    columns of the training frame present in the other two frames,
    the call creates no frame and changes the three frames in
    place.  Afterwards each of them has lost exactly the columns of
    the training frame whose mutual-information score is zero; its
    other columns keep their order and their content. *)
Theorem remove_uninformative_drops_in_place h X_train X_valid X_test
    dt dv de (y_train : list Y) verbose :
  let cols := uninformative mutual_info_classif dt y_train in
  h !! X_train = Some dt → h !! X_valid = Some dv →
  h !! X_test = Some de →
  X_train ≠ X_valid → X_train ≠ X_test → X_valid ≠ X_test →
  length (scores_of mutual_info_classif dt y_train)
  = length (Frame.columns dt) →
  (∀ c, c ∈ cols → c ∈ Frame.columns dv ∧ c ∈ Frame.columns de) →
  remove_uninformative mutual_info_classif not_found_in_axis
    X_train X_valid X_test y_train verbose h
  = Ok ((X_train, X_valid, X_test),
        <[X_test := drop_columns de cols]>
          (<[X_valid := drop_columns dv cols]>
             (<[X_train := drop_columns dt cols]> h)))
  ∧ ∀ df, df ∈ [dt; dv; de] →
      Frame.nrows (drop_columns df cols) = Frame.nrows df
      ∧ Frame.columns (drop_columns df cols)
        = List.filter (fun c => negb (mem c cols)) (Frame.columns df)
      ∧ (∀ c, c ∈ cols → Frame.get (drop_columns df cols) c = None)
      ∧ (∀ c, c ∉ cols →
              Frame.get (drop_columns df cols) c = Frame.get df c).
Proof.
  intros cols Ht Hv He Htv Hte Hve Hlen Hin. split.
  - unfold remove_uninformative.
    rewrite (remove_uninformative_steps h X_train dt y_train) by done.
    fold cols.
    erewrite bind_eval.
    2:{ apply drop_eval; [exact Ht|].
        intros c Hc. by apply uninformative_subseteq in Hc. }
    erewrite bind_eval.
    2:{ apply drop_eval.
        - rewrite list_lookup_insert_ne by done. exact Hv.
        - intros c Hc. by apply Hin. }
    erewrite bind_eval.
    2:{ apply drop_eval.
        - rewrite !list_lookup_insert_ne by done. exact He.
        - intros c Hc. by apply Hin. }
    done.
  - intros df _. split; [done|]. split; [apply columns_drop_columns|].
    split; intros c Hc; rewrite get_drop_columns.
    + by rewrite (proj2 (mem_elem c cols)).
    + by rewrite (proj2 (mem_not_elem c cols)).
Qed.

(** X14.  When the validation frame lacks a column that has score
    zero in the training frame, [remove_uninformative] raises the
    KeyError of [X_valid.drop], which names the zero-score columns
    the validation frame does not have. *)
Theorem remove_uninformative_needs_the_columns h X_train X_valid X_test
    dt dv (y_train : list Y) verbose c :
  let cols := uninformative mutual_info_classif dt y_train in
  h !! X_train = Some dt → h !! X_valid = Some dv →
  X_train ≠ X_valid →
  length (scores_of mutual_info_classif dt y_train)
  = length (Frame.columns dt) →
  c ∈ cols → c ∉ Frame.columns dv →
  remove_uninformative mutual_info_classif not_found_in_axis
    X_train X_valid X_test y_train verbose h
  = Raise (KeyError
             (not_found_in_axis
                (List.filter
                   (fun c => negb (mem c (Frame.columns dv))) cols))).
Proof.
  intros cols Ht Hv Htv Hlen Hc Hnot.
  unfold remove_uninformative.
  rewrite (remove_uninformative_steps h X_train dt y_train) by done.
  fold cols.
  erewrite bind_eval.
  2:{ apply drop_eval; [exact Ht|].
      intros c' Hc'. by apply uninformative_subseteq in Hc'. }
  unfold Store.bind at 1.
  erewrite drop_missing; [done| |exact Hc|exact Hnot].
  rewrite list_lookup_insert_ne by done. exact Hv.
Qed.
End Remove.
End SelectionFacts.

Lemma feature_selection_builds_frames_of_good_columns_witness :
  ∃ nt nv ne,
    LgbmSelection.feature_selection_importance ["f0"; "f2"]%string 0 1 2
      [LgbmSelection.example_X; LgbmSelection.example_X;
       LgbmSelection.example_X]
    = Ok ((3, 4, 5),
          [LgbmSelection.example_X; LgbmSelection.example_X;
           LgbmSelection.example_X] ++ [nt; nv; ne])
    ∧ Frame.columns nt = ["f0"; "f2"]%string.
Proof.
  destruct (feature_selection_builds_frames_of_good_columns
              [5; 1; 3]%Q ["f0"; "f1"; "f2"]%string
              [LgbmSelection.example_X; LgbmSelection.example_X;
               LgbmSelection.example_X] 0 1 2
              LgbmSelection.example_X LgbmSelection.example_X
              LgbmSelection.example_X)
    as (nt & nv & ne & Hrun & Hct & _); [reflexivity..| |].
  - intros c Hc. apply list_elem_of_In in Hc. simpl in Hc.
    destruct Hc as [<-|[<-|[<-|[]]]];
      split_and!; apply list_elem_of_In; simpl; tauto.
  - by exists nt, nv, ne.
Defined.

Lemma remove_uninformative_drops_in_place_witness :
  LgbmSelection.remove_uninformative LgbmSelection.example_scores
    LgbmSelection.example_message 0 1 2 [0; 1; 0] false
    [LgbmSelection.example_X; LgbmSelection.example_X;
     LgbmSelection.example_X]
  = Ok ((0, 1, 2),
        [LgbmSelection.example_X_short; LgbmSelection.example_X_short;
         LgbmSelection.example_X_short]).
Proof.
  refine (proj1 (remove_uninformative_drops_in_place
                   LgbmSelection.example_scores LgbmSelection.example_message
                   [LgbmSelection.example_X; LgbmSelection.example_X;
                    LgbmSelection.example_X] 0 1 2
                   LgbmSelection.example_X LgbmSelection.example_X
                   LgbmSelection.example_X [0; 1; 0] false
                   eq_refl eq_refl eq_refl _ _ _ eq_refl _)); try lia.
  intros c Hc. apply list_elem_of_In in Hc. vm_compute in Hc.
  destruct Hc as [<-|[]].
  split; apply list_elem_of_In; vm_compute; tauto.
Defined.

Lemma remove_uninformative_needs_the_columns_witness :
  LgbmSelection.remove_uninformative LgbmSelection.example_scores
    LgbmSelection.example_message 0 1 2 [0; 1; 0] false
    [LgbmSelection.example_X; LgbmSelection.example_X_short;
     LgbmSelection.example_X]
  = Raise (KeyError "f2").
Proof.
  refine (remove_uninformative_needs_the_columns
            LgbmSelection.example_scores LgbmSelection.example_message
            [LgbmSelection.example_X; LgbmSelection.example_X_short;
             LgbmSelection.example_X] 0 1 2
            LgbmSelection.example_X LgbmSelection.example_X_short
            [0; 1; 0] false "f2" eq_refl eq_refl _ eq_refl _ _).
  - lia.
  - apply list_elem_of_In. vm_compute. tauto.
  - intros Hc. apply list_elem_of_In in Hc. vm_compute in Hc.
    intuition discriminate.
Defined.

Section ClusterDistanceFacts.
Import LgbmFeatures ClusterDistances.

Lemma position_is_Some c cols : c ∈ cols → is_Some (position c cols).
Proof.
  induction cols as [|k cols IH]; [by intros ?%elem_of_nil|].
  intros Hc. simpl. destruct (String.eqb c k) eqn:Heq; [done|].
  apply elem_of_cons in Hc as [->|Hc].
  - by rewrite String.eqb_refl in Heq.
  - destruct (IH Hc) as [p ->]. done.
Qed.

Lemma positions_is_Ok cols names :
  (∀ c, c ∈ names → c ∈ cols) → ∃ ps, positions cols names = Ok ps.
Proof.
  induction names as [|c names IH]; intros Hin; [by eexists|].
  destruct (position_is_Some c cols) as [p Hp]; [apply Hin; left|].
  destruct IH as [ps Hps]; [intros c' Hc'; apply Hin; by right|].
  exists (p :: ps). simpl. by rewrite Hp, Hps.
Qed.

Lemma getitem_list_is_Ok (X : frame) features :
  (∀ c, c ∈ features → c ∈ columns X) →
  ∃ m, getitem_list X features = Ok m ∧ length m = length (data X).
Proof.
  intros Hin. destruct (positions_is_Ok _ _ Hin) as [ps Hps].
  eexists. unfold getitem_list. rewrite Hps. simpl.
  split; [reflexivity|]. by rewrite length_map.
Qed.

Lemma loc_range (k : nat) (rs : list (list cell)) (i : nat) :
  loc (seq k (length rs)) rs (k + i) = rs !! i.
Proof.
  revert k i. induction rs as [|row rs IH]; intros k i; [done|].
  simpl. destruct i as [|i].
  - by rewrite Nat.add_0_r, Nat.eqb_refl.
  - destruct (Nat.eqb_spec k (k + S i)) as [Heq|_]; [lia|].
    replace (k + S i) with (S k + i) by lia. apply IH.
Qed.

Lemma centroid_columns_length name w :
  length (centroid_columns name w) = w.
Proof. unfold centroid_columns. by rewrite length_map, length_seq. Qed.

Lemma no_overlap (left : frame) (names : list string) :
  (∀ c, c ∈ names → c ∉ columns left) →
  existsb (fun c => LgbmSelection.mem c (columns left)) names = false.
Proof.
  intros Hno. apply not_true_is_false. intros Hex.
  apply existsb_exists in Hex as (c & Hc & Hmem).
  apply mem_elem in Hmem. apply (Hno c); [|done].
  by apply list_elem_of_In.
Qed.

Lemma join_DataFrame (left : frame) (a : ndarray) (names : list string) :
  (∀ c, c ∈ names → c ∉ columns left) →
  join left (DataFrame a names)
  = Ok (Frame (index left) (columns left ++ names)
              (zip_with
                 (fun i row =>
                    row ++ default (replicate (length names) None)
                                   (rows a !! i))
                 (index left) (data left))).
Proof.
  intros Hno. unfold join, DataFrame. cbn [index columns data].
  rewrite (no_overlap left names Hno).
  rewrite bool_decide_true by apply NoDup_seq.
  do 2 f_equal. apply zip_with_ext; [|done..].
  intros i row. pose proof (loc_range 0 (rows a) i) as Hloc.
  simpl in Hloc. by rewrite Hloc.
Qed.

Section Distances.
Context {Scaler KMeans : Type}.
Variable scaler_fit : list (list cell) → Scaler.
Variable scaler_transform : Scaler → list (list cell) → list (list cell).
Variable kmeans_fit : list (list cell) → KMeans.
Variable kmeans_transform : KMeans → list (list cell) → ndarray.

Local Abbreviation generate :=
  (generate_cluster_distances scaler_fit scaler_transform kmeans_fit
                              kmeans_transform).
Local Abbreviation distances :=
  (train_distances scaler_fit scaler_transform kmeans_fit
                   kmeans_transform).

(** The frames hold the features and none of the new column names. *)
Local Abbreviation fits X name features :=
  ((∀ c, c ∈ features → c ∈ columns X)
   ∧ (∀ i : nat,
         (name ++ "_Centroid_" ++ pretty i)%string ∉ columns X)).

Lemma centroid_columns_fresh (X : frame) name w :
  (∀ i : nat, (name ++ "_Centroid_" ++ pretty i)%string ∉ columns X) →
  ∀ c, c ∈ centroid_columns name w → c ∉ columns X.
Proof.
  intros Hfresh c (i & -> & _)%list_elem_of_fmap. apply Hfresh.
Qed.

Lemma generate_joins X_train X_valid X_test name features scale :
  fits X_train name features → fits X_valid name features →
  fits X_test name features →
  ∃ X_cd jt jv je,
    distances X_train features scale = Ok X_cd
    ∧ generate X_train X_valid X_test name features scale
      = Ok (jt, jv, je)
    ∧ jt = Frame (index X_train)
                 (columns X_train ++ centroid_columns name (shape1 X_cd))
                 (zip_with
                    (fun i row =>
                       row ++ default (replicate (shape1 X_cd) None)
                                      (rows X_cd !! i))
                    (index X_train) (data X_train)).
Proof.
  intros [Ht Hft] [Hv Hfv] [He Hfe].
  destruct (getitem_list_is_Ok X_train features Ht) as (mt & Hmt & _).
  destruct (getitem_list_is_Ok X_valid features Hv) as (mv & Hmv & _).
  destruct (getitem_list_is_Ok X_test features He) as (me & Hme & _).
  unfold generate_cluster_distances, train_distances.
  rewrite Hmt, Hmv, Hme. cbn [obind].
  destruct scale.
  - cbv zeta. cbn [obind].
    rewrite !join_DataFrame by (by apply centroid_columns_fresh).
    cbn [obind]. eexists _, _, _, _.
    split; [reflexivity|]. split; [reflexivity|].
    by rewrite centroid_columns_length.
  - cbv zeta. cbn [obind].
    rewrite !join_DataFrame by (by apply centroid_columns_fresh).
    cbn [obind]. eexists _, _, _, _.
    split; [reflexivity|]. split; [reflexivity|].
    by rewrite centroid_columns_length.
Qed.

(** X15.  [generate_cluster_distances] attaches the cluster distances
    by index label, not by position.  With frames that hold the
    features and none of the new column names, the call returns; the
    joined training frame keeps the labels and the columns of
    [X_train], followed by one column a centroid, and its row at
    position [p], whose label is [i], is the row of [X_train]
    followed by row [i] of the array of distances computed from the
    training rows: the distances of the training row at position
    [i], or missing values when the array has no row [i]. *)
Theorem cluster_distances_follow_the_labels
    X_train X_valid X_test name features scale :
  fits X_train name features → fits X_valid name features →
  fits X_test name features →
  length (data X_train) = length (index X_train) →
  ∃ X_cd jt jv je,
    distances X_train features scale = Ok X_cd
    ∧ generate X_train X_valid X_test name features scale
      = Ok (jt, jv, je)
    ∧ index jt = index X_train
    ∧ columns jt
      = columns X_train ++ centroid_columns name (shape1 X_cd)
    ∧ length (data jt) = length (data X_train)
    ∧ ∀ p i row,
        index X_train !! p = Some i → data X_train !! p = Some row →
        data jt !! p
        = Some (row ++ default (replicate (shape1 X_cd) None)
                               (rows X_cd !! i)).
Proof.
  intros Ht Hv He Hlen.
  destruct (generate_joins X_train X_valid X_test name features scale
              Ht Hv He) as (X_cd & jt & jv & je & Hd & Hg & ->).
  eexists X_cd, _, jv, je. split; [done|]. split; [exact Hg|].
  cbn [index columns data]. split; [done|]. split; [done|].
  split; [by rewrite length_zip_with, <- Hlen, Nat.min_id|].
  intros p i row Hi Hrow. rewrite lookup_zip_with, Hi. simpl.
  unfold cell in *. by rewrite Hrow.
Qed.

Lemma train_distances_rows (X : frame) features scale X_cd :
  (∀ km m, length (rows (kmeans_transform km m)) = length m) →
  (∀ s m, length (scaler_transform s m) = length m) →
  distances X features scale = Ok X_cd →
  length (rows X_cd) = length (data X).
Proof.
  intros Hkm Hsc. unfold train_distances, getitem_list.
  destruct (positions (columns X) features) as [ps| |]; [|done..].
  cbn [obind]. intros [= <-]. rewrite Hkm.
  destruct scale; [rewrite Hsc|]; by rewrite length_map.
Qed.

Lemma label_past_the_rows (l : list nat) (v t : nat) :
  NoDup l → v ∉ l → t ∈ l → v < t →
  ∃ p i, l !! p = Some i ∧ length l ≤ i.
Proof.
  intros Hnd Hv Ht Hvt.
  destruct (decide (Forall (fun i => i < length l) l)) as [Hall|Hex].
  - exfalso. apply Hv.
    assert (Hperm : l ⊆+ seq 0 (length l)).
    { apply NoDup_submseteq; [done|].
      intros i Hi. apply elem_of_seq.
      rewrite Forall_forall in Hall. specialize (Hall i Hi). lia. }
    apply submseteq_length_Permutation in Hperm;
      [|by rewrite length_seq].
    rewrite Hperm. apply elem_of_seq.
    rewrite Forall_forall in Hall. specialize (Hall t Ht). lia.
  - apply not_Forall_Exists in Hex; [|intros i; apply _].
    apply Exists_exists in Hex as (i & Hi & Hge).
    apply list_elem_of_lookup in Hi as [p Hp].
    exists p, i. split; [done|]. simpl in Hge. lia.
Qed.

(** X16.  In the cross-validation harness the training rows of a
    fold are [train.iloc[train_idx]] and keep their labels in
    [train], which are 0, 1, ... after [reset_index].  As soon as a
    validation row of the fold precedes one of its training rows,
    some training row gets no cluster distances from
    [generate_cluster_distances]: its label is not a row number of
    the array of distances, and the centroid columns of that row
    hold missing values. *)
Theorem fold_training_rows_lose_their_distances
    (train X_train X_valid X_test : frame) (test_folds : list nat)
    (f v t g : nat) name features scale :
  (∀ km m, length (rows (kmeans_transform km m)) = length m) →
  (∀ s m, length (scaler_transform s m) = length m) →
  index train = seq 0 (length test_folds) →
  length (data train) = length test_folds →
  iloc train (train_idx_of test_folds f) = Some X_train →
  fits X_train name features → fits X_valid name features →
  fits X_test name features →
  test_folds !! v = Some f → test_folds !! t = Some g → g ≠ f →
  v < t →
  ∃ X_cd jt jv je p row,
    distances X_train features scale = Ok X_cd
    ∧ generate X_train X_valid X_test name features scale
      = Ok (jt, jv, je)
    ∧ data X_train !! p = Some row
    ∧ data jt !! p = Some (row ++ replicate (shape1 X_cd) None).
Proof.
  intros Hkm Hsc Hidx Hdata Hiloc Ht Hv He Hfv Hft Hgf Hvt.
  unfold iloc in Hiloc.
  destruct (Np.iloc (index train) (train_idx_of test_folds f))
    as [labels|] eqn:Hlabels; [|done].
  destruct (Np.iloc (data train) (train_idx_of test_folds f))
    as [rs|] eqn:Hrs; [|done].
  simpl in Hiloc. injection Hiloc as <-.
  assert (Hl : labels = train_idx_of test_folds f).
  { apply list_eq. intros j.
    destruct (train_idx_of test_folds f !! j) as [i|] eqn:Hj.
    - rewrite (iloc_lookup _ _ _ _ _ Hlabels Hj), Hidx.
      apply lookup_seq_lt.
      pose proof (train_idx_of_lt test_folds f) as Hlt.
      rewrite Forall_forall in Hlt.
      apply Hlt. by eapply list_elem_of_lookup_2.
    - apply lookup_ge_None. apply lookup_ge_None in Hj.
      by rewrite (iloc_length _ _ _ Hlabels). }
  subst labels.
  destruct (cluster_distances_follow_the_labels
              (Frame (train_idx_of test_folds f) (columns train) rs)
              X_valid X_test name features scale Ht Hv He)
    as (X_cd & jt & jv & je & Hd & Hg & _ & _ & _ & Hrows).
  { cbn [data index]. by apply iloc_length in Hrs. }
  cbn [index data] in Hrows.
  destruct (label_past_the_rows (train_idx_of test_folds f) v t)
    as (p & i & Hp & Hge).
  - apply NoDup_flatnonzero.
  - intros (g' & Hg' & Hne)%train_idx_of_elem. congruence.
  - apply train_idx_of_elem. by exists g.
  - done.
  - assert (Hp' : p < length rs).
    { rewrite (iloc_length _ _ _ Hrs). by apply lookup_lt_Some in Hp. }
    apply lookup_lt_is_Some_2 in Hp' as [row Hrow].
    exists X_cd, jt, jv, je, p, row.
    split; [done|]. split; [done|]. split; [done|].
    assert (Hnone : rows X_cd !! i = None).
    { apply lookup_ge_None.
      rewrite (train_distances_rows _ _ _ _ Hkm Hsc Hd). cbn [data].
      by rewrite (iloc_length _ _ _ Hrs). }
    rewrite (Hrows p i row Hp Hrow).
    unfold cell in *. by rewrite Hnone.
Qed.
End Distances.
End ClusterDistanceFacts.

Lemma example_frames_fit (X : ClusterDistances.frame) :
  ClusterDistances.columns X = ["f0"; "f1"]%string →
  (∀ c, c ∈ ["f0"%string] → c ∈ ClusterDistances.columns X)
  ∧ (∀ i : nat,
        ("Top15" ++ "_Centroid_" ++ pretty i)%string
        ∉ ClusterDistances.columns X).
Proof.
  intros ->. split.
  - intros c ->%list_elem_of_singleton. left.
  - intros i Hc. apply list_elem_of_In in Hc. simpl in Hc.
    destruct Hc as [H|[H|[]]]; discriminate H.
Qed.

Lemma cluster_distances_follow_the_labels_witness :
  ∃ X_cd jt jv je,
    ClusterDistances.generate_cluster_distances
      (fun _ => tt) (fun _ m => m) (fun _ => tt)
      ClusterDistances.example_distances
      (ClusterDistances.Frame [1; 2] ["f0"; "f1"]%string
         [[Some 2; Some 20]; [Some 3; Some 30]]%Q)
      ClusterDistances.example_train ClusterDistances.example_train
      "Top15" ["f0"%string] true
    = Ok (jt, jv, je)
    ∧ ClusterDistances.data jt !! 0
      = Some ([Some 2; Some 20]%Q
                ++ default (replicate (ClusterDistances.shape1 X_cd) None)
                           (ClusterDistances.rows X_cd !! 1)).
Proof.
  destruct (cluster_distances_follow_the_labels
              (fun _ => tt) (fun _ m => m) (fun _ => tt)
              ClusterDistances.example_distances
              (ClusterDistances.Frame [1; 2] ["f0"; "f1"]%string
                 [[Some 2; Some 20]; [Some 3; Some 30]]%Q)
              ClusterDistances.example_train ClusterDistances.example_train
              "Top15" ["f0"%string] true)
    as (X_cd & jt & jv & je & _ & Hg & _ & _ & _ & Hrows);
    [by apply example_frames_fit..|reflexivity|].
  exists X_cd, jt, jv, je. split; [exact Hg|].
  by apply (Hrows 0 1).
Defined.

Lemma fold_training_rows_lose_their_distances_witness :
  ∃ X_cd jt jv je p row,
    ClusterDistances.generate_cluster_distances
      (fun _ => tt) (fun _ m => m) (fun _ => tt)
      ClusterDistances.example_distances
      (ClusterDistances.Frame [1; 2] ["f0"; "f1"]%string
         [[Some 2; Some 20]; [Some 3; Some 30]]%Q)
      ClusterDistances.example_train ClusterDistances.example_train
      "Top15" ["f0"%string] false
    = Ok (jt, jv, je)
    ∧ ClusterDistances.data jt !! p
      = Some (row ++ replicate (ClusterDistances.shape1 X_cd) None).
Proof.
  destruct (fold_training_rows_lose_their_distances
              (fun _ => tt) (fun _ m => m) (fun _ => tt)
              ClusterDistances.example_distances
              ClusterDistances.example_train
              (ClusterDistances.Frame [1; 2] ["f0"; "f1"]%string
                 [[Some 2; Some 20]; [Some 3; Some 30]]%Q)
              ClusterDistances.example_train ClusterDistances.example_train
              [0; 1; 1] 0 0 1 1 "Top15" ["f0"%string] false)
    as (X_cd & jt & jv & je & p & row & _ & Hg & _ & Hrow).
  - intros km m. unfold ClusterDistances.example_distances. simpl.
    by rewrite length_map.
  - done.
  - reflexivity.
  - reflexivity.
  - reflexivity.
  - by apply example_frames_fit.
  - by apply example_frames_fit.
  - by apply example_frames_fit.
  - reflexivity.
  - reflexivity.
  - lia.
  - lia.
  - by exists X_cd, jt, jv, je, p, row.
Defined.

Section BaselineFacts.
Import LgbmFeatures Baselines.

Lemma cat_features_agree (train : Frame.t Series) (names : list string) :
  (∀ x, x ∈ names → x ∈ Frame.columns train) →
  ∃ mask,
    hist_cat_features_of train names = Ok mask
    ∧ length mask = length names
    ∧ lgbm_cat_features_of train names
      = Ok (map fst (List.filter snd (zip names mask)))
    ∧ ∀ i x, names !! i = Some x →
        ∃ s, Frame.get train x = Some s
             ∧ mask !! i = Some (name_starts_with_int (dtype_of s)).
Proof.
  induction names as [|x names IH]; intros Hin.
  { exists []. split_and!; try done. }
  destruct (get_is_Some train x) as [s Hs]; [apply Hin; left|].
  destruct IH as (mask & Hm & Hlen & Hl & Hflags).
  { intros x' Hx'. apply Hin. by right. }
  exists (name_starts_with_int (dtype_of s) :: mask). simpl.
  rewrite Hs, Hm, Hl. split; [done|]. split; [by rewrite Hlen|]. split.
  - by destruct (name_starts_with_int (dtype_of s)).
  - intros [|i] x' Hx'; simpl in *.
    + injection Hx' as <-. by exists s.
    + by apply Hflags.
Qed.

(** X17.  The two lists of categorical features of the baseline
    notebook describe the same columns.  Both are computed without an
    error; [hist_cat_features] holds one flag a feature, set when the
    dtype name of the column starts with [int], and
    [lgbm_cat_features] names exactly the features whose flag is set,
    in the order of [features]; neither [id] nor [target] is a
    feature. *)
Theorem categorical_feature_lists_agree (train : Frame.t Series) :
  ∃ mask,
    hist_cat_features train = Ok mask
    ∧ length mask = length (features train)
    ∧ lgbm_cat_features train
      = Ok (map fst (List.filter snd (zip (features train) mask)))
    ∧ (∀ i x, features train !! i = Some x →
         ∃ s, Frame.get train x = Some s
              ∧ mask !! i = Some (name_starts_with_int (dtype_of s)))
    ∧ ("id"%string ∉ features train)
    ∧ ("target"%string ∉ features train).
Proof.
  destruct (cat_features_agree train (features train))
    as (mask & Hm & Hlen & Hl & Hflags).
  { intros x Hx%list_elem_of_In%filter_In. apply list_elem_of_In, Hx. }
  exists mask. split_and!; try done.
  - intros Hx%list_elem_of_In%filter_In. by destruct Hx as [_ Hx].
  - intros Hx%list_elem_of_In%filter_In. by destruct Hx as [_ Hx].
Qed.

Section BaselineHarness.
Context {X Y Model : Type}.
Variable train_X : list X.
Variable train_y : list Y.
Variable test_folds : list nat.
Variable predict_proba : Model → X → list Q.
Variable roc_auc_score : list Y → list Q → Q.

Hypothesis train_X_rows : length train_X = length test_folds.
Hypothesis train_y_rows : length train_y = length test_folds.
Hypothesis two_columns : ∀ m x, is_Some (predict_proba m x !! 1).

Variable fit : list X → list Y → list X * list Y → Model.

Local Abbreviation auc :=
  (fold_auc train_X train_y test_folds predict_proba roc_auc_score fit).
Local Abbreviation body :=
  (fold_body train_X train_y predict_proba roc_auc_score fit).

Lemma insert_next_score (g : nat → Q) (n k : nat) :
  k < n →
  <[k := g k]> (map g (seq 0 k) ++ replicate (n - k) 0%Q)
  = map g (seq 0 (S k)) ++ replicate (n - S k) 0%Q.
Proof.
  intros Hk. replace (n - k) with (S (n - S k)) by lia.
  rewrite seq_S, map_app.
  rewrite insert_app_r_alt by (rewrite length_map, length_seq; lia).
  rewrite length_map, length_seq, Nat.sub_diag. simpl.
  by rewrite <- app_assoc.
Qed.

Lemma baseline_step k scores :
  k < NUM_FOLDS →
  scores = map auc (seq 0 k) ++ replicate (NUM_FOLDS - k) 0%Q →
  ∃ scores',
    body scores
         (k, (train_idx_of test_folds k, valid_idx_of test_folds k))
    = Some scores'
    ∧ scores' = map auc (seq 0 (S k))
                ++ replicate (NUM_FOLDS - S k) 0%Q.
Proof.
  intros Hk ->. unfold fold_body.
  destruct (iloc_train_is_Some test_folds train_X k train_X_rows)
    as [Xtr HXtr].
  destruct (iloc_train_is_Some test_folds train_y k train_y_rows)
    as [ytr Hytr].
  destruct (iloc_valid_is_Some test_folds train_X k train_X_rows)
    as [Xva HXva].
  destruct (iloc_valid_is_Some test_folds train_y k train_y_rows)
    as [yva Hyva].
  rewrite HXtr, Hytr, HXva, Hyva. simpl.
  destruct (column1_spec (predict_proba (fit Xtr ytr (Xva, yva))) Xva)
    as (vp & Hvp & _ & _); [intros; apply two_columns|].
  rewrite Hvp. simpl.
  assert (Hauc : auc k = roc_auc_score yva vp).
  { unfold fold_auc.
    by rewrite (rows_iloc _ _ _ HXtr), (rows_iloc _ _ _ Hytr),
               (rows_iloc _ _ _ HXva), (rows_iloc _ _ _ Hyva), Hvp. }
  rewrite set_item_Some.
  2:{ rewrite length_app, length_map, length_seq, length_replicate. lia. }
  eexists. split; [reflexivity|].
  rewrite <- Hauc. by apply insert_next_score.
Qed.

Lemma baseline_loop :
  for_each body (folds test_folds) (Np.zeros NUM_FOLDS)
  = Some (map auc (seq 0 NUM_FOLDS)).
Proof.
  unfold folds.
  destruct (for_each_enumerate_ind body
              (fun k scores =>
                 k ≤ NUM_FOLDS
                 ∧ scores = map auc (seq 0 k)
                            ++ replicate (NUM_FOLDS - k) 0%Q)
              (KFold.split NUM_FOLDS test_folds)
              (Np.zeros NUM_FOLDS))
    as (scores & Hs & _ & Hinv).
  - split; [lia|]. done.
  - intros k [tr va] scores Hk [_ Hinv].
    apply split_lookup_inv in Hk as (Hlt & -> & ->).
    destruct (baseline_step k scores Hlt Hinv) as (scores' & Hb & Hinv').
    exists scores'. split; [done|]. split; [lia|done].
  - rewrite Hs. f_equal. rewrite split_length in Hinv.
    rewrite Hinv, Nat.sub_diag. cbn [replicate]. by rewrite app_nil_r.
Qed.
End BaselineHarness.

(** X18.  [score_lightgbm] and [score_histgbm] of the baseline notebook
    return the mean of three fold scores: every slot of [scores] is
    written by its own fold, with the AUC that the model fitted on the
    training rows of the fold reaches on the validation rows of the
    fold.  LightGBM is also given these validation rows, as the
    evaluation set of its early stopping; the histogram model is
    fitted from the training rows alone. *)
Theorem baseline_scores_are_fold_means {X Y Model : Type}
    `{arith : !FloatArith} (train_X : list X) (train_y : list Y) (test_folds : list nat)
    (lgbm_fit :
       Z → list X → list Y → list X * list Y → Z → list string → Model)
    (hist_fit : Z → Z → list bool → list X → list Y → Model)
    (predict_proba : Model → X → list Q)
    (roc_auc_score : list Y → list Q → Q)
    (lgbm_cat : list string) (hist_cat : list bool) (elapsed : Q) :
  length train_X = length test_folds →
  length train_y = length test_folds →
  (∀ m x, is_Some (predict_proba m x !! 1)) →
  score_lightgbm train_X train_y test_folds lgbm_fit predict_proba
                 roc_auc_score lgbm_cat elapsed
  = Some (Np.mean
            (map (fold_auc train_X train_y test_folds predict_proba
                           roc_auc_score
                           (fun X_train y_train eval_set =>
                              lgbm_fit 10000%Z X_train y_train eval_set
                                       150%Z lgbm_cat))
                 [0; 1; 2]),
          elapsed)
  ∧ score_histgbm train_X train_y test_folds hist_fit predict_proba
                  roc_auc_score hist_cat elapsed
    = Some (Np.mean
              (map (fold_auc train_X train_y test_folds predict_proba
                             roc_auc_score
                             (fun X_train y_train _ =>
                                hist_fit 10000%Z 150%Z hist_cat
                                         X_train y_train))
                   [0; 1; 2]),
            elapsed).
Proof.
  intros HX Hy H2. unfold score_lightgbm, score_histgbm.
  rewrite !baseline_loop by done. done.
Qed.
End BaselineFacts.

Section BaselineExamples.

#[local] Existing Instance exact_arithmetic.

Lemma baseline_scores_are_fold_means_witness :
Baselines.score_lightgbm HarnessExample.train_X HarnessExample.train_y
  [0; 1; 2; 0; 1; 2]
  (fun _ Xs _ _ _ _ => Xs) HarnessExample.predict_proba
  HarnessExample.roc_auc_score [] 0%Q
= Some (Np.mean
          (map (Baselines.fold_auc HarnessExample.train_X
                  HarnessExample.train_y [0; 1; 2; 0; 1; 2]
                  HarnessExample.predict_proba HarnessExample.roc_auc_score
                  (fun X_train _ _ => X_train))
               [0; 1; 2]),
        0%Q).
Proof.
refine (proj1 (baseline_scores_are_fold_means
                 HarnessExample.train_X HarnessExample.train_y
                 [0; 1; 2; 0; 1; 2]
                 (fun _ Xs _ _ _ _ => Xs) (fun _ _ _ Xs _ => Xs)
                 HarnessExample.predict_proba HarnessExample.roc_auc_score
                 [] [] 0%Q eq_refl eq_refl
                 (fun m x => example_proba_column1 m x))).
Defined.

End BaselineExamples.

Section FourResolutionsFacts.
Import FourResolutions.

Lemma mask_rows_rows {A} (X_ : list A) (mask : list bool) :
  length mask = length X_ →
  Stacking.mask_rows X_ mask = Some (rows X_ (Np.flatnonzero mask))
  ∧ length (rows X_ (Np.flatnonzero mask))
    = length (Np.flatnonzero mask).
Proof.
  intros Hlen. unfold Stacking.mask_rows. rewrite decide_True by done.
  destruct (iloc_is_Some X_ (Np.flatnonzero mask)) as [l Hl].
  { apply Forall_forall. intros i Hi%flatnonzero_lt. lia. }
  rewrite (rows_iloc _ _ _ Hl). split; [done|]. by eapply iloc_length.
Qed.

Lemma setitem_mask_spec (temp : ndarray) (mask : list bool) (vals : ndarray) :
  length mask = length (values temp) →
  shape1 vals = shape1 temp →
  length (values vals) = length (Np.flatnonzero mask) →
  ∃ temp',
    setitem_mask temp mask vals = Some temp'
    ∧ shape1 temp' = shape1 temp
    ∧ length (values temp') = length (values temp)
    ∧ (∀ i, mask !! i ≠ Some true → values temp' !! i = values temp !! i)
    ∧ (∀ j i, Np.flatnonzero mask !! j = Some i →
              values temp' !! i = values vals !! j).
Proof.
  intros Hmask Hshape Hrows. unfold setitem_mask, broadcast_to.
  rewrite decide_True by done. rewrite decide_True by done. simpl.
  rewrite decide_True by done. simpl.
  destruct (put_spec (values temp) (Np.flatnonzero mask) (values vals))
    as (rows' & Hput & Hlen & Hout & Hin).
  { apply Forall_forall. intros i Hi%flatnonzero_lt. lia. }
  { done. }
  { apply NoDup_flatnonzero. }
  rewrite Hput. simpl. eexists. split; [reflexivity|]. simpl.
  split; [done|]. split; [done|]. split; [|done].
  intros i Hi. apply Hout. by rewrite elem_of_flatnonzero.
Qed.

Lemma gcd_mask_lookup (gcd : list Z) (c : Z) (i : nat) :
  map (fun z => Z.eqb z c) gcd !! i = Some true ↔ gcd !! i = Some c.
Proof.
  rewrite list_lookup_fmap. destruct (gcd !! i) as [z|]; simpl; [|done].
  split.
  - intros [= ->%Z.eqb_eq]. done.
  - intros [= ->]. by rewrite Z.eqb_refl.
Qed.

Section Routing.
Context {X Y W Estimator Model : Type} `{EqDecision Y}.
Variable base_predict_proba : Model → list X → option ndarray.
Variable get_histograms : list X → option (Frame.t (list Z)).

Variable self : @fitted Model.
Variable X_ : list X.
Variable hist : Frame.t (list Z).
Variable gcd : list Z.

Hypothesis histograms : get_histograms X_ = Some hist.
Hypothesis gcd_of_rows :
  ClassProbabilities.gcd_of_all (Frame.columns hist) hist = Ok gcd.
Hypothesis gcd_length : length gcd = length X_.

(** What a model returns for the rows of its resolution. *)
Local Abbreviation predicts c model p :=
  (base_predict_proba model (rows_of_gcd X_ gcd c) = Some p
   ∧ shape1 p = num_labels self
   ∧ length (values p) = length (rows_of_gcd X_ gcd c)).

Lemma route_block (temp : ndarray) (c : Z) (model : Model) (p : ndarray) :
  length (values temp) = length X_ →
  shape1 temp = num_labels self →
  predicts c model p →
  ∃ temp',
    Stacking.mask_rows X_ (map (fun z => Z.eqb z c) gcd)
    = Some (rows_of_gcd X_ gcd c)
    ∧ setitem_mask temp (map (fun z => Z.eqb z c) gcd) p = Some temp'
    ∧ shape1 temp' = num_labels self
    ∧ length (values temp') = length X_
    ∧ (∀ i, gcd !! i ≠ Some c → values temp' !! i = values temp !! i)
    ∧ (∀ j i, positions_of_gcd gcd c !! j = Some i →
              values temp' !! i = values p !! j).
Proof.
  intros Hlen Hshape (Hp & Hw & Hrows).
  destruct (mask_rows_rows X_ (map (fun z => Z.eqb z c) gcd))
    as [Hmr Hmlen]; [by rewrite length_map|].
  destruct (setitem_mask_spec temp (map (fun z => Z.eqb z c) gcd) p)
    as (temp' & Hset & Hs' & Hl' & Hout & Hin).
  { by rewrite length_map, Hlen. }
  { congruence. }
  { rewrite Hrows. exact Hmlen. }
  exists temp'. split; [exact Hmr|]. split; [exact Hset|].
  split; [congruence|]. split; [congruence|]. split; [|exact Hin].
  intros i Hi. apply Hout. by rewrite gcd_mask_lookup.
Qed.

(** X19.  [FourResolutions.predict_proba] hands every row to the
    model of its resolution and to no other.  When each of the four
    models returns one row of [num_labels] probabilities for each
    row of its resolution, the result has one row for each row of
    [X]; the row of a sample whose greatest common divisor is 1, 10,
    1000 or 10000 is the row the model of that resolution returned
    for it, and the row of a sample with any other greatest common
    divisor is left at zero for every class. *)
Theorem rows_are_routed_by_gcd (p1 p2 p3 p4 : ndarray) :
  predicts 1%Z (model1 self) p1 →
  predicts 10%Z (model2 self) p2 →
  predicts 1000%Z (model3 self) p3 →
  predicts 10000%Z (model4 self) p4 →
  ∃ out,
    predict_proba base_predict_proba get_histograms self X_ = Some out
    ∧ shape1 out = num_labels self
    ∧ length (values out) = length X_
    ∧ (∀ r c, gcd !! r = Some c →
         c ∉ [1; 10; 1000; 10000]%Z →
         values out !! r = Some (replicate (num_labels self) 0%Q))
    ∧ (∀ c p j r,
         (c, p) ∈ [(1, p1); (10, p2); (1000, p3); (10000, p4)]%Z →
         positions_of_gcd gcd c !! j = Some r →
         values out !! r = values p !! j).
Proof.
  intros H1 H2 H3 H4.
  destruct (route_block (zeros (length X_) (num_labels self)) 1
                        (model1 self) p1)
    as (t1 & Hm1 & Hs1 & Hw1 & Hl1 & Ho1 & Hi1); [|done|done|].
  { simpl. by rewrite length_replicate. }
  destruct (route_block t1 10 (model2 self) p2 Hl1 Hw1 H2)
    as (t2 & Hm2 & Hs2 & Hw2 & Hl2 & Ho2 & Hi2).
  destruct (route_block t2 1000 (model3 self) p3 Hl2 Hw2 H3)
    as (t3 & Hm3 & Hs3 & Hw3 & Hl3 & Ho3 & Hi3).
  destruct (route_block t3 10000 (model4 self) p4 Hl3 Hw3 H4)
    as (t4 & Hm4 & Hs4 & Hw4 & Hl4 & Ho4 & Hi4).
  exists t4. split.
  { unfold predict_proba, gcd_of_all.
    rewrite histograms. simpl. rewrite gcd_of_rows. simpl.
    rewrite Hm1. simpl. rewrite (proj1 H1). simpl. rewrite Hs1. simpl.
    rewrite Hm2. simpl. rewrite (proj1 H2). simpl. rewrite Hs2. simpl.
    rewrite Hm3. simpl. rewrite (proj1 H3). simpl. rewrite Hs3. simpl.
    rewrite Hm4. simpl. rewrite (proj1 H4). simpl. rewrite Hs4. done. }
  split; [done|]. split; [done|]. split.
  - intros r c Hr Hc.
    rewrite Ho4, Ho3, Ho2, Ho1.
    + simpl. apply lookup_replicate_2.
      rewrite <- gcd_length. by apply lookup_lt_Some in Hr.
    + intros Hr'. apply Hc. rewrite Hr in Hr'. injection Hr' as ->.
      apply list_elem_of_In. simpl. tauto.
    + intros Hr'. apply Hc. rewrite Hr in Hr'. injection Hr' as ->.
      apply list_elem_of_In. simpl. tauto.
    + intros Hr'. apply Hc. rewrite Hr in Hr'. injection Hr' as ->.
      apply list_elem_of_In. simpl. tauto.
    + intros Hr'. apply Hc. rewrite Hr in Hr'. injection Hr' as ->.
      apply list_elem_of_In. simpl. tauto.
  - intros c p j r Hcp Hj.
    assert (Hr : gcd !! r = Some c).
    { apply gcd_mask_lookup, elem_of_flatnonzero.
      by eapply list_elem_of_lookup_2. }
    assert (Hne : ∀ c', c' ≠ c → gcd !! r ≠ Some c').
    { intros c' Hc'. rewrite Hr. congruence. }
    apply list_elem_of_In in Hcp. simpl in Hcp.
    destruct Hcp as [Hcp|[Hcp|[Hcp|[Hcp|[]]]]];
      injection Hcp as <- <-.
    + rewrite Ho4, Ho3, Ho2 by (apply Hne; lia). by apply Hi1.
    + rewrite Ho4, Ho3 by (apply Hne; lia). by apply Hi2.
    + rewrite Ho4 by (apply Hne; lia). by apply Hi3.
    + by apply Hi4.
Qed.

Lemma setitem_mask_width (temp : ndarray) (mask : list bool)
    (vals : ndarray) :
  shape1 vals ≠ shape1 temp → shape1 vals ≠ 1 →
  setitem_mask temp mask vals = None.
Proof.
  intros Hw H1. unfold setitem_mask, broadcast_to.
  destruct (decide (length mask = length (values temp))); [|done].
  destruct (decide (shape1 vals = shape1 temp)); [done|].
  destruct (decide (shape1 vals = 1)); [done|].
  by destruct (decide (length (values vals)
                       = length (Np.flatnonzero mask)));
    [|destruct (values vals) as [|? [|? ?]]].
Qed.

(** X20.  Every model of [FourResolutions] has to know every class.
    When the models asked before it return what [predict_proba]
    expects and the model of one resolution returns, for the rows
    of its resolution, an array whose number of columns is neither
    [num_labels] nor 1, the assignment into the result raises and
    [predict_proba] returns nothing. *)
Theorem a_model_must_know_every_class (k : nat) (c : Z) (model : Model)
    (ps : list ndarray) (p : ndarray) :
  resolutions self !! k = Some (c, model) →
  Forall2 (fun cm p' => predicts cm.1 cm.2 p')
          (take k (resolutions self)) ps →
  base_predict_proba model (rows_of_gcd X_ gcd c) = Some p →
  shape1 p ≠ num_labels self → shape1 p ≠ 1 →
  predict_proba base_predict_proba get_histograms self X_ = None.
Proof.
  intros Hk Hps Hp Hw H1.
  assert (Hz : length (values (zeros (length X_) (num_labels self)))
               = length X_).
  { simpl. by rewrite length_replicate. }
  pose proof (mask_rows_rows X_ (map (fun z => Z.eqb z c) gcd)) as Hm.
  destruct Hm as [Hm _]; [by rewrite length_map|].
  change (rows X_ (Np.flatnonzero (map (fun z => Z.eqb z c) gcd)))
    with (rows_of_gcd X_ gcd c) in Hm.
  unfold predict_proba, gcd_of_all.
  rewrite histograms. simpl. rewrite gcd_of_rows. simpl.
  destruct k as [|[|[|[|k]]]]; simpl in Hk, Hps; [| | | |done];
    injection Hk as <- <-.
  - rewrite Hm. simpl. rewrite Hp. simpl.
    by rewrite setitem_mask_width.
  - apply Forall2_cons_inv_l in Hps as (q1 & ps1 & Hq1 & _ & ->).
    cbn [fst snd] in Hq1.
    destruct (route_block _ 1 (model1 self) q1 Hz eq_refl Hq1)
      as (t1 & Hm1 & Hs1 & Hw1 & Hl1 & _).
    rewrite Hm1. simpl. rewrite (proj1 Hq1). simpl. rewrite Hs1. simpl.
    rewrite Hm. simpl. rewrite Hp. simpl.
    rewrite setitem_mask_width; [done|congruence|done].
  - apply Forall2_cons_inv_l in Hps as (q1 & ps1 & Hq1 & Hps & ->).
    cbn [fst snd] in Hq1.
    apply Forall2_cons_inv_l in Hps as (q2 & ps2 & Hq2 & _ & ->).
    cbn [fst snd] in Hq2.
    destruct (route_block _ 1 (model1 self) q1 Hz eq_refl Hq1)
      as (t1 & Hm1 & Hs1 & Hw1 & Hl1 & _).
    destruct (route_block t1 10 (model2 self) q2 Hl1 Hw1 Hq2)
      as (t2 & Hm2 & Hs2 & Hw2 & Hl2 & _).
    rewrite Hm1. simpl. rewrite (proj1 Hq1). simpl. rewrite Hs1. simpl.
    rewrite Hm2. simpl. rewrite (proj1 Hq2). simpl. rewrite Hs2. simpl.
    rewrite Hm. simpl. rewrite Hp. simpl.
    rewrite setitem_mask_width; [done|congruence|done].
  - apply Forall2_cons_inv_l in Hps as (q1 & ps1 & Hq1 & Hps & ->).
    cbn [fst snd] in Hq1.
    apply Forall2_cons_inv_l in Hps as (q2 & ps2 & Hq2 & Hps & ->).
    cbn [fst snd] in Hq2.
    apply Forall2_cons_inv_l in Hps as (q3 & ps3 & Hq3 & _ & ->).
    cbn [fst snd] in Hq3.
    destruct (route_block _ 1 (model1 self) q1 Hz eq_refl Hq1)
      as (t1 & Hm1 & Hs1 & Hw1 & Hl1 & _).
    destruct (route_block t1 10 (model2 self) q2 Hl1 Hw1 Hq2)
      as (t2 & Hm2 & Hs2 & Hw2 & Hl2 & _).
    destruct (route_block t2 1000 (model3 self) q3 Hl2 Hw2 Hq3)
      as (t3 & Hm3 & Hs3 & Hw3 & Hl3 & _).
    rewrite Hm1. simpl. rewrite (proj1 Hq1). simpl. rewrite Hs1. simpl.
    rewrite Hm2. simpl. rewrite (proj1 Hq2). simpl. rewrite Hs2. simpl.
    rewrite Hm3. simpl. rewrite (proj1 Hq3). simpl. rewrite Hs3. simpl.
    rewrite Hm. simpl. rewrite Hp.
    simpl. rewrite setitem_mask_width; [done|congruence|done].
Qed.
End Routing.
End FourResolutionsFacts.

Lemma rows_are_routed_by_gcd_witness :
  ∃ out,
    FourResolutions.predict_proba FourResolutions.example_predict_proba
      FourResolutions.example_histograms
      (FourResolutions.Fitted tt tt tt tt 2) [1; 100; 10; 10000; 7]%Z
    = Some out
    ∧ FourResolutions.values out !! 1 = Some [0; 0]%Q.
Proof.
  destruct (rows_are_routed_by_gcd FourResolutions.example_predict_proba
              FourResolutions.example_histograms
              (FourResolutions.Fitted tt tt tt tt 2)
              [1; 100; 10; 10000; 7]%Z
              (Frame.Make 5 [("A0T0G0C10"%string, [1; 100; 10; 10000; 7]%Z)])
              [1; 100; 10; 10000; 7]%Z
              eq_refl eq_refl eq_refl
              (FourResolutions.Ndarray 2 [[1 # 2; 1 # 2]%Q])
              (FourResolutions.Ndarray 2 [[1 # 2; 1 # 2]%Q])
              (FourResolutions.Ndarray 2 [])
              (FourResolutions.Ndarray 2 [[1 # 2; 1 # 2]%Q]))
    as (out & Hout & _ & _ & Hzero & _).
  - by vm_compute.
  - by vm_compute.
  - by vm_compute.
  - by vm_compute.
  - exists out. split; [exact Hout|].
    apply (Hzero 1 100%Z); [reflexivity|].
    intros Hc. apply list_elem_of_In in Hc. simpl in Hc. lia.
Defined.

Lemma a_model_must_know_every_class_witness :
  FourResolutions.predict_proba
    (fun (m : bool) (rows : list Z) =>
       if m then FourResolutions.example_predict_proba tt rows
       else Some (FourResolutions.Ndarray 3
                    (map (fun _ => [1 # 3; 1 # 3; 1 # 3]%Q) rows)))
    FourResolutions.example_histograms
    (FourResolutions.Fitted true false true true 2)
    [1; 100; 10; 10000; 7]%Z
  = None.
Proof.
  refine (a_model_must_know_every_class
            (fun (m : bool) (rows : list Z) =>
               if m then FourResolutions.example_predict_proba tt rows
               else Some (FourResolutions.Ndarray 3
                            (map (fun _ => [1 # 3; 1 # 3; 1 # 3]%Q) rows)))
            FourResolutions.example_histograms
            (FourResolutions.Fitted true false true true 2)
            [1; 100; 10; 10000; 7]%Z
            (Frame.Make 5 [("A0T0G0C10"%string, [1; 100; 10; 10000; 7]%Z)])
            [1; 100; 10; 10000; 7]%Z
            eq_refl eq_refl eq_refl
            1 10%Z false
            [FourResolutions.Ndarray 2 [[1 # 2; 1 # 2]%Q]]
            (FourResolutions.Ndarray 3 [[1 # 3; 1 # 3; 1 # 3]%Q])
            eq_refl _ eq_refl _ _).
  - simpl. repeat constructor.
  - simpl. lia.
  - simpl. lia.
Defined.

Section SkewStatisticsFacts.
Import LgbmFeatures SkewStatistics.
Implicit Types (h : Store.heap Series) (df : Frame.t Series).

Context `{arith : !FloatArith}.
Variable col_skew : Series → cell.
Variable row_mean row_var row_std row_skew : list cell → cell.
Variable common_dtype : list Series → dtype.

Lemma select_selected df names :
  (∀ c, c ∈ names → c ∈ Frame.columns df) →
  Frame.select df names = Ok (selected df names).
Proof.
  intros Hin. destruct (select_is_Ok df names Hin) as (l & Hl & _).
  unfold selected. by rewrite Hl.
Qed.

Lemma select_set_ne df names c (s : Series) :
  c ∉ names →
  Frame.select (Frame.set df c s) names = Frame.select df names.
Proof.
  induction names as [|c' names IH]; intros Hc; [done|].
  apply not_elem_of_cons in Hc as [Hne Hc]. simpl.
  rewrite get_set_ne by done. by rewrite IH.
Qed.

Lemma selected_set_ne df names c (s : Series) :
  c ∉ names → selected (Frame.set df c s) names = selected df names.
Proof. intros Hc. unfold selected. by rewrite select_set_ne. Qed.

Lemma skewed_filter df features (test : cell → bool) (l : list Series) :
  Frame.select df features = Ok l →
  map fst (List.filter snd
             (zip features (map (fun s => test (col_skew s)) l)))
  = skewed_of col_skew df features test.
Proof.
  revert l. induction features as [|c features IH]; intros l Hl; [done|].
  simpl in Hl. destruct (Frame.get df c) as [s|] eqn:Hs; [|done].
  destruct (Frame.select df features) as [l'| |] eqn:Hl'; simplify_eq.
  unfold skewed_of. simpl. rewrite Hs.
  destruct (test (col_skew s)); simpl; by rewrite (IH l').
Qed.

Lemma getitems_at h r df names :
  h !! r = Some df →
  (∀ c, c ∈ names → c ∈ Frame.columns df) →
  Store.getitems r names h = Ok (selected df names, h).
Proof.
  intros Hr Hin. unfold Store.getitems, Store.bind, Store.read.
  by rewrite Hr, (select_selected df names Hin).
Qed.

Lemma skewed_eval h r df features (test : cell → bool) :
  h !! r = Some df →
  (∀ c, c ∈ features → c ∈ Frame.columns df) →
  skewed col_skew r features test h
  = Ok (skewed_of col_skew df features test, h).
Proof.
  intros Hr Hin. unfold skewed.
  erewrite bind_eval by (by apply getitems_at).
  erewrite bind_eval by (by apply getitems_at).
  unfold Store.ret. do 2 f_equal.
  apply skewed_filter. by apply select_selected.
Qed.

Lemma skewed_of_subseteq df features (test : cell → bool) c :
  c ∈ skewed_of col_skew df features test → c ∈ features.
Proof.
  intros Hc%list_elem_of_In%filter_In. apply list_elem_of_In, Hc.
Qed.

Lemma add_stat_eval h r df name dty f cols :
  h !! r = Some df →
  (∀ c, c ∈ cols → c ∈ Frame.columns df) →
  add_stat r name dty f cols h
  = Ok (tt, <[r := with_stat df (name, dty, f, cols)]> h).
Proof.
  intros Hr Hin. unfold add_stat.
  erewrite bind_eval by (by apply getitems_at).
  erewrite bind_eval.
  2:{ unfold Store.nrows, Store.bind, Store.read. rewrite Hr. reflexivity. }
  unfold Store.setitem. by rewrite Hr.
Qed.

Lemma columns_set_keeps df (cols : list string) name (s : Series) :
  (∀ c, c ∈ cols → c ∈ Frame.columns df) →
  ∀ c, c ∈ cols → c ∈ Frame.columns (Frame.set df name s).
Proof.
  intros Hin c Hc. destruct (decide (name ∈ Frame.columns df)).
  - rewrite columns_set_old by done. by apply Hin.
  - rewrite columns_set_new by done. apply elem_of_app. left. by apply Hin.
Qed.

Lemma columns_with_stat_keeps df (cols : list string) st :
  (∀ c, c ∈ cols → c ∈ Frame.columns df) →
  ∀ c, c ∈ cols → c ∈ Frame.columns (with_stat df st).
Proof. apply columns_set_keeps. Qed.

Lemma with_stats_spec
    (stats : list (string * (list Series → dtype) * (list cell → cell)
                   * list string)) df :
  NoDup (map (fun st => st.1.1.1) stats) →
  (∀ st, st ∈ stats → st.1.1.1 ∉ Frame.columns df) →
  (∀ st st' c, st ∈ stats → st' ∈ stats → c ∈ st.2 → c ≠ st'.1.1.1) →
  Frame.columns (fold_left with_stat stats df)
  = Frame.columns df ++ map (fun st => st.1.1.1) stats
  ∧ Frame.nrows (fold_left with_stat stats df) = Frame.nrows df
  ∧ (∀ c, c ∉ map (fun st => st.1.1.1) stats →
          Frame.get (fold_left with_stat stats df) c = Frame.get df c)
  ∧ (∀ st, st ∈ stats →
           Frame.get (fold_left with_stat stats df) st.1.1.1
           = Some (stat_of df st.1.1.2 st.1.2 st.2)).
Proof.
  revert df. induction stats as [|st stats IH]; intros df Hnd Hfresh Hcols.
  { simpl. rewrite app_nil_r. split_and!; try done.
    by intros st ?%elem_of_nil. }
  simpl in Hnd. apply NoDup_cons in Hnd as [Hst Hnd].
  destruct (IH (with_stat df st)) as (Hc & Hn & Hold & Hnew).
  { done. }
  { intros st' Hst'. unfold with_stat.
    rewrite columns_set_new by (apply Hfresh; left).
    intros [Hin|Heq%list_elem_of_singleton]%elem_of_app.
    - by apply (Hfresh st'); [right|].
    - apply Hst. rewrite <- Heq. apply list_elem_of_fmap. by exists st'. }
  { intros s1 s2 c H1 H2. apply Hcols; by right. }
  cbn [fold_left]. split_and!.
  - rewrite Hc. unfold with_stat.
    rewrite columns_set_new by (apply Hfresh; left).
    by rewrite <- app_assoc.
  - by rewrite Hn.
  - intros c Hc'. cbn [map] in Hc'.
    apply not_elem_of_cons in Hc' as [Hne Hc'].
    rewrite Hold by done. unfold with_stat. by rewrite get_set_ne.
  - intros st' [->|Hst']%elem_of_cons.
    + rewrite Hold by done. unfold with_stat. by rewrite get_set_eq.
    + rewrite (Hnew st' Hst'). f_equal. unfold stat_of, with_stat.
      cbn [Frame.nrows Frame.set].
      rewrite selected_set_ne; [done|].
      intros Hin. eapply (Hcols st' st); [by right|left|exact Hin|done].
Qed.

Section TwoFrames.
Variable h0 : Store.heap Series.
Variables train test : Store.ref.
Hypothesis distinct : train ≠ test.
Hypothesis train_lt : train < length h0.
Hypothesis test_lt : test < length h0.

Local Abbreviation both dt de := (<[test := de]> (<[train := dt]> h0)).

Lemma both_train dt de : both dt de !! train = Some dt.
Proof.
  rewrite list_lookup_insert_ne by done.
  by apply list_lookup_insert_eq.
Qed.

Lemma both_test dt de : both dt de !! test = Some de.
Proof. apply list_lookup_insert_eq. by rewrite length_insert. Qed.

Lemma both_set_train dt de x : <[train := x]> (both dt de) = both x de.
Proof.
  rewrite list_insert_insert_ne by done.
  by rewrite list_insert_insert_eq.
Qed.

Lemma both_set_test dt de x : <[test := x]> (both dt de) = both dt x.
Proof. by rewrite list_insert_insert_eq. Qed.

Lemma add_pair {A} dt de name dty f cols (k : Store.M Series A) :
  (∀ c, c ∈ cols → c ∈ Frame.columns dt) →
  (∀ c, c ∈ cols → c ∈ Frame.columns de) →
  (run! add_stat train name dty f cols in
   run! add_stat test name dty f cols in k) (both dt de)
  = k (both (with_stat dt (name, dty, f, cols))
            (with_stat de (name, dty, f, cols))).
Proof.
  intros Hdt Hde.
  erewrite bind_eval by (apply add_stat_eval; [apply both_train|done]).
  rewrite both_set_train.
  erewrite bind_eval by (apply add_stat_eval; [apply both_test|done]).
  by rewrite both_set_test.
Qed.
End TwoFrames.

Local Abbreviation names :=
  (statistic_names row_mean row_var row_std row_skew common_dtype).

Lemma statistics_NoDup : NoDup names.
Proof.
  apply NoDup_ListNoDup. unfold statistic_names, statistics.
  repeat constructor; simpl; intuition discriminate.
Qed.

Lemma skewed_disjoint df features c :
  ¬ (c ∈ skewed_of col_skew df features high_skew
     ∧ c ∈ skewed_of col_skew df features low_skew).
Proof.
  intros [Hh%list_elem_of_In%filter_In Hl%list_elem_of_In%filter_In].
  destruct Hh as [_ Hh], Hl as [_ Hl].
  destruct (Frame.get df c) as [s|]; [|done].
  unfold high_skew, low_skew in *.
  destruct (col_skew s) as [q|]; [|done].
  by destruct (Qle_bool 2 q).
Qed.

(** X22.  The eight row statistics of the cell are computed from the
    features alone and in place, with one split of the features for
    both frames.  On frames that hold the features and none of the
    eight names, the cell changes [train] and [test] and no other
    frame; each of the two gets the eight columns behind its own, the
    other columns stay as they are; a statistic of [test] is taken
    over the same features as in [train], those whose column in
    [train] has a skew of at least 2 for the two [_h] statistics and
    those with a skew below 2 for the six [_l] statistics, and no
    feature is in both groups; the new [features] are the old ones
    followed by the eight names. *)
Theorem skew_statistics_use_the_training_split h train test dt de
    (features : list string) :
  let h_skew := skewed_of col_skew dt features high_skew in
  let l_skew := skewed_of col_skew dt features low_skew in
  h !! train = Some dt → h !! test = Some de → train ≠ test →
  (∀ c, c ∈ features →
        c ∈ Frame.columns dt ∧ c ∈ Frame.columns de) →
  (∀ c, c ∈ names →
        (c ∉ Frame.columns dt) ∧ (c ∉ Frame.columns de)) →
  ∃ dt' de',
    skew_statistics col_skew row_mean row_var row_std row_skew common_dtype
      train test features h
    = Ok (List.filter
            (fun x =>
               negb (LgbmSelection.mem x ["id"; "target"]%string))
            (Frame.columns dt) ++ names,
          <[test := de']> (<[train := dt']> h))
    ∧ Frame.columns dt' = Frame.columns dt ++ names
    ∧ Frame.columns de' = Frame.columns de ++ names
    ∧ (∀ c, c ∉ names →
            Frame.get dt' c = Frame.get dt c
            ∧ Frame.get de' c = Frame.get de c)
    ∧ (∀ name dty f (high : bool),
         (name, dty, f, high)
         ∈ statistics row_mean row_var row_std row_skew common_dtype →
         let cols := if high then h_skew else l_skew in
         Frame.get dt' name = Some (stat_of dt dty f cols)
         ∧ Frame.get de' name = Some (stat_of de dty f cols))
    ∧ (∀ c, ¬ (c ∈ h_skew ∧ c ∈ l_skew)).
Proof.
  intros h_skew l_skew Ht He Hne Hfeat Hfresh.
  set (stats := map (fun st : string * (list Series → dtype)
                              * (list cell → cell) * bool =>
                       (st.1.1.1, st.1.1.2, st.1.2,
                        if st.2 then h_skew else l_skew))
                    (statistics row_mean row_var row_std row_skew common_dtype)).
  assert (Hnames : map (fun st => st.1.1.1) stats = names) by done.
  assert (Htl : train < length h) by (by eapply lookup_lt_Some).
  assert (Hel : test < length h) by (by eapply lookup_lt_Some).
  assert (Hcols : ∀ st c, st ∈ stats → c ∈ st.2 → c ∈ features).
  { intros st c (st0 & -> & _)%list_elem_of_fmap. cbn [snd].
    destruct st0.2; apply skewed_of_subseteq. }
  assert (Hspec : ∀ df,
            (∀ c, c ∈ features → c ∈ Frame.columns df) →
            (∀ c, c ∈ names → c ∉ Frame.columns df) →
            Frame.columns (fold_left with_stat stats df)
            = Frame.columns df ++ names
            ∧ (∀ c, c ∉ names →
                    Frame.get (fold_left with_stat stats df) c
                    = Frame.get df c)
            ∧ (∀ st, st ∈ stats →
                     Frame.get (fold_left with_stat stats df) st.1.1.1
                     = Some (stat_of df st.1.1.2 st.1.2 st.2))).
  { intros df Hf Hn.
    destruct (with_stats_spec stats df) as (Hc & _ & Hold & Hnew).
    - rewrite Hnames. apply statistics_NoDup.
    - intros st Hst. apply Hn. rewrite <- Hnames.
      apply list_elem_of_fmap. by exists st.
    - intros st st' c Hst Hst' Hc Heq.
      apply (Hn c).
      + rewrite <- Hnames, Heq. apply list_elem_of_fmap. by exists st'.
      + apply Hf. by apply (Hcols st c).
    - rewrite Hnames in Hc, Hold. done. }
  destruct (Hspec dt) as (Hct & Holdt & Hnewt);
    [intros c Hc; by apply Hfeat|intros c Hc; by apply Hfresh|].
  destruct (Hspec de) as (Hce & Holde & Hnewe);
    [intros c Hc; by apply Hfeat|intros c Hc; by apply Hfresh|].
  exists (fold_left with_stat stats dt), (fold_left with_stat stats de).
  split.
  { unfold skew_statistics.
    erewrite bind_eval
      by (apply (skewed_eval h train dt); [done|intros c Hc; by apply Hfeat]).
    erewrite bind_eval
      by (apply (skewed_eval h train dt); [done|intros c Hc; by apply Hfeat]).
    fold h_skew. fold l_skew.
    assert (Hh : h = <[test := de]> (<[train := dt]> h)).
    { rewrite (list_insert_id h train dt Ht).
      by rewrite (list_insert_id h test de He). }
    rewrite Hh at 1.
    assert (Hht : ∀ c, c ∈ h_skew → c ∈ Frame.columns dt).
    { intros c Hc%skewed_of_subseteq. by apply Hfeat. }
    assert (Hhe : ∀ c, c ∈ h_skew → c ∈ Frame.columns de).
    { intros c Hc%skewed_of_subseteq. by apply Hfeat. }
    assert (Hlt : ∀ c, c ∈ l_skew → c ∈ Frame.columns dt).
    { intros c Hc%skewed_of_subseteq. by apply Hfeat. }
    assert (Hle : ∀ c, c ∈ l_skew → c ∈ Frame.columns de).
    { intros c Hc%skewed_of_subseteq. by apply Hfeat. }
    do 8 (rewrite (add_pair h train test Hne Htl Hel)
            by (repeat apply columns_with_stat_keeps; assumption)).
    erewrite bind_eval
      by (apply columns_at, (both_train h train test Hne Htl)).
    unfold Store.ret.
    assert (Hfil : ∀ l,
              List.filter
                (fun x =>
                   negb (LgbmSelection.mem x ["id"; "target"]%string))
                (l ++ names)
              = List.filter
                  (fun x =>
                     negb (LgbmSelection.mem x ["id"; "target"]%string))
                  l ++ names).
    { intros l. by rewrite List.filter_app. }
    rewrite <- Hfil, <- Hct. reflexivity. }
  split; [done|]. split; [done|]. split.
  { intros c Hc. by rewrite Holdt, Holde. }
  split; [|intros c; apply skewed_disjoint].
  intros name dty f high Hst cols.
  assert (Hin : (name, dty, f, cols) ∈ stats).
  { apply list_elem_of_fmap. by exists (name, dty, f, high). }
  split; [apply (Hnewt _ Hin)|apply (Hnewe _ Hin)].
Qed.
End SkewStatisticsFacts.

Section SkewStatisticsExamples.

#[local] Existing Instance exact_arithmetic.

Lemma skew_statistics_use_the_training_split_witness :
∃ dt' de',
  SkewStatistics.skew_statistics SkewStatistics.example_skew
    LgbmFeatures.exact_mean
    LgbmFeatures.no_stat LgbmFeatures.no_stat LgbmFeatures.no_stat
    (fun _ => LgbmFeatures.float64) 0 1 ["f0"; "f1"]%string
    [SkewStatistics.example_train; SkewStatistics.example_test]
  = Ok (["f0"; "f1"; "median_h"; "var_h"; "mean_l"; "std_l"; "median_l";
         "skew_l"; "max_l"; "var_l"]%string,
        [dt'; de'])
  ∧ Frame.get de' "median_h"
    = Some (LgbmFeatures.MkSeries LgbmFeatures.float64 [Some 5; Some 7]%Q).
Proof.
destruct (skew_statistics_use_the_training_split
            SkewStatistics.example_skew LgbmFeatures.exact_mean
            LgbmFeatures.no_stat LgbmFeatures.no_stat LgbmFeatures.no_stat
            (fun _ => LgbmFeatures.float64)
            [SkewStatistics.example_train; SkewStatistics.example_test]
            0 1 SkewStatistics.example_train SkewStatistics.example_test
            ["f0"; "f1"]%string)
  as (dt' & de' & Hrun & _ & _ & _ & Hstat & _).
- reflexivity.
- reflexivity.
- lia.
- intros c Hc. apply list_elem_of_In in Hc. simpl in Hc.
  destruct Hc as [<-|[<-|[]]]; split; apply list_elem_of_In; simpl; tauto.
- intros c Hc. apply list_elem_of_In in Hc. simpl in Hc.
  destruct Hc as [<-|[<-|[<-|[<-|[<-|[<-|[<-|[<-|[]]]]]]]]];
    split; intros Hin; apply list_elem_of_In in Hin; simpl in Hin;
    intuition discriminate.
- exists dt', de'. split; [exact Hrun|].
  destruct (Hstat "median_h"%string SkewStatistics.float_result
              LgbmFeatures.row_median true) as [_ Hde]; [left|].
  rewrite Hde. reflexivity.
Defined.

End SkewStatisticsExamples.
